(** * pynwb HDF5 backend: a shallow embedding of [HDF5IO] and of
      [FeatureExtraction.__init__]

    The development follows [src/pynwb/form/backends/hdf5/h5tools.py] and
    [src/pynwb/ecephys.py].  Python values, exceptions and the parts of
    h5py and numpy the code calls are modelled first; the methods of
    [HDF5IO] follow, each after the methods it calls; the theorems come
    last. *)

From stdpp Require Import gmap strings list.
From stdpp Require Import pretty sorting.
From Stdlib Require Import ZArith Lia.

#[local] Set Warnings "-register-all".

Open Scope string_scope.
Open Scope list_scope.
Open Scope Z_scope.

(** ** Python values *)

(** An absolute HDF5 path [/a/b] is kept as the list of its components
    [["a"; "b"]]; the root [/] is the empty list. *)
Abbreviation path := (list string).

(** A numpy selection, as [__selection_max_bounds__] distinguishes them: an
    integer, a [slice], a one-dimensional list (or array) of integers or
    booleans, a tuple of selections.  [SOther] stands for any other object
    (an [Ellipsis], [None]). *)
Inductive index_item :=
  | IBool (b : bool)
  | IInt (z : Z).

Inductive selection :=
  | SInt (i : Z)
  | SSlice (start stop step : option Z)
  | SList (items : list index_item)
  | STuple (sels : list selection)
  | SOther.

(** The classes whose instances reach [type(data)] in [get_type]. *)
Inductive pytype :=
  | TNoneType | TBool | TInt | TFloat | TReference | TRegionReference.

(** Python data.  A float is kept as a decimal [mant * 10 ^ exp]; only its
    class is ever inspected.  [VRef] and [VRegionRef] are h5py's
    [Reference] and [RegionReference]: the path of the referenced object
    and, for a region, the selection. *)
Inductive pyval :=
  | VNone
  | VBool (b : bool)
  | VInt (z : Z)
  | VFloat (mant exp : Z)
  | VStr (s : string)
  | VList (items : list pyval)
  | VTuple (items : list pyval)
  | VSet (items : list pyval)
  | VRef (target : path)
  | VRegionRef (target : path) (region : selection).

(** ** Exceptions *)

Inductive exc_class :=
  | ValueError | KeyError | TypeError | IndexError | NameError
  | AttributeError | OSError | RecursionError
  | Exception_.

(** An exception carries its message and, when it was raised while another
    one was being handled or by [raise_from], that other one. *)
Inductive exc :=
  | Exc (cls : exc_class) (msg : string) (cause : option exc).

Definition exc_cls (e : exc) : exc_class := let 'Exc c _ _ := e in c.
Definition exc_msg (e : exc) : string := let 'Exc _ m _ := e in m.
Definition exc_cause (e : exc) : option exc := let 'Exc _ _ c := e in c.

(** The outcome of a call: a value or a raised exception. *)
Inductive res (A : Type) :=
  | Ok (a : A)
  | Raise (e : exc).
Arguments Ok {A} a.
Arguments Raise {A} e.

Definition res_bind {A B} (r : res A) (k : A -> res B) : res B :=
  match r with
  | Ok a => k a
  | Raise e => Raise e
  end.

Definition is_ok {A} (r : res A) : bool :=
  match r with Ok _ => true | Raise _ => false end.

(** ** Storage types *)

(** What dtype resolution returns: a numpy scalar type, an h5py special
    dtype, the Python class of a scalar ([type(data)]), or the record dtype
    [np.dtype([(name, dtype), ...])], kept as the list it is built from. *)
Inductive ctype :=
  | np_float32 | np_float64
  | np_int64 | np_int32 | np_int16 | np_int8
  | np_uint32 | np_uint16 | np_uint8
  | vlen_text          (* special_dtype(vlen=text_type) *)
  | vlen_binary        (* special_dtype(vlen=binary_type) *)
  | ref_object         (* special_dtype(ref=Reference) *)
  | ref_region         (* special_dtype(ref=RegionReference) *)
  | py_class (t : pytype)
  | np_record (fields : list (string * option ctype)).

(** A dtype descriptor as a builder carries it: [None], a string tag, a
    dict with a ['reftype'] entry (a [RefSpec]; [None] when the key is
    missing), a list of fields with a ['name'] and a ['dtype'], a class, or
    the [np.dtype] instance that a stored dataset has. *)
Inductive dtype_spec :=
  | DtNone
  | DtStr (tag : string)
  | DtDict (reftype : option string)
  | DtList (fields : list (string * dtype_spec))
  | DtType (t : ctype)
  | DtNp (t : option ctype).

Definition type_of (v : pyval) : pytype :=
  match v with
  | VBool _ => TBool
  | VInt _ => TInt
  | VFloat _ _ => TFloat
  | VRef _ => TReference
  | VRegionRef _ _ => TRegionReference
  | _ => TNoneType
  end.

(** [get_type]: a string is variable-length text, an object without
    [__len__] has its own class, a sized object the type of its first
    element.  A set has a length but no [data[0]]. *)
Fixpoint get_type (data : pyval) : res ctype :=
  match data with
  | VStr _ => Ok vlen_text
  | VList items | VTuple items =>
      match items with
      | [] => Raise (Exc ValueError "cannot determine type for empty data" None)
      | x :: _ => get_type x
      end
  | VSet items =>
      match items with
      | [] => Raise (Exc ValueError "cannot determine type for empty data" None)
      | _ :: _ => Raise (Exc TypeError "'set' object is not subscriptable" None)
      end
  | v => Ok (py_class (type_of v))
  end.

(** The class attribute [__dtypes]; a later entry of the dict literal
    replaces an earlier one with the same key (['int16'] is listed twice,
    with the same value). *)
Definition __dtypes : list (string * ctype) :=
  [ ("float", np_float32); ("float32", np_float32);
    ("double", np_float64); ("float64", np_float64);
    ("long", np_int64); ("int64", np_int64);
    ("int", np_int32); ("int32", np_int32);
    ("int16", np_int16); ("int8", np_int8);
    ("text", vlen_text); ("utf", vlen_text); ("utf8", vlen_text);
    ("utf-8", vlen_text);
    ("ascii", vlen_binary); ("str", vlen_binary);
    ("uint32", np_uint32); ("uint16", np_uint16);
    ("int16", np_int16); ("uint8", np_uint8);
    ("ref", ref_object); ("reference", ref_object); ("object", ref_object);
    ("region", ref_region) ].

(** [d.get(key)] on a dict literal: the last entry with that key. *)
Fixpoint dict_get {V} (d : list (string * V)) (key : string) : option V :=
  match d with
  | [] => None
  | (k, v) :: d' =>
      match dict_get d' key with
      | Some v' => Some v'
      | None => if String.eqb k key then Some v else None
      end
  end.

(** [__resolve_dtype_helper__].  The record dtype of a compound
    descriptor is kept as the list [np.dtype] is called on; what
    [np.dtype] makes of that list (it refuses a repeated field name and
    reads a missing type as [float64]) is not modelled. *)
Fixpoint __resolve_dtype_helper__ (dtype : dtype_spec) : res (option ctype) :=
  match dtype with
  | DtNone => Ok None
  | DtStr tag => Ok (dict_get __dtypes tag)
  | DtDict (Some reftype) => Ok (dict_get __dtypes reftype)
  | DtDict None => Raise (Exc KeyError "reftype" None)
  | DtList fields =>
      let fix go (fs : list (string * dtype_spec))
          : res (list (string * option ctype)) :=
        match fs with
        | [] => Ok []
        | (name, d) :: fs' =>
            res_bind (__resolve_dtype_helper__ d) (fun t =>
            res_bind (go fs') (fun ts => Ok ((name, t) :: ts)))
        end in
      res_bind (go fields) (fun ts => Ok (Some (np_record ts)))
  | DtType _ => Raise (Exc TypeError "'type' object is not iterable" None)
  | DtNp _ => Raise (Exc TypeError "'numpy.dtype' object is not iterable" None)
  end.

(** [__resolve_dtype__].  The handler of the [except] clause formats its
    message from [name] and [parent.name], which are bound neither in the
    method nor in the module: evaluating the format raises [NameError]
    while the exception of [get_type] is being handled, and [raise_from] is
    not reached. *)
Definition __resolve_dtype__ (dtype : dtype_spec) (data : pyval) : res ctype :=
  res_bind (__resolve_dtype_helper__ dtype) (fun dt =>
  match dt with
  | Some t => Ok t
  | None =>
      match get_type data with
      | Ok t => Ok t
      | Raise e => Raise (Exc NameError "name 'name' is not defined" (Some e))
      end
  end).

(** ** Selections and their bounds *)

(** What [__selection_max_bounds__] returns: [None], an integer, or a
    tuple of such. *)
Inductive bound :=
  | BNone
  | BInt (z : Z)
  | BTuple (bs : list bound).

Definition item_nonzero (it : index_item) : bool :=
  match it with
  | IBool b => b
  | IInt z => negb (z =? 0)
  end.

(** [np.nonzero(selection)[0]] for a one-dimensional list: the positions,
    in the list, of the entries that are not zero (not [False]). *)
Fixpoint nonzero_from (i : Z) (items : list index_item) : list Z :=
  match items with
  | [] => []
  | it :: items' =>
      if item_nonzero it then i :: nonzero_from (i + 1) items'
      else nonzero_from (i + 1) items'
  end.

Definition np_nonzero (items : list index_item) : list Z := nonzero_from 0 items.

(** [__selection_max_bounds__].  Indexing the empty array with [[-1]]
    raises; an object of no listed class falls through every branch and
    the method returns [None]. *)
Fixpoint __selection_max_bounds__ (sel : selection) : res bound :=
  match sel with
  | SInt i => Ok (BInt (i + 1))
  | SSlice _ stop _ =>
      Ok (match stop with Some s => BInt s | None => BNone end)
  | SList items =>
      match last (np_nonzero items) with
      | Some p => Ok (BInt (p + 1))
      | None =>
          Raise (Exc IndexError
                   "index -1 is out of bounds for axis 0 with size 0" None)
      end
  | STuple sels =>
      let fix go (l : list selection) : res (list bound) :=
        match l with
        | [] => Ok []
        | s :: l' =>
            res_bind (__selection_max_bounds__ s) (fun b =>
            res_bind (go l') (fun bs => Ok (b :: bs)))
        end in
      res_bind (go sels) (fun bs => Ok (BTuple bs))
  | SOther => Ok BNone
  end.

(** The first lines of the loop body of [__chunked_iter_fill__]: a bound
    without [__len__] is wrapped into a one-element tuple. *)
Definition as_bounds_tuple (b : bound) : list bound :=
  match b with
  | BTuple bs => bs
  | b => [b]
  end.

(** [[i for i, v in enumerate(max_bounds) if v is not None and
    v > dset.shape[i]]].  The shape is only indexed when [v] is not [None];
    a tuple does not compare with an integer. *)
Fixpoint expand_dims_from (i : nat) (max_bounds : list bound) (shape : list Z)
    : res (list nat) :=
  match max_bounds with
  | [] => Ok []
  | v :: rest =>
      match v with
      | BNone => expand_dims_from (S i) rest shape
      | _ =>
          match shape !! i with
          | None => Raise (Exc IndexError "tuple index out of range" None)
          | Some extent =>
              match v with
              | BInt z =>
                  res_bind (expand_dims_from (S i) rest shape) (fun ds =>
                  Ok (if extent <? z then i :: ds else ds))
              | _ =>
                  Raise (Exc TypeError
                    "'>' not supported between instances of 'tuple' and 'int'"
                    None)
              end
          end
      end
  end.

Definition expand_dims (max_bounds : list bound) (shape : list Z) : res (list nat) :=
  expand_dims_from 0 max_bounds shape.

(** [new_shape = np.asarray(dset.shape);
    new_shape[expand_dims] = np.asarray(max_bounds)[expand_dims]]. *)
Fixpoint assign_dims (new_shape : list Z) (max_bounds : list bound)
    (dims : list nat) : list Z :=
  match dims with
  | [] => new_shape
  | i :: dims' =>
      match max_bounds !! i with
      | Some (BInt z) => assign_dims (<[i := z]> new_shape) max_bounds dims'
      | _ => assign_dims new_shape max_bounds dims'
      end
  end.

(** ** The HDF5 store, as h5py presents it *)

(** The value of an attribute: a Python value, or the array
    [np.array(value, dtype=dtype)] that [set_attributes] makes of a
    collection. *)
Inductive attrval :=
  | AVal (v : pyval)
  | AArray (dtype : option string) (v : pyval).

(** A stored dataset.  The cells are addressed by their index tuple; the
    only cell of a scalar dataset is at the empty tuple. *)
Record dataset := mk_dataset {
  ds_attrs : list (string * attrval);
  ds_dtype : option ctype;
  ds_shape : list Z;
  ds_maxshape : list (option Z);
  ds_chunked : bool;
  ds_cells : gmap (list Z) pyval }.

(** What a file holds at a path: a group, a dataset, or a link. *)
Inductive node :=
  | NGroup (attrs : list (string * attrval))
  | NDataset (d : dataset)
  | NSoftLink (target : path)
  | NExternalLink (filename : string) (target : path).

(** An open [Group] or [Dataset] object: the file it lives in
    ([obj.file.filename]), its path ([obj.name]) and whether the file was
    opened for writing. *)
Record h5obj := mk_h5obj {
  h_file : string;
  h_name : path;
  h_writable : bool }.

(** An open [File] object. *)
Record File := mk_File {
  f_id : nat;
  f_filename : string;
  f_writable : bool }.

Definition file_root (f : File) : h5obj :=
  mk_h5obj (f_filename f) [] (f_writable f).

(** [str(obj.name)]: ["/" + "/".join(names)]. *)
Fixpoint join_names (names : list string) : string :=
  match names with
  | [] => ""
  | [n] => n
  | n :: rest => n +:+ "/" +:+ join_names rest
  end.

Definition path_str (p : path) : string := "/" +:+ join_names p.

(** [os.path.basename] of an absolute path. *)
Definition basename (p : path) : string := default "" (last p).

(** An entry of a Python dict that is iterated in insertion order:
    [d[key] = value]. *)
Fixpoint dict_set {V} (d : list (string * V)) (key : string) (value : V)
    : list (string * V) :=
  match d with
  | [] => [(key, value)]
  | (k, v) :: d' =>
      if String.eqb k key then (k, value) :: d'
      else (k, v) :: dict_set d' key value
  end.

(** *** Chunk sources *)

Record DataChunk := mk_DataChunk {
  dc_selection : selection;
  dc_data : pyval }.

(** A [DataChunkIterator]: what its methods [recommended_chunk_shape()] and
    [recommended_data_shape()] return, its attributes [dtype] and
    [max_shape], and the chunks it yields. *)
Record DataChunkIterator := mk_DataChunkIterator {
  recommended_chunk_shape : option (list Z);
  recommended_data_shape : list Z;
  dci_dtype : option ctype;
  max_shape : option (list (option Z));
  dci_chunks : list DataChunk }.

(** ** Builders *)

(** The fields every builder has.  [b_id] is the identity of the Python
    object; [b_parent] lists the names met by following [parent] from the
    builder: its parent's name, then the name of the parent's parent, and
    so on. *)
Record header := mk_header {
  b_id : nat;
  b_name : string;
  b_parent : list string;
  b_source : option string;
  b_attributes : list (string * attrval) }.

(** The entry of a compound row: a plain value, a builder to reference, or
    a container, given with the builder [manager.build] returns for it. *)
Inductive cell (B : Type) :=
  | CVal (v : pyval)
  | CBuilder (b : B)
  | CContainer (built : B).
Arguments CVal {B} v.
Arguments CBuilder {B} b.
Arguments CContainer {B} built.

(** The [data] of a [DatasetBuilder], by the cases of [write_dataset]: a
    Python value; a [DataChunkIterator]; another iterable, given with the
    [DataChunkIterator(data=data, buffer_size=100)] wrapped around it; an
    h5py [Dataset]; a builder; the rows of a compound dataset. *)
Inductive bdata (B : Type) :=
  | BVal (v : pyval)
  | BChunks (it : DataChunkIterator)
  | BIterable (wrapped : DataChunkIterator)
  | BH5Dataset (d : h5obj)
  | BBuilder (b : B)
  | BRows (rows : list (list (cell B))).
Arguments BVal {B} v.
Arguments BChunks {B} it.
Arguments BIterable {B} wrapped.
Arguments BH5Dataset {B} d.
Arguments BBuilder {B} b.
Arguments BRows {B} rows.

(** The [region] of a [RegionBuilder]: the selection given by the caller,
    or the stored reference that [__read_dataset] puts there. *)
Inductive region_val :=
  | RegionSel (s : selection)
  | RegionScalar (v : pyval).

Inductive Builder :=
  | GroupBuilder (h : header)
      (groups datasets links : list (string * Builder))
  | DatasetBuilder (h : header) (data : bdata Builder) (dtype : dtype_spec)
      (maxshape : option (list (option Z)))
  | RegionBuilder (h : header) (region : region_val) (builder : Builder)
  | LinkBuilder (h : header) (builder : Builder).

Definition hdr (b : Builder) : header :=
  match b with
  | GroupBuilder h _ _ _ | DatasetBuilder h _ _ _
  | RegionBuilder h _ _ | LinkBuilder h _ => h
  end.

Definition name (b : Builder) : string := b_name (hdr b).
Definition source (b : Builder) : option string := b_source (hdr b).
Definition attributes (b : Builder) : list (string * attrval) :=
  b_attributes (hdr b).

Definition groups (b : Builder) : list (string * Builder) :=
  match b with GroupBuilder _ g _ _ => g | _ => [] end.
Definition datasets (b : Builder) : list (string * Builder) :=
  match b with GroupBuilder _ _ d _ => d | _ => [] end.
Definition links (b : Builder) : list (string * Builder) :=
  match b with GroupBuilder _ _ _ l => l | _ => [] end.

(** Modelled from the spec: the class constants
    [DatasetBuilder.OBJECT_REF_TYPE] and [DatasetBuilder.REGION_REF_TYPE]
    of the build module, the object-reference and region-reference tags. *)
Definition OBJECT_REF_TYPE : string := "object".
Definition REGION_REF_TYPE : string := "region".

(** A [RegionBuilder] is a [DatasetBuilder] whose data is the referenced
    builder and whose dtype is the region tag. *)
Definition data (b : Builder) : bdata Builder :=
  match b with
  | DatasetBuilder _ d _ _ => d
  | RegionBuilder _ _ target => BBuilder target
  | _ => BVal VNone
  end.

Definition dtype (b : Builder) : dtype_spec :=
  match b with
  | DatasetBuilder _ _ dt _ => dt
  | RegionBuilder _ _ _ => DtStr REGION_REF_TYPE
  | _ => DtNone
  end.

Definition ROOT_NAME : string := "root".

(** ** The state of a session *)

(** The three closures named [_filler] in [write_dataset], with the
    variables each one captures. *)
Inductive filler :=
  | FillCompound (parent : h5obj) (name : string) (data : bdata Builder)
      (refs : list nat) (_dtype : ctype) (attributes : list (string * attrval))
  | FillRegion (parent : h5obj) (name : string) (data : Builder)
      (builder : Builder) (_dtype : ctype)
      (attributes : list (string * attrval))
  | FillObject (parent : h5obj) (name : string) (data : Builder)
      (_dtype : ctype) (attributes : list (string * attrval)).

Definition filler_target (f : filler) : path :=
  match f with
  | FillCompound parent name _ _ _ _
  | FillRegion parent name _ _ _ _
  | FillObject parent name _ _ _ => h_name parent ++ [name]
  end.

(** What is recorded of a run: every change of the store, in order; the
    start of every call of a queued action ([EvCall], with the path of the
    dataset the action is to create); every builder the read path
    constructs ([EvNew], with the file and path of the node it is built
    from and the identity of the new object). *)
Inductive event :=
  | EvCreateGroup (p : path)
  | EvCreateDataset (p : path)
  | EvSetAttr (p : path) (key : string)
  | EvSetLink (p : path)
  | EvResize (p : path) (shape : list Z)
  | EvSetItem (p : path) (sel : selection)
  | EvCall (p : path)
  | EvNew (file : string) (p : path) (id : nat).

(** The files, the open handles, and the fields of the [HDF5IO] object
    ([self.__path], [self.__mode], [self.__built], [self.__file],
    [self.__read], [self.__ref_queue]).  [self.__read] is keyed by [File]
    objects, which h5py compares by the file they denote. *)
Record state := mk_state {
  disk : gmap string (gmap path node);
  open_handles : gset nat;
  next_id : nat;
  __path : string;
  __mode : string;
  __built : gmap string (gmap path Builder);
  __file : option File;
  __read : gmap string Builder;
  __ref_queue : list filler;
  log : list event }.

Definition set_disk (d : gmap string (gmap path node)) (s : state) : state :=
  mk_state d (open_handles s) (next_id s) (__path s) (__mode s) (__built s)
    (__file s) (__read s) (__ref_queue s) (log s).
Definition set_open_handles (o : gset nat) (s : state) : state :=
  mk_state (disk s) o (next_id s) (__path s) (__mode s) (__built s)
    (__file s) (__read s) (__ref_queue s) (log s).
Definition set_next_id (n : nat) (s : state) : state :=
  mk_state (disk s) (open_handles s) n (__path s) (__mode s) (__built s)
    (__file s) (__read s) (__ref_queue s) (log s).
Definition set_built (b : gmap string (gmap path Builder)) (s : state) : state :=
  mk_state (disk s) (open_handles s) (next_id s) (__path s) (__mode s) b
    (__file s) (__read s) (__ref_queue s) (log s).
Definition set_file (f : option File) (s : state) : state :=
  mk_state (disk s) (open_handles s) (next_id s) (__path s) (__mode s)
    (__built s) f (__read s) (__ref_queue s) (log s).
Definition set_read (r : gmap string Builder) (s : state) : state :=
  mk_state (disk s) (open_handles s) (next_id s) (__path s) (__mode s)
    (__built s) (__file s) r (__ref_queue s) (log s).
Definition set_ref_queue (q : list filler) (s : state) : state :=
  mk_state (disk s) (open_handles s) (next_id s) (__path s) (__mode s)
    (__built s) (__file s) (__read s) q (log s).
Definition set_log (l : list event) (s : state) : state :=
  mk_state (disk s) (open_handles s) (next_id s) (__path s) (__mode s)
    (__built s) (__file s) (__read s) (__ref_queue s) l.

(** [HDF5IO.__init__]: a fresh object over the given files. *)
Definition __init__ (files : gmap string (gmap path node)) (path_ : string)
    (mode : string) : state :=
  mk_state files ∅ 0%nat path_ mode ∅ None ∅ [] [].

(** *** Computations: state and exceptions *)

(** A method runs from a state to a state and returns or raises; the
    state reached when an exception is raised is kept. *)
Definition M (A : Type) : Type := state -> state * res A.

Definition ret {A} (a : A) : M A := fun s => (s, Ok a).
Definition raise {A} (e : exc) : M A := fun s => (s, Raise e).
Definition bind {A B} (m : M A) (k : A -> M B) : M B :=
  fun s =>
    match m s with
    | (s', Ok a) => k a s'
    | (s', Raise e) => (s', Raise e)
    end.
Definition lift {A} (r : res A) : M A := fun s => (s, r).
Definition get_state : M state := fun s => (s, Ok s).
Definition modify (f : state -> state) : M unit := fun s => (f s, Ok tt).
Definition emit (e : event) : M unit :=
  modify (fun s => set_log (log s ++ [e]) s).

Notation "x <- c1 ;; c2" := (bind c1 (fun x => c2))
  (at level 100, c1 at next level, right associativity).
Notation "c1 ;;; c2" := (bind c1 (fun _ => c2))
  (at level 100, right associativity).

Definition error {A} (cls : exc_class) (msg : string) : M A :=
  raise (Exc cls msg None).

(** [try: m  except Exception as exc: h exc]. *)
Definition try_except {A} (m : M A) (h : exc -> M A) : M A :=
  fun s =>
    match m s with
    | (s', Ok a) => (s', Ok a)
    | (s', Raise e) => h e s'
    end.

(** [for x in xs: body x]. *)
Fixpoint for_each {A} (body : A -> M unit) (xs : list A) : M unit :=
  match xs with
  | [] => ret tt
  | x :: xs' => body x ;;; for_each body xs'
  end.

(** A fresh object identity. *)
Definition fresh_id : M nat :=
  fun s => (set_next_id (S (next_id s)) s, Ok (next_id s)).

(** *** h5py: groups, datasets, attributes and links *)

Definition lookup_node (s : state) (file : string) (p : path) : option node :=
  match disk s !! file with
  | Some f => f !! p
  | None => None
  end.

Definition store_node (file : string) (p : path) (n : node) (s : state) : state :=
  set_disk (<[file := <[p := n]> (default ∅ (disk s !! file))]> (disk s)) s.

(** Adding a member to a group, common to [create_group],
    [create_dataset] and [parent[name] = link]: the parent is a group of a
    file open for writing and has no member of that name yet.  The name
    is one component of the path of the member, which is what h5py makes
    of a name without ["/"]: h5py parses any other name as a path, and
    the statements about what a write leaves in a file are made for names
    of one component ([plain_name]). *)
Definition h5_add_member (what : string) (parent : h5obj) (name : string)
    (n : node) (ev : event) : M h5obj :=
  s <- get_state ;;
  match lookup_node s (h_file parent) (h_name parent) with
  | Some (NGroup _) =>
      if negb (h_writable parent) then
        error ValueError ("Unable to create " +:+ what +:+ " (no write intent on file)")
      else
        match lookup_node s (h_file parent) (h_name parent ++ [name]) with
        | Some _ =>
            error ValueError ("Unable to create " +:+ what +:+ " (name already exists)")
        | None =>
            modify (store_node (h_file parent) (h_name parent ++ [name]) n) ;;;
            emit ev ;;;
            ret (mk_h5obj (h_file parent) (h_name parent ++ [name])
                   (h_writable parent))
        end
  | _ => error KeyError ("not a group: " +:+ path_str (h_name parent))
  end.

Definition h5_create_group (parent : h5obj) (name : string) : M h5obj :=
  h5_add_member "group" parent name (NGroup [])
    (EvCreateGroup (h_name parent ++ [name])).

(** [parent.create_dataset(name, shape=, dtype=, data=, maxshape=,
    chunks=)].  Without a shape the dataset is a scalar holding [data];
    without a maximal shape it cannot grow; a scalar cannot be chunked. *)
Definition h5_create_dataset (parent : h5obj) (name : string)
    (shape : option (list Z)) (dt : option ctype) (value : option pyval)
    (maxshape : option (list (option Z))) (chunks : bool) : M h5obj :=
  let shape' := default [] shape in
  if chunks && bool_decide (shape' = []) then
    error TypeError "Scalar datasets don't support chunk/filter options"
  else
    h5_add_member "dataset" parent name
      (NDataset (mk_dataset [] dt shape'
                   (default (Some <$> shape') maxshape)
                   (chunks || bool_decide (is_Some maxshape))
                   (match value with Some v => {[ [] := v ]} | None => ∅ end)))
      (EvCreateDataset (h_name parent ++ [name])).

(** [parent[name] = SoftLink(path)] and
    [parent[name] = ExternalLink(filename, path)]. *)
Definition h5_set_link (parent : h5obj) (name : string) (link : node) : M unit :=
  h5_add_member "link" parent name link (EvSetLink (h_name parent ++ [name])) ;;;
  ret tt.

(** [obj.attrs[key] = value].  The value is kept as it is handed over,
    which is what h5py does with a value it has a type for; the values it
    refuses are not told apart here, and the statements that a write of
    attributes returns are made for the values h5py stores
    ([attr_storable]). *)
Definition h5_set_attr (obj : h5obj) (key : string) (value : attrval) : M unit :=
  s <- get_state ;;
  if negb (h_writable obj) then
    error ValueError "Unable to create attribute (no write intent on file)"
  else
    match lookup_node s (h_file obj) (h_name obj) with
    | Some (NGroup attrs) =>
        modify (store_node (h_file obj) (h_name obj)
                  (NGroup (dict_set attrs key value))) ;;;
        emit (EvSetAttr (h_name obj) key)
    | Some (NDataset d) =>
        modify (store_node (h_file obj) (h_name obj)
                  (NDataset (mk_dataset (dict_set (ds_attrs d) key value)
                               (ds_dtype d) (ds_shape d) (ds_maxshape d)
                               (ds_chunked d) (ds_cells d)))) ;;;
        emit (EvSetAttr (h_name obj) key)
    | _ => error KeyError ("no object at " +:+ path_str (h_name obj))
    end.

Definition get_dataset (dset : h5obj) : M dataset :=
  s <- get_state ;;
  match lookup_node s (h_file dset) (h_name dset) with
  | Some (NDataset d) => ret d
  | _ => error KeyError ("no dataset at " +:+ path_str (h_name dset))
  end.

(** [dset.shape]. *)
Definition h5_shape (dset : h5obj) : M (list Z) :=
  d <- get_dataset dset ;; ret (ds_shape d).

Definition within (shape : list Z) (idx : list Z) : bool :=
  bool_decide (length idx = length shape) &&
  forallb (fun '(i, n) => (0 <=? i) && (i <? n)) (zip idx shape).

Definition fits (new_shape : list Z) (maxshape : list (option Z)) : bool :=
  bool_decide (length new_shape = length maxshape) &&
  forallb (fun '(n, m) => match m with Some m' => n <=? m' | None => true end)
    (zip new_shape maxshape).

(** [dset.resize(new_shape)]: only a chunked dataset, and only within its
    maximal shape; the cells within the new extent are kept. *)
Definition h5_resize (dset : h5obj) (new_shape : list Z) : M unit :=
  d <- get_dataset dset ;;
  if negb (h_writable dset) then
    error ValueError "Unable to set extend dataset (no write intent on file)"
  else if negb (ds_chunked d) then
    error TypeError "Only chunked datasets can be resized"
  else if negb (fits new_shape (ds_maxshape d)) then
    error ValueError "Unable to set extend dataset (dimension cannot exceed the existing maximal size)"
  else
    modify (store_node (h_file dset) (h_name dset)
              (NDataset (mk_dataset (ds_attrs d) (ds_dtype d) new_shape
                           (ds_maxshape d) (ds_chunked d)
                           (filter (fun kv => within new_shape kv.1 = true)
                              (ds_cells d))))) ;;;
    emit (EvResize (h_name dset) new_shape).

(** *** h5py: writing a selection *)

(** The positions a [slice] selects in a dimension of extent [n]
    ([slice.indices(n)], for the positive steps h5py accepts). *)
Definition slice_positions (n : Z) (start stop step : option Z) : res (list Z) :=
  let st := default 1 step in
  if st <=? 0 then Raise (Exc ValueError "Step must be >= 1" None)
  else
    let clip x := if x <? 0 then Z.max 0 (x + n) else Z.min x n in
    let lo := clip (default 0 start) in
    let hi := clip (default n stop) in
    let count := if hi <=? lo then 0 else (hi - lo + st - 1) / st in
    Ok ((fun k => lo + k * st) <$> seqZ 0 count).

Definition all_bool (items : list index_item) : bool :=
  forallb (fun it => match it with IBool _ => true | IInt _ => false end) items.

(** An index list made of integers only: its entries, which h5py wants
    within the extent and increasing. *)
Fixpoint index_positions (n : Z) (prev : Z) (items : list index_item)
    : res (list Z) :=
  match items with
  | [] => Ok []
  | IInt z :: items' =>
      if (prev <? z) && (z <? n) then
        res_bind (index_positions n z items') (fun ps => Ok (z :: ps))
      else Raise (Exc TypeError "Indexing elements must be in increasing order" None)
  | IBool _ :: _ => Raise (Exc TypeError "Illegal index list" None)
  end.

(** The positions one component of a selection picks in a dimension of
    extent [n]. *)
Definition dim_positions (n : Z) (sel : selection) : res (list Z) :=
  match sel with
  | SInt i =>
      let i' := if i <? 0 then i + n else i in
      if (0 <=? i') && (i' <? n) then Ok [i']
      else Raise (Exc ValueError "Index out of range" None)
  | SSlice start stop step => slice_positions n start stop step
  | SList items =>
      if all_bool items then
        if bool_decide (Z.of_nat (length items) = n) then Ok (np_nonzero items)
        else Raise (Exc TypeError "Boolean indexing array has incompatible shape" None)
      else index_positions n (-1) items
  | _ => Raise (Exc TypeError "Illegal index" None)
  end.

Definition sel_components (sel : selection) : list selection :=
  match sel with
  | STuple sels => sels
  | s => [s]
  end.

(** The positions along every dimension; dimensions the selection does not
    mention are taken whole. *)
Fixpoint all_positions (shape : list Z) (comps : list selection)
    : res (list (list Z)) :=
  match shape, comps with
  | [], [] => Ok []
  | [], _ :: _ => Raise (Exc TypeError "Argument sequence too long" None)
  | n :: shape', [] =>
      res_bind (all_positions shape' []) (fun ps => Ok (seqZ 0 n :: ps))
  | n :: shape', c :: comps' =>
      res_bind (dim_positions n c) (fun p =>
      res_bind (all_positions shape' comps') (fun ps => Ok (p :: ps)))
  end.

(** The index tuples of a block, in row-major order. *)
Fixpoint index_tuples (dims : list (list Z)) : list (list Z) :=
  match dims with
  | [] => [[]]
  | d :: dims' => i ← d; (cons i) <$> index_tuples dims'
  end.

(** The values of nested sequences, in row-major order, down to [depth]
    levels. *)
Fixpoint flatten_depth (depth : nat) (v : pyval) : list pyval :=
  match depth with
  | O => [v]
  | S depth' =>
      match v with
      | VList items | VTuple items => x ← items; flatten_depth depth' x
      | _ => [v]
      end
  end.

Definition is_int_sel (sel : selection) : bool :=
  match sel with SInt _ => true | _ => false end.

Fixpoint write_cells (cells : gmap (list Z) pyval) (idxs : list (list Z))
    (values : list pyval) : gmap (list Z) pyval :=
  match idxs, values with
  | i :: idxs', v :: values' => write_cells (<[i := v]> cells) idxs' values'
  | _, _ => cells
  end.

(** [dset[selection] = data]: the selected cells, in row-major order,
    receive the values of [data]; a single value is broadcast.  The
    values are kept as they are handed over, which is what h5py does with
    values of the type of the dataset; the conversion of other values, or
    its failure, is not modelled, and the statements about the values a
    write leaves are made for values of that type ([of_ctype]). *)
Definition h5_setitem (dset : h5obj) (sel : selection) (value : pyval) : M unit :=
  d <- get_dataset dset ;;
  if negb (h_writable dset) then
    error ValueError "Unable to write data (no write intent on file)"
  else
    let comps := sel_components sel in
    dims <- lift (all_positions (ds_shape d) comps) ;;
    let idxs := index_tuples dims in
    let depth := (length (ds_shape d) - length (filter (fun c => is_int_sel c = true) comps))%nat in
    let values := flatten_depth depth value in
    let values' :=
      if bool_decide (length values = 1%nat) then replicate (length idxs) (default VNone (head values))
      else values in
    if bool_decide (length values' = length idxs) then
      modify (store_node (h_file dset) (h_name dset)
                (NDataset (mk_dataset (ds_attrs d) (ds_dtype d) (ds_shape d)
                             (ds_maxshape d) (ds_chunked d)
                             (write_cells (ds_cells d) idxs values')))) ;;;
      emit (EvSetItem (h_name dset) sel)
    else error TypeError "Can't broadcast".

(** *** h5py: following paths and links *)

(** Walking [rest] down from [cur] in [file]: a soft link restarts the walk
    at its target, an external link in the other file.  [fuel] bounds the
    number of steps. *)
Fixpoint walk (fuel : nat) (s : state) (file : string) (cur rest : path)
    : option (string * path) :=
  match fuel with
  | O => None
  | S fuel' =>
      match rest with
      | [] => Some (file, cur)
      | c :: rest' =>
          match lookup_node s file (cur ++ [c]) with
          | None => None
          | Some (NSoftLink target) => walk fuel' s file [] (target ++ rest')
          | Some (NExternalLink file' target) =>
              walk fuel' s file' [] (target ++ rest')
          | Some _ => walk fuel' s file (cur ++ [c]) rest'
          end
      end
  end.

Definition walk_limit : nat := 256.

(** The object a path of [file] leads to, with its node. *)
Definition h5_resolve (s : state) (file : string) (writable : bool) (p : path)
    : option (h5obj * node) :=
  match walk walk_limit s file [] p with
  | Some (file', p') =>
      match lookup_node s file' p' with
      | Some n => Some (mk_h5obj file' p' writable, n)
      | None => None
      end
  | None => None
  end.

(** [file[path]]. *)
Definition h5_getitem (f : File) (p : path) : M (h5obj * node) :=
  s <- get_state ;;
  match h5_resolve s (f_filename f) (f_writable f) p with
  | Some r => ret r
  | None =>
      error KeyError ("Unable to open object (object '" +:+ path_str p
                      +:+ "' doesn't exist)")
  end.

(** The order in which h5py enumerates the members of a group. *)
Definition name_le (a b : string) : Prop := String.leb a b = true.

#[local] Instance name_le_dec : RelDecision name_le :=
  fun a b => decide (String.leb a b = true).

(** [for k in h5obj]: the names of the members, in increasing order. *)
Definition member_names (s : state) (o : h5obj) : list string :=
  match disk s !! h_file o with
  | None => []
  | Some f =>
      merge_sort name_le
        (omap (fun kv : path * node =>
                 match reverse kv.1 with
                 | k :: rev_parent =>
                     if bool_decide (reverse rev_parent = h_name o)
                     then Some k else None
                 | [] => None
                 end)
              (map_to_list f))
  end.

(** [h5obj.get(k)]: the member with links followed, [None] when there is
    none or a link dangles. *)
Definition h5_get (s : state) (o : h5obj) (k : string) : option (h5obj * node) :=
  h5_resolve s (h_file o) (h_writable o) (h_name o ++ [k]).

(** [h5obj.get(k, getlink=True)]: the member itself. *)
Definition h5_getlink (s : state) (o : h5obj) (k : string) : option node :=
  lookup_node s (h_file o) (h_name o ++ [k]).

(** ** The methods of [HDF5IO] *)

(** *** [open] and [close] *)

Definition empty_file : gmap path node := {[ [] := NGroup [] ]}.

(** [File(path, mode)]: ["r"] and ["r+"] need the file, ["w"] truncates
    it, ["w-"] and ["x"] refuse to replace it, ["a"] creates it when it is
    missing.  The handle is open from here on. *)
Definition h5_File (filename : string) (mode : string) : M File :=
  s <- get_state ;;
  let present := bool_decide (is_Some (disk s !! filename)) in
  let handle (writable : bool) : M File :=
    id <- fresh_id ;;
    modify (fun s => set_open_handles ({[ id ]} ∪ open_handles s) s) ;;;
    ret (mk_File id filename writable) in
  let create : M File :=
    modify (fun s => set_disk (<[filename := empty_file]> (disk s)) s) ;;;
    handle true in
  let missing : M File :=
    error OSError ("Unable to open file (unable to open file: name = '"
                   +:+ filename +:+ "')") in
  if String.eqb mode "r" then (if present then handle false else missing)
  else if String.eqb mode "r+" then (if present then handle true else missing)
  else if String.eqb mode "w" then create
  else if String.eqb mode "w-" || String.eqb mode "x" then
    (if present then
       error OSError "Unable to create file (file exists)"
     else create)
  else if String.eqb mode "a" then (if present then handle true else create)
  else error ValueError "Invalid mode; must be one of r, r+, w, w-, x, a".

Definition open : M unit :=
  s <- get_state ;;
  let open_flag := __mode s in
  f <- h5_File (__path s) open_flag ;;
  modify (set_file (Some f)).

Definition close : M unit :=
  s <- get_state ;;
  match __file s with
  | Some f => modify (fun s => set_open_handles (open_handles s ∖ {[ f_id f ]}) s)
  | None => error AttributeError "'NoneType' object has no attribute 'close'"
  end.

(** [self.__file], which is [None] until [open] has run. *)
Definition the_file : M File :=
  s <- get_state ;;
  match __file s with
  | Some f => ret f
  | None => error TypeError "'NoneType' object is not subscriptable"
  end.

(** *** [set_attributes] *)

Definition py_len (v : pyval) : res nat :=
  match v with
  | VStr s => Ok (String.length s)
  | VList items | VTuple items | VSet items => Ok (length items)
  | _ => Raise (Exc TypeError "object has no len()" None)
  end.

Fixpoint max_len (tmp : list pyval) : res nat :=
  match tmp with
  | [] => Ok 0%nat
  | x :: tmp' =>
      res_bind (py_len x) (fun n =>
      res_bind (max_len tmp') (fun m => Ok (Nat.max n m)))
  end.

(** The body of the loop of [set_attributes] before the assignment: a
    non-empty set, list or tuple becomes an array, of fixed-width byte
    strings when its first element is a string. *)
Definition attribute_value (value : attrval) : res attrval :=
  match value with
  | AVal (VList tmp) | AVal (VTuple tmp) | AVal (VSet tmp) =>
      match tmp with
      | [] => Ok value
      | VStr _ :: _ =>
          res_bind (max_len tmp) (fun n =>
          Ok (AArray (Some ("|S" +:+ pretty n)) (VTuple tmp)))
      | _ :: _ =>
          match value with
          | AVal v => Ok (AArray None v)
          | _ => Ok value
          end
      end
  | _ => Ok value
  end.

Definition set_attributes (obj : h5obj) (attributes : list (string * attrval))
    : M unit :=
  for_each (fun '(key, value) =>
              value' <- lift (attribute_value value) ;;
              h5_set_attr obj key value')
    attributes.

(** *** [__get_path] and [write_link] *)

(** The loop of [__get_path] over the builder and its ancestors: the names
    are collected until there is no parent left or one is named
    [ROOT_NAME]. *)
Fixpoint names_below_root (chain : list string) : list string :=
  match chain with
  | [] => []
  | n :: chain' =>
      if String.eqb n ROOT_NAME then [] else n :: names_below_root chain'
  end.

Definition __get_path (builder : Builder) : path :=
  reverse (names_below_root (name builder :: b_parent (hdr builder))).

Definition write_link (parent : h5obj) (builder : Builder) : M node :=
  match builder with
  | LinkBuilder h target_builder =>
      let name := b_name h in
      let path_ := __get_path target_builder in
      link_obj <-
        (if bool_decide (Some (h_file parent) = source target_builder) then
           ret (NSoftLink path_)
         else
           match source target_builder with
           | Some src => ret (NExternalLink src path_)
           | None =>
               error ValueError
                 ("cannot create external link to " +:+ path_str path_)
           end) ;;
      h5_set_link parent name link_obj ;;;
      ret link_obj
  | _ => error TypeError "incorrect type for 'builder'"
  end.

(** *** The fill methods *)

(** [raise_from(Exception(msg), exc)]. *)
Definition raise_from {A} (msg : string) (cause : exc) : M A :=
  raise (Exc Exception_ msg (Some cause)).

(** [isinstance(dtype, np.dtype)] on a resolved type: the h5py special
    dtypes and the record dtypes are instances, the numpy scalar types and
    the Python classes are classes. *)
Definition is_np_dtype (t : ctype) : bool :=
  match t with
  | vlen_text | vlen_binary | ref_object | ref_region | np_record _ => true
  | _ => false
  end.

(** Modelled from the spec: [get_shape] of [form.data_utils], which is not
    among the sources: "measures nesting depth by successive length lookups
    until a non-sized element is reached".  A string counts as an
    element. *)
Fixpoint get_shape (v : pyval) : list Z :=
  match v with
  | VList items | VTuple items =>
      Z.of_nat (length items) ::
      match items with
      | x :: _ => get_shape x
      | [] => []
      end
  | VSet items => [Z.of_nat (length items)]
  | _ => []
  end.

(** [str(dtype_spec)] in the message of [__list_fill__]; a descriptor that
    is not a tag is shown by its kind. *)
Definition dtype_spec_str (d : dtype_spec) : string :=
  match d with
  | DtNone => "None"
  | DtStr tag => tag
  | DtDict _ => "{...}"
  | DtList _ => "[...]"
  | DtType _ => "<class>"
  | DtNp _ => "<dtype>"
  end.

Definition is_class (d : dtype_spec) : option ctype :=
  match d with DtType t => Some t | _ => None end.

Definition __scalar_fill__ (parent : h5obj) (name : string) (data : pyval)
    (dtype : dtype_spec) : M h5obj :=
  dt <- match is_class dtype with
        | Some t => ret t
        | None => lift (__resolve_dtype__ dtype data)
        end ;;
  try_except
    (h5_create_dataset parent name None (Some dt) (Some data) None false)
    (fun exc =>
       raise_from ("Could not create scalar dataset " +:+ name +:+ " in "
                   +:+ path_str (h_name parent)) exc).

(** The body of the loop of [__chunked_iter_fill__]. *)
Definition write_chunk (dset : h5obj) (chunk_i : DataChunk) : M unit :=
  max_bounds <- lift (__selection_max_bounds__ (dc_selection chunk_i)) ;;
  let max_bounds := as_bounds_tuple max_bounds in
  shape <- h5_shape dset ;;
  dims <- lift (expand_dims max_bounds shape) ;;
  (if bool_decide (0 < length dims)%nat then
     new_shape <- h5_shape dset ;;
     h5_resize dset (assign_dims new_shape max_bounds dims)
   else ret tt) ;;;
  h5_setitem dset (dc_selection chunk_i) (dc_data chunk_i).

Definition __chunked_iter_fill__ (parent : h5obj) (name : string)
    (data : DataChunkIterator) : M h5obj :=
  let baseshape := recommended_data_shape data in
  dset <- try_except
    (h5_create_dataset parent name (Some baseshape) (dci_dtype data) None
       (max_shape data) true)
    (fun exc =>
       raise_from ("Could not create dataset " +:+ name +:+ " in "
                   +:+ path_str (h_name parent)) exc) ;;
  for_each (write_chunk dset) (dci_chunks data) ;;;
  ret dset.

Definition __list_fill__ (parent : h5obj) (name : string) (data : pyval)
    (dtype_spec_ : dtype_spec) : M h5obj :=
  dt <- match is_class dtype_spec_ with
        | Some t => ret t
        | None => lift (__resolve_dtype__ dtype_spec_ data)
        end ;;
  data_shape <- (if is_np_dtype dt
                 then n <- lift (py_len data) ;; ret [Z.of_nat n]
                 else ret (get_shape data)) ;;
  dset <- try_except
    (h5_create_dataset parent name (Some data_shape) (Some dt) None None false)
    (fun exc =>
       raise_from ("Could not create dataset " +:+ name +:+ " in "
                   +:+ path_str (h_name parent) +:+ " dtype_spec = "
                   +:+ dtype_spec_str dtype_spec_) exc) ;;
  n <- lift (py_len data) ;;
  shape <- h5_shape dset ;;
  match shape with
  | [] => error IndexError "tuple index out of range"
  | extent :: rest =>
      (if extent <? Z.of_nat n then h5_resize dset (Z.of_nat n :: rest)
       else ret tt) ;;;
      h5_setitem dset (SSlice None None None) data ;;;
      ret dset
  end.

(** *** References *)

(** [__get_ref].  A container is replaced by the builder the manager
    builds for it, a link by the builder it points to; for any other
    object the local [builder] is never assigned. *)
Definition __get_ref (container : cell Builder) (region : option region_val)
    : M pyval :=
  builder <-
    match container with
    | CContainer built => ret built
    | CBuilder (LinkBuilder _ target_builder) => ret target_builder
    | CBuilder b => ret b
    | CVal _ =>
        error NameError "local variable 'builder' referenced before assignment"
    end ;;
  let path_ := __get_path builder in
  f <- the_file ;;
  match region with
  | Some r =>
      found <- h5_getitem f path_ ;;
      let '(dset, n) := found in
      match n with
      | NDataset d =>
          match r with
          | RegionSel sel =>
              lift (all_positions (ds_shape d) (sel_components sel)) ;;;
              ret (VRegionRef (h_name dset) sel)
          | RegionScalar _ => error TypeError "Illegal index"
          end
      | _ => error ValueError "cannot create region reference without Dataset"
      end
  | None =>
      found <- h5_getitem f path_ ;;
      ret (VRef (h_name found.1))
  end.

Definition __is_ref_dtype (dt : dtype_spec) : bool :=
  match dt with
  | DtDict _ => true
  | DtStr tag => String.eqb tag OBJECT_REF_TYPE || String.eqb tag REGION_REF_TYPE
  | _ => false
  end.

(** [__is_ref] on a field of a compound descriptor, a [DtypeSpec]: the
    question is passed on to the field's own dtype. *)
Definition __is_ref (field : string * dtype_spec) : bool :=
  __is_ref_dtype field.2.

Definition __queue_ref (func : filler) : M unit :=
  modify (fun s => set_ref_queue (__ref_queue s ++ [func]) s).

(** *** [write_dataset] and the deferred actions *)

Definition cell_value (c : cell Builder) : res pyval :=
  match c with
  | CVal v => Ok v
  | _ => Raise (Exc TypeError "Object dtype has no native HDF5 equivalent" None)
  end.

Fixpoint map_res {A B} (f : A -> res B) (l : list A) : res (list B) :=
  match l with
  | [] => Ok []
  | x :: l' =>
      res_bind (f x) (fun y => res_bind (map_res f l') (fun ys => Ok (y :: ys)))
  end.

Fixpoint map_M {A B} (f : A -> M B) (l : list A) : M (list B) :=
  match l with
  | [] => ret []
  | x :: l' => y <- f x ;; ys <- map_M f l' ;; ret (y :: ys)
  end.

(** The data handed to a method that expects a Python value. *)
Definition as_pyval (data : bdata Builder) : res pyval :=
  match data with
  | BVal v => Ok v
  | BRows rows =>
      res_bind (map_res (fun row => res_bind (map_res cell_value row)
                                      (fun vs => Ok (VTuple vs))) rows)
        (fun rs => Ok (VList rs))
  | _ => Raise (Exc TypeError "object has no len()" None)
  end.

(** The data as [get_type] would look at it. *)
Definition peek (data : bdata Builder) : pyval :=
  match as_pyval data with
  | Ok v => v
  | Raise _ => VNone
  end.

(** [for item in data: new_item = list(item)]. *)
Definition rows_of (data : bdata Builder) : res (list (list (cell Builder))) :=
  match data with
  | BRows rows => Ok rows
  | BVal (VList items) | BVal (VTuple items) =>
      map_res (fun item =>
                 match item with
                 | VList vs | VTuple vs => Ok (CVal <$> vs)
                 | _ => Raise (Exc TypeError "object is not iterable" None)
                 end) items
  | _ => Raise (Exc TypeError "object is not iterable" None)
  end.

(** [for i in refs: new_item[i] = self.__get_ref(item[i])]. *)
Fixpoint fill_refs (item new_item : list (cell Builder)) (refs : list nat)
    : M (list (cell Builder)) :=
  match refs with
  | [] => ret new_item
  | i :: refs' =>
      match item !! i with
      | None => error IndexError "list index out of range"
      | Some c =>
          r <- __get_ref c None ;;
          fill_refs item (<[i := CVal r]> new_item) refs'
      end
  end.

(** Calling a queued action. *)
Definition call (f : filler) : M unit :=
  emit (EvCall (filler_target f)) ;;;
  match f with
  | FillCompound parent name data refs _dtype attributes =>
      rows <- lift (rows_of data) ;;
      filled <- map_M (fun item => fill_refs item item refs) rows ;;
      dset <- h5_create_dataset parent name
                (Some [Z.of_nat (length filled)]) (Some _dtype) None None false ;;
      values <- lift (as_pyval (BRows filled)) ;;
      h5_setitem dset (SSlice None None None) values ;;;
      set_attributes dset attributes
  | FillRegion parent name data builder _dtype attributes =>
      region <- match builder with
                | RegionBuilder _ r _ => ret r
                | _ => error AttributeError "no attribute 'region'"
                end ;;
      ref <- __get_ref (CBuilder data) (Some region) ;;
      dset <- h5_create_dataset parent name None (Some _dtype) (Some ref)
                None false ;;
      set_attributes dset attributes
  | FillObject parent name data _dtype attributes =>
      ref <- __get_ref (CBuilder data) None ;;
      dset <- h5_create_dataset parent name None (Some _dtype) (Some ref)
                None false ;;
      set_attributes dset attributes
  end.

(** [[i for i, dts in enumerate(dtype) if self.__is_ref(dts)]]. *)
Fixpoint ref_fields_from (i : nat) (fields : list (string * dtype_spec))
    : list nat :=
  match fields with
  | [] => []
  | dts :: fields' =>
      if __is_ref dts then i :: ref_fields_from (S i) fields'
      else ref_fields_from (S i) fields'
  end.

(** [self.__dtypes[dtype]]. *)
Definition dtypes_item (dt : dtype_spec) : res ctype :=
  match dt with
  | DtStr tag =>
      match dict_get __dtypes tag with
      | Some t => Ok t
      | None => Raise (Exc KeyError tag None)
      end
  | DtNone => Raise (Exc KeyError "None" None)
  | DtType _ => Raise (Exc KeyError "<class>" None)
  | DtNp _ => Raise (Exc KeyError "<dtype>" None)
  | _ => Raise (Exc TypeError "unhashable type" None)
  end.

(** [isinstance(dtype, list)] and [dtype == tag]. *)
Definition is_list (dt : dtype_spec) : option (list (string * dtype_spec)) :=
  match dt with DtList fields => Some fields | _ => None end.

Definition is_tag (dt : dtype_spec) (tag : string) : bool :=
  match dt with DtStr t => String.eqb t tag | _ => false end.

Definition is_dataset_builder (b : Builder) : bool :=
  match b with
  | DatasetBuilder _ _ _ _ | RegionBuilder _ _ _ => true
  | _ => false
  end.

(** [write_dataset]; the result is [None] where the method returns without
    a dataset. *)
Definition write_dataset (parent : h5obj) (builder : Builder)
    : M (option h5obj) :=
  if negb (is_dataset_builder builder) then
    error TypeError "incorrect type for 'builder'"
  else
  let name := name builder in
  let data := data builder in
  let attributes := attributes builder in
  let dtype := dtype builder in
  let finish (dset : h5obj) : M (option h5obj) :=
    set_attributes dset attributes ;;; ret (Some dset) in
  match is_list dtype with
  | Some fields =>
      let refs := ref_fields_from 0 fields in
      if bool_decide (0 < length refs)%nat then
        _dtype <- lift (__resolve_dtype__ dtype (peek data)) ;;
        __queue_ref (FillCompound parent name data refs _dtype attributes) ;;;
        ret None
      else
        v <- lift (as_pyval data) ;;
        dset <- __list_fill__ parent name v dtype ;;
        finish dset
  | None =>
      match data with
      | BVal (VStr str) =>
          dset <- __scalar_fill__ parent name (VStr str) DtNone ;;
          finish dset
      | BChunks it =>
          dset <- __chunked_iter_fill__ parent name it ;;
          finish dset
      | BH5Dataset d =>
          let link :=
            if bool_decide (h_file d ≠ h_file parent)
            then NExternalLink (h_file d) (h_name d)
            else NSoftLink (h_name d) in
          h5_set_link parent name link ;;;
          ret None
      | BBuilder target =>
          _dtype <- lift (dtypes_item dtype) ;;
          (if is_tag dtype "region" then
             __queue_ref (FillRegion parent name target builder _dtype attributes)
           else
             __queue_ref (FillObject parent name target _dtype attributes)) ;;;
          ret None
      | BIterable wrapped =>
          dset <- __chunked_iter_fill__ parent name wrapped ;;
          finish dset
      | BVal (VList _ as v) | BVal (VTuple _ as v) | BVal (VSet _ as v) =>
          dset <- __list_fill__ parent name v dtype ;;
          finish dset
      | BRows _ =>
          v <- lift (as_pyval data) ;;
          dset <- __list_fill__ parent name v dtype ;;
          finish dset
      | BVal v =>
          dset <- __scalar_fill__ parent name v dtype ;;
          finish dset
      end
  end.

(** *** [__add_refs], [write_group] and [write_builder] *)

(** The loop of [__add_refs]: while the queue is not empty, its last entry
    is popped and called.  [fuel] bounds the number of rounds. *)
Fixpoint __add_refs_loop (fuel : nat) : M unit :=
  s <- get_state ;;
  match last (__ref_queue s) with
  | None => ret tt
  | Some call_ =>
      match fuel with
      | O => error RecursionError "the bound of the model is reached"
      | S fuel' =>
          modify (set_ref_queue (removelast (__ref_queue s))) ;;;
          call call_ ;;;
          __add_refs_loop fuel'
      end
  end.

(** No queued action adds to the queue, so that as many rounds as the
    queue has entries empty it. *)
Definition __add_refs : M unit :=
  s <- get_state ;;
  __add_refs_loop (length (__ref_queue s)).

Fixpoint write_group (parent : h5obj) (builder : Builder) : M h5obj :=
  match builder with
  | GroupBuilder h subgroups datasets links =>
      group <- h5_create_group parent (b_name h) ;;
      for_each (fun '(subgroup_name, sub_builder) =>
                  write_group group sub_builder ;;; ret tt) subgroups ;;;
      for_each (fun '(dset_name, sub_builder) =>
                  write_dataset group sub_builder ;;; ret tt) datasets ;;;
      for_each (fun '(link_name, sub_builder) =>
                  write_link group sub_builder ;;; ret tt) links ;;;
      set_attributes group (b_attributes h) ;;;
      ret group
  | _ => error TypeError "incorrect type for 'builder'"
  end.

(** The statements of [write_builder] between [self.open()] and
    [self.__add_refs()]. *)
Definition write_root (f_builder : Builder) : M unit :=
  f <- the_file ;;
  for_each (fun '(name, gbldr) =>
              write_group (file_root f) gbldr ;;; ret tt) (groups f_builder) ;;;
  for_each (fun '(name, dbldr) =>
              write_dataset (file_root f) dbldr ;;; ret tt) (datasets f_builder) ;;;
  set_attributes (file_root f) (attributes f_builder).

Definition write_builder (f_builder : Builder) : M unit :=
  match f_builder with
  | GroupBuilder _ _ _ _ =>
      open ;;;
      write_root f_builder ;;;
      __add_refs
  | _ => error TypeError "incorrect type for 'builder'"
  end.

(** *** The read path *)

Definition __set_built (fpath : string) (path_ : path) (builder : Builder)
    : M unit :=
  modify (fun s =>
    let fdict := default ∅ (__built s !! fpath) in
    let fdict' := match fdict !! path_ with
                  | Some _ => fdict
                  | None => <[path_ := builder]> fdict
                  end in
    set_built (<[fpath := fdict']> (__built s)) s).

Definition __get_built (fpath : string) (path_ : path) : M (option Builder) :=
  s <- get_state ;;
  match __built s !! fpath with
  | Some fdict => ret (fdict !! path_)
  | None => ret None
  end.

(** [h5obj.dtype == np.dtype('O')]: the variable-length and reference
    types are object dtypes. *)
Definition is_object_dtype (dt : option ctype) : bool :=
  match dt with
  | Some vlen_text | Some vlen_binary | Some ref_object | Some ref_region => true
  | _ => false
  end.

(** [h5obj[()]] of a one-dimensional dataset. *)
Definition read_cells (d : dataset) : list pyval :=
  match ds_shape d with
  | [n] => (fun i => default VNone (ds_cells d !! [i])) <$> seqZ 0 n
  | _ => []
  end.

(** The constructors [DatasetBuilder(name, **kwargs)] and
    [RegionBuilder(name, **kwargs)] as the read path calls them: a new
    object without a parent. *)
Definition new_header (h5 : h5obj) (name : string)
    (attrs : list (string * attrval)) : M header :=
  s <- get_state ;;
  id <- fresh_id ;;
  emit (EvNew (h_file h5) (h_name h5) id) ;;;
  ret (mk_header id name [] (Some (__path s)) attrs).

Fixpoint __read_dataset (fuel : nat) (h5 : h5obj) (name : option string)
    : M Builder :=
  match fuel with
  | O => error RecursionError "maximum recursion depth exceeded"
  | S fuel' =>
      d <- get_dataset h5 ;;
      let name := default (basename (h_name h5)) name in
      let ndims := length (ds_shape d) in
      if bool_decide (ndims = 0%nat) then
        let scalar := default VNone (ds_cells d !! []) in
        match scalar with
        | VRegionRef target_path _ =>
            let target := mk_h5obj (h_file h5) target_path (h_writable h5) in
            target_builder <- __read_dataset fuel' target None ;;
            __set_built (h_file target) (h_name target) target_builder ;;;
            h <- new_header h5 name (ds_attrs d) ;;
            ret (RegionBuilder h (RegionScalar scalar) target_builder)
        | _ =>
            h <- new_header h5 name (ds_attrs d) ;;
            ret (DatasetBuilder h (BVal scalar) (DtNp (ds_dtype d))
                   (Some (ds_maxshape d)))
        end
      else if bool_decide (ndims = 1%nat) && is_object_dtype (ds_dtype d) then
        h <- new_header h5 name (ds_attrs d) ;;
        ret (DatasetBuilder h (BVal (VList (read_cells d)))
               (DtNp (ds_dtype d)) (Some (ds_maxshape d)))
      else
        h <- new_header h5 name (ds_attrs d) ;;
        ret (DatasetBuilder h (BH5Dataset h5)
               (DtNp (ds_dtype d)) (Some (ds_maxshape d)))
  end.

(** The three dicts that [__read_group] fills. *)
Record members := mk_members {
  m_groups : list (string * Builder);
  m_datasets : list (string * Builder);
  m_links : list (string * Builder) }.

Definition is_dataset_node (n : node) : bool :=
  match n with NDataset _ => true | _ => false end.

Definition link_path (n : node) : option path :=
  match n with
  | NSoftLink target | NExternalLink _ target => Some target
  | _ => None
  end.

Fixpoint fold_M {A B} (body : B -> A -> M B) (acc : B) (xs : list A) : M B :=
  match xs with
  | [] => ret acc
  | x :: xs' => acc' <- body acc x ;; fold_M body acc' xs'
  end.

Fixpoint __read_group (fuel : nat) (h5 : h5obj) (name_arg : option string)
    : M Builder :=
  match fuel with
  | O => error RecursionError "maximum recursion depth exceeded"
  | S fuel' =>
      s0 <- get_state ;;
      attrs <- match lookup_node s0 (h_file h5) (h_name h5) with
               | Some (NGroup attrs) => ret attrs
               | _ => error KeyError ("no group at " +:+ path_str (h_name h5))
               end ;;
      let name_ := default (basename (h_name h5)) name_arg in
      let read (n : node) (sub_h5obj : h5obj) (as_name : option string) :=
        if is_dataset_node n then __read_dataset fuel' sub_h5obj as_name
        else __read_group fuel' sub_h5obj as_name in
      kwargs <- fold_M (fun kwargs k =>
        s <- get_state ;;
        match h5_get s h5 k with
        | None => error AttributeError "'NoneType' object has no attribute 'file'"
        | Some (sub_h5obj, n) =>
            match h5_getlink s h5 k ≫= link_path with
            | Some target_path =>
                let builder_name := basename target_path in
                cached <- __get_built (h_file sub_h5obj) target_path ;;
                builder <- match cached with
                           | Some b => ret b
                           | None =>
                               b <- read n sub_h5obj (Some builder_name) ;;
                               __set_built (h_file sub_h5obj) target_path b ;;;
                               ret b
                           end ;;
                id <- fresh_id ;;
                let link := LinkBuilder
                              (mk_header id k [] (Some (__path s)) []) builder in
                ret (mk_members (m_groups kwargs) (m_datasets kwargs)
                       (dict_set (m_links kwargs) builder_name link))
            | None =>
                cached <- __get_built (h_file sub_h5obj) (h_name sub_h5obj) ;;
                builder <- match cached with
                           | Some b => ret b
                           | None =>
                               b <- read n sub_h5obj None ;;
                               __set_built (h_file sub_h5obj) (h_name sub_h5obj) b ;;;
                               ret b
                           end ;;
                if is_dataset_node n then
                  ret (mk_members (m_groups kwargs)
                         (dict_set (m_datasets kwargs) (name builder) builder)
                         (m_links kwargs))
                else
                  ret (mk_members
                         (dict_set (m_groups kwargs) (name builder) builder)
                         (m_datasets kwargs) (m_links kwargs))
            end
        end) (mk_members [] [] []) (member_names s0 h5) ;;
      h <- new_header h5 name_ attrs ;;
      ret (GroupBuilder h (m_groups kwargs) (m_datasets kwargs) (m_links kwargs))
  end.

Definition read_builder (fuel : nat) : M Builder :=
  open ;;;
  s <- get_state ;;
  f <- the_file ;;
  match __read s !! f_filename f with
  | Some f_builder => ret f_builder
  | None =>
      f_builder <- __read_group fuel (file_root f) (Some ROOT_NAME) ;;
      modify (fun s => set_read (<[f_filename f := f_builder]> (__read s)) s) ;;;
      ret f_builder
  end.

(** ** [FeatureExtraction.__init__] *)

Record ShapeValidatorResult := mk_ShapeValidatorResult {
  result : bool;
  message : string }.

(** Modelled from the spec: [assertEqualShape] of [form.data_utils], which
    is not among the sources.  Two arrays that must share a dimension are
    compared on it; the message of a mismatch names both arrays and both
    axes.  An argument is given by its shape, [None] when the shape cannot
    be determined; with [ignore_undetermined] such a comparison passes. *)
Definition assertEqualShape (data1 data2 : option (list Z)) (axes1 axes2 : nat)
    (name1 name2 : string) (ignore_undetermined : bool) : ShapeValidatorResult :=
  match data1, data2 with
  | Some shape1, Some shape2 =>
      match shape1 !! axes1, shape2 !! axes2 with
      | Some n1, Some n2 =>
          if Z.eqb n1 n2 then mk_ShapeValidatorResult true ""
          else mk_ShapeValidatorResult false
                 ("Unequal length of axes: " +:+ name1 +:+ " axis " +:+ pretty axes1
                  +:+ " has length " +:+ pretty n1 +:+ ", " +:+ name2 +:+ " axis "
                  +:+ pretty axes2 +:+ " has length " +:+ pretty n2)
      | _, _ =>
          mk_ShapeValidatorResult false
            ("Axis index out of range: " +:+ name1 +:+ " axis " +:+ pretty axes1
             +:+ ", " +:+ name2 +:+ " axis " +:+ pretty axes2)
      end
  | _, _ =>
      mk_ShapeValidatorResult ignore_undetermined
        (if ignore_undetermined then ""
         else "Undetermined shape: " +:+ name1 +:+ ", " +:+ name2)
  end.

Definition newline : string := String (Ascii.ascii_of_nat 10) "".

Record FeatureExtraction := mk_FeatureExtraction {
  fe_electrodes : option (list Z);
  fe_description : option (list Z);
  fe_times : option (list Z);
  fe_features : option (list Z) }.

(** The three comparisons that [__init__] collects in [shape_validators]. *)
Definition shape_validators (electrodes description times features : option (list Z))
    : list ShapeValidatorResult :=
  [ assertEqualShape features times 0 0 "feature_shape" "times" true;
    assertEqualShape features electrodes 1 0 "feature_shape" "electrodes" true;
    assertEqualShape features description 2 0 "feature_shape" "description" true ].

(** The loop over [shape_validators]: [raise_error] and [error_msg]. *)
Fixpoint collect_errors (svs : list ShapeValidatorResult) (raise_error : bool)
    (error_msg : string) : bool * string :=
  match svs with
  | [] => (raise_error, error_msg)
  | sv :: svs' =>
      collect_errors svs' (raise_error || negb (result sv))
        (if negb (result sv) then error_msg +:+ message sv +:+ newline
         else error_msg)
  end.

(** [FeatureExtraction.__init__]; every argument is given by the shape of
    the array. *)
Definition FeatureExtraction__init__
    (electrodes description times features : option (list Z))
    : res FeatureExtraction :=
  let '(raise_error, error_msg) :=
    collect_errors (shape_validators electrodes description times features)
      false "" in
  if raise_error then Raise (Exc ValueError error_msg None)
  else Ok (mk_FeatureExtraction electrodes description times features).

(** [sub in s]. *)
Definition mentions (sub s : string) : bool :=
  bool_decide (is_Some (String.index 0 sub s)).

(** ** Sample inputs *)

(** A builder of the file ["f.h5"] with the given name and ancestors. *)
Definition sample_header (name_ : string) (parents : list string) : header :=
  mk_header 0 name_ parents (Some "f.h5") [].

(** A fresh [HDF5IO("f.h5", mode="w")] with no file around. *)
Definition sample_io : state := __init__ ∅ "f.h5" "w".

(** A one-dimensional dataset, a region reference and an object reference
    to it, under the root. *)
Definition sample_values : Builder :=
  DatasetBuilder (sample_header "values" ["root"])
    (BVal (VList [VInt 1; VInt 2; VInt 3])) (DtStr "int") None.

Definition sample_window : Builder :=
  RegionBuilder (sample_header "window" ["root"])
    (RegionSel (SSlice (Some 0) (Some 2) None)) sample_values.

Definition sample_pointer : Builder :=
  DatasetBuilder (sample_header "pointer" ["root"])
    (BBuilder sample_values) (DtStr "object") None.

Definition sample_references : Builder :=
  GroupBuilder (sample_header "root" []) []
    [("values", sample_values); ("window", sample_window);
     ("pointer", sample_pointer)] [].

(** A root with a group and a link to that group. *)
Definition sample_group : Builder :=
  GroupBuilder (sample_header "g" ["root"]) [] [] [].

Definition sample_linked : Builder :=
  GroupBuilder (sample_header "root" []) [("g", sample_group)] []
    [("l", LinkBuilder (sample_header "l" ["root"]) sample_group)].

(** The same link one level down, in a group [h]. *)
Definition sample_nested : Builder :=
  GroupBuilder (sample_header "root" [])
    [("g", sample_group);
     ("h", GroupBuilder (sample_header "h" ["root"]) [] []
             [("l", LinkBuilder (sample_header "l" ["h"; "root"]) sample_group)])]
    [] [].

(** An empty root. *)
Definition sample_empty : Builder :=
  GroupBuilder (sample_header "root" []) [] [] [].

(** ** The vocabulary of the statements *)

(** As the spec words it: the positions that a fancy or boolean index list
    selects - the positions of the true entries of a mask, the listed
    positions of an integer index list - and one past the highest. *)
Definition spec_selected_positions (items : list index_item) : list Z :=
  if all_bool items then np_nonzero items
  else omap (fun it => match it with IInt z => Some z | IBool _ => None end) items.

Definition spec_list_bound (items : list index_item) : option Z :=
  match spec_selected_positions items with
  | [] => None
  | p :: ps => Some (foldr Z.max p ps + 1)
  end.

(** What a node holds apart from its attributes. *)
Definition node_core (n : node) : node :=
  match n with
  | NGroup _ => NGroup []
  | NDataset d =>
      NDataset (mk_dataset [] (ds_dtype d) (ds_shape d) (ds_maxshape d)
                  (ds_chunked d) (ds_cells d))
  | link => link
  end.

(** [same_data s s']: the files of [s'] hold what the files of [s] hold,
    attributes apart. *)
Definition same_data (s s' : state) : Prop :=
  forall file p,
    node_core <$> lookup_node s' file p = node_core <$> lookup_node s file p.

(** A scalar dataset that holds a region reference. *)
Definition is_region_scalar (d : dataset) : bool :=
  match ds_shape d, ds_cells d !! [] with
  | [], Some (VRegionRef _ _) => true
  | _, _ => false
  end.

Definition is_link_builder (b : Builder) : bool :=
  match b with LinkBuilder _ _ => true | _ => false end.

(** The messages of the comparisons that failed, each on a line of its
    own, in the order of the comparisons. *)
Definition combined_message (svs : list ShapeValidatorResult) : string :=
  foldr (fun sv acc =>
           if result sv then acc else message sv +:+ newline +:+ acc) "" svs.

(** The identities of the builders that a record shows constructed from
    the node at [p] of [file]. *)
Definition constructions (file : string) (p : path) (evs : list event)
    : list nat :=
  omap (fun e =>
          match e with
          | EvNew file' p' id =>
              if bool_decide (file' = file /\ p' = p) then Some id else None
          | _ => None
          end) evs.

(** The builder cached for a key, as [__get_built] finds it. *)
Definition built_at (s : state) (file : string) (p : path) : option Builder :=
  match __built s !! file with
  | Some fdict => fdict !! p
  | None => None
  end.

(** The state in which the file written by a session is read back: a new
    [HDF5IO] object over the same files, in mode ["r"]. *)
Definition reopen (s : state) : state := __init__ (disk s) (__path s) "r".

(** [m] moves every state to one related to it by [R], whether it returns
    or raises. *)
Definition preserves (R : relation state) {A} (m : M A) : Prop :=
  forall s, R s (m s).1.

(** A structural event: anything but the start of a deferred call. *)
Definition structural (e : event) : Prop :=
  match e with EvCall _ => False | _ => True end.

(** [quiet s s']: from [s] to [s'] no handle was opened or closed, the
    [HDF5IO] object kept its file, path, mode and queue, and the record
    grew by structural events only. *)
Definition quiet (s s' : state) : Prop :=
  open_handles s' = open_handles s /\ __file s' = __file s /\
  __path s' = __path s /\ __mode s' = __mode s /\
  __ref_queue s' = __ref_queue s /\
  exists evs, log s' = log s ++ evs /\ Forall structural evs.

(** [queues s s']: as [quiet], but actions may have been added at the end
    of the queue. *)
Definition queues (s s' : state) : Prop :=
  open_handles s' = open_handles s /\ __file s' = __file s /\
  __path s' = __path s /\ __mode s' = __mode s /\
  (exists q, __ref_queue s' = __ref_queue s ++ q) /\
  exists evs, log s' = log s ++ evs /\ Forall structural evs.

(** The deferred calls that a record shows, in order. *)
Definition calls_of (evs : list event) : list path :=
  omap (fun e => match e with EvCall p => Some p | _ => None end) evs.

(** [unchanged_io s s']: the record, the queue, the path and the mode are
    as they were. *)
Definition unchanged_io (s s' : state) : Prop :=
  log s' = log s /\ __ref_queue s' = __ref_queue s /\
  __path s' = __path s /\ __mode s' = __mode s.

(** The extent after a chunk: along a dimension whose bound is an integer
    above the extent, the bound; along any other dimension, the extent. *)
Definition grown (shape : list Z) (max_bounds : list bound) : list Z :=
  imap (fun i n =>
          match max_bounds !! i with
          | Some (BInt z) => if n <? z then z else n
          | _ => n
          end) shape.

(** The dataset after [dset.resize(new_shape)]. *)
Definition resized (d : dataset) (new_shape : list Z) : dataset :=
  mk_dataset (ds_attrs d) (ds_dtype d) new_shape (ds_maxshape d) (ds_chunked d)
    (filter (fun kv => within new_shape kv.1 = true) (ds_cells d)).

(** The values [dset[sel] = value] writes, and where. *)
Definition written (d : dataset) (sel : selection) (value : pyval)
    (dims : list (list Z)) : dataset :=
  let comps := sel_components sel in
  let idxs := index_tuples dims in
  let depth := (length (ds_shape d)
                - length (filter (fun c => is_int_sel c = true) comps))%nat in
  let values := flatten_depth depth value in
  let values' :=
    if bool_decide (length values = 1%nat)
    then replicate (length idxs) (default VNone (head values))
    else values in
  mk_dataset (ds_attrs d) (ds_dtype d) (ds_shape d) (ds_maxshape d)
    (ds_chunked d) (write_cells (ds_cells d) idxs values').

(** The attributes of a node ([obj.attrs]); a link has none of its own. *)
Definition node_attrs (n : node) : list (string * attrval) :=
  match n with
  | NGroup attrs => attrs
  | NDataset d => ds_attrs d
  | _ => []
  end.

(** An empty growable dataset [/stream] in the file of [sample_io], and
    two chunks for it. *)
Definition sample_stream : h5obj := mk_h5obj "f.h5" ["stream"] true.

Definition sample_stream_io : state :=
  (h5_create_dataset (mk_h5obj "f.h5" [] true) "stream" (Some [0])
     (Some np_int32) None (Some [None]) true (open sample_io).1).1.

Definition sample_chunks : list DataChunk :=
  [ mk_DataChunk (SSlice (Some 0) (Some 2) None) (VList [VInt 1; VInt 2]);
    mk_DataChunk (SSlice (Some 2) (Some 3) None) (VList [VInt 3]) ].

(** The [data] that [__read_dataset] gives the builder of a dataset that
    is not a region reference: the scalar, the list of a one-dimensional
    dataset of an object type, the dataset itself otherwise. *)
Definition data_read (h5 : h5obj) (d : dataset) : bdata Builder :=
  match ds_shape d with
  | [] => BVal (default VNone (ds_cells d !! []))
  | [_] => if is_object_dtype (ds_dtype d) then BVal (VList (read_cells d))
           else BH5Dataset h5
  | _ => BH5Dataset h5
  end.

(** A list of integers with two attributes, under the root. *)
Definition sample_counts : Builder :=
  DatasetBuilder
    (mk_header 0 "counts" ["root"] (Some "f.h5")
       [("unit", AVal (VStr "mV"));
        ("tags", AVal (VList [VStr "a"; VStr "bcd"]))])
    (BVal (VList [VInt 3; VInt 1; VInt 2])) (DtStr "int")
    (Some [None]).

(** A string scalar that declares a numeric type. *)
Definition sample_note : Builder :=
  DatasetBuilder
    (mk_header 0 "note" ["root"] (Some "f.h5") [("lang", AVal (VStr "en"))])
    (BVal (VStr "hello")) (DtStr "int") None.

(** [same_files s s']: the files hold in [s'] what they hold in [s]. *)
Definition same_files (s s' : state) : Prop := disk s' = disk s.

(** A new [HDF5IO(path, mode="w")] over the files that the session of
    [sample_references] has left. *)
Definition sample_overwrite : state :=
  __init__ (disk (write_builder sample_references sample_io).1) "f.h5" "w".

(** The group in which a deferred action creates its dataset. *)
Definition filler_parent (f : filler) : h5obj :=
  match f with
  | FillCompound parent _ _ _ _ _
  | FillRegion parent _ _ _ _ _
  | FillObject parent _ _ _ _ => parent
  end.

(** [fails_clean m]: [m] raises from every state and leaves it as it
    is. *)
Definition fails_clean {A} (m : M A) : Prop :=
  forall s, exists e, m s = (s, Raise e).

(** [read_only s s']: the files are as they were, and the queue still
    holds only actions on objects without write intent when it did so
    before. *)
Definition read_only (s s' : state) : Prop :=
  disk s' = disk s /\
  (Forall (fun f => h_writable (filler_parent f) = false) (__ref_queue s) ->
   Forall (fun f => h_writable (filler_parent f) = false) (__ref_queue s')).

(** A new [HDF5IO(path, mode="r")] over the files that the session of
    [sample_references] has left. *)
Definition sample_reader : state :=
  __init__ (disk (write_builder sample_references sample_io).1) "f.h5" "r".

(** [only_below file root s s']: apart from the nodes of [file] at or
    below [root], every node of every file is in [s'] what it is in
    [s]. *)
Definition only_below (file : string) (root : path) (s s' : state) : Prop :=
  forall file' q,
    ~ (file' = file /\ root `prefix_of` q) ->
    lookup_node s' file' q = lookup_node s file' q.

(** [returns m P]: whatever [m] returns satisfies [P]. *)
Definition returns {A} (m : M A) (P : A -> Prop) : Prop :=
  forall s s' a, m s = (s', Ok a) -> P a.

(** The object at [p] in the file of [parent]. *)
Definition is_at (file : string) (p : path) (o : h5obj) : Prop :=
  h_file o = file /\ h_name o = p.

(** The components of [sample_nested] on their own: the group [h] and its
    link [l] to the group [g]. *)
Definition sample_link : Builder :=
  LinkBuilder (sample_header "l" ["h"; "root"]) sample_group.

(** An object reference to the dataset [values], with an attribute. *)
Definition sample_ref : Builder :=
  DatasetBuilder
    (mk_header 0 "ref" ["root"] (Some "f.h5") [("kind", AVal (VStr "target"))])
    (BBuilder sample_values) (DtStr "reference") None.

(** The modes in which [File] opens a file that exists without replacing
    it. *)
Definition keeps_file (mode : string) : Prop :=
  mode = "r" \/ mode = "r+" \/ mode = "a".

(** A dataset of another file, and a builder whose data it is. *)
Definition sample_foreign : Builder :=
  DatasetBuilder
    (mk_header 0 "alias" ["root"] (Some "f.h5") [("note", AVal (VStr "x"))])
    (BH5Dataset (mk_h5obj "g.h5" ["there"] false)) DtNone None.

(** [triple P m Q]: from a state that satisfies [P], whatever [m] returns
    satisfies [Q] in the state it leaves. *)
Definition triple {A} (P : state -> Prop) (m : M A) (Q : A -> state -> Prop)
    : Prop :=
  forall s s' a, P s -> m s = (s', Ok a) -> Q a s'.

(** Two groups named [t], in the groups [x] and [y], and a group [z] with
    a link to each of them. *)
Definition sample_twins : Builder :=
  let tx := GroupBuilder (sample_header "t" ["x"; "root"]) [] [] [] in
  let ty := GroupBuilder (sample_header "t" ["y"; "root"]) [] [] [] in
  GroupBuilder (sample_header "root" [])
    [("x", GroupBuilder (sample_header "x" ["root"]) [("t", tx)] [] []);
     ("y", GroupBuilder (sample_header "y" ["root"]) [("t", ty)] [] []);
     ("z", GroupBuilder (sample_header "z" ["root"]) [] []
             [("a", LinkBuilder (sample_header "a" ["z"; "root"]) tx);
              ("b", LinkBuilder (sample_header "b" ["z"; "root"]) ty)])]
    [] [].

(** The file written from [sample_twins], opened for reading. *)
Definition sample_twins_io : state :=
  (open (reopen (write_builder sample_twins sample_io).1)).1.

(** [fails_at s m]: from the state [s], [m] raises and leaves [s] as it
    is. *)
Definition fails_at {A} (s : state) (m : M A) : Prop :=
  exists e, m s = (s, Raise e).

(** The state that the session of [sample_references] leaves: the file
    holds [/values], [/window] and [/pointer]. *)
Definition sample_written : state :=
  (write_builder sample_references sample_io).1.

(** [queued_in file s s']: when every action in the queue of [s] is for a
    group of [file], so is every action in the queue of [s']. *)
Definition queued_in (file : string) (s s' : state) : Prop :=
  Forall (fun f => h_file (filler_parent f) = file) (__ref_queue s) ->
  Forall (fun f => h_file (filler_parent f) = file) (__ref_queue s').

(** [other_files file s s']: every file but [file] holds in [s'] what it
    holds in [s]. *)
Definition other_files (file : string) (s s' : state) : Prop :=
  forall file' q, file' <> file ->
                  lookup_node s' file' q = lookup_node s file' q.

(** A session in a file [a.h5] next to the file [f.h5] of
    [sample_written]; the builder [sample_abroad] links to a group and
    references a dataset of [f.h5]. *)
Definition sample_abroad_io : state :=
  __init__ (disk sample_written) "a.h5" "w".

Definition sample_abroad : Builder :=
  GroupBuilder (mk_header 0 "root" [] (Some "a.h5") [("k", AVal (VInt 1))])
    [("box", GroupBuilder (mk_header 0 "box" ["root"] (Some "a.h5") []) []
               [("copy", DatasetBuilder
                           (mk_header 0 "copy" ["box"; "root"] (Some "a.h5") [])
                           (BH5Dataset (mk_h5obj "f.h5" ["values"] false))
                           DtNone None)]
               [("far", LinkBuilder
                          (mk_header 0 "far" ["box"; "root"] (Some "a.h5") [])
                          sample_values)])]
    [("n", DatasetBuilder (mk_header 0 "n" ["root"] (Some "a.h5") [])
             (BVal (VList [VInt 1; VInt 2])) (DtStr "int") None)] [].

(** The groups of the tree of a builder, each with its path from the
    parent the builder is written to: the builder itself under its name
    and, below it, the groups of its subgroups. *)
Fixpoint group_paths (b : Builder) : list (path * Builder) :=
  match b with
  | GroupBuilder h gs _ _ =>
      ([b_name h], b)
        :: flat_map (fun '(_, c) =>
                       List.map (fun qg => (b_name h :: qg.1, qg.2))
                         (group_paths c)) gs
  | _ => []
  end.

(** [only_at file p s s']: apart from the node of [file] at [p], every
    node of every file is in [s'] what it is in [s]. *)
Definition only_at (file : string) (p : path) (s s' : state) : Prop :=
  forall file' q,
    (file', q) <> (file, p) -> lookup_node s' file' q = lookup_node s file' q.

(** [adds_members file group s s']: the node of [group] and whatever is at
    or below a member that [group] has in [s] are in [s'] what they are in
    [s]. *)
Definition adds_members (file : string) (group : path) (s s' : state) : Prop :=
  lookup_node s' file group = lookup_node s file group /\
  forall x r n0,
    lookup_node s file (group ++ [x]) = Some n0 ->
    lookup_node s' file (group ++ x :: r) = lookup_node s file (group ++ x :: r).

(** A group [a] with two attributes, a subgroup [b] that has the subgroup
    [sample_leaf] and a dataset, and a second subgroup [d]. *)
Definition sample_leaf : Builder :=
  GroupBuilder (mk_header 0 "c" ["b"; "a"; "root"] (Some "f.h5")
                  [("deep", AVal (VInt 3)); ("axes", AVal (VList [VStr "x"; VStr "yz"]))])
    [] [] [].

Definition sample_tree : Builder :=
  GroupBuilder (mk_header 0 "a" ["root"] (Some "f.h5")
                  [("unit", AVal (VStr "mV"))])
    [("b", GroupBuilder (mk_header 0 "b" ["a"; "root"] (Some "f.h5")
                           [("n", AVal (VInt 1))])
             [("c", sample_leaf)]
             [("m", DatasetBuilder
                      (mk_header 0 "m" ["b"; "a"; "root"] (Some "f.h5") [])
                      (BVal (VList [VInt 1; VInt 2])) (DtStr "int") None)] []);
     ("d", GroupBuilder (mk_header 0 "d" ["a"; "root"] (Some "f.h5") [])
             [] [] [])]
    [] [].

(** [group_stored s file p g]: the file has a group at [p], and when the
    attribute names of the builder [g] are distinct the group carries
    the attributes of [g], each in its stored form, in their order. *)
Definition group_stored (s : state) (file : string) (p : path) (g : Builder)
    : Prop :=
  exists attrs,
    lookup_node s file p = Some (NGroup attrs) /\
    (NoDup (attributes g).*1 ->
     Forall2 (fun kv kv' => kv'.1 = kv.1 /\ attribute_value kv.2 = Ok kv'.2)
       (attributes g) attrs).

(** [cache_named s]: every builder that [self.__built] holds is named by
    the last component of the path it is kept under. *)
Definition cache_named (s : state) : Prop :=
  forall file p b, built_at s file p = Some b -> name b = basename p.

(** [reading d s]: the files are [d] and the cache is [cache_named]. *)
Definition reading (d : gmap string (gmap path node)) (s : state) : Prop :=
  disk s = d /\ cache_named s.

(** [same_cache s s']: the files and the cache of builders are in [s'] what
    they are in [s]. *)
Definition same_cache (s s' : state) : Prop :=
  disk s' = disk s /\ __built s' = __built s.

(** [filed_from s h5 names as_dataset key]: [key] is the last component of
    the name of the object that a member of [h5] among [names] denotes,
    the member is not a link, and the object is a dataset or not as
    [as_dataset] says. *)
Definition filed_from (s : state) (h5 : h5obj) (names : list string)
    (as_dataset : bool) (key : string) : Prop :=
  exists k sub n,
    k ∈ names /\ h5_getlink s h5 k ≫= link_path = None /\
    h5_get s h5 k = Some (sub, n) /\ is_dataset_node n = as_dataset /\
    key = basename (h_name sub).

(** The file with [sample_tree] under its root, opened for reading by a
    new [HDF5IO] object. *)
Definition sample_tree_io : state :=
  (open (reopen (write_builder
                   (GroupBuilder (sample_header "root" [])
                      [("a", sample_tree)] [] [])
                   sample_io).1)).1.

(** [same_kind n n']: [n'] is an object of the kind of [n]: a group for a
    group; for a dataset a dataset of the same type, maximal shape and
    layout; for a link the same link. *)
Definition same_kind (n n' : node) : Prop :=
  match n, n' with
  | NGroup _, NGroup _ => True
  | NDataset d, NDataset d' =>
      ds_dtype d' = ds_dtype d /\ ds_maxshape d' = ds_maxshape d /\
      ds_chunked d' = ds_chunked d
  | NSoftLink _, _ | NExternalLink _ _, _ => n' = n
  | _, _ => False
  end.

(** [only_adds s s']: whatever the files hold in [s] they hold in [s'],
    as an object of the same kind. *)
Definition only_adds (s s' : state) : Prop :=
  forall file q n,
    lookup_node s file q = Some n ->
    exists n', lookup_node s' file q = Some n' /\ same_kind n n'.

(** A root that holds [sample_tree], and a session in mode ["a"] on the
    file that [sample_written] has left. *)
Definition sample_tree_root : Builder :=
  GroupBuilder (sample_header "root" []) [("a", sample_tree)] [] [].

Definition sample_append_io : state :=
  __init__ (disk sample_written) "f.h5" "a".

(** The chunks of a stream that yields the lists [parts] one after the
    other, from position [n] on: each chunk is for the slice that follows
    the one before. *)
Fixpoint stream_chunks (n : Z) (parts : list (list pyval)) : list DataChunk :=
  match parts with
  | [] => []
  | items :: parts' =>
      mk_DataChunk (SSlice (Some n) (Some (n + Z.of_nat (length items))) None)
        (VList items)
        :: stream_chunks (n + Z.of_nat (length items)) parts'
  end.

(** An iterator over a one-dimensional stream of unknown length. *)
Definition stream_of (dt : option ctype) (parts : list (list pyval))
    : DataChunkIterator :=
  mk_DataChunkIterator None [0] dt (Some [None]) (stream_chunks 0 parts).

(** A dataset builder that holds references: its data is a builder, or its
    dtype is a compound type with a reference field. *)
Definition reference_bearing (b : Builder) : bool :=
  is_dataset_builder b &&
  match is_list (dtype b) with
  | Some fields => bool_decide (0 < length (ref_fields_from 0 fields))%nat
  | None => match data b with BBuilder _ => true | _ => false end
  end.

(** The paths of the reference-bearing datasets of the tree of [b], written
    under [p], in the order in which [write_group] meets them: those of
    the subgroups, then those among the datasets of the group. *)
Fixpoint reference_paths (p : path) (b : Builder) : list path :=
  match b with
  | GroupBuilder h gs ds _ =>
      flat_map (fun '(_, g) => reference_paths (p ++ [b_name h]) g) gs ++
      flat_map (fun '(_, d) =>
                  if reference_bearing d
                  then [(p ++ [b_name h]) ++ [name d]] else []) ds
  | _ => []
  end.

(** The same for the root builder, whose groups and datasets
    [write_builder] writes under the root of the file. *)
Definition root_reference_paths (b : Builder) : list path :=
  flat_map (fun '(_, g) => reference_paths [] g) (groups b) ++
  flat_map (fun '(_, d) => if reference_bearing d then [[name d]] else [])
    (datasets b).

(** ** The inputs that h5py takes as they are

    h5py parses the name of a new member as a path, converts the values
    of a dataset to its type and refuses the attribute values it has no
    type for.  The statements about what a write leaves in the file are
    made for the inputs below, on which h5py does what the model of its
    calls does: names that are one component of a path, text without
    special characters, values of the type of the dataset, attribute
    values that h5py has a type for. *)

(** The character ["/"] (code 47). *)
Definition slash : Ascii.ascii := Ascii.ascii_of_nat 47.

Fixpoint has_slash (s : string) : bool :=
  match s with
  | EmptyString => false
  | String c s' => Ascii.eqb c slash || has_slash s'
  end.

(** Text of ASCII characters without NUL. *)
Fixpoint plain_text (s : string) : bool :=
  match s with
  | EmptyString => true
  | String c s' =>
      (0 <? Ascii.N_of_ascii c)%N && (Ascii.N_of_ascii c <? 128)%N
      && plain_text s'
  end.

(** A name that is one component of a path: plain text that is not
    empty, not ["."], and without ["/"]. *)
Definition plain_name (n : string) : bool :=
  negb (String.eqb n "") && negb (String.eqb n ".") && negb (has_slash n)
  && plain_text n.

(** Every builder of the tree of [b] that [write_group] creates a member
    for has a plain name. *)
Fixpoint plain_names (b : Builder) : bool :=
  plain_name (name b) &&
  match b with
  | GroupBuilder _ gs ds ls =>
      forallb (fun '(_, c) => plain_names c) gs &&
      forallb (fun '(_, c) => plain_names c) ds &&
      forallb (fun '(_, c) => plain_names c) ls
  | _ => true
  end.

(** The same for the members that [write_builder] writes under the root:
    the groups and the datasets of the root builder. *)
Definition plain_members (b : Builder) : bool :=
  forallb (fun '(_, c) => plain_names c) (groups b) &&
  forallb (fun '(_, c) => plain_names c) (datasets b).

Definition int_between (lo hi : Z) (v : pyval) : bool :=
  match v with
  | VInt z => (lo <=? z) && (z <? hi)
  | _ => false
  end.

(** [of_ctype t v]: [v] is a value that a dataset of the type [t] holds
    as it is: an integer in the range of an integer type, a float for
    [float64], plain text for variable-length text.  No value is taken
    to be of the type [float32], which rounds, of the byte strings, of
    the reference types, of a Python class or of a record type. *)
Definition of_ctype (t : ctype) (v : pyval) : bool :=
  match t with
  | np_int64 => int_between (- 2 ^ 63) (2 ^ 63) v
  | np_int32 => int_between (- 2 ^ 31) (2 ^ 31) v
  | np_int16 => int_between (- 2 ^ 15) (2 ^ 15) v
  | np_int8 => int_between (- 2 ^ 7) (2 ^ 7) v
  | np_uint32 => int_between 0 (2 ^ 32) v
  | np_uint16 => int_between 0 (2 ^ 16) v
  | np_uint8 => int_between 0 (2 ^ 8) v
  | np_float64 => match v with VFloat _ _ => true | _ => false end
  | vlen_text => match v with VStr s => plain_text s | _ => false end
  | _ => false
  end.

Definition is_int64 (v : pyval) : bool := int_between (- 2 ^ 63) (2 ^ 63) v.

Definition is_float (v : pyval) : bool :=
  match v with VFloat _ _ => true | _ => false end.

Definition is_bool (v : pyval) : bool :=
  match v with VBool _ => true | _ => false end.

Definition attr_string (v : pyval) : bool :=
  match v with VStr s => plain_text s | _ => false end.

(** The attributes of the statements are small, so that each fits the
    header of its object: at most [attr_limit] items, of at most
    [attr_limit] characters. *)
Definition attr_limit : nat := 100.

(** A string of a collection: plain text that is not empty, so that the
    width of the byte strings of the array is not zero. *)
Definition attr_word (v : pyval) : bool :=
  match v with
  | VStr s =>
      negb (String.eqb s "") && plain_text s
      && (String.length s <=? attr_limit)%nat
  | _ => false
  end.

(** The items of a collection that numpy makes an array of one type of:
    words only, integers only, floats only or booleans only, and at least
    one. *)
Definition attr_items (items : list pyval) : bool :=
  match items with
  | [] => false
  | _ :: _ =>
      (length items <=? attr_limit)%nat &&
      (forallb attr_word items || forallb is_int64 items
       || forallb is_float items || forallb is_bool items)
  end.

(** [attr_storable value]: an attribute value that [set_attributes] hands
    to h5py in a form h5py has a type for: a number, plain text, a list
    or tuple of items of one such kind, a set of words. *)
Definition attr_storable (value : attrval) : bool :=
  match value with
  | AVal (VList items) | AVal (VTuple items) => attr_items items
  | AVal (VSet items) =>
      match items with
      | [] => false
      | _ :: _ =>
          (length items <=? attr_limit)%nat && forallb attr_word items
      end
  | AVal v => is_bool v || is_int64 v || is_float v || attr_string v
  | AArray _ _ => false
  end.

(** The name of an attribute: plain text that is not empty. *)
Definition attr_key (key : string) : bool :=
  negb (String.eqb key "") && plain_text key
  && (String.length key <=? attr_limit)%nat.

(** An entry of the attributes of a builder that h5py stores as the
    model of its call does. *)
Definition storable (kv : string * attrval) : bool :=
  attr_key kv.1 && attr_storable kv.2.

(** * Properties *)

(** ** Reasoning about computations *)

Section preserves_rules.
Context (R : relation state) `{!PreOrder R}.

Lemma preserves_ret {A} (a : A) : preserves R (ret a).
Proof. intros s. reflexivity. Qed.

Lemma preserves_raise {A} e : preserves R (@raise A e).
Proof. intros s. reflexivity. Qed.

Lemma preserves_error {A} c msg : preserves R (@error A c msg).
Proof. intros s. reflexivity. Qed.

Lemma preserves_raise_from {A} msg e : preserves R (@raise_from A msg e).
Proof. intros s. reflexivity. Qed.

Lemma preserves_lift {A} (r : res A) : preserves R (lift r).
Proof. intros s. reflexivity. Qed.

Lemma preserves_get_state : preserves R get_state.
Proof. intros s. reflexivity. Qed.

Lemma preserves_modify f : (forall s, R s (f s)) -> preserves R (modify f).
Proof. intros H s. apply H. Qed.

Lemma preserves_bind {A B} (m : M A) (k : A -> M B) :
  preserves R m -> (forall a, preserves R (k a)) -> preserves R (bind m k).
Proof.
  intros Hm Hk s. unfold bind. specialize (Hm s).
  destruct (m s) as [s' [a|e]]; simpl in *; [|done].
  etrans; [exact Hm | apply Hk].
Qed.

Lemma preserves_try_except {A} (m : M A) (h : exc -> M A) :
  preserves R m -> (forall e, preserves R (h e)) -> preserves R (try_except m h).
Proof.
  intros Hm Hh s. unfold try_except. specialize (Hm s).
  destruct (m s) as [s' [a|e]]; simpl in *; [done|].
  etrans; [exact Hm | apply Hh].
Qed.

Lemma preserves_for_each {A} (body : A -> M unit) xs :
  (forall x, x ∈ xs -> preserves R (body x)) -> preserves R (for_each body xs).
Proof.
  induction xs as [|x xs IH]; intros H; simpl.
  - apply preserves_ret.
  - apply preserves_bind; [apply H; left | intros _; apply IH].
    intros y Hy. apply H. by right.
Qed.

Lemma preserves_map_M {A B} (f : A -> M B) xs :
  (forall x, preserves R (f x)) -> preserves R (map_M f xs).
Proof.
  intros H. induction xs as [|x xs IH]; simpl.
  - apply preserves_ret.
  - apply preserves_bind; [apply H | intros y].
    apply preserves_bind; [apply IH | intros ys; apply preserves_ret].
Qed.

Lemma preserves_fold_M {A B} (body : B -> A -> M B) acc xs :
  (forall b x, preserves R (body b x)) -> preserves R (fold_M body acc xs).
Proof.
  intros H. revert acc. induction xs as [|x xs IH]; intros acc; simpl.
  - apply preserves_ret.
  - apply preserves_bind; [apply H | intros b; apply IH].
Qed.
End preserves_rules.

#[local] Instance quiet_preorder : PreOrder quiet.
Proof.
  split.
  - intros s. repeat split. exists []. by rewrite app_nil_r.
  - intros s1 s2 s3 (H1 & H2 & H3 & H4 & H5 & e1 & H6 & H7)
      (G1 & G2 & G3 & G4 & G5 & e2 & G6 & G7).
    repeat split; try congruence.
    exists (e1 ++ e2). split; [|by apply Forall_app].
    by rewrite G6, H6, app_assoc.
Qed.

#[local] Instance queues_preorder : PreOrder queues.
Proof.
  split.
  - intros s. repeat split; [exists []|exists []]; by rewrite app_nil_r.
  - intros s1 s2 s3 (H1 & H2 & H3 & H4 & (q1 & H5) & e1 & H6 & H7)
      (G1 & G2 & G3 & G4 & (q2 & G5) & e2 & G6 & G7).
    repeat split; try congruence.
    + exists (q1 ++ q2). by rewrite G5, H5, app_assoc.
    + exists (e1 ++ e2). split; [|by apply Forall_app].
      by rewrite G6, H6, app_assoc.
Qed.

Lemma quiet_queues s s' : quiet s s' -> queues s s'.
Proof.
  intros (H1 & H2 & H3 & H4 & H5 & H6). repeat split; try done.
  exists []. by rewrite app_nil_r.
Qed.

Lemma preserves_quiet_queues {A} (m : M A) :
  preserves quiet m -> preserves queues m.
Proof. intros H s. apply quiet_queues, H. Qed.

Create HintDb pres.

Lemma quiet_intro s s' :
  open_handles s' = open_handles s -> __file s' = __file s ->
  __path s' = __path s -> __mode s' = __mode s ->
  __ref_queue s' = __ref_queue s -> log s' = log s -> quiet s s'.
Proof.
  intros. repeat split; try done. exists []. by rewrite app_nil_r.
Qed.

Lemma quiet_store_node file p n s : quiet s (store_node file p n s).
Proof. by apply quiet_intro. Qed.

Lemma quiet_set_next_id n s : quiet s (set_next_id n s).
Proof. by apply quiet_intro. Qed.

Lemma quiet_set_built b s : quiet s (set_built b s).
Proof. by apply quiet_intro. Qed.

Lemma quiet_set_read r s : quiet s (set_read r s).
Proof. by apply quiet_intro. Qed.

Lemma preserves_emit e : structural e -> preserves quiet (emit e).
Proof.
  intros He s. repeat split; try done. exists [e]. split; [done|].
  by constructor.
Qed.

Lemma preserves_fresh_id : preserves quiet fresh_id.
Proof. intros s. apply quiet_set_next_id. Qed.

#[local] Hint Resolve quiet_store_node quiet_set_next_id quiet_set_built
  quiet_set_read preserves_emit preserves_fresh_id : pres.
#[local] Hint Extern 1 (structural _) => exact I : pres.

Ltac preserve_step :=
  match goal with
  | |- PreOrder _ => apply _
  | |- forall _, _ => intro
  | |- preserves _ (ret _) => apply preserves_ret
  | |- preserves _ (raise _) => apply preserves_raise
  | |- preserves _ (error _ _) => apply preserves_error
  | |- preserves _ (raise_from _ _) => apply preserves_raise_from
  | |- preserves _ (lift _) => apply preserves_lift
  | |- preserves _ get_state => apply preserves_get_state
  | |- preserves _ (bind _ _) => apply preserves_bind
  | |- preserves _ (try_except _ _) => apply preserves_try_except
  | |- preserves _ (for_each _ _) => apply preserves_for_each
  | |- preserves _ (map_M _ _) => apply preserves_map_M
  | |- preserves _ (fold_M _ _ _) => apply preserves_fold_M
  | |- preserves _ (modify _) => apply preserves_modify
  | |- preserves _ (match ?x with _ => _ end) => destruct x
  | |- preserves _ (let _ := _ in _) => cbv zeta
  | |- _ => first [solve [eauto with pres] | progress cbv beta zeta]
  end.

Ltac preserve := repeat preserve_step.

Lemma preserves_h5_add_member what parent name n ev :
  structural ev -> preserves quiet (h5_add_member what parent name n ev).
Proof. intros. unfold h5_add_member. preserve. Qed.
#[local] Hint Resolve preserves_h5_add_member : pres.

Lemma preserves_h5_create_group parent name :
  preserves quiet (h5_create_group parent name).
Proof. unfold h5_create_group. preserve. Qed.

Lemma preserves_h5_create_dataset parent name shape dt value maxshape chunks :
  preserves quiet (h5_create_dataset parent name shape dt value maxshape chunks).
Proof. unfold h5_create_dataset. preserve. Qed.

Lemma preserves_h5_set_link parent name link :
  preserves quiet (h5_set_link parent name link).
Proof. unfold h5_set_link. preserve. Qed.

Lemma preserves_h5_set_attr obj key value :
  preserves quiet (h5_set_attr obj key value).
Proof. unfold h5_set_attr. preserve. Qed.

Lemma preserves_get_dataset dset : preserves quiet (get_dataset dset).
Proof. unfold get_dataset. preserve. Qed.
#[local] Hint Resolve preserves_h5_create_group preserves_h5_create_dataset
  preserves_h5_set_link preserves_h5_set_attr preserves_get_dataset : pres.

Lemma preserves_h5_shape dset : preserves quiet (h5_shape dset).
Proof. unfold h5_shape. preserve. Qed.

Lemma preserves_h5_resize dset new_shape :
  preserves quiet (h5_resize dset new_shape).
Proof. unfold h5_resize. preserve. Qed.

Lemma preserves_h5_setitem dset sel value :
  preserves quiet (h5_setitem dset sel value).
Proof. unfold h5_setitem. preserve. Qed.

Lemma preserves_h5_getitem f p : preserves quiet (h5_getitem f p).
Proof. unfold h5_getitem. preserve. Qed.

Lemma preserves_the_file : preserves quiet the_file.
Proof. unfold the_file. preserve. Qed.
#[local] Hint Resolve preserves_h5_shape preserves_h5_resize
  preserves_h5_setitem preserves_h5_getitem preserves_the_file : pres.

Lemma preserves_set_attributes obj attrs :
  preserves quiet (set_attributes obj attrs).
Proof. unfold set_attributes. preserve. Qed.

Lemma preserves_write_link parent builder :
  preserves quiet (write_link parent builder).
Proof. unfold write_link. preserve. Qed.
#[local] Hint Resolve preserves_set_attributes preserves_write_link : pres.

Lemma preserves___scalar_fill__ parent name data dtype :
  preserves quiet (__scalar_fill__ parent name data dtype).
Proof. unfold __scalar_fill__. preserve. Qed.

Lemma preserves_write_chunk dset chunk_i :
  preserves quiet (write_chunk dset chunk_i).
Proof. unfold write_chunk. preserve. Qed.
#[local] Hint Resolve preserves___scalar_fill__ preserves_write_chunk : pres.

Lemma preserves___chunked_iter_fill__ parent name data :
  preserves quiet (__chunked_iter_fill__ parent name data).
Proof. unfold __chunked_iter_fill__. preserve. Qed.

Lemma preserves___list_fill__ parent name data dtype_spec_ :
  preserves quiet (__list_fill__ parent name data dtype_spec_).
Proof. unfold __list_fill__. preserve. Qed.

Lemma preserves___get_ref container region :
  preserves quiet (__get_ref container region).
Proof. unfold __get_ref. preserve. Qed.
#[local] Hint Resolve preserves___chunked_iter_fill__ preserves___list_fill__
  preserves___get_ref : pres.

Lemma preserves_fill_refs item new_item refs :
  preserves quiet (fill_refs item new_item refs).
Proof.
  revert new_item. induction refs as [|i refs IH]; intros new_item; simpl.
  - preserve.
  - destruct (item !! i); preserve.
Qed.
#[local] Hint Resolve preserves_fill_refs : pres.

(** An induction principle for builders that reaches the members of a
    group. *)
Lemma Builder_members_ind (P : Builder -> Prop) :
  (forall h gs ds ls,
      Forall (fun x => P x.2) gs -> Forall (fun x => P x.2) ds ->
      Forall (fun x => P x.2) ls -> P (GroupBuilder h gs ds ls)) ->
  (forall h d dt ms, P (DatasetBuilder h d dt ms)) ->
  (forall h r b, P b -> P (RegionBuilder h r b)) ->
  (forall h b, P b -> P (LinkBuilder h b)) ->
  forall b, P b.
Proof.
  intros Hg Hd Hr Hl.
  refine (fix IH (b : Builder) : P b :=
    match b with
    | GroupBuilder h gs ds ls =>
        let go := fix go (l : list (string * Builder))
                    : Forall (fun x => P x.2) l :=
          match l with
          | [] => List.Forall_nil _
          | x :: l' => List.Forall_cons _ x l' (IH x.2) (go l')
          end in
        Hg h gs ds ls (go gs) (go ds) (go ls)
    | DatasetBuilder h d dt ms => Hd h d dt ms
    | RegionBuilder h r b' => Hr h r b' (IH b')
    | LinkBuilder h b' => Hl h b' (IH b')
    end).
Qed.

#[local] Hint Resolve preserves_quiet_queues : pres.

Lemma preserves___queue_ref f : preserves queues (__queue_ref f).
Proof.
  intros s. repeat split; try done.
  - by exists [f].
  - exists []. by rewrite app_nil_r.
Qed.
#[local] Hint Resolve preserves___queue_ref : pres.

Lemma preserves_write_dataset parent builder :
  preserves queues (write_dataset parent builder).
Proof. unfold write_dataset. preserve. Qed.
#[local] Hint Resolve preserves_write_dataset : pres.

Lemma preserves_write_group builder :
  forall parent, preserves queues (write_group parent builder).
Proof.
  induction builder as [h gs ds ls IHg _ _| | |] using Builder_members_ind;
    intros parent; simpl; [|preserve|preserve|preserve].
  apply preserves_bind; [apply _|preserve|intros group].
  apply preserves_bind; [apply _| |preserve].
  { apply preserves_for_each; [apply _|]. intros [n sub] Hin.
    rewrite Forall_forall in IHg. specialize (IHg _ Hin group).
    preserve. }
Qed.
#[local] Hint Resolve preserves_write_group : pres.

Lemma preserves_write_root f_builder : preserves queues (write_root f_builder).
Proof. unfold write_root. preserve. Qed.

(** What a computation that starts by recording [e] leaves in the
    record. *)
Lemma emit_then_quiet {A} e (m : M A) s :
  preserves quiet m ->
  let s' := ((emit e ;;; m) s).1 in
  open_handles s' = open_handles s /\ __file s' = __file s /\
  __path s' = __path s /\ __mode s' = __mode s /\
  __ref_queue s' = __ref_queue s /\
  exists evs, log s' = log s ++ e :: evs /\ Forall structural evs.
Proof.
  intros Hm. unfold bind, emit, modify. simpl.
  specialize (Hm (set_log (log s ++ [e]) s)).
  destruct (m _) as [s' r]; simpl in *.
  destruct r; simpl;
    destruct Hm as (H1 & H2 & H3 & H4 & H5 & evs & H6 & H7); simpl in *;
    (repeat split; try done; exists evs; split; [|done]);
    by rewrite H6, <- app_assoc.
Qed.

Lemma call_spec f s :
  let s' := (call f s).1 in
  open_handles s' = open_handles s /\ __file s' = __file s /\
  __path s' = __path s /\ __mode s' = __mode s /\
  __ref_queue s' = __ref_queue s /\
  exists evs, log s' = log s ++ EvCall (filler_target f) :: evs /\
              Forall structural evs.
Proof.
  unfold call. apply emit_then_quiet. destruct f; preserve.
Qed.

Lemma calls_of_app evs1 evs2 :
  calls_of (evs1 ++ evs2) = calls_of evs1 ++ calls_of evs2.
Proof. apply omap_app. Qed.

Lemma calls_of_structural evs : Forall structural evs -> calls_of evs = [].
Proof.
  induction 1 as [|e evs He _ IH]; [done|].
  destruct e; try exact IH. destruct He.
Qed.

Lemma add_refs_loop_unfold fuel s :
  __add_refs_loop fuel s =
  match last (__ref_queue s) with
  | None => (s, Ok tt)
  | Some call_ =>
      match fuel with
      | O => (s, Raise (Exc RecursionError "the bound of the model is reached" None))
      | S fuel' =>
          match call call_ (set_ref_queue (removelast (__ref_queue s)) s) with
          | (s2, Ok _) => __add_refs_loop fuel' s2
          | (s2, Raise e) => (s2, Raise e)
          end
      end
  end.
Proof.
  destruct fuel; simpl; unfold bind, get_state; simpl;
    destruct (last (__ref_queue s)); reflexivity.
Qed.

Lemma last_Some_removelast {A} (l : list A) x :
  last l = Some x -> l = removelast l ++ [x].
Proof.
  intros H. destruct (decide (l = [])) as [->|Hne]; [done|].
  rewrite (app_removelast_last x Hne) at 1. f_equal. f_equal.
  clear Hne. induction l as [|y [|z l] IH]; simpl in *; [done|congruence|].
  by apply IH.
Qed.

(** As many rounds as the queue has entries are enough: more fuel does not
    change the outcome of the loop. *)
Lemma add_refs_loop_fuel fuel : forall fuel' s,
  (length (__ref_queue s) <= fuel)%nat -> (length (__ref_queue s) <= fuel')%nat ->
  __add_refs_loop fuel s = __add_refs_loop fuel' s.
Proof.
  induction fuel as [|fuel IH]; intros fuel' s Hf Hf';
    rewrite !add_refs_loop_unfold.
  - destruct (__ref_queue s); [done|simpl in Hf; lia].
  - destruct (last (__ref_queue s)) as [c|] eqn:Hlast; [|done].
    pose proof (last_Some_removelast _ _ Hlast) as Hq.
    assert (length (__ref_queue s) = S (length (removelast (__ref_queue s))))
      as Hlen.
    { rewrite Hq at 1. rewrite length_app. simpl. lia. }
    destruct fuel' as [|fuel']; [lia|].
    pose proof (call_spec c (set_ref_queue (removelast (__ref_queue s)) s))
      as (_ & _ & _ & _ & Hcq & _).
    destruct (call c _) as [s2 [[]|e]]; simpl in *; [|done].
    apply IH; rewrite Hcq; lia.
Qed.

(** The loop of [__add_refs]: the entries of the queue are called from the
    last one backwards; when the loop returns, all of them were called and
    the queue is empty. *)
Lemma add_refs_loop_spec fuel : forall s,
  (length (__ref_queue s) <= fuel)%nat ->
  let r := __add_refs_loop fuel s in
  open_handles r.1 = open_handles s /\ __file r.1 = __file s /\
  exists called evs,
    log r.1 = log s ++ evs /\
    calls_of evs = filler_target <$> called /\
    (evs = [] \/ exists p evs', evs = EvCall p :: evs') /\
    (exists rest, __ref_queue s = rest ++ reverse called) /\
    (r.2 = Ok tt -> called = reverse (__ref_queue s) /\ __ref_queue r.1 = []).
Proof.
  induction fuel as [|fuel IH]; intros s Hf; rewrite add_refs_loop_unfold.
  - destruct (__ref_queue s) eqn:Hq; [|simpl in Hf; lia]. simpl.
    repeat split. exists [], []. rewrite app_nil_r. repeat split; try done.
    + by left.
    + by exists [].
  - destruct (last (__ref_queue s)) as [c|] eqn:Hlast.
    + pose proof (last_Some_removelast _ _ Hlast) as Hq.
      assert (length (__ref_queue s) = S (length (removelast (__ref_queue s))))
        as Hlen.
      { rewrite Hq at 1. rewrite length_app. simpl. lia. }
      pose proof (call_spec c (set_ref_queue (removelast (__ref_queue s)) s))
        as (Ho & Hfile & _ & _ & Hcq & evs1 & Hlog & Hst).
      destruct (call c _) as [s2 [[]|e]]; simpl in *.
      * specialize (IH s2). rewrite Hcq in IH.
        destruct IH as (Ho2 & Hfile2 & called & evs & Hlog2 & Hcalls & _ &
                        [rest Hrest] & Hok); [lia|].
        split; [congruence|]. split; [congruence|].
        exists (c :: called), (EvCall (filler_target c) :: evs1 ++ evs).
        split. { rewrite Hlog2, Hlog, <- app_assoc. done. }
        split. { change (EvCall (filler_target c) :: evs1 ++ evs)
                   with ([EvCall (filler_target c)] ++ evs1 ++ evs).
                 rewrite !calls_of_app, (calls_of_structural evs1), Hcalls by done.
                 done. }
        split. { right. by eexists _, _. }
        split. { exists rest. rewrite reverse_cons, app_assoc, <- Hrest. done. }
        intros Hr. destruct (Hok Hr) as [-> Hempty]. split; [|done].
        rewrite Hq at 2. rewrite reverse_app. done.
      * split; [done|]. split; [done|].
        exists [c], (EvCall (filler_target c) :: evs1).
        split; [done|]. split.
        { change (EvCall (filler_target c) :: evs1)
            with ([EvCall (filler_target c)] ++ evs1).
          rewrite calls_of_app, (calls_of_structural evs1) by done. done. }
        split. { right. by eexists _, _. }
        split; [|done]. exists (removelast (__ref_queue s)). done.
    + simpl. assert (__ref_queue s = []) as Hq.
      { destruct (__ref_queue s) as [|x l] eqn:E; [done|].
        exfalso. clear -Hlast. revert x Hlast.
        induction l as [|y l IHl]; intros x Hx; simpl in Hx; [done|].
        by apply (IHl y). }
      repeat split. exists [], []. rewrite app_nil_r, Hq.
      repeat split; try done; [by left|by exists []].
Qed.

(** ** [open], [close] and the handle *)

#[local] Instance unchanged_io_preorder : PreOrder unchanged_io.
Proof.
  split.
  - by intros s.
  - intros s1 s2 s3 (H1 & H2 & H3 & H4) (G1 & G2 & G3 & G4).
    repeat split; congruence.
Qed.

#[local] Hint Extern 1 (unchanged_io _ _) => (by repeat split) : pres.

Lemma preserves_fresh_id_io : preserves unchanged_io fresh_id.
Proof. by intros s. Qed.
#[local] Hint Resolve preserves_fresh_id_io : pres.

Lemma preserves_h5_File filename mode :
  preserves unchanged_io (h5_File filename mode).
Proof. unfold h5_File. preserve. Qed.
#[local] Hint Resolve preserves_h5_File : pres.

Lemma preserves_open : preserves unchanged_io open.
Proof. unfold open. preserve. Qed.

(** When [open] returns, [self.__file] is a handle on [self.__path] that is
    open. *)
Lemma open_acquires s s' :
  open s = (s', Ok tt) ->
  exists f, __file s' = Some f /\ f_id f ∈ open_handles s' /\
            f_filename f = __path s.
Proof.
  unfold open, h5_File, bind, get_state, fresh_id, modify, ret, error, raise.
  simpl. intros H.
  repeat match type of H with
         | context [if ?b then _ else _] => destruct b; simpl in H
         end;
    simplify_eq;
    (eexists; split; [reflexivity|]; simpl; split; [set_solver|done]).
Qed.

(** After [close] the handle is no longer open. *)
Lemma close_releases s f :
  __file s = Some f ->
  (close s).2 = Ok tt /\ f_id f ∉ open_handles (close s).1.
Proof.
  intros Hf. unfold close, bind, get_state, modify. simpl. rewrite Hf. simpl.
  split; [done|]. intros [_ Hn]%elem_of_difference.
  apply Hn. by apply elem_of_singleton.
Qed.

(** ** The read path keeps the session quiet *)

Lemma preserves___set_built fpath p b : preserves quiet (__set_built fpath p b).
Proof. unfold __set_built. preserve. Qed.

Lemma preserves___get_built fpath p : preserves quiet (__get_built fpath p).
Proof. unfold __get_built. preserve. Qed.

Lemma preserves_new_header h5 name attrs :
  preserves quiet (new_header h5 name attrs).
Proof. unfold new_header. preserve. Qed.
#[local] Hint Resolve preserves___set_built preserves___get_built
  preserves_new_header : pres.

Lemma preserves___read_dataset fuel :
  forall h5 name, preserves quiet (__read_dataset fuel h5 name).
Proof.
  induction fuel as [|fuel IH]; intros h5 name; simpl; preserve.
Qed.
#[local] Hint Resolve preserves___read_dataset : pres.

Lemma preserves___read_group fuel :
  forall h5 name, preserves quiet (__read_group fuel h5 name).
Proof.
  induction fuel as [|fuel IH]; intros h5 name; simpl; preserve.
Qed.
#[local] Hint Resolve preserves___read_group : pres.

(** ** The file handle (C9) *)

(** C9, as the code has it.  Neither [write_builder] nor [read_builder]
    closes the handle that [open] acquires at their start: on every exit,
    returning or raising, [self.__file] is that handle and it is still
    open.  It is released by [close] alone. *)
Theorem handle_stays_open (s s0 : state) :
  open s = (s0, Ok tt) ->
  (forall h gs ds ls,
      let r := write_builder (GroupBuilder h gs ds ls) s in
      exists f, __file r.1 = Some f /\ f_id f ∈ open_handles r.1) /\
  (forall fuel,
      let r := read_builder fuel s in
      exists f, __file r.1 = Some f /\ f_id f ∈ open_handles r.1) /\
  (forall s' f, __file s' = Some f -> f_id f ∉ open_handles (close s').1).
Proof.
  intros Hopen.
  destruct (open_acquires _ _ Hopen) as (f & Hf & Hin & _).
  split; [|split].
  - intros h gs ds ls r. subst r. simpl. unfold bind.
    rewrite Hopen.
    pose proof (preserves_write_root (GroupBuilder h gs ds ls) s0)
      as (Ho1 & Hf1 & _).
    destruct (write_root _ s0) as [s1 [[]|e1]]; simpl in *.
    + unfold __add_refs, bind, get_state; simpl.
      pose proof (add_refs_loop_spec (length (__ref_queue s1)) s1 (le_n _))
        as (Ho2 & Hf2 & _).
      simpl in *. exists f. rewrite Hf2, Hf1, Ho2, Ho1. auto.
    + exists f. rewrite Hf1, Ho1. auto.
  - intros fuel r. subst r. unfold read_builder, bind. rewrite Hopen.
    unfold get_state, the_file, bind, get_state. simpl. rewrite Hf. simpl.
    destruct (__read s0 !! f_filename f); simpl; [eauto|].
    pose proof (preserves___read_group fuel (file_root f) (Some ROOT_NAME) s0)
      as (Ho1 & Hf1 & _).
    destruct (__read_group _ _ _ s0) as [s1 [b|e1]]; simpl in *;
      exists f; rewrite Hf1, Ho1; auto.
  - intros s' f' Hf'. by apply close_releases.
Qed.

(** On a fresh object, [open] returns and the session of
    [sample_references] ends with the handle still open. *)
Lemma handle_stays_open_witness :
  open sample_io = ((open sample_io).1, Ok tt) /\
  exists f,
    __file (write_builder sample_references sample_io).1 = Some f /\
    f_id f ∈ open_handles (write_builder sample_references sample_io).1.
Proof.
  assert (open sample_io = ((open sample_io).1, Ok tt)) as Hopen
    by (vm_compute; reflexivity).
  split; [exact Hopen|].
  exact (proj1 (handle_stays_open sample_io _ Hopen)
           (sample_header "root" []) []
           [("values", sample_values); ("window", sample_window);
            ("pointer", sample_pointer)] []).
Defined.

(** C9, as stated, fails: [write_builder] on an empty root returns, and
    the handle it opened is still open. *)
Lemma write_builder_leaves_handle_open :
  (write_builder sample_empty sample_io).2 = Ok tt /\
  __file (write_builder sample_empty sample_io).1 = Some (mk_File 0 "f.h5" true) /\
  (0%nat ∈ open_handles (write_builder sample_empty sample_io).1) /\
  ~ (forall f, __file (write_builder sample_empty sample_io).1 = Some f ->
               f_id f ∉ open_handles (write_builder sample_empty sample_io).1).
Proof.
  assert (0%nat ∈ open_handles (write_builder sample_empty sample_io).1) as Hin.
  { apply (bool_decide_unpack _). vm_compute. exact I. }
  split; [vm_compute; reflexivity|]. split; [vm_compute; reflexivity|].
  split; [exact Hin|].
  intros H. apply (H (mk_File 0 "f.h5" true)); [vm_compute; reflexivity|exact Hin].
Qed.

(** ** Dtype resolution (C2) *)

(** A compound descriptor never resolves to [None]: the helper returns the
    record dtype or raises. *)
Lemma resolve_helper_list fields :
  __resolve_dtype_helper__ (DtList fields) <> Ok None.
Proof.
  simpl.
  match goal with |- res_bind ?x _ <> _ => destruct x end; simpl; discriminate.
Qed.

(** C2, as stated, fails: ["number"] is a descriptor that is not [None],
    and what it resolves to depends on the data. *)
Lemma unlisted_tag_inspects_data :
  DtStr "number" <> DtNone /\
  __resolve_dtype__ (DtStr "number") (VList [VFloat 15 (-1); VFloat 25 (-1)])
    = Ok (py_class TFloat) /\
  __resolve_dtype__ (DtStr "number") (VStr "a") = Ok vlen_text /\
  ~ (forall dtype data data',
       dtype <> DtNone ->
       __resolve_dtype__ dtype data = __resolve_dtype__ dtype data').
Proof.
  split; [discriminate|]. split; [reflexivity|]. split; [reflexivity|].
  intros H.
  specialize (H (DtStr "number") (VList [VFloat 15 (-1); VFloat 25 (-1)])
                (VStr "a")).
  discriminate H. discriminate.
Qed.

(** C2, as the code has it.  A descriptor that the helper resolves wins
    over the data: a tag or a reference type listed in [__dtypes] gives the
    listed type, a compound field list gives the same outcome whatever the
    data.  When the helper resolves a descriptor to [None] - the descriptor
    is [None], or its tag is not listed - the data is introspected: a
    string is variable-length text, a scalar has its own class, a
    non-empty list or tuple resolves as its first element does, and an
    empty list or tuple makes the resolution raise.  In particular
    [[1.5, 2.5]] without a dtype resolves to the float class. *)
Theorem resolve_dtype_descriptor_first :
  (forall tag t data,
      dict_get __dtypes tag = Some t ->
      __resolve_dtype__ (DtStr tag) data = Ok t) /\
  (forall reftype t data,
      dict_get __dtypes reftype = Some t ->
      __resolve_dtype__ (DtDict (Some reftype)) data = Ok t) /\
  (forall fields data data',
      __resolve_dtype__ (DtList fields) data
      = __resolve_dtype__ (DtList fields) data') /\
  (forall dtype,
      __resolve_dtype_helper__ dtype = Ok None ->
      (forall str, __resolve_dtype__ dtype (VStr str) = Ok vlen_text) /\
      (forall z, __resolve_dtype__ dtype (VInt z) = Ok (py_class TInt)) /\
      (forall m e, __resolve_dtype__ dtype (VFloat m e) = Ok (py_class TFloat)) /\
      (forall b, __resolve_dtype__ dtype (VBool b) = Ok (py_class TBool)) /\
      (forall x rest,
          __resolve_dtype__ dtype (VList (x :: rest)) = __resolve_dtype__ dtype x /\
          __resolve_dtype__ dtype (VTuple (x :: rest)) = __resolve_dtype__ dtype x) /\
      is_ok (__resolve_dtype__ dtype (VList [])) = false /\
      is_ok (__resolve_dtype__ dtype (VTuple [])) = false) /\
  __resolve_dtype_helper__ DtNone = Ok None /\
  (forall tag, dict_get __dtypes tag = None ->
               __resolve_dtype_helper__ (DtStr tag) = Ok None) /\
  __resolve_dtype__ DtNone (VList [VFloat 15 (-1); VFloat 25 (-1)])
    = Ok (py_class TFloat).
Proof.
  split; [|split; [|split; [|split; [|split; [|split]]]]].
  - intros tag t data H. unfold __resolve_dtype__.
    change (__resolve_dtype_helper__ (DtStr tag))
      with (@Ok (option ctype) (dict_get __dtypes tag)).
    by rewrite H.
  - intros reftype t data H. unfold __resolve_dtype__.
    change (__resolve_dtype_helper__ (DtDict (Some reftype)))
      with (@Ok (option ctype) (dict_get __dtypes reftype)).
    by rewrite H.
  - intros fields data data'. unfold __resolve_dtype__.
    pose proof (resolve_helper_list fields) as Hne.
    destruct (__resolve_dtype_helper__ (DtList fields)) as [[t|]|e];
      simpl; congruence.
  - intros dtype H. unfold __resolve_dtype__. rewrite H. simpl.
    repeat split; reflexivity.
  - reflexivity.
  - intros tag H.
    change (__resolve_dtype_helper__ (DtStr tag))
      with (@Ok (option ctype) (dict_get __dtypes tag)).
    by rewrite H.
  - reflexivity.
Qed.

(** The tag ["float64"] is listed: it wins over data that cannot be
    typed. *)
Lemma resolve_dtype_descriptor_first_witness :
  __resolve_dtype__ (DtStr "float64") (VList []) = Ok np_float64.
Proof.
  apply (proj1 resolve_dtype_descriptor_first "float64" np_float64 (VList [])).
  reflexivity.
Defined.

(** ** Chunked writes (C3, C10) *)

Lemma expand_dims_from_elem max_bounds shape : forall i dims k,
  expand_dims_from i max_bounds shape = Ok dims ->
  k ∈ dims <->
  exists j z n, k = (i + j)%nat /\ max_bounds !! j = Some (BInt z) /\
                shape !! k = Some n /\ n < z.
Proof.
  induction max_bounds as [|v rest IH]; intros i dims k H; simpl in H.
  - injection H as <-. split; [by intros ?%elem_of_nil|].
    by intros (j & z & n & _ & ? & _).
  - assert (forall dims', expand_dims_from (S i) rest shape = Ok dims' ->
              k ∈ dims' <->
              exists j z n, k = (i + S j)%nat /\ (v :: rest) !! S j = Some (BInt z) /\
                            shape !! k = Some n /\ n < z) as IH'.
    { intros dims' Hd. rewrite (IH _ _ k Hd). split.
      - intros (j & z & n & -> & ? & ? & ?). exists j, z, n.
        split; [lia|done].
      - intros (j & z & n & -> & ? & ? & ?). exists j, z, n.
        split; [lia|done]. }
    destruct v as [|z|bs].
    + rewrite (IH' _ H). split.
      * intros (j & z & n & ? & ? & ?). by exists (S j), z, n.
      * intros (j & z & n & -> & Hj & ?). destruct j as [|j]; [done|].
        by exists j, z, n.
    + destruct (shape !! i) as [extent|] eqn:Hi; [|done].
      destruct (expand_dims_from (S i) rest shape) as [ds|] eqn:Hds; [|done].
      simpl in H. injection H as <-. specialize (IH' _ eq_refl).
      destruct (extent <? z) eqn:Hlt.
      * rewrite elem_of_cons, IH'. split.
        -- intros [->|(j & z' & n & ? & ? & ?)].
           ++ exists 0%nat, z, extent. rewrite Nat.add_0_r. repeat split; try done.
              by apply Z.ltb_lt.
           ++ by exists (S j), z', n.
        -- intros (j & z' & n & -> & Hj & Hn & Hlt').
           destruct j as [|j]; [left; lia|right]. by exists j, z', n.
      * rewrite IH'. split.
        -- intros (j & z' & n & ? & ? & ?). by exists (S j), z', n.
        -- intros (j & z' & n & -> & Hj & Hn & Hlt').
           destruct j as [|j]; [|by exists j, z', n].
           exfalso. simpl in Hj. injection Hj as ->.
           rewrite Nat.add_0_r in Hn. rewrite Hi in Hn. injection Hn as ->.
           apply Z.ltb_ge in Hlt. lia.
    + destruct (shape !! i); done.
Qed.

Lemma assign_dims_lookup max_bounds dims : forall new_shape k,
  assign_dims new_shape max_bounds dims !! k =
  (fun n => if decide (k ∈ dims)
            then match max_bounds !! k with Some (BInt z) => z | _ => n end
            else n) <$> new_shape !! k.
Proof.
  induction dims as [|i dims IH]; intros sh k; simpl.
  - by destruct (sh !! k).
  - assert (forall n : Z,
              (forall z, max_bounds !! i <> Some (BInt z)) ->
              (if decide (k ∈ dims)
               then match max_bounds !! k with Some (BInt z) => z | _ => n end
               else n)
              = (if decide (k ∈ i :: dims)
                 then match max_bounds !! k with Some (BInt z) => z | _ => n end
                 else n)) as Hskip.
    { intros n Hi. destruct (decide (k ∈ dims)) as [Hin|Hnin].
      - by rewrite decide_True by (by right).
      - destruct (decide (k ∈ i :: dims)) as [[->|?]%elem_of_cons|?]; try done.
        destruct (max_bounds !! i) as [[|z|]|]; try done. by destruct (Hi z). }
    destruct (max_bounds !! i) as [[|z|]|] eqn:Hi.
    + rewrite IH. destruct (sh !! k); simpl; [|done]. f_equal. by apply Hskip.
    + rewrite IH. destruct (decide (k = i)) as [->|Hne].
      * destruct (sh !! i) as [n|] eqn:Hk.
        -- rewrite list_lookup_insert_eq by (by eapply lookup_lt_Some). simpl.
           f_equal. rewrite Hi.
           rewrite (decide_True (P := i ∈ i :: dims)) by (by left).
           by destruct (decide (i ∈ dims)).
        -- rewrite list_insert_ge by (by apply lookup_ge_None). by rewrite Hk.
      * rewrite list_lookup_insert_ne by done.
        destruct (sh !! k) as [n|]; simpl; [|done]. f_equal.
        destruct (decide (k ∈ dims)).
        -- by rewrite decide_True by (by right).
        -- rewrite decide_False; [done|by intros [?|?]%elem_of_cons].
    + rewrite IH. destruct (sh !! k); simpl; [|done]. f_equal. by apply Hskip.
    + rewrite IH. destruct (sh !! k); simpl; [|done]. f_equal. by apply Hskip.
Qed.

(** The new shape that the loop body computes is [grown]. *)
Lemma assign_dims_grown max_bounds shape dims :
  expand_dims max_bounds shape = Ok dims ->
  assign_dims shape max_bounds dims = grown shape max_bounds.
Proof.
  intros H. apply list_eq. intros k.
  rewrite assign_dims_lookup. unfold grown. rewrite list_lookup_imap.
  destruct (shape !! k) as [n|] eqn:Hk; simpl; [|done]. f_equal.
  pose proof (expand_dims_from_elem _ _ _ _ k H) as Hel.
  destruct (decide (k ∈ dims)) as [Hin|Hnin].
  - apply Hel in Hin as (j & z & n' & -> & Hj & Hn & Hlt). simpl in *.
    rewrite Hj. rewrite Hk in Hn. injection Hn as <-.
    by rewrite (proj2 (Z.ltb_lt _ _) Hlt).
  - destruct (max_bounds !! k) as [[|z|]|] eqn:Hb; try done.
    destruct (n <? z) eqn:Hlt; [|done].
    exfalso. apply Hnin, Hel. exists k, z, n. repeat split; try done.
    by apply Z.ltb_lt.
Qed.

Lemma expand_dims_nil max_bounds shape :
  expand_dims max_bounds shape = Ok [] ->
  grown shape max_bounds = shape.
Proof.
  intros H. rewrite <- (assign_dims_grown _ _ _ H). done.
Qed.

(** *** The steps of the store, as equations *)

Lemma lookup_store_node_eq file p n s :
  lookup_node (store_node file p n s) file p = Some n.
Proof.
  unfold lookup_node, store_node. simpl.
  rewrite lookup_insert_eq. apply lookup_insert_eq.
Qed.

Lemma lookup_node_set_log l s file p :
  lookup_node (set_log l s) file p = lookup_node s file p.
Proof. done. Qed.

Lemma get_dataset_eq dset s d :
  lookup_node s (h_file dset) (h_name dset) = Some (NDataset d) ->
  get_dataset dset s = (s, Ok d).
Proof. intros H. unfold get_dataset, bind, get_state. simpl. by rewrite H. Qed.

Lemma h5_shape_eq dset s d :
  lookup_node s (h_file dset) (h_name dset) = Some (NDataset d) ->
  h5_shape dset s = (s, Ok (ds_shape d)).
Proof. intros H. unfold h5_shape, bind. by rewrite (get_dataset_eq _ _ _ H). Qed.

Lemma h5_resize_eq dset new_shape s d :
  lookup_node s (h_file dset) (h_name dset) = Some (NDataset d) ->
  h_writable dset = true -> ds_chunked d = true ->
  fits new_shape (ds_maxshape d) = true ->
  h5_resize dset new_shape s =
  (set_log (log s ++ [EvResize (h_name dset) new_shape])
     (store_node (h_file dset) (h_name dset) (NDataset (resized d new_shape)) s),
   Ok tt).
Proof.
  intros H Hw Hc Hf. unfold h5_resize, bind.
  rewrite (get_dataset_eq _ _ _ H), Hw, Hf. unfold resized.
  destruct (ds_chunked d); [reflexivity|discriminate].
Qed.

Lemma h5_resize_inv dset new_shape s s' d :
  lookup_node s (h_file dset) (h_name dset) = Some (NDataset d) ->
  h5_resize dset new_shape s = (s', Ok tt) ->
  s' = set_log (log s ++ [EvResize (h_name dset) new_shape])
         (store_node (h_file dset) (h_name dset)
            (NDataset (resized d new_shape)) s).
Proof.
  intros H. unfold h5_resize, bind. rewrite (get_dataset_eq _ _ _ H).
  unfold resized.
  destruct (h_writable dset), (ds_chunked d), (fits new_shape (ds_maxshape d));
    simpl; intros E; try done.
  unfold emit, modify in E. by simplify_eq/=.
Qed.

Lemma h5_setitem_inv dset sel value s s' d :
  lookup_node s (h_file dset) (h_name dset) = Some (NDataset d) ->
  h5_setitem dset sel value s = (s', Ok tt) ->
  exists dims,
    all_positions (ds_shape d) (sel_components sel) = Ok dims /\
    s' = set_log (log s ++ [EvSetItem (h_name dset) sel])
           (store_node (h_file dset) (h_name dset)
              (NDataset (written d sel value dims)) s).
Proof.
  intros H. unfold h5_setitem, bind. rewrite (get_dataset_eq _ _ _ H).
  destruct (h_writable dset); simpl; [|done].
  unfold lift.
  destruct (all_positions (ds_shape d) (sel_components sel)) as [dims|e];
    simpl; [|done].
  case_bool_decide; simpl; [|done].
  intros E. exists dims. split; [done|].
  unfold emit, modify in E. by simplify_eq/=.
Qed.

(** The loop body of [__chunked_iter_fill__] on a stored dataset: when it
    returns, the bound of the selection was computed, the extent is
    [grown] by it, and the record shows the resize, if there was one,
    before the write. *)
Lemma write_chunk_spec dset chunk_i s s' d :
  lookup_node s (h_file dset) (h_name dset) = Some (NDataset d) ->
  write_chunk dset chunk_i s = (s', Ok tt) ->
  exists b d',
    __selection_max_bounds__ (dc_selection chunk_i) = Ok b /\
    lookup_node s' (h_file dset) (h_name dset) = Some (NDataset d') /\
    ds_shape d' = grown (ds_shape d) (as_bounds_tuple b) /\
    exists resize,
      log s' = log s ++ resize ++ [EvSetItem (h_name dset) (dc_selection chunk_i)] /\
      (resize = [] /\ ds_shape d' = ds_shape d \/
       resize = [EvResize (h_name dset) (ds_shape d')]).
Proof.
  intros Hd. unfold write_chunk, bind, lift.
  destruct (__selection_max_bounds__ (dc_selection chunk_i)) as [b|e];
    simpl; [|done].
  rewrite (h5_shape_eq _ _ _ Hd).
  destruct (expand_dims (as_bounds_tuple b) (ds_shape d)) as [dims|e] eqn:Hdims;
    simpl; [|done].
  case_bool_decide as Hlen; simpl.
  - rewrite (h5_shape_eq _ _ _ Hd).
    destruct (h5_resize dset _ s) as [s1 [[]|e]] eqn:Hres; simpl; [|done].
    apply (h5_resize_inv _ _ _ _ _ Hd) in Hres.
    rewrite (assign_dims_grown _ _ _ Hdims) in Hres.
    intros Hset.
    assert (lookup_node s1 (h_file dset) (h_name dset)
            = Some (NDataset (resized d (grown (ds_shape d) (as_bounds_tuple b)))))
      as Hd1.
    { rewrite Hres, lookup_node_set_log. apply lookup_store_node_eq. }
    destruct (h5_setitem_inv _ _ _ _ _ _ Hd1 Hset) as (ps & Hps & ->).
    exists b, (written (resized d (grown (ds_shape d) (as_bounds_tuple b)))
                 (dc_selection chunk_i) (dc_data chunk_i) ps).
    split; [done|]. split.
    { rewrite lookup_node_set_log. apply lookup_store_node_eq. }
    split; [done|].
    exists [EvResize (h_name dset) (grown (ds_shape d) (as_bounds_tuple b))].
    split; [|by right]. simpl. rewrite Hres. simpl. by rewrite <- app_assoc.
  - intros Hset.
    destruct (h5_setitem_inv _ _ _ _ _ _ Hd Hset) as (ps & Hps & ->).
    assert (dims = []) as -> by (destruct dims; [done|simpl in Hlen; lia]).
    exists b, (written d (dc_selection chunk_i) (dc_data chunk_i) ps).
    split; [done|]. split.
    { rewrite lookup_node_set_log. apply lookup_store_node_eq. }
    split; [simpl; by rewrite (expand_dims_nil _ _ Hdims)|].
    exists []. split; [done|]. left. done.
Qed.

(** *** Appending a chunk to a one-dimensional dataset *)

Lemma h5_setitem_eq dset sel value s d dims :
  lookup_node s (h_file dset) (h_name dset) = Some (NDataset d) ->
  h_writable dset = true ->
  all_positions (ds_shape d) (sel_components sel) = Ok dims ->
  let idxs := index_tuples dims in
  let depth := (length (ds_shape d)
                - length (filter (fun c => is_int_sel c = true) (sel_components sel)))%nat in
  let values := flatten_depth depth value in
  length (if bool_decide (length values = 1%nat)
          then replicate (length idxs) (default VNone (head values))
          else values) = length idxs ->
  h5_setitem dset sel value s =
  (set_log (log s ++ [EvSetItem (h_name dset) sel])
     (store_node (h_file dset) (h_name dset)
        (NDataset (written d sel value dims)) s), Ok tt).
Proof.
  intros H Hw Hp idxs depth values Hlen. unfold h5_setitem, bind.
  rewrite (get_dataset_eq _ _ _ H), Hw. simpl. unfold lift. rewrite Hp. simpl.
  fold depth. fold values. fold idxs.
  rewrite bool_decide_eq_true_2 by exact Hlen. reflexivity.
Qed.

Lemma flatten_depth_1_list items : flatten_depth 1 (VList items) = items.
Proof.
  simpl. induction items as [|x items IH]; [done|]. simpl. by f_equal.
Qed.

Lemma index_tuples_1 (ps : list Z) : index_tuples [ps] = (fun i => [i]) <$> ps.
Proof.
  simpl. induction ps as [|p ps IH]; [done|]. simpl. by f_equal.
Qed.

Lemma write_cells_notin idxs : forall cells values k,
  k ∉ idxs -> write_cells cells idxs values !! k = cells !! k.
Proof.
  induction idxs as [|i idxs IH]; intros cells values k Hk; simpl; [done|].
  destruct values as [|v values]; [done|].
  rewrite IH by (intros ?; apply Hk; by right).
  apply lookup_insert_ne. intros ->. apply Hk. by left.
Qed.

Lemma write_cells_lookup idxs : forall cells values j k v,
  NoDup idxs -> idxs !! j = Some k -> values !! j = Some v ->
  write_cells cells idxs values !! k = Some v.
Proof.
  induction idxs as [|i idxs IH]; intros cells values j k v Hnd Hj Hv; [done|].
  destruct values as [|v0 values]; [done|]. simpl.
  apply NoDup_cons in Hnd as [Hni Hnd].
  destruct j as [|j]; simpl in *.
  - simplify_eq. rewrite write_cells_notin by done. apply lookup_insert_eq.
  - by eapply IH.
Qed.

Lemma slice_positions_range extent n len :
  0 <= n -> 0 <= len -> n + len <= extent ->
  slice_positions extent (Some n) (Some (n + len)) None = Ok (seqZ n len).
Proof.
  intros Hn Hlen Hext. unfold slice_positions. simpl.
  rewrite (proj2 (Z.ltb_ge n 0)) by lia.
  rewrite (proj2 (Z.ltb_ge (n + len) 0)) by lia.
  rewrite !Z.min_l by lia. f_equal.
  destruct (n + len <=? n) eqn:Hle.
  - apply Z.leb_le in Hle. assert (len = 0) as -> by lia. done.
  - replace ((n + len - n + 1 - 1) / 1) with len by (rewrite Z.div_1_r; lia).
    replace (seqZ n len) with (seqZ (n + 0) len) by (f_equal; lia).
    rewrite <- (fmap_add_seqZ n 0 len).
    apply list_fmap_ext. intros _ k _. lia.
Qed.

Lemma read_after_append (c c1 : gmap (list Z) pyval) n items :
  0 <= n ->
  (forall i, 0 <= i < n -> c1 !! [i] = c !! [i]) ->
  (fun i => default VNone
              (write_cells c1 ((fun i => [i]) <$> seqZ n (Z.of_nat (length items)))
                 items !! [i]))
    <$> seqZ 0 (n + Z.of_nat (length items))
  = ((fun i => default VNone (c !! [i])) <$> seqZ 0 n) ++ items.
Proof.
  intros Hn Hc. set (len := Z.of_nat (length items)).
  rewrite seqZ_app by lia. rewrite fmap_app. f_equal.
  - apply list_fmap_ext. intros j i Hi.
    apply lookup_seqZ in Hi as [-> Hj].
    rewrite write_cells_notin; [by rewrite Hc by lia|].
    intros (k & Hk & Hin)%list_elem_of_fmap.
    apply elem_of_seqZ in Hin. simplify_eq. lia.
  - apply list_eq. intros j. rewrite list_lookup_fmap.
    destruct (items !! j) as [v|] eqn:Hv.
    + assert (j < length items)%nat as Hj by (by eapply lookup_lt_Some).
      rewrite lookup_seqZ_lt by (unfold len; lia).
      simpl. erewrite write_cells_lookup; [done| |..|exact Hv].
      * apply NoDup_fmap; [by intros ?? [= ->]|apply NoDup_seqZ].
      * rewrite list_lookup_fmap.
        rewrite lookup_seqZ_lt by (unfold len; lia).
        done.
    + apply lookup_ge_None in Hv.
      rewrite lookup_seqZ_ge; [done|]. unfold len. lia.
Qed.

Lemma expand_dims_1 z n :
  expand_dims [BInt z] [n] = Ok (if n <? z then [0%nat] else []).
Proof. reflexivity. Qed.

(** Writing the chunk [[n : n + len]] to a growable one-dimensional
    dataset of extent [n]: the call returns, the extent becomes [n + len]
    and the values of the chunk follow the values already there. *)
Lemma append_chunk dset s d n items :
  lookup_node s (h_file dset) (h_name dset) = Some (NDataset d) ->
  h_writable dset = true ->
  ds_shape d = [n] -> 0 <= n -> ds_maxshape d = [None] -> ds_chunked d = true ->
  exists s' d',
    write_chunk dset
      (mk_DataChunk (SSlice (Some n) (Some (n + Z.of_nat (length items))) None)
         (VList items)) s = (s', Ok tt) /\
    lookup_node s' (h_file dset) (h_name dset) = Some (NDataset d') /\
    ds_shape d' = [n + Z.of_nat (length items)] /\
    ds_maxshape d' = [None] /\ ds_chunked d' = true /\
    read_cells d' = read_cells d ++ items.
Proof.
  intros Hd Hw Hshape Hn Hmax Hch.
  set (len := Z.of_nat (length items)).
  set (sel := SSlice (Some n) (Some (n + len)) None).
  assert (forall (d1 : dataset) (s1 : state),
            lookup_node s1 (h_file dset) (h_name dset) = Some (NDataset d1) ->
            ds_shape d1 = [n + len] -> ds_maxshape d1 = [None] ->
            ds_chunked d1 = true ->
            (forall i, 0 <= i < n -> ds_cells d1 !! [i] = ds_cells d !! [i]) ->
            exists s' d',
              h5_setitem dset sel (VList items) s1 = (s', Ok tt) /\
              lookup_node s' (h_file dset) (h_name dset) = Some (NDataset d') /\
              ds_shape d' = [n + len] /\ ds_maxshape d' = [None] /\
              ds_chunked d' = true /\ read_cells d' = read_cells d ++ items)
    as Hwrite.
  { intros d1 s1 Hd1 Hs1 Hm1 Hc1 Hcells.
    assert (all_positions (ds_shape d1) (sel_components sel) = Ok [seqZ n len])
      as Hpos.
    { rewrite Hs1. unfold sel. cbn [all_positions sel_components dim_positions].
      rewrite slice_positions_range by (unfold len; lia).
      done. }
    eexists _, _. split; [|split; [rewrite lookup_node_set_log;
                                   apply lookup_store_node_eq|]].
    - apply (h5_setitem_eq _ _ _ _ _ _ Hd1 Hw Hpos).
      rewrite Hs1. simpl length. change (1 - 0)%nat with 1%nat.
      change (items ≫= λ x : pyval, [x]) with (flatten_depth 1 (VList items)).
      change (seqZ n len ≫= λ i : Z, [[i]]) with (index_tuples [seqZ n len]).
      rewrite flatten_depth_1_list, index_tuples_1, length_fmap, length_seqZ.
      case_bool_decide as H1; [by rewrite length_replicate|unfold len; lia].
    - unfold written. simpl. repeat split; try done.
      unfold read_cells at 1. simpl. rewrite Hs1. simpl length.
      change (1 - 0)%nat with 1%nat.
      change (items ≫= λ x : pyval, [x]) with (flatten_depth 1 (VList items)).
      change (seqZ n len ≫= λ i : Z, [[i]]) with (index_tuples [seqZ n len]).
      rewrite flatten_depth_1_list, index_tuples_1.
      assert ((if bool_decide (length items = 1%nat)
               then replicate (length ((fun i => [i]) <$> seqZ n len))
                      (default VNone (head items))
               else items) = items) as ->.
      { case_bool_decide as H1; [|done].
        destruct items as [|x [|y items]]; simpl in H1; try done. }
      unfold read_cells. rewrite Hshape.
      by apply read_after_append. }
  unfold write_chunk, bind, lift. simpl dc_selection. simpl dc_data.
  change (__selection_max_bounds__ sel) with (@Ok bound (BInt (n + len))).
  cbv beta iota. simpl as_bounds_tuple.
  rewrite (h5_shape_eq _ _ _ Hd), Hshape. cbv beta iota.
  rewrite expand_dims_1. cbv beta iota.
  destruct (n <? n + len) eqn:Hlt; simpl.
  - rewrite (h5_shape_eq _ _ _ Hd), Hshape. cbv beta iota. simpl assign_dims.
    rewrite (h5_resize_eq _ _ _ _ Hd Hw Hch) by (by rewrite Hmax).
    cbv beta iota.
    eapply Hwrite;
      [rewrite lookup_node_set_log; apply lookup_store_node_eq
      |done|done|done|].
    intros i Hi. simpl.
    destruct (ds_cells d !! [i]) as [v|] eqn:Hv.
    + apply map_lookup_filter_Some. split; [done|]. simpl.
      unfold within. simpl. apply Z.ltb_lt in Hlt.
      rewrite (proj2 (Z.leb_le 0 i)) by lia.
      rewrite (proj2 (Z.ltb_lt i (n + len))) by lia. done.
    + apply map_lookup_filter_None. by left.
  - apply Z.ltb_ge in Hlt. assert (len = 0) as Hlen by (unfold len in *; lia).
    eapply Hwrite; [exact Hd| |done|done|done].
    rewrite Hshape, Hlen. f_equal. lia.
Qed.

Lemma h5_add_member_eq what parent name_ n ev s attrs :
  lookup_node s (h_file parent) (h_name parent) = Some (NGroup attrs) ->
  h_writable parent = true ->
  lookup_node s (h_file parent) (h_name parent ++ [name_]) = None ->
  h5_add_member what parent name_ n ev s =
  (set_log (log s ++ [ev])
     (store_node (h_file parent) (h_name parent ++ [name_]) n s),
   Ok (mk_h5obj (h_file parent) (h_name parent ++ [name_]) true)).
Proof.
  intros Hp Hw Hfree. unfold h5_add_member, bind, get_state. simpl.
  rewrite Hp, Hw, Hfree. reflexivity.
Qed.

(** *** The bound of an index list *)

Lemma nonzero_from_nil items : forall i,
  nonzero_from i items = [] ->
  forall q it, items !! q = Some it -> item_nonzero it = false.
Proof.
  induction items as [|x items IH]; intros i H q it Hq; [done|].
  simpl in H. destruct (item_nonzero x) eqn:Hx; [done|].
  destruct q as [|q]; simpl in Hq; [by simplify_eq|]. by eapply IH.
Qed.

(** The last entry of [np.nonzero(items)[0]] is the highest position of
    the list that holds a non-zero entry. *)
Lemma last_nonzero_from items : forall i p,
  last (nonzero_from i items) = Some p ->
  exists (k : nat) it,
    p = i + Z.of_nat k /\ items !! k = Some it /\ item_nonzero it = true /\
    forall (q : nat) it', (k < q)%nat -> items !! q = Some it' ->
                          item_nonzero it' = false.
Proof.
  induction items as [|x items IH]; intros i p H; [done|].
  simpl in H. destruct (item_nonzero x) eqn:Hx.
  - destruct (nonzero_from (i + 1) items) as [|y l] eqn:Hrest.
    + simpl in H. injection H as <-. exists 0%nat, x.
      split; [lia|]. split; [done|]. split; [done|].
      intros q it' Hq Hit. destruct q as [|q]; [lia|]. simpl in Hit.
      by eapply nonzero_from_nil.
    + assert (last (nonzero_from (i + 1) items) = Some p) as Hl
        by (by rewrite Hrest).
      destruct (IH _ _ Hl) as (k & it & -> & Hk & Hnz & Hmax).
      exists (S k), it. split; [lia|]. split; [done|]. split; [done|].
      intros q it' Hq Hit. destruct q as [|q]; [lia|]. simpl in Hit.
      eapply Hmax; [|done]. lia.
  - destruct (IH _ _ H) as (k & it & -> & Hk & Hnz & Hmax).
    exists (S k), it. split; [lia|]. split; [done|]. split; [done|].
    intros q it' Hq Hit. destruct q as [|q]; [lia|]. simpl in Hit.
    eapply Hmax; [|done]. lia.
Qed.

Lemma selection_max_bounds_tuple sels :
  __selection_max_bounds__ (STuple sels) =
  res_bind (map_res __selection_max_bounds__ sels) (fun bs => Ok (BTuple bs)).
Proof.
  simpl. f_equal. induction sels as [|x sels IH]; [done|].
  simpl. destruct (__selection_max_bounds__ x); [|done]. simpl.
  by rewrite IH.
Qed.

Lemma map_res_lookup {A B} (f : A -> res B) l : forall bs i x,
  map_res f l = Ok bs -> l !! i = Some x ->
  exists b, f x = Ok b /\ bs !! i = Some b.
Proof.
  induction l as [|y l IH]; intros bs i x H Hi; [done|].
  simpl in H. destruct (f y) as [b|] eqn:Hy; [|done]. simpl in H.
  destruct (map_res f l) as [bs'|] eqn:Hl; [|done]. simpl in H.
  injection H as <-. destruct i as [|i]; simpl in *.
  - simplify_eq. by exists b.
  - by eapply IH.
Qed.

(** *** The growth scenario *)

Lemma create_growable parent name_ attrs dt s :
  lookup_node s (h_file parent) (h_name parent) = Some (NGroup attrs) ->
  h_writable parent = true ->
  lookup_node s (h_file parent) (h_name parent ++ [name_]) = None ->
  h5_create_dataset parent name_ (Some [0]) dt None (Some [None]) true s =
  (set_log (log s ++ [EvCreateDataset (h_name parent ++ [name_])])
     (store_node (h_file parent) (h_name parent ++ [name_])
        (NDataset (mk_dataset [] dt [0] [None] true ∅)) s),
   Ok (mk_h5obj (h_file parent) (h_name parent ++ [name_]) true)).
Proof.
  intros Hp Hw Hfree. unfold h5_create_dataset. simpl.
  by apply (h5_add_member_eq _ _ _ _ _ _ attrs).
Qed.

(** What [__selection_max_bounds__] gives by the kind of selection, and
    what a chunk write that returns has done: the bound of an integer
    selection is the index plus one; of a slice, its stop; of an index
    list, one past the position in the list of its last non-zero entry;
    of a tuple, the tuple of the bounds of its components.  The extent
    has grown along exactly the dimensions whose bound is above it, and
    the record shows the resize before the write of the values. *)
Lemma selection_bounds_cases :
  (forall i, __selection_max_bounds__ (SInt i) = Ok (BInt (i + 1))) /\
  (forall start stop step,
      __selection_max_bounds__ (SSlice start (Some stop) step) = Ok (BInt stop)) /\
  (forall items p,
      last (np_nonzero items) = Some p ->
      __selection_max_bounds__ (SList items) = Ok (BInt (p + 1)) /\
      exists (k : nat) it,
        p = Z.of_nat k /\ items !! k = Some it /\ item_nonzero it = true /\
        forall (q : nat) it', (k < q)%nat -> items !! q = Some it' ->
                              item_nonzero it' = false) /\
  (forall sels,
      __selection_max_bounds__ (STuple sels) =
      res_bind (map_res __selection_max_bounds__ sels)
        (fun bs => Ok (BTuple bs))) /\
  (forall dset chunk_i s s' d,
      lookup_node s (h_file dset) (h_name dset) = Some (NDataset d) ->
      write_chunk dset chunk_i s = (s', Ok tt) ->
      exists b d',
        __selection_max_bounds__ (dc_selection chunk_i) = Ok b /\
        lookup_node s' (h_file dset) (h_name dset) = Some (NDataset d') /\
        ds_shape d' = grown (ds_shape d) (as_bounds_tuple b) /\
        exists resize,
          log s' = log s ++ resize
                   ++ [EvSetItem (h_name dset) (dc_selection chunk_i)] /\
          (resize = [] /\ ds_shape d' = ds_shape d \/
           resize = [EvResize (h_name dset) (ds_shape d')])).
Proof.
  split; [done|]. split; [done|]. split; [|split].
  - intros items p Hp. split; [simpl; by rewrite Hp|].
    destruct (last_nonzero_from _ _ _ Hp) as (k & it & -> & ?).
    exists k, it. split; [lia|done].
  - apply selection_max_bounds_tuple.
  - apply write_chunk_spec.
Qed.

(** C3 fails on the code.  For an index list [__selection_max_bounds__]
    gives one past the position, in the list, of the last entry that is
    not zero ([np.nonzero(selection)[0][-1] + 1]); that is one past the
    highest selected position for a boolean mask, not for a list of
    integer indices.  The index list [[5]] selects position 5, one past
    which is 6; the method yields 1.  A chunk for [[5]] written into the
    empty unbounded dataset [sample_stream] grows it to the extent 1, in
    which position 5 does not lie, and the write of the values does not
    return.  For the mask that selects position 5 the method yields 6. *)
Theorem index_list_bound_is_mask_position :
  spec_list_bound [IInt 5] = Some 6 /\
  __selection_max_bounds__ (SList [IInt 5]) = Ok (BInt 1) /\
  ~ (forall items p,
       spec_list_bound items = Some p ->
       __selection_max_bounds__ (SList items) = Ok (BInt p)) /\
  (let w := write_chunk sample_stream
              (mk_DataChunk (SList [IInt 5]) (VList [VInt 7]))
              sample_stream_io in
   is_ok w.2 = false /\ (h5_shape sample_stream w.1).2 = Ok [1]) /\
  (let mask := [IBool false; IBool false; IBool false; IBool false;
                IBool false; IBool true] in
   spec_list_bound mask = Some 6 /\
   __selection_max_bounds__ (SList mask) = Ok (BInt 6)).
Proof.
  split; [reflexivity|]. split; [reflexivity|]. split.
  { intros H. specialize (H [IInt 5] 6 eq_refl). discriminate H. }
  split.
  - split; vm_compute; reflexivity.
  - split; reflexivity.
Qed.

(** ** Open-ended slices (C10) *)



(** ** Links (C4) *)

Lemma h5_set_link_eq parent name_ link s attrs :
  lookup_node s (h_file parent) (h_name parent) = Some (NGroup attrs) ->
  h_writable parent = true ->
  lookup_node s (h_file parent) (h_name parent ++ [name_]) = None ->
  h5_set_link parent name_ link s =
  (set_log (log s ++ [EvSetLink (h_name parent ++ [name_])])
     (store_node (h_file parent) (h_name parent ++ [name_]) link s), Ok tt).
Proof.
  intros Hp Hw Hfree. unfold h5_set_link, bind.
  by rewrite (h5_add_member_eq _ _ _ _ _ _ _ Hp Hw Hfree).
Qed.

(** Whatever [parent[name] = link] raises, it is not the error of
    [write_link]. *)
Lemma h5_set_link_other_error parent name_ link s p :
  (h5_set_link parent name_ link s).2
  <> Raise (Exc ValueError ("cannot create external link to " +:+ p) None).
Proof.
  unfold h5_set_link, h5_add_member, bind, get_state. simpl.
  destruct (lookup_node s (h_file parent) (h_name parent)) as [[| | |]|];
    simpl; try discriminate.
  destruct (h_writable parent); simpl; try discriminate.
  destruct (lookup_node s (h_file parent) (h_name parent ++ [name_]));
    simpl; discriminate.
Qed.

(** C4.  [write_link] writes a soft link to the path of the target when
    the source of the target is the file of the parent, an external link
    to that source and path when the source is another file, and raises
    its "cannot create external link" error exactly when the target has no
    source. *)
Theorem write_link_cases (parent : h5obj) (h : header) (target : Builder)
    (s : state) :
  let builder := LinkBuilder h target in
  let path_ := __get_path target in
  let member := h_name parent ++ [b_name h] in
  (forall attrs,
      source target = Some (h_file parent) ->
      lookup_node s (h_file parent) (h_name parent) = Some (NGroup attrs) ->
      h_writable parent = true ->
      lookup_node s (h_file parent) member = None ->
      (write_link parent builder s).2 = Ok (NSoftLink path_) /\
      lookup_node (write_link parent builder s).1 (h_file parent) member
        = Some (NSoftLink path_)) /\
  (forall attrs src,
      source target = Some src -> src <> h_file parent ->
      lookup_node s (h_file parent) (h_name parent) = Some (NGroup attrs) ->
      h_writable parent = true ->
      lookup_node s (h_file parent) member = None ->
      (write_link parent builder s).2 = Ok (NExternalLink src path_) /\
      lookup_node (write_link parent builder s).1 (h_file parent) member
        = Some (NExternalLink src path_)) /\
  ((write_link parent builder s).2
     = Raise (Exc ValueError
                ("cannot create external link to " +:+ path_str path_) None)
   <-> source target = None).
Proof.
  intros builder path_ member. subst builder. unfold write_link.
  split; [|split].
  - intros attrs Hsrc Hp Hw Hfree. rewrite Hsrc.
    rewrite bool_decide_eq_true_2 by done.
    unfold bind, ret. rewrite (h5_set_link_eq _ _ _ _ _ Hp Hw Hfree). simpl.
    split; [done|]. apply lookup_store_node_eq.
  - intros attrs src Hsrc Hne Hp Hw Hfree. rewrite Hsrc.
    rewrite bool_decide_eq_false_2 by congruence.
    unfold bind, ret. rewrite (h5_set_link_eq _ _ _ _ _ Hp Hw Hfree). simpl.
    split; [done|]. apply lookup_store_node_eq.
  - destruct (source target) as [src|] eqn:Hsrc.
    + split; [|done]. intros H. exfalso.
      case_bool_decide; unfold bind, ret in H;
        match type of H with
        | context [h5_set_link ?p ?n ?l ?st] =>
            pose proof (h5_set_link_other_error p n l st (path_str path_)) as Hne;
            destruct (h5_set_link p n l st) as [s' [[]|e]];
              [simpl in H; discriminate
              |simpl in H, Hne; injection H as ->; by destruct Hne]
        end.
    + split; [done|]. intros _.
      rewrite bool_decide_eq_false_2 by done. reflexivity.
Qed.

(** In the file just opened, a link to [sample_group], whose source is
    that file, is written as a soft link to [/g]. *)
Lemma write_link_cases_witness :
  (write_link (mk_h5obj "f.h5" [] true)
     (LinkBuilder (sample_header "l" ["root"]) sample_group)
     (open sample_io).1).2 = Ok (NSoftLink ["g"]) /\
  lookup_node
    (write_link (mk_h5obj "f.h5" [] true)
       (LinkBuilder (sample_header "l" ["root"]) sample_group)
       (open sample_io).1).1 "f.h5" ["l"] = Some (NSoftLink ["g"]).
Proof.
  apply (proj1 (write_link_cases (mk_h5obj "f.h5" [] true)
                  (sample_header "l" ["root"]) sample_group (open sample_io).1)
           []); vm_compute; reflexivity.
Defined.

(** ** Region references (C7) *)

Lemma lookup_store_node_ne file p n s file' q :
  (file', q) <> (file, p) ->
  lookup_node (store_node file p n s) file' q = lookup_node s file' q.
Proof.
  intros Hne. unfold lookup_node, store_node. simpl.
  destruct (decide (file' = file)) as [->|Hf].
  - rewrite lookup_insert_eq. rewrite lookup_insert_ne by congruence.
    by destruct (disk s !! file).
  - by rewrite lookup_insert_ne.
Qed.

#[local] Instance same_data_preorder : PreOrder same_data.
Proof.
  split.
  - by intros s file p.
  - intros s1 s2 s3 H1 H2 file p. by rewrite H2, H1.
Qed.

Lemma same_data_store file p n s :
  node_core <$> lookup_node s file p = Some (node_core n) ->
  same_data s (store_node file p n s).
Proof.
  intros H file' q. destruct (decide ((file', q) = (file, p))) as [[= -> ->]|Hne].
  - by rewrite lookup_store_node_eq, H.
  - by rewrite lookup_store_node_ne.
Qed.

Lemma same_data_h5_set_attr obj key value s :
  same_data s (h5_set_attr obj key value s).1.
Proof.
  unfold h5_set_attr, bind, get_state. simpl.
  destruct (h_writable obj); simpl; [|done].
  destruct (lookup_node s (h_file obj) (h_name obj)) as [[attrs|d| |]|] eqn:Hn;
    simpl; try done.
  - apply same_data_store. by rewrite Hn.
  - apply same_data_store. by rewrite Hn.
Qed.

Lemma same_data_set_attributes obj attrs : forall s,
  same_data s (set_attributes obj attrs s).1.
Proof.
  unfold set_attributes.
  induction attrs as [|[key value] attrs IH]; intros s; simpl; [done|].
  unfold bind at 1. unfold bind at 1. unfold lift.
  destruct (attribute_value value) as [v|e]; simpl; [|done].
  pose proof (same_data_h5_set_attr obj key v s) as H1.
  destruct (h5_set_attr obj key v s) as [s1 [[]|e]]; simpl in *; [|done].
  etrans; [exact H1|apply IH].
Qed.

Lemma walk_disk fuel : forall s s' file cur rest,
  disk s' = disk s -> walk fuel s' file cur rest = walk fuel s file cur rest.
Proof.
  induction fuel as [|fuel IH]; intros s s' file cur rest H; simpl; [done|].
  destruct rest as [|c rest]; [done|].
  unfold lookup_node. rewrite H.
  destruct (disk s !! file) as [fl|]; [|done].
  destruct (fl !! (cur ++ [c])) as [[| | |]|]; auto.
Qed.

Lemma h5_resolve_disk s s' file w p :
  disk s' = disk s -> h5_resolve s' file w p = h5_resolve s file w p.
Proof.
  intros H. unfold h5_resolve. rewrite (walk_disk _ _ _ _ _ _ H).
  unfold lookup_node. by rewrite H.
Qed.

(** [__get_ref] with a region, on a builder whose path leads to a node. *)
Lemma get_ref_region_eq s f b tobj n region :
  __file s = Some f -> is_link_builder b = false ->
  h5_resolve s (f_filename f) (f_writable f) (__get_path b) = Some (tobj, n) ->
  __get_ref (CBuilder b) (Some region) s =
  (s, match n with
      | NDataset d =>
          match region with
          | RegionSel sel =>
              res_bind (all_positions (ds_shape d) (sel_components sel))
                (fun _ => Ok (VRegionRef (h_name tobj) sel))
          | RegionScalar _ => Raise (Exc TypeError "Illegal index" None)
          end
      | _ => Raise (Exc ValueError
                      "cannot create region reference without Dataset" None)
      end).
Proof.
  intros Hf Hl Hres.
  assert (forall m : Builder -> M pyval,
            (bind (match b with
                   | LinkBuilder _ target_builder => ret target_builder
                   | _ => ret b
                   end) m) s = m b s) as Hb.
  { intros m. by destruct b. }
  unfold __get_ref. rewrite Hb.
  unfold bind, the_file, bind, get_state. simpl. rewrite Hf. simpl.
  unfold h5_getitem, bind, get_state. simpl. rewrite Hres. simpl.
  destruct n as [attrs|d|t|fl t]; try reflexivity.
  destruct region as [sel|v]; [|reflexivity].
  unfold lift. by destruct (all_positions (ds_shape d) (sel_components sel)).
Qed.

Lemma h5_resolve_lookup s file w p tobj n :
  h5_resolve s file w p = Some (tobj, n) ->
  lookup_node s (h_file tobj) (h_name tobj) = Some n.
Proof.
  unfold h5_resolve. destruct (walk walk_limit s file [] p) as [[file' p']|];
    [|done].
  destruct (lookup_node s file' p') as [n'|] eqn:Hn; [|done].
  intros [= <- <-]. done.
Qed.

Lemma h5_add_member_inv what parent name_ n ev s s' o :
  h5_add_member what parent name_ n ev s = (s', Ok o) ->
  s' = set_log (log s ++ [ev])
         (store_node (h_file parent) (h_name parent ++ [name_]) n s) /\
  o = mk_h5obj (h_file parent) (h_name parent ++ [name_]) (h_writable parent) /\
  lookup_node s (h_file parent) (h_name parent ++ [name_]) = None.
Proof.
  unfold h5_add_member, bind, get_state. simpl.
  destruct (lookup_node s (h_file parent) (h_name parent)) as [[| | |]|];
    simpl; try done.
  destruct (h_writable parent); simpl; [|done].
  destruct (lookup_node s (h_file parent) (h_name parent ++ [name_])) eqn:Hfree;
    simpl; [done|].
  unfold modify, emit, modify, ret. simpl. intros [= <- <-]. done.
Qed.

(** Reading a dataset that does not hold a region reference: one level of
    recursion is enough, and the result is a [DatasetBuilder]. *)
Lemma read_plain_dataset fuel h5 nm s d :
  lookup_node s (h_file h5) (h_name h5) = Some (NDataset d) ->
  is_region_scalar d = false ->
  exists s1 hd dat,
    __read_dataset (S fuel) h5 nm s
    = (s1, Ok (DatasetBuilder hd dat (DtNp (ds_dtype d)) (Some (ds_maxshape d)))) /\
    b_name hd = default (basename (h_name h5)) nm /\
    b_attributes hd = ds_attrs d /\
    disk s1 = disk s.
Proof.
  intros Hd Hplain. simpl. unfold bind at 1. rewrite (get_dataset_eq _ _ _ Hd).
  unfold is_region_scalar in Hplain.
  unfold new_header, bind, get_state, fresh_id, emit, modify, ret. simpl.
  destruct (ds_shape d) as [|n [|m sh]] eqn:Hs; simpl.
  - destruct (ds_cells d !! []) as [[| | | | | | | | |]|] eqn:Hc; simpl;
      try done; by eexists _, _, _.
  - destruct (is_object_dtype (ds_dtype d)); simpl; by eexists _, _, _.
  - by eexists _, _, _.
Qed.

(** Reading a scalar dataset that holds a region reference: the result is
    a [RegionBuilder] that carries the stored reference and the builder
    read from the referenced dataset. *)
Lemma read_region_dataset fuel h5 nm s d target_path sel s1 tb :
  lookup_node s (h_file h5) (h_name h5) = Some (NDataset d) ->
  ds_shape d = [] ->
  ds_cells d !! [] = Some (VRegionRef target_path sel) ->
  __read_dataset fuel (mk_h5obj (h_file h5) target_path (h_writable h5)) None s
    = (s1, Ok tb) ->
  exists s2 hd,
    __read_dataset (S fuel) h5 nm s
    = (s2, Ok (RegionBuilder hd (RegionScalar (VRegionRef target_path sel)) tb)) /\
    b_name hd = default (basename (h_name h5)) nm /\
    b_attributes hd = ds_attrs d.
Proof.
  intros Hd Hs Hc Ht. simpl. unfold bind at 1. rewrite (get_dataset_eq _ _ _ Hd).
  rewrite Hs, Hc. simpl. unfold bind at 1. rewrite Ht.
  unfold __set_built, new_header, bind, get_state, fresh_id, emit, modify, ret.
  simpl. by eexists _, _.
Qed.

Lemma create_scalar_eq parent name_ dt v :
  h5_create_dataset parent name_ None dt (Some v) None false =
  h5_add_member "dataset" parent name_
    (NDataset (mk_dataset [] dt [] [] false {[ [] := v ]}))
    (EvCreateDataset (h_name parent ++ [name_])).
Proof. reflexivity. Qed.

Lemma node_core_dataset (o : option node) d :
  node_core <$> o = Some (node_core (NDataset d)) ->
  exists d', o = Some (NDataset d') /\ ds_shape d' = ds_shape d /\
             ds_cells d' = ds_cells d.
Proof.
  destruct o as [[attrs|d'| |]|]; simpl; try done.
  intros [= ? ? ? ? ?]. by exists d'.
Qed.

(** What the deferred action of a region reference leaves in the file when
    it returns: the new scalar dataset holds the reference to the resolved
    target with the selection of the builder, and the target dataset has
    its extent and values as before. *)
Lemma call_region_stores s f b tobj d sel parent name_ rbh dt attrs s' :
  __file s = Some f -> is_link_builder b = false ->
  h5_resolve s (f_filename f) (f_writable f) (__get_path b)
    = Some (tobj, NDataset d) ->
  call (FillRegion parent name_ b (RegionBuilder rbh (RegionSel sel) b) dt attrs) s
    = (s', Ok tt) ->
  (exists d', lookup_node s' (h_file parent) (h_name parent ++ [name_])
              = Some (NDataset d') /\
              ds_shape d' = [] /\
              ds_cells d' !! [] = Some (VRegionRef (h_name tobj) sel)) /\
  (exists dt', lookup_node s' (h_file tobj) (h_name tobj) = Some (NDataset dt') /\
               ds_shape dt' = ds_shape d /\ ds_cells dt' = ds_cells d).
Proof.
  intros Hf Hl Hres. unfold call.
  unfold bind at 1. unfold emit, modify. cbv beta iota.
  set (s0 := set_log _ s).
  unfold bind at 1. unfold ret at 1. cbv beta iota.
  unfold bind at 1.
  assert (h5_resolve s0 (f_filename f) (f_writable f) (__get_path b)
          = Some (tobj, NDataset d)) as Hres0
    by (by rewrite (h5_resolve_disk s s0)).
  rewrite (get_ref_region_eq s0 f b tobj _ (RegionSel sel) Hf Hl Hres0).
  destruct (all_positions (ds_shape d) (sel_components sel)) as [dims|e];
    simpl res_bind; cbv beta iota; [|done].
  unfold bind at 1. rewrite create_scalar_eq.
  match goal with
  | |- context [h5_add_member ?w ?p ?k ?n ?ev s0] =>
      destruct (h5_add_member w p k n ev s0) as [s1 [dset|e]] eqn:Hadd
  end; [|done].
  apply h5_add_member_inv in Hadd as (Hs1 & -> & Hfree).
  pose proof (same_data_set_attributes
                (mk_h5obj (h_file parent) (h_name parent ++ [name_])
                   (h_writable parent)) attrs s1) as Hsame.
  destruct (set_attributes _ attrs s1) as [s2 [[]|e]]; [|done].
  intros [= <-]. simpl in Hsame.
  pose proof (h5_resolve_lookup _ _ _ _ _ _ Hres) as Ht.
  split.
  - destruct (node_core_dataset
                (lookup_node s2 (h_file parent) (h_name parent ++ [name_]))
                (mk_dataset [] (Some dt) [] [] false
                   {[ [] := VRegionRef (h_name tobj) sel ]}))
      as (d' & Hd' & Hsh & Hce).
    { rewrite Hsame, Hs1, lookup_node_set_log, lookup_store_node_eq. done. }
    exists d'. split; [done|]. split; [done|]. rewrite Hce. simpl.
    apply lookup_singleton_eq.
  - destruct (node_core_dataset (lookup_node s2 (h_file tobj) (h_name tobj)) d)
      as (d' & Hd' & Hsh & Hce).
    { rewrite Hsame, Hs1, lookup_node_set_log.
      rewrite lookup_store_node_ne;
        [unfold s0; rewrite lookup_node_set_log; by rewrite Ht|].
      intros [= E1 E2]. rewrite E1, E2 in Ht.
      change (lookup_node s0 (h_file parent) (h_name parent ++ [name_]))
        with (lookup_node s (h_file parent) (h_name parent ++ [name_])) in Hfree.
      congruence. }
    by exists d'.
Qed.



(** ** Shape validation of [FeatureExtraction] (C8) *)

Lemma string_append_assoc (a b c : string) : (a +:+ b) +:+ c = a +:+ (b +:+ c).
Proof.
  induction a as [|x a IH]; [reflexivity|].
  change (String x ((a +:+ b) +:+ c) = String x (a +:+ (b +:+ c))).
  by f_equal.
Qed.

Lemma string_append_nil_r (a : string) : a +:+ "" = a.
Proof.
  induction a as [|x a IH]; [reflexivity|].
  change (String x (a +:+ "") = String x a). by f_equal.
Qed.

(** The loop of [__init__] raises the flag when a comparison failed and
    appends the message of every failed comparison. *)
Lemma collect_errors_spec svs : forall raise_error error_msg,
  collect_errors svs raise_error error_msg =
  (raise_error || existsb (fun sv => negb (result sv)) svs,
   error_msg +:+ combined_message svs).
Proof.
  induction svs as [|sv svs IH]; intros r m; simpl.
  - by rewrite orb_false_r, string_append_nil_r.
  - rewrite IH. destruct (result sv); simpl.
    + by rewrite orb_false_r.
    + by rewrite orb_true_r, !string_append_assoc.
Qed.

(** C8.  With features of shape (10, 5, 3), 10 times, 5 electrodes and 3
    descriptions the constructor returns; with 9 times it raises a
    [ValueError] whose message names ["times"] and axis 0; and in general
    it raises exactly when some comparison failed, with the messages of
    all the failed comparisons in one message - with 9 times and 4
    electrodes the message names both. *)
Theorem feature_extraction_shapes :
  FeatureExtraction__init__ (Some [5]) (Some [3]) (Some [10]) (Some [10; 5; 3])
    = Ok (mk_FeatureExtraction (Some [5]) (Some [3]) (Some [10])
            (Some [10; 5; 3])) /\
  (exists msg,
      FeatureExtraction__init__ (Some [5]) (Some [3]) (Some [9])
        (Some [10; 5; 3]) = Raise (Exc ValueError msg None) /\
      mentions "times axis 0" msg = true /\
      mentions "electrodes" msg = false /\
      mentions "description" msg = false) /\
  (forall electrodes description times features,
      FeatureExtraction__init__ electrodes description times features =
      let svs := shape_validators electrodes description times features in
      if existsb (fun sv => negb (result sv)) svs
      then Raise (Exc ValueError (combined_message svs) None)
      else Ok (mk_FeatureExtraction electrodes description times features)) /\
  (exists msg,
      FeatureExtraction__init__ (Some [4]) (Some [3]) (Some [9])
        (Some [10; 5; 3]) = Raise (Exc ValueError msg None) /\
      mentions "feature_shape axis 0" msg = true /\
      mentions "times axis 0" msg = true /\
      mentions "feature_shape axis 1" msg = true /\
      mentions "electrodes axis 0" msg = true).
Proof.
  split; [reflexivity|]. split; [|split].
  - eexists. split; [reflexivity|]. by vm_compute.
  - intros e d t f. unfold FeatureExtraction__init__.
    rewrite collect_errors_spec. reflexivity.
  - eexists. split; [reflexivity|]. by vm_compute.
Qed.

(** ** Writing and reading back (C1) *)

(** C1 fails on the code: [write_builder] never looks at the links of the
    root builder, while [write_group] writes the links of every other
    group.  The session of [sample_linked], a root with a group [g] and a
    link [l] to it, returns and leaves no [/l] in the file; read back, the
    root has the group and no link.  The same link inside a group [h] is
    written and read back. *)
Theorem root_links_not_written :
  (forall h gs ds ls s,
      write_builder (GroupBuilder h gs ds ls) s
      = write_builder (GroupBuilder h gs ds []) s) /\
  (let w := write_builder sample_linked sample_io in
   w.2 = Ok tt /\
   lookup_node w.1 "f.h5" ["g"] = Some (NGroup []) /\
   lookup_node w.1 "f.h5" ["l"] = None /\
   exists b, (read_builder 8 (reopen w.1)).2 = Ok b /\
             fst <$> groups b = ["g"] /\
             links b = [] /\
             fst <$> links sample_linked = ["l"]) /\
  (let w := write_builder sample_nested sample_io in
   w.2 = Ok tt /\
   lookup_node w.1 "f.h5" ["h"; "l"] = Some (NSoftLink ["g"]) /\
   exists b h, (read_builder 8 (reopen w.1)).2 = Ok b /\
               dict_get (groups b) "h" = Some h /\
               (fun l => (l.1, name l.2)) <$> links h = [("g", "l")]).
Proof.
  split; [reflexivity|]. split.
  - split; [vm_compute; reflexivity|]. split; [vm_compute; reflexivity|].
    split; [vm_compute; reflexivity|].
    eexists. split; [vm_compute; reflexivity|].
    split; [reflexivity|]. split; reflexivity.
  - split; [vm_compute; reflexivity|]. split; [vm_compute; reflexivity|].
    eexists _, _. split; [vm_compute; reflexivity|].
    split; [vm_compute; reflexivity|]. reflexivity.
Qed.

(** ** The cache of the read path (C6) *)

(** [__set_built] never replaces an entry: a key that is cached keeps its
    builder. *)
Lemma set_built_keeps fpath p builder s file q b :
  built_at s file q = Some b ->
  built_at (__set_built fpath p builder s).1 file q = Some b.
Proof.
  unfold built_at, __set_built, modify. simpl. intros H.
  destruct (decide (file = fpath)) as [->|Hne].
  - rewrite lookup_insert_eq.
    destruct (__built s !! fpath) as [fdict|] eqn:Hf; [|done]. simpl.
    destruct (fdict !! p) as [b'|] eqn:Hp; [done|].
    rewrite lookup_insert_ne; [done|]. intros ->. congruence.
  - by rewrite lookup_insert_ne.
Qed.

(** C6 fails on the code: the region branch of [__read_dataset] reads the
    referenced dataset without asking the cache, as the two branches of
    [__read_group] do.  Reading the file of [sample_references] back, the
    dataset [/values] is met first as a member of the root and then as the
    target of the region reference [/window]: two builders are constructed
    for it; the cache keeps the first, the [RegionBuilder] carries the
    second. *)
Theorem region_target_read_twice :
  let w := write_builder sample_references sample_io in
  let r := read_builder 8 (reopen w.1) in
  w.2 = Ok tt /\
  constructions "f.h5" ["values"] (log r.1) = [2%nat; 3%nat] /\
  (b_id ∘ hdr) <$> built_at r.1 "f.h5" ["values"] = Some 2%nat /\
  exists b h region target,
    r.2 = Ok b /\
    dict_get (datasets b) "window" = Some (RegionBuilder h region target) /\
    b_id (hdr target) = 3%nat /\
    (b_id ∘ hdr) <$> dict_get (datasets b) "values" = Some 2%nat.
Proof.
  split; [vm_compute; reflexivity|]. split; [vm_compute; reflexivity|].
  split; [vm_compute; reflexivity|].
  eexists _, _, _, _. split; [vm_compute; reflexivity|].
  split; [vm_compute; reflexivity|]. split; reflexivity.
Qed.

(** ** The order of a write session (C5) *)

Lemma bind_ok_inv {A B} (m : M A) (k : A -> M B) s s' b :
  bind m k s = (s', Ok b) ->
  exists s1 a, m s = (s1, Ok a) /\ k a s1 = (s', Ok b).
Proof.
  unfold bind. destruct (m s) as [s1 [a|e]]; [|discriminate].
  intros H. by exists s1, a.
Qed.

(** A reference-bearing dataset is not written: [write_dataset] queues one
    action for it, or raises, and changes nothing else. *)
Lemma write_dataset_reference parent b s :
  reference_bearing b = true ->
  let w := write_dataset parent b s in
  disk w.1 = disk s /\ log w.1 = log s /\
  ((w.2 = Ok None /\
    exists a, __ref_queue w.1 = __ref_queue s ++ [a] /\
              filler_parent a = parent /\
              filler_target a = h_name parent ++ [name b]) \/
   (exists e, w = (s, Raise e))).
Proof.
  unfold reference_bearing. intros [Hds Href]%andb_prop. cbv zeta.
  unfold write_dataset. rewrite Hds. cbn [negb]. cbv zeta.
  destruct (is_list (dtype b)) as [fields|].
  - rewrite Href. unfold bind at 1. unfold lift.
    destruct (__resolve_dtype__ (dtype b) (peek (data b))) as [t|e].
    + cbn. split; [done|]. split; [done|]. left. split; [done|].
      eexists. split; [reflexivity|]. by split.
    + cbn. split; [done|]. split; [done|]. right. by exists e.
  - destruct (data b) as [v|it|wr|d|target|rows]; try done.
    unfold bind at 1. unfold lift.
    destruct (dtypes_item (dtype b)) as [t|e].
    + destruct (is_tag (dtype b) "region"); cbn;
        (split; [done|]); (split; [done|]); left; (split; [done|]);
        (eexists; split; [reflexivity|]; by split).
    + cbn. split; [done|]. split; [done|]. right. by exists e.
Qed.

(** Any other dataset is written at once: the queue is not touched. *)
Lemma write_dataset_plain parent b :
  reference_bearing b = false -> preserves quiet (write_dataset parent b).
Proof.
  unfold reference_bearing, write_dataset. intros Href.
  destruct (is_dataset_builder b); cbn [negb andb] in *; [|preserve].
  cbv zeta. destruct (is_list (dtype b)) as [fields|].
  - rewrite Href. preserve.
  - destruct (data b) as [v|it|wr|d|target|rows]; try done; preserve.
Qed.

(** What a [write_dataset] that returns has added to the queue. *)
Lemma write_dataset_queue parent b s s' o :
  write_dataset parent b s = (s', Ok o) ->
  exists q,
    __ref_queue s' = __ref_queue s ++ q /\
    filler_target <$> q
    = if reference_bearing b then [h_name parent ++ [name b]] else [].
Proof.
  intros Hw. destruct (reference_bearing b) eqn:Href.
  - destruct (write_dataset_reference parent b s Href)
      as (_ & _ & [[_ (a & Hq & _ & Ht)]|[e He]]).
    + rewrite Hw in Hq. exists [a]. split; [exact Hq|]. by rewrite <- Ht.
    + rewrite Hw in He. discriminate He.
  - pose proof (write_dataset_plain parent b Href s) as (_ & _ & _ & _ & Hq & _).
    rewrite Hw in Hq. exists []. by rewrite app_nil_r.
Qed.

(** A loop whose bodies add to the queue adds what they add, in order. *)
Lemma for_each_queue {A} (body : A -> M unit) (targets : A -> list path) xs :
  (forall x, x ∈ xs -> forall s s',
      body x s = (s', Ok tt) ->
      exists q, __ref_queue s' = __ref_queue s ++ q /\
                filler_target <$> q = targets x) ->
  forall s s',
    for_each body xs s = (s', Ok tt) ->
    exists q, __ref_queue s' = __ref_queue s ++ q /\
              filler_target <$> q = flat_map targets xs.
Proof.
  induction xs as [|x xs IH]; intros Hbody s s' Hrun.
  - injection Hrun as <-. exists []. by rewrite app_nil_r.
  - cbn [for_each] in Hrun.
    apply bind_ok_inv in Hrun as (s1 & [] & Hx & Hrest).
    destruct (Hbody x ltac:(by left) s s1 Hx) as (q1 & Hq1 & Ht1).
    destruct (IH (fun y Hy => Hbody y ltac:(by right)) s1 s' Hrest)
      as (q2 & Hq2 & Ht2).
    exists (q1 ++ q2). split.
    + by rewrite Hq2, Hq1, app_assoc.
    + rewrite fmap_app, Ht1, Ht2. done.
Qed.

(** A loop whose bodies keep the queue keeps it. *)
Lemma for_each_quiet_queue {A} (body : A -> M unit) xs s s' :
  (forall x, preserves quiet (body x)) ->
  for_each body xs s = (s', Ok tt) -> __ref_queue s' = __ref_queue s.
Proof.
  intros Hbody Hrun.
  assert (preserves quiet (for_each body xs)) as H
    by (apply preserves_for_each; [apply _|by intros]).
  destruct (H s) as (_ & _ & _ & _ & Hq & _). by rewrite Hrun in Hq.
Qed.

(** The actions that a [write_group] that returns has queued are those of
    the reference-bearing datasets of the tree, in the order of the
    tree. *)
Lemma write_group_queue b : forall parent s s' o,
  write_group parent b s = (s', Ok o) ->
  exists q,
    __ref_queue s' = __ref_queue s ++ q /\
    filler_target <$> q = reference_paths (h_name parent) b.
Proof.
  induction b as [h gs ds ls IHg _ _| | |] using Builder_members_ind;
    intros parent s s' o Hw; try done.
  cbn [write_group] in Hw.
  apply bind_ok_inv in Hw as (s1 & group & Hc & Hw).
  apply bind_ok_inv in Hw as (s2 & [] & Hgs & Hw).
  apply bind_ok_inv in Hw as (s3 & [] & Hds & Hw).
  apply bind_ok_inv in Hw as (s4 & [] & Hls & Hw).
  apply bind_ok_inv in Hw as (s5 & [] & Hat & Hw).
  injection Hw as -> ->.
  unfold h5_create_group in Hc.
  apply h5_add_member_inv in Hc as (-> & -> & _).
  set (group := mk_h5obj (h_file parent) (h_name parent ++ [b_name h])
                  (h_writable parent)) in *.
  set (s1 := set_log _ _) in *.
  assert (__ref_queue s1 = __ref_queue s) as Hq1 by reflexivity.
  destruct (for_each_queue
              (fun '(_, sub_builder) => write_group group sub_builder ;;; ret tt)
              (fun '(_, g) => reference_paths (h_name parent ++ [b_name h]) g)
              gs) with (s := s1) (s' := s2) as (qg & Hqg & Htg);
    [|exact Hgs|].
  { intros [k g] Hin sa sb Hbody.
    apply bind_ok_inv in Hbody as (sc & og & Hg & Hret).
    injection Hret as ->.
    rewrite Forall_forall in IHg.
    destruct (IHg _ Hin group sa sb og Hg) as (q & Hq & Ht).
    exists q. split; [exact Hq|exact Ht]. }
  destruct (for_each_queue
              (fun '(_, sub_builder) => write_dataset group sub_builder ;;; ret tt)
              (fun '(_, d) =>
                 if reference_bearing d
                 then [(h_name parent ++ [b_name h]) ++ [name d]] else [])
              ds) with (s := s2) (s' := s3) as (qd & Hqd & Htd);
    [|exact Hds|].
  { intros [k d] Hin sa sb Hbody.
    apply bind_ok_inv in Hbody as (sc & od & Hd & Hret).
    injection Hret as ->.
    destruct (write_dataset_queue group d sa sb od Hd) as (q & Hq & Ht).
    exists q. split; [exact Hq|exact Ht]. }
  assert (__ref_queue s4 = __ref_queue s3) as Hq4.
  { eapply for_each_quiet_queue; [|exact Hls]. intros [k l]. preserve. }
  pose proof (preserves_set_attributes group (b_attributes h) s4)
    as (_ & _ & _ & _ & Hq5 & _).
  rewrite Hat in Hq5. cbn [fst] in Hq5.
  exists (qg ++ qd). split.
  - rewrite Hq5, Hq4, Hqd, Hqg, Hq1, app_assoc. done.
  - rewrite fmap_app, Htg, Htd. done.
Qed.

(** The same for the main pass of [write_builder]. *)
Lemma write_root_queue b s s' f :
  __file s = Some f ->
  write_root b s = (s', Ok tt) ->
  exists q,
    __ref_queue s' = __ref_queue s ++ q /\
    filler_target <$> q = root_reference_paths b.
Proof.
  intros Hf Hw. unfold write_root in Hw.
  apply bind_ok_inv in Hw as (s0 & f0 & Hthe & Hw).
  unfold the_file, bind, get_state in Hthe. rewrite Hf in Hthe.
  injection Hthe as <- <-.
  apply bind_ok_inv in Hw as (s2 & [] & Hgs & Hw).
  apply bind_ok_inv in Hw as (s3 & [] & Hds & Hat).
  destruct (for_each_queue
              (fun '(_, gbldr) => write_group (file_root f) gbldr ;;; ret tt)
              (fun '(_, g) => reference_paths [] g)
              (groups b)) with (s := s) (s' := s2) as (qg & Hqg & Htg);
    [|exact Hgs|].
  { intros [k g] Hin sa sb Hbody.
    apply bind_ok_inv in Hbody as (sc & og & Hg & Hret).
    injection Hret as ->.
    apply (write_group_queue g (file_root f) sa sb og Hg). }
  destruct (for_each_queue
              (fun '(_, dbldr) => write_dataset (file_root f) dbldr ;;; ret tt)
              (fun '(_, d) => if reference_bearing d then [[name d]] else [])
              (datasets b)) with (s := s2) (s' := s3) as (qd & Hqd & Htd);
    [|exact Hds|].
  { intros [k d] Hin sa sb Hbody.
    apply bind_ok_inv in Hbody as (sc & od & Hd & Hret).
    injection Hret as ->.
    apply (write_dataset_queue (file_root f) d sa sb od Hd). }
  pose proof (preserves_set_attributes (file_root f) (attributes b) s3)
    as (_ & _ & _ & _ & Hq5 & _).
  rewrite Hat in Hq5. cbn [fst] in Hq5.
  exists (qg ++ qd). split.
  - rewrite Hq5, Hqd, Hqg, app_assoc. done.
  - unfold root_reference_paths. rewrite fmap_app, Htg, Htd. done.
Qed.

(** C5.  A dataset that holds references - its data is a builder, or its
    dtype is a compound type with a reference field - is not written by
    [write_dataset]: the files and the record stay as they are, and either
    one action for that dataset is added at the end of the queue and
    nothing is returned, or the call raises and nothing has changed; any
    other dataset leaves the queue as it is.  In the record of
    [write_builder], whatever the outcome, the main pass shows structural
    writes only, and a deferred action has only been called when the main
    pass had returned.  When [write_builder] returns, the main pass has
    queued exactly the actions of the reference-bearing datasets of the
    tree, in the order of the tree; the deferred part of the record then
    shows the calls of the queued actions from the last one queued back
    to the first, and the queue is left empty. *)
Theorem write_builder_defers_references (f_builder : Builder) (s : state) :
  (forall parent b s0,
      reference_bearing b = true ->
      let w := write_dataset parent b s0 in
      disk w.1 = disk s0 /\ log w.1 = log s0 /\
      ((w.2 = Ok None /\
        exists a, __ref_queue w.1 = __ref_queue s0 ++ [a] /\
                  filler_parent a = parent /\
                  filler_target a = h_name parent ++ [name b]) \/
       (exists e, w = (s0, Raise e)))) /\
  (forall parent b s0,
      reference_bearing b = false ->
      __ref_queue (write_dataset parent b s0).1 = __ref_queue s0) /\
  let r := write_builder f_builder s in
  (exists main deferred,
      log r.1 = log s ++ main ++ deferred /\ Forall structural main /\
      (deferred = [] \/
       (exists p evs, deferred = EvCall p :: evs) /\
       exists s1, (open ;;; write_root f_builder) s = (s1, Ok tt) /\
                  log s1 = log s ++ main)) /\
  (r.2 = Ok tt ->
   exists s1 main deferred q,
     (open ;;; write_root f_builder) s = (s1, Ok tt) /\
     log s1 = log s ++ main /\ Forall structural main /\
     __ref_queue s1 = __ref_queue s ++ q /\
     filler_target <$> q = root_reference_paths f_builder /\
     log r.1 = log s1 ++ deferred /\
     calls_of deferred = filler_target <$> reverse (__ref_queue s1) /\
     __ref_queue r.1 = []).
Proof.
  split; [intros parent b s0 Href; by apply write_dataset_reference|].
  split.
  { intros parent b s0 Href.
    by destruct (write_dataset_plain parent b Href s0) as (_ & _ & _ & _ & Hq & _). }
  destruct f_builder as [h gs ds ls| | |]; simpl;
    try (split; [exists [], []; rewrite !app_nil_r; auto|done]).
  set (b := GroupBuilder h gs ds ls).
  unfold bind.
  pose proof (preserves_open s) as (Hlog0 & Hq0 & _).
  destruct (open s) as [s0 [[]|e0]] eqn:Hopen; simpl in *;
    [|split; [exists [], []; rewrite !app_nil_r; auto|done]].
  destruct (open_acquires s s0 Hopen) as (f & Hf & _).
  pose proof (preserves_write_root b s0)
    as (_ & _ & _ & _ & _ & main & Hlog1 & Hmain).
  pose proof (write_root_queue b s0) as Hqueue.
  destruct (write_root b s0) as [s1 [[]|e1]]; simpl in *.
  - destruct (Hqueue s1 f Hf eq_refl) as (q & Hq1 & Htargets).
    unfold __add_refs, bind, get_state; simpl.
    pose proof (add_refs_loop_spec (length (__ref_queue s1)) s1 (le_n _))
      as (_ & _ & called & deferred & Hlog2 & Hcalls & Hhead & _ & Hok).
    simpl in *. split.
    + exists main, deferred. rewrite Hlog2, Hlog1, Hlog0, <- app_assoc.
      split; [done|]. split; [done|].
      destruct Hhead as [->|Hhead]; [by left|right].
      split; [exact Hhead|]. exists s1. split; [done|].
      by rewrite Hlog1, Hlog0.
    + intros Hr. destruct (Hok Hr) as [-> Hempty].
      exists s1, main, deferred, q.
      split; [done|]. split; [by rewrite Hlog1, Hlog0|]. split; [done|].
      split; [by rewrite Hq1, Hq0|]. done.
  - split; [|done]. exists main, []. rewrite app_nil_r, Hlog1, Hlog0. auto.
Qed.

(** The session of [sample_references] returns; the main pass has queued
    the actions of [/window] and [/pointer], and its record shows them
    called in the reverse of that order. *)
Lemma write_builder_defers_references_witness :
  (write_builder sample_references sample_io).2 = Ok tt /\
  exists s1 main deferred q,
    (open ;;; write_root sample_references) sample_io = (s1, Ok tt) /\
    log s1 = log sample_io ++ main /\ Forall structural main /\
    __ref_queue s1 = __ref_queue sample_io ++ q /\
    filler_target <$> q = root_reference_paths sample_references /\
    log (write_builder sample_references sample_io).1 = log s1 ++ deferred /\
    calls_of deferred = filler_target <$> reverse (__ref_queue s1) /\
    __ref_queue (write_builder sample_references sample_io).1 = [].
Proof.
  split; [vm_compute; reflexivity|].
  apply (proj2 (proj2 (proj2
           (write_builder_defers_references sample_references sample_io)))).
  vm_compute. reflexivity.
Defined.

(** ** The cache of the read path as a map *)

(** X1.  [__set_built] is a [setdefault] on both levels: afterwards
    [__get_built] finds at the key the builder that was cached there
    before, or the new one when there was none, and every other key is as
    it was. *)
Theorem get_built_after_set_built fpath p builder s :
  let s' := (__set_built fpath p builder s).1 in
  __get_built fpath p s'
    = (s', Ok (Some (default builder (built_at s fpath p)))) /\
  forall file q, (file, q) <> (fpath, p) ->
                 __get_built file q s' = (s', Ok (built_at s file q)).
Proof.
  assert (forall file q s0, __get_built file q s0 = (s0, Ok (built_at s0 file q)))
    as Hget.
  { intros file q s0. unfold __get_built, built_at, bind, get_state, ret.
    by destruct (__built s0 !! file). }
  cbv zeta. rewrite !Hget. split.
  - do 2 f_equal. unfold built_at, __set_built, modify. simpl.
    rewrite lookup_insert_eq.
    destruct (__built s !! fpath) as [fdict|]; simpl.
    + destruct (fdict !! p) as [b|] eqn:Hp; [by rewrite Hp|].
      by rewrite lookup_insert_eq.
    + rewrite lookup_empty. by rewrite lookup_insert_eq.
  - intros file q Hne. rewrite Hget. do 2 f_equal.
    unfold built_at, __set_built, modify. simpl.
    destruct (decide (file = fpath)) as [->|Hf].
    + rewrite lookup_insert_eq.
      assert (q <> p) as Hq by congruence.
      destruct (__built s !! fpath) as [fdict|]; simpl.
      * destruct (fdict !! p); [done|]. by rewrite lookup_insert_ne.
      * rewrite lookup_empty. by rewrite lookup_insert_ne.
    + by rewrite lookup_insert_ne.
Qed.

(** ** The queue of deferred actions on every outcome *)

(** The loop of [__add_refs], whatever its outcome: the actions that were
    called are the last entries of the queue, taken from the end; what is
    left in the queue are the entries before them; an exception that ends
    the loop is the one raised by the last action called. *)
Lemma add_refs_loop_outcome fuel : forall s,
  (length (__ref_queue s) <= fuel)%nat ->
  let r := __add_refs_loop fuel s in
  exists called evs,
    __ref_queue s = __ref_queue r.1 ++ reverse called /\
    log r.1 = log s ++ evs /\
    calls_of evs = filler_target <$> called /\
    (r.2 = Ok tt -> __ref_queue r.1 = []) /\
    (forall e, r.2 = Raise e ->
       exists c s0, last called = Some c /\ (call c s0).2 = Raise e).
Proof.
  induction fuel as [|fuel IH]; intros s Hf; rewrite add_refs_loop_unfold.
  - destruct (__ref_queue s) eqn:Hq; [|simpl in Hf; lia]. simpl.
    exists [], []. rewrite Hq. split; [done|]. split; [by rewrite app_nil_r|].
    repeat (split; [done|]). done.
  - destruct (last (__ref_queue s)) as [c|] eqn:Hlast.
    + pose proof (last_Some_removelast _ _ Hlast) as Hq.
      assert (length (__ref_queue s) = S (length (removelast (__ref_queue s))))
        as Hlen.
      { rewrite Hq at 1. rewrite length_app. simpl. lia. }
      pose proof (call_spec c (set_ref_queue (removelast (__ref_queue s)) s))
        as (_ & _ & _ & _ & Hcq & evs1 & Hlog & Hst).
      destruct (call c (set_ref_queue (removelast (__ref_queue s)) s))
        as [s2 [[]|e]] eqn:Hcall; simpl in *.
      * specialize (IH s2). rewrite Hcq in IH.
        destruct IH as (called & evs & Hrest & Hlog2 & Hcalls & Hok & Herr);
          [lia|].
        exists (c :: called), (EvCall (filler_target c) :: evs1 ++ evs).
        split. { rewrite reverse_cons, app_assoc, <- Hrest. exact Hq. }
        split. { rewrite Hlog2, Hlog, <- app_assoc. done. }
        split. { change (EvCall (filler_target c) :: evs1 ++ evs)
                   with ([EvCall (filler_target c)] ++ evs1 ++ evs).
                 rewrite !calls_of_app, (calls_of_structural evs1), Hcalls by done.
                 done. }
        split; [exact Hok|].
        intros e He. destruct (Herr e He) as (c' & s0 & Hl & Hc').
        exists c', s0. split; [|done].
        destruct called as [|c0 called]; [done|]. exact Hl.
      * exists [c], (EvCall (filler_target c) :: evs1).
        split. { rewrite Hcq. exact Hq. }
        split; [done|]. split.
        { change (EvCall (filler_target c) :: evs1)
            with ([EvCall (filler_target c)] ++ evs1).
          rewrite calls_of_app, (calls_of_structural evs1) by done. done. }
        split; [done|]. intros e' [= <-].
        exists c, (set_ref_queue (removelast (__ref_queue s)) s).
        split; [done|]. by rewrite Hcall.
    + simpl. assert (__ref_queue s = []) as Hq.
      { destruct (__ref_queue s) as [|x l] eqn:E; [done|].
        exfalso. clear -Hlast. revert x Hlast.
        induction l as [|y l IHl]; intros x Hx; simpl in Hx; [done|].
        by apply (IHl y). }
      exists [], []. rewrite Hq. split; [done|]. split; [by rewrite app_nil_r|].
      repeat (split; [done|]). done.
Qed.

(** X2.  [__add_refs], whether it returns or raises: the deferred actions
    it has called are the last entries of the queue, called from the end
    backwards, and exactly they have left the queue.  When it returns the
    queue is empty; when it raises, the exception comes from the last
    action called, which is not put back, and the entries queued before
    it stay in the queue. *)
Theorem add_refs_pops_from_the_end s :
  let r := __add_refs s in
  exists called evs,
    __ref_queue s = __ref_queue r.1 ++ reverse called /\
    log r.1 = log s ++ evs /\
    calls_of evs = filler_target <$> called /\
    (r.2 = Ok tt -> __ref_queue r.1 = []) /\
    (forall e, r.2 = Raise e ->
       exists c s0, last called = Some c /\ (call c s0).2 = Raise e).
Proof.
  unfold __add_refs, bind, get_state. simpl.
  by apply add_refs_loop_outcome.
Qed.

(** ** Creating a member: all or nothing *)

(** A member that cannot be added leaves the state as it was. *)
Lemma h5_add_member_raise what parent name_ n ev s s' e :
  h5_add_member what parent name_ n ev s = (s', Raise e) -> s' = s.
Proof.
  unfold h5_add_member, bind, get_state, error, raise, modify, emit, ret.
  simpl. intros H.
  destruct (lookup_node s (h_file parent) (h_name parent)) as [[]|];
    try (by inversion H).
  destruct (h_writable parent); simpl in H; [|by inversion H].
  destruct (lookup_node s (h_file parent) (h_name parent ++ [name_]));
    by inversion H.
Qed.

Lemma h5_create_dataset_raise parent name_ shape dt value maxshape chunks s s' e :
  h5_create_dataset parent name_ shape dt value maxshape chunks s = (s', Raise e) ->
  s' = s.
Proof.
  unfold h5_create_dataset.
  destruct (chunks && bool_decide (default [] shape = [])).
  - by intros [= <- _].
  - apply h5_add_member_raise.
Qed.

(** [__scalar_fill__], step by step. *)
Lemma scalar_fill_eq parent name_ data dt s :
  __scalar_fill__ parent name_ data dt s =
  match (match is_class dt with
         | Some t => Ok t
         | None => __resolve_dtype__ dt data
         end) with
  | Raise e => (s, Raise e)
  | Ok t =>
      match h5_create_dataset parent name_ None (Some t) (Some data) None
              false s with
      | (s', Ok dset) => (s', Ok dset)
      | (s', Raise cause) =>
          (s', Raise (Exc Exception_
                        ("Could not create scalar dataset " +:+ name_ +:+ " in "
                         +:+ path_str (h_name parent)) (Some cause)))
      end
  end.
Proof.
  unfold __scalar_fill__, bind, try_except, raise_from, raise.
  destruct (is_class dt) as [t|]; [done|].
  unfold lift. by destruct (__resolve_dtype__ dt data).
Qed.


(** ** The path of a builder *)

Lemma names_below_root_spec chain :
  (ROOT_NAME ∉ names_below_root chain) /\
  exists above,
    chain = names_below_root chain ++ above /\
    (above = [] \/ head above = Some ROOT_NAME).
Proof.
  induction chain as [|n chain [IH1 (above & IH2 & IH3)]]; simpl.
  - split; [by intros ?%elem_of_nil|]. exists []. split; [done|by left].
  - destruct (String.eqb n ROOT_NAME) eqn:Hn.
    + apply String.eqb_eq in Hn as ->.
      split; [by intros ?%elem_of_nil|]. eexists. split; [done|by right].
    + apply String.eqb_neq in Hn. split.
      * intros [?|?]%elem_of_cons; [congruence|done].
      * exists above. split; [|done]. simpl. by f_equal.
Qed.

(** X4.  [__get_path] walks from the builder up its ancestors and stops
    at the first one named [ROOT_NAME], the builder itself included.  The
    path is made of the names below that one, outermost first, so that no
    component is [ROOT_NAME]: a builder named [ROOT_NAME] has the path
    [/] wherever it sits, any other builder the path of its parent
    followed by its own name, and the ancestors above a builder named
    [ROOT_NAME] do not count. *)
Theorem get_path_stops_at_root b :
  (ROOT_NAME ∉ __get_path b) /\
  (exists above,
      reverse (name b :: b_parent (hdr b)) = above ++ __get_path b /\
      (above = [] \/ last above = Some ROOT_NAME)) /\
  (name b = ROOT_NAME -> __get_path b = []) /\
  (name b <> ROOT_NAME ->
   __get_path b = reverse (names_below_root (b_parent (hdr b))) ++ [name b]).
Proof.
  unfold __get_path.
  destruct (names_below_root_spec (name b :: b_parent (hdr b)))
    as [Hroot (above & Heq & Habove)].
  split; [by rewrite elem_of_reverse|]. split.
  - exists (reverse above). split.
    + rewrite Heq at 1. by rewrite reverse_app.
    + destruct Habove as [->|Hh]; [by left|right].
      by rewrite last_reverse.
  - simpl. split.
    + intros ->. by rewrite String.eqb_refl.
    + intros Hne. apply String.eqb_neq in Hne. rewrite Hne.
      by rewrite reverse_cons.
Qed.

(** ** Attributes *)

Lemma dict_set_fresh {V} (d : list (string * V)) key value :
  key ∉ d.*1 -> dict_set d key value = d ++ [(key, value)].
Proof.
  induction d as [|[k v] d IH]; simpl; [done|]. intros Hk.
  apply not_elem_of_cons in Hk as [Hne Hk].
  destruct (String.eqb k key) eqn:E.
  - apply String.eqb_eq in E. congruence.
  - by rewrite IH.
Qed.

(** One assignment [obj.attrs[key] = value] that returns. *)
Lemma h5_set_attr_inv obj key value s s' :
  h5_set_attr obj key value s = (s', Ok tt) ->
  exists n n',
    lookup_node s (h_file obj) (h_name obj) = Some n /\
    lookup_node s' (h_file obj) (h_name obj) = Some n' /\
    node_core n' = node_core n /\
    node_attrs n' = dict_set (node_attrs n) key value.
Proof.
  unfold h5_set_attr, bind, get_state, error, raise, modify, emit. simpl.
  destruct (h_writable obj); simpl; [|done].
  destruct (lookup_node s (h_file obj) (h_name obj)) as [[attrs|d| |]|] eqn:Hn;
    simpl; intros [= <-]; try done.
  - eexists _, _. split; [done|]. rewrite lookup_node_set_log.
    split; [apply lookup_store_node_eq|done].
  - eexists _, _. split; [done|]. rewrite lookup_node_set_log.
    split; [apply lookup_store_node_eq|done].
Qed.

(** What [set_attributes] leaves when it returns, on an object whose
    attributes do not yet have any of the new keys. *)
Lemma set_attributes_inv obj attrs : forall s s' n,
  lookup_node s (h_file obj) (h_name obj) = Some n ->
  NoDup ((node_attrs n).*1 ++ attrs.*1) ->
  set_attributes obj attrs s = (s', Ok tt) ->
  exists n' converted,
    lookup_node s' (h_file obj) (h_name obj) = Some n' /\
    node_core n' = node_core n /\
    Forall2 (fun kv kv' => kv'.1 = kv.1 /\ attribute_value kv.2 = Ok kv'.2)
      attrs converted /\
    node_attrs n' = node_attrs n ++ converted.
Proof.
  induction attrs as [|[key value] attrs IH]; intros s s' n Hn Hdup Hset.
  - injection Hset as <-. exists n, []. rewrite app_nil_r.
    by repeat split.
  - unfold set_attributes in Hset. simpl in Hset.
    unfold bind at 1 in Hset. unfold bind at 1 in Hset. unfold lift in Hset.
    destruct (attribute_value value) as [value'|e] eqn:Hv; [|done].
    destruct (h5_set_attr obj key value' s) as [s1 [[]|e]] eqn:H1; [|done].
    apply h5_set_attr_inv in H1 as (n0 & n1 & Hn0 & Hn1 & Hcore & Hattrs).
    rewrite Hn in Hn0. injection Hn0 as <-.
    simpl in Hdup. apply NoDup_app in Hdup as (Hd1 & Hd2 & Hd3).
    apply NoDup_cons in Hd3 as [Hk Hd3].
    rewrite dict_set_fresh in Hattrs.
    2: { intros Hin. apply (Hd2 _ Hin). by left. }
    destruct (IH s1 s' n1 Hn1) as (n' & converted & Hn' & Hcore' & Hall & Hat).
    + rewrite Hattrs, fmap_app. simpl. apply NoDup_app. split; [|split].
      * apply NoDup_app. split; [done|]. split; [|apply NoDup_singleton].
        intros x Hx ->%list_elem_of_singleton. apply (Hd2 _ Hx). by left.
      * intros x [Hx| ->%list_elem_of_singleton]%elem_of_app; [|done].
        intros Hx'. apply (Hd2 _ Hx). by right.
      * done.
    + exact Hset.
    + exists n', ((key, value') :: converted). split; [done|].
      split; [congruence|]. split.
      * by constructor.
      * rewrite Hat, Hattrs, <- app_assoc. done.
Qed.

(** [set_attributes] returns on a group or dataset of a file open for
    writing when every value can be converted. *)
Lemma set_attributes_returns obj attrs : forall s n,
  lookup_node s (h_file obj) (h_name obj) = Some n ->
  link_path n = None ->
  h_writable obj = true ->
  Forall (fun kv => is_ok (attribute_value kv.2) = true) attrs ->
  exists s', set_attributes obj attrs s = (s', Ok tt).
Proof.
  induction attrs as [|[key value] attrs IH]; intros s n Hn Hl Hw Hall.
  - by eexists.
  - apply Forall_cons in Hall as [Hv Hall]. simpl in Hv.
    unfold set_attributes. simpl.
    unfold bind at 1. unfold bind at 1. unfold lift.
    destruct (attribute_value value) as [value'|e]; [|done].
    assert (exists s1 n1, h5_set_attr obj key value' s = (s1, Ok tt) /\
                          lookup_node s1 (h_file obj) (h_name obj) = Some n1 /\
                          link_path n1 = None) as (s1 & n1 & -> & Hn1 & Hl1).
    { unfold h5_set_attr, bind, get_state, modify, emit. simpl.
      rewrite Hw, Hn. simpl.
      destruct n as [a|d| |]; try done; eexists _, _;
        (split; [reflexivity|]); rewrite lookup_node_set_log;
        (split; [apply lookup_store_node_eq|done]). }
    apply (IH s1 n1 Hn1 Hl1 Hw Hall).
Qed.

Lemma max_len_strings items :
  forallb attr_word items = true -> is_ok (max_len items) = true.
Proof.
  induction items as [|x items IH]; [done|]. cbn [forallb max_len].
  intros [Hx Hrest]%andb_prop. destruct x; try done. cbn [py_len res_bind].
  specialize (IH Hrest). by destruct (max_len items).
Qed.

(** What h5py has a type for, the loop of [set_attributes] converts. *)
Lemma attr_storable_ok value :
  attr_storable value = true -> is_ok (attribute_value value) = true.
Proof.
  destruct value as [v|dt v]; [|done]. unfold attr_storable.
  assert (forall items,
            attr_items items = true ->
            match items with
            | [] => true
            | VStr _ :: _ => is_ok (max_len items)
            | _ :: _ => true
            end = true) as Hlist.
  { intros [|x items] H; [done|]. destruct x; try done.
    unfold attr_items in H. apply andb_prop in H as [_ H].
    apply orb_prop in H as [H|H]; [|done].
    apply orb_prop in H as [H|H]; [|done].
    apply orb_prop in H as [H|H]; [by apply max_len_strings|done]. }
  destruct v as [| | | | |items|items|items| |]; try done.
  - intros H. specialize (Hlist items H). cbn [attribute_value].
    destruct items as [|x items]; [done|].
    destruct x; try done. by destruct (max_len _).
  - intros H. specialize (Hlist items H). cbn [attribute_value].
    destruct items as [|x items]; [done|].
    destruct x; try done. by destruct (max_len _).
  - destruct items as [|x items]; [done|]. intros [_ H]%andb_prop.
    pose proof (max_len_strings _ H) as Hm. cbn [attribute_value].
    destruct x; try done. by destruct (max_len _).
Qed.

Lemma Forall_storable_ok (attrs : list (string * attrval)) :
  Forall (fun kv => storable kv = true) attrs ->
  Forall (fun kv => is_ok (attribute_value kv.2) = true) attrs.
Proof.
  intros H. eapply Forall_impl; [exact H|]. intros kv.
  unfold storable. intros [_ Hv]%andb_prop. by apply attr_storable_ok.
Qed.

(** X5.  [set_attributes] on a group or dataset of a file open for
    writing, with entries that h5py stores as they are handed to it
    ([storable]: a key of plain text; a number, plain text, or a
    collection of items of one such kind as value) and keys the object
    does not have yet (the keys of a dict are distinct): the call returns,
    and the object then holds its old attributes followed by the new ones,
    in the order of the dict, each converted as the loop converts it, and
    holds otherwise what it held. *)
Theorem set_attributes_stores obj attrs s n :
  lookup_node s (h_file obj) (h_name obj) = Some n ->
  link_path n = None ->
  h_writable obj = true ->
  Forall (fun kv => storable kv = true) attrs ->
  NoDup ((node_attrs n).*1 ++ attrs.*1) ->
  exists s' n' converted,
    set_attributes obj attrs s = (s', Ok tt) /\
    lookup_node s' (h_file obj) (h_name obj) = Some n' /\
    node_core n' = node_core n /\
    Forall2 (fun kv kv' => kv'.1 = kv.1 /\ attribute_value kv.2 = Ok kv'.2)
      attrs converted /\
    node_attrs n' = node_attrs n ++ converted.
Proof.
  intros Hn Hl Hw Hall%Forall_storable_ok Hdup.
  destruct (set_attributes_returns obj attrs s n Hn Hl Hw Hall) as [s' Hs'].
  destruct (set_attributes_inv obj attrs s s' n Hn Hdup Hs')
    as (n' & converted & H).
  by exists s', n', converted.
Qed.

(** Attributes on a fresh group: a string list, a number and a list of
    floats. *)
Lemma set_attributes_stores_witness :
  exists s' n' converted,
    set_attributes (mk_h5obj "f.h5" [] true)
      [("tags", AVal (VList [VStr "ab"; VStr "abcd"]));
       ("rate", AVal (VInt 3));
       ("gains", AVal (VList [VFloat 15 (-1); VFloat 2 0]))]
      (open sample_io).1 = (s', Ok tt) /\
    lookup_node s' "f.h5" [] = Some n' /\
    node_core n' = node_core (NGroup []) /\
    Forall2 (fun kv kv' => kv'.1 = kv.1 /\ attribute_value kv.2 = Ok kv'.2)
      [("tags", AVal (VList [VStr "ab"; VStr "abcd"]));
       ("rate", AVal (VInt 3));
       ("gains", AVal (VList [VFloat 15 (-1); VFloat 2 0]))] converted /\
    node_attrs n' = node_attrs (NGroup []) ++ converted.
Proof.
  apply (set_attributes_stores (mk_h5obj "f.h5" [] true)
           [("tags", AVal (VList [VStr "ab"; VStr "abcd"]));
            ("rate", AVal (VInt 3));
       ("gains", AVal (VList [VFloat 15 (-1); VFloat 2 0]))]
           (open sample_io).1 (NGroup [])).
  - reflexivity.
  - reflexivity.
  - reflexivity.
  - repeat constructor.
  - apply (bool_decide_unpack _). vm_compute. exact I.
Defined.

Lemma max_len_spec tmp : forall n,
  max_len tmp = Ok n ->
  Forall (fun x => exists k, py_len x = Ok k /\ (k <= n)%nat) tmp /\
  (tmp <> [] -> Exists (fun x => py_len x = Ok n) tmp).
Proof.
  induction tmp as [|x tmp IH]; intros n; simpl.
  - intros _. split; [constructor|done].
  - destruct (py_len x) as [k|] eqn:Hk; simpl; [|done].
    destruct (max_len tmp) as [m|] eqn:Hm; simpl; [|done].
    intros [= <-]. destruct (IH m eq_refl) as [Hall Hex]. split.
    + constructor; [exists k; split; [done|lia]|].
      eapply Forall_impl; [exact Hall|].
      intros y (j & Hj & Hle). exists j. split; [done|lia].
    + intros _. destruct (decide (m <= k)%nat) as [Hle|Hgt].
      * left. rewrite Hk. f_equal. lia.
      * right. destruct tmp as [|y tmp'].
        { simpl in Hm. injection Hm as <-. lia. }
        replace (k `max` m)%nat with m by lia. by apply Hex.
Qed.

Lemma max_len_raise tmp x :
  x ∈ tmp -> is_ok (py_len x) = false ->
  exists msg, max_len tmp = Raise (Exc TypeError msg None).
Proof.
  induction tmp as [|y tmp IH]; [by intros ?%elem_of_nil|].
  intros [->|Hin]%elem_of_cons Hx; simpl.
  - destruct y; try done; by eexists.
  - destruct (py_len y) eqn:Hy; simpl.
    + destruct (IH Hin Hx) as [msg ->]. by exists msg.
    + destruct y; simpl in Hy; try done; injection Hy as <-; by eexists.
Qed.


(** ** Masks that select nothing *)

Lemma nonzero_from_nil_iff items : forall i,
  nonzero_from i items = [] <->
  forall it, it ∈ items -> item_nonzero it = false.
Proof.
  induction items as [|it items IH]; intros i; simpl.
  - split; [by intros _ ? ?%elem_of_nil|done].
  - destruct (item_nonzero it) eqn:Hit.
    + split; [done|]. intros H. specialize (H it). rewrite Hit in H.
      discriminate H. by left.
    + rewrite IH. split.
      * intros H it' [->|Hin]%elem_of_cons; [done|by apply H].
      * intros H it' Hin. apply H. by right.
Qed.

Lemma last_None {A} (l : list A) : last l = None <-> l = [].
Proof.
  split; [|by intros ->].
  induction l as [|x [|y l] IH]; simpl in *; [done|done|].
  intros H. by specialize (IH H).
Qed.

Lemma selection_max_bounds_go_raise before sel after e :
  __selection_max_bounds__ sel = Raise e ->
  is_ok (__selection_max_bounds__ (STuple (before ++ sel :: after))) = false.
Proof.
  intros He. rewrite selection_max_bounds_tuple.
  induction before as [|b before IH]; simpl.
  - by rewrite He.
  - destruct (__selection_max_bounds__ b); simpl; [|done].
    destruct (map_res __selection_max_bounds__ (before ++ sel :: after));
      simpl in *; done.
Qed.

(** X7.  An index list in which no entry is non-zero - an empty list, a
    mask that is [False] throughout - has no last selected position:
    [__selection_max_bounds__] raises [IndexError] on it, and on no other
    list.  A chunk with such a selection, alone or as a component of a
    tuple, makes the loop of [__chunked_iter_fill__] raise before the
    dataset is resized or written. *)
Theorem all_false_mask_raises items :
  let index_error :=
    Exc IndexError "index -1 is out of bounds for axis 0 with size 0" None in
  ((forall it, it ∈ items -> item_nonzero it = false) <->
   __selection_max_bounds__ (SList items) = Raise index_error) /\
  (is_ok (__selection_max_bounds__ (SList items)) = false ->
   forall dset value s,
     write_chunk dset (mk_DataChunk (SList items) value) s
       = (s, Raise index_error) /\
     forall before after,
       let r := write_chunk dset
                  (mk_DataChunk (STuple (before ++ SList items :: after)) value)
                  s in
       r.1 = s /\ is_ok r.2 = false).
Proof.
  cbv zeta.
  assert (nonzero_from 0 items = [] ->
          __selection_max_bounds__ (SList items)
          = Raise (Exc IndexError
                     "index -1 is out of bounds for axis 0 with size 0" None))
    as Hraise.
  { intros Hn. simpl. unfold np_nonzero. by rewrite Hn. }
  assert (is_ok (__selection_max_bounds__ (SList items)) = false ->
          nonzero_from 0 items = []) as Hinv.
  { simpl. unfold np_nonzero.
    destruct (last (nonzero_from 0 items)) eqn:Hl; [done|].
    intros _. by apply last_None. }
  split.
  - rewrite <- (nonzero_from_nil_iff items 0). split; [exact Hraise|].
    intros H. apply Hinv. by rewrite H.
  - intros Hno dset value s. specialize (Hraise (Hinv Hno)). split.
    + unfold write_chunk, bind, lift. cbn [dc_selection]. by rewrite Hraise.
    + intros before after.
      pose proof (selection_max_bounds_go_raise before _ after _ Hraise) as Ht.
      unfold write_chunk, bind, lift. cbn [dc_selection].
      by destruct (__selection_max_bounds__ (STuple (before ++ SList items :: after))).
Qed.

(** ** A chunked write only grows the dataset *)

Lemma grown_ge max_bounds shape : Forall2 Z.le shape (grown shape max_bounds).
Proof.
  unfold grown. apply Forall2_same_length_lookup. split.
  - by rewrite length_imap.
  - intros i n n' Hn. rewrite list_lookup_imap, Hn. simpl. intros [= <-].
    destruct (max_bounds !! i) as [[|z|]|]; try lia.
    destruct (n <? z) eqn:E; [|lia]. apply Z.ltb_lt in E. lia.
Qed.

Lemma Forall2_le_trans (l1 l2 l3 : list Z) :
  Forall2 Z.le l1 l2 -> Forall2 Z.le l2 l3 -> Forall2 Z.le l1 l3.
Proof.
  intros H. revert l3. induction H as [|x y l1 l2 Hxy _ IH]; intros l3 H3.
  - by inversion H3.
  - inversion H3 as [|? z ? l3' Hyz Hrest]; subst. constructor; [lia|].
    by apply IH.
Qed.

(** X8.  The loop of [__chunked_iter_fill__] never shrinks the dataset:
    when all chunks are written, the dataset has the rank it had and, along
    every dimension, an extent at least as large as before. *)
Theorem chunked_fill_never_shrinks dset chunks : forall s s' d,
  lookup_node s (h_file dset) (h_name dset) = Some (NDataset d) ->
  for_each (write_chunk dset) chunks s = (s', Ok tt) ->
  exists d',
    lookup_node s' (h_file dset) (h_name dset) = Some (NDataset d') /\
    Forall2 Z.le (ds_shape d) (ds_shape d').
Proof.
  induction chunks as [|c chunks IH]; intros s s' d Hd Hrun.
  - injection Hrun as <-. exists d. split; [done|].
    apply Forall2_same_length_lookup. split; [done|].
    intros i x y Hx Hy. rewrite Hx in Hy. injection Hy as <-. lia.
  - simpl in Hrun. unfold bind at 1 in Hrun.
    destruct (write_chunk dset c s) as [s1 [[]|e]] eqn:Hc; [|done].
    destruct (write_chunk_spec _ _ _ _ _ Hd Hc) as (b & d1 & _ & Hd1 & Hshape & _).
    destruct (IH s1 s' d1 Hd1 Hrun) as (d' & Hd' & Hle).
    exists d'. split; [done|].
    eapply Forall2_le_trans; [|exact Hle]. rewrite Hshape. apply grown_ge.
Qed.

Lemma chunked_fill_never_shrinks_witness :
  exists d',
    lookup_node (for_each (write_chunk sample_stream) sample_chunks
                   sample_stream_io).1 "f.h5" ["stream"] = Some (NDataset d') /\
    Forall2 Z.le [0] (ds_shape d').
Proof.
  apply (chunked_fill_never_shrinks sample_stream sample_chunks
           sample_stream_io
           (for_each (write_chunk sample_stream) sample_chunks
              sample_stream_io).1
           (mk_dataset [] (Some np_int32) [0] [None] true ∅)).
  - vm_compute. reflexivity.
  - vm_compute. reflexivity.
Defined.

(** ** Writing a dataset and reading it back *)

Lemma slice_positions_all n :
  0 <= n -> slice_positions n None None None = Ok (seqZ 0 n).
Proof.
  intros Hn. unfold slice_positions. simpl.
  rewrite (proj2 (Z.ltb_ge n 0)) by lia.
  rewrite Z.min_l by lia. rewrite Z.min_id. f_equal.
  destruct (n <=? 0) eqn:Hle.
  - apply Z.leb_le in Hle. assert (n = 0) as -> by lia. done.
  - replace ((n - 0 + 1 - 1) / 1) with n by (rewrite Z.div_1_r; lia).
    rewrite <- (list_fmap_id (seqZ 0 n)) at 2.
    apply list_fmap_ext. intros _ k _. simpl. lia.
Qed.

(** [dset[:] = items] on a one-dimensional dataset with as many cells as
    there are items. *)
Lemma write_whole_list dset s d items :
  lookup_node s (h_file dset) (h_name dset) = Some (NDataset d) ->
  h_writable dset = true ->
  ds_shape d = [Z.of_nat (length items)] ->
  exists d',
    h5_setitem dset (SSlice None None None) (VList items) s =
      (set_log (log s ++ [EvSetItem (h_name dset) (SSlice None None None)])
         (store_node (h_file dset) (h_name dset) (NDataset d') s), Ok tt) /\
    ds_attrs d' = ds_attrs d /\ ds_dtype d' = ds_dtype d /\
    ds_shape d' = ds_shape d /\ ds_maxshape d' = ds_maxshape d /\
    read_cells d' = items.
Proof.
  intros Hd Hw Hshape. set (len := Z.of_nat (length items)).
  assert (all_positions (ds_shape d) (sel_components (SSlice None None None))
          = Ok [seqZ 0 len]) as Hpos.
  { rewrite Hshape. cbn [all_positions sel_components dim_positions].
    rewrite slice_positions_all by (unfold len; lia). done. }
  exists (written d (SSlice None None None) (VList items) [seqZ 0 len]).
  split.
  - apply (h5_setitem_eq _ _ _ _ _ _ Hd Hw Hpos).
    rewrite Hshape. simpl length. change (1 - 0)%nat with 1%nat.
    change (items ≫= λ x : pyval, [x]) with (flatten_depth 1 (VList items)).
    change (seqZ 0 len ≫= λ i : Z, [[i]]) with (index_tuples [seqZ 0 len]).
    rewrite flatten_depth_1_list, index_tuples_1, length_fmap, length_seqZ.
    case_bool_decide as H1; [by rewrite length_replicate|unfold len; lia].
  - unfold written. simpl. repeat split; try done.
    unfold read_cells. simpl. rewrite Hshape. simpl length.
    change (1 - 0)%nat with 1%nat.
    change (items ≫= λ x : pyval, [x]) with (flatten_depth 1 (VList items)).
    change (seqZ 0 len ≫= λ i : Z, [[i]]) with (index_tuples [seqZ 0 len]).
    rewrite flatten_depth_1_list, index_tuples_1.
    assert ((if bool_decide (length items = 1%nat)
             then replicate (length ((fun i => [i]) <$> seqZ 0 len))
                    (default VNone (head items))
             else items) = items) as ->.
    { case_bool_decide as H1; [|done].
      destruct items as [|x [|y items]]; simpl in H1; try done. }
    pose proof (read_after_append (ds_cells d) (ds_cells d) 0 items) as Hr.
    rewrite Z.add_0_l in Hr. fold len in Hr. fold len.
    rewrite Hr; [done|lia|lia].
Qed.

Lemma basename_app (p : path) (k : string) : basename (p ++ [k]) = k.
Proof. unfold basename. by rewrite last_snoc. Qed.

(** [__list_fill__] on a list whose shape is its length. *)
Lemma list_fill_flat parent name_ items dt t pattrs s :
  lookup_node s (h_file parent) (h_name parent) = Some (NGroup pattrs) ->
  h_writable parent = true ->
  lookup_node s (h_file parent) (h_name parent ++ [name_]) = None ->
  match is_class dt with
  | Some t' => Ok t'
  | None => __resolve_dtype__ dt (VList items)
  end = Ok t ->
  is_np_dtype t = true \/ get_shape (VList items) = [Z.of_nat (length items)] ->
  exists s1 d1,
    __list_fill__ parent name_ (VList items) dt s
      = (s1, Ok (mk_h5obj (h_file parent) (h_name parent ++ [name_]) true)) /\
    lookup_node s1 (h_file parent) (h_name parent ++ [name_])
      = Some (NDataset d1) /\
    ds_attrs d1 = [] /\ ds_dtype d1 = Some t /\
    ds_shape d1 = [Z.of_nat (length items)] /\
    ds_maxshape d1 = [Some (Z.of_nat (length items))] /\
    read_cells d1 = items.
Proof.
  intros Hp Hw Hfree Ht Hshape. set (len := Z.of_nat (length items)).
  set (dset := mk_h5obj (h_file parent) (h_name parent ++ [name_]) true).
  set (d0 := mk_dataset [] (Some t) [len] [Some len] false ∅).
  set (s0 := set_log (log s ++ [EvCreateDataset (h_name parent ++ [name_])])
               (store_node (h_file parent) (h_name parent ++ [name_])
                  (NDataset d0) s)).
  assert (lookup_node s0 (h_file dset) (h_name dset) = Some (NDataset d0))
    as Hd0.
  { unfold s0. rewrite lookup_node_set_log. apply lookup_store_node_eq. }
  destruct (write_whole_list dset s0 d0 items Hd0 eq_refl eq_refl)
    as (d1 & Hset & Ha & Hdt & Hsh & Hms & Hcells).
  eexists _, d1. split; [|split; [|by rewrite Ha, Hdt, Hsh, Hms]].
  - unfold __list_fill__.
    assert ((match is_class dt with
             | Some t' => ret t'
             | None => lift (__resolve_dtype__ dt (VList items))
             end) s = (s, Ok t)) as Hres.
    { destruct (is_class dt); [by injection Ht as ->|]. unfold lift.
      by rewrite Ht. }
    unfold bind at 1. rewrite Hres.
    assert ((if is_np_dtype t
             then n <- lift (py_len (VList items));; ret [Z.of_nat n]
             else ret (get_shape (VList items))) s = (s, Ok [len])) as Hsh'.
    { destruct (is_np_dtype t); [done|].
      destruct Hshape as [?|Hg]; [done|]. unfold ret. by rewrite Hg. }
    unfold bind at 1. rewrite Hsh'.
    unfold bind at 1. unfold try_except.
    assert (h5_create_dataset parent name_ (Some [len]) (Some t) None None false s
            = (s0, Ok dset)) as Hc.
    { unfold h5_create_dataset. simpl.
      by rewrite (h5_add_member_eq _ _ _ _ _ _ _ Hp Hw Hfree). }
    rewrite Hc. unfold bind at 1. unfold lift. simpl py_len. cbv beta iota.
    unfold bind at 1. rewrite (h5_shape_eq _ _ _ Hd0).
    change (ds_shape d0) with [len].
    cbv beta iota. rewrite Z.ltb_irrefl.
    unfold bind at 1. unfold ret at 1. cbv beta iota.
    unfold bind at 1. rewrite Hset. reflexivity.
  - rewrite lookup_node_set_log. apply lookup_store_node_eq.
Qed.

(** [__read_dataset] on a dataset that does not hold a region reference:
    one builder is constructed, nothing else changes. *)
Lemma read_dataset_eq fuel h5 nm s d :
  lookup_node s (h_file h5) (h_name h5) = Some (NDataset d) ->
  is_region_scalar d = false ->
  __read_dataset (S fuel) h5 nm s =
  (set_log (log s ++ [EvNew (h_file h5) (h_name h5) (next_id s)])
     (set_next_id (S (next_id s)) s),
   Ok (DatasetBuilder
         (mk_header (next_id s) (default (basename (h_name h5)) nm) []
            (Some (__path s)) (ds_attrs d))
         (data_read h5 d) (DtNp (ds_dtype d)) (Some (ds_maxshape d)))).
Proof.
  intros Hd Hplain. simpl. unfold bind at 1. rewrite (get_dataset_eq _ _ _ Hd).
  unfold is_region_scalar in Hplain. unfold data_read.
  unfold new_header, bind, get_state, fresh_id, emit, modify, ret. simpl.
  destruct (ds_shape d) as [|n [|m sh]] eqn:Hs; simpl.
  - destruct (ds_cells d !! []) as [[| | | | | | | | |]|] eqn:Hc; simpl;
      done.
  - by destruct (is_object_dtype (ds_dtype d)).
  - done.
Qed.

Lemma node_core_dataset_inv n d :
  node_core n = node_core (NDataset d) ->
  exists d', n = NDataset d' /\ ds_dtype d' = ds_dtype d /\
             ds_shape d' = ds_shape d /\ ds_maxshape d' = ds_maxshape d /\
             ds_cells d' = ds_cells d.
Proof.
  destruct n as [|d'| |]; simpl; try done.
  intros [= ? ? ? ? ?]. by exists d'.
Qed.

Lemma of_ctype_shape t items :
  Forall (fun v => of_ctype t v = true) items ->
  is_np_dtype t = true \/
  get_shape (VList items) = [Z.of_nat (length items)].
Proof.
  intros H. right. destruct items as [|x items]; [done|].
  apply Forall_cons in H as [Hx _]. cbn [get_shape].
  by destruct t, x.
Qed.



(** X10.  A string written by [write_dataset] and read back, for a
    string of plain text (ASCII, without NUL), a name that is one
    component of a path and storable attributes.  A string is handed to
    [__scalar_fill__] without the dtype of the builder: whatever the
    builder declares (anything but a compound type), the dataset is a
    scalar of variable-length text.  Read back, the builder has the name,
    the string as its data, the attributes as converted, and text as its
    type. *)
Theorem string_dataset_round_trip parent h str dt ms pattrs s fuel :
  let b := DatasetBuilder h (BVal (VStr str)) dt ms in
  lookup_node s (h_file parent) (h_name parent) = Some (NGroup pattrs) ->
  h_writable parent = true ->
  lookup_node s (h_file parent) (h_name parent ++ [b_name h]) = None ->
  plain_name (b_name h) = true ->
  plain_text str = true ->
  is_list dt = None ->
  Forall (fun kv => storable kv = true) (b_attributes h) ->
  NoDup (b_attributes h).*1 ->
  exists s1 dset s2 h' converted,
    write_dataset parent b s = (s1, Ok (Some dset)) /\
    h_name dset = h_name parent ++ [b_name h] /\
    __read_dataset (S fuel) dset None s1
      = (s2, Ok (DatasetBuilder h' (BVal (VStr str)) (DtNp (Some vlen_text))
                   (Some []))) /\
    b_name h' = b_name h /\ b_attributes h' = converted /\
    Forall2 (fun kv kv' => kv'.1 = kv.1 /\ attribute_value kv.2 = Ok kv'.2)
      (b_attributes h) converted.
Proof.
  intros b Hp Hw Hfree _ _ Hl Hconv%Forall_storable_ok Hdup.
  set (dset := mk_h5obj (h_file parent) (h_name parent ++ [b_name h]) true).
  set (d0 := mk_dataset [] (Some vlen_text) [] [] false {[ [] := VStr str ]}).
  set (s0 := set_log (log s ++ [EvCreateDataset (h_name parent ++ [b_name h])])
               (store_node (h_file parent) (h_name parent ++ [b_name h])
                  (NDataset d0) s)).
  assert (__scalar_fill__ parent (b_name h) (VStr str) DtNone s = (s0, Ok dset))
    as Hfill.
  { rewrite scalar_fill_eq. simpl. rewrite create_scalar_eq.
    by rewrite (h5_add_member_eq _ _ _ _ _ _ _ Hp Hw Hfree). }
  assert (lookup_node s0 (h_file dset) (h_name dset) = Some (NDataset d0))
    as Hd0.
  { unfold s0. rewrite lookup_node_set_log. apply lookup_store_node_eq. }
  destruct (set_attributes_returns dset (b_attributes h) s0 (NDataset d0) Hd0
              eq_refl eq_refl Hconv) as [s1 Hs1].
  destruct (set_attributes_inv dset (b_attributes h) s0 s1 (NDataset d0) Hd0)
    as (n1 & converted & Hn1 & Hcore & Hall & Hattrs); [done|exact Hs1|].
  apply node_core_dataset_inv in Hcore as (d1 & -> & Hdt1 & Hsh1 & Hms1 & Hc1).
  simpl in Hattrs, Hdt1, Hsh1, Hms1, Hc1.
  assert (is_region_scalar d1 = false) as Hplain.
  { unfold is_region_scalar. rewrite Hsh1, Hc1.
    by rewrite lookup_singleton_eq. }
  eexists s1, dset, _, _, converted.
  split; [|split; [done|split; [|split; [|split; [|exact Hall]]]]].
  - unfold write_dataset, b. cbn [is_dataset_builder negb name data attributes
                                  dtype hdr].
    rewrite Hl. cbv beta iota zeta. unfold bind at 1.
    change (name (DatasetBuilder h (BVal (VStr str)) dt ms)) with (b_name h).
    change (attributes (DatasetBuilder h (BVal (VStr str)) dt ms))
      with (b_attributes h).
    rewrite Hfill.
    unfold bind at 1. fold dset. by rewrite Hs1.
  - rewrite (read_dataset_eq fuel dset None s1 d1 Hn1 Hplain).
    f_equal. f_equal. unfold data_read.
    rewrite Hms1, Hdt1, Hsh1, Hc1. by rewrite lookup_singleton_eq.
  - simpl. apply basename_app.
  - exact Hattrs.
Qed.

(** [sample_note] declares the type ["int"] for the string ["hello"]. *)
Lemma string_dataset_round_trip_witness :
  exists s1 dset s2 h' converted,
    write_dataset (mk_h5obj "f.h5" [] true) sample_note (open sample_io).1
      = (s1, Ok (Some dset)) /\
    h_name dset = ["note"] /\
    __read_dataset 1 dset None s1
      = (s2, Ok (DatasetBuilder h' (BVal (VStr "hello"))
                   (DtNp (Some vlen_text)) (Some []))) /\
    b_name h' = "note" /\ b_attributes h' = converted /\
    Forall2 (fun kv kv' => kv'.1 = kv.1 /\ attribute_value kv.2 = Ok kv'.2)
      (attributes sample_note) converted.
Proof.
  apply (string_dataset_round_trip (mk_h5obj "f.h5" [] true) (hdr sample_note)
           "hello" (DtStr "int") None [] (open sample_io).1 0).
  - reflexivity.
  - reflexivity.
  - reflexivity.
  - reflexivity.
  - reflexivity.
  - reflexivity.
  - repeat constructor.
  - apply (bool_decide_unpack _). vm_compute. exact I.
Defined.

(** ** What reading leaves on disk *)

#[local] Instance same_files_preorder : PreOrder same_files.
Proof.
  split; [by intros s|]. intros s1 s2 s3 H1 H2. unfold same_files in *.
  congruence.
Qed.

#[local] Hint Extern 1 (same_files _ _) => exact eq_refl : pres.

Lemma same_files_emit e : preserves same_files (emit e).
Proof. by intros s. Qed.

Lemma same_files_fresh_id : preserves same_files fresh_id.
Proof. by intros s. Qed.
#[local] Hint Resolve same_files_emit same_files_fresh_id : pres.

Lemma same_files_get_dataset dset : preserves same_files (get_dataset dset).
Proof. unfold get_dataset. preserve. Qed.

Lemma same_files___set_built fpath p b :
  preserves same_files (__set_built fpath p b).
Proof. unfold __set_built. preserve. Qed.

Lemma same_files___get_built fpath p : preserves same_files (__get_built fpath p).
Proof. unfold __get_built. preserve. Qed.

Lemma same_files_new_header h5 name_ attrs :
  preserves same_files (new_header h5 name_ attrs).
Proof. unfold new_header. preserve. Qed.
#[local] Hint Resolve same_files_get_dataset same_files___set_built
  same_files___get_built same_files_new_header : pres.

Lemma same_files___read_dataset fuel :
  forall h5 name_, preserves same_files (__read_dataset fuel h5 name_).
Proof.
  induction fuel as [|fuel IH]; intros h5 name_; simpl; preserve.
Qed.
#[local] Hint Resolve same_files___read_dataset : pres.

Lemma same_files___read_group fuel :
  forall h5 name_, preserves same_files (__read_group fuel h5 name_).
Proof.
  induction fuel as [|fuel IH]; intros h5 name_; simpl; preserve.
Qed.
#[local] Hint Resolve same_files___read_group : pres.

Lemma same_files_the_file : preserves same_files the_file.
Proof. unfold the_file. preserve. Qed.
#[local] Hint Resolve same_files_the_file : pres.

(** [open], by mode, on the files. *)
Lemma open_disk s :
  (__mode s = "r" \/ __mode s = "r+" -> disk (open s).1 = disk s) /\
  (__mode s = "w" ->
   open s =
   (set_file (Some (mk_File (next_id s) (__path s) true))
      (set_open_handles ({[ next_id s ]} ∪ open_handles s)
         (set_next_id (S (next_id s))
            (set_disk (<[__path s := empty_file]> (disk s)) s))), Ok tt)).
Proof.
  unfold open, h5_File, bind, get_state, fresh_id, modify, ret, error, raise.
  simpl. split.
  - intros [->| ->]; simpl;
      by destruct (bool_decide (is_Some (disk s !! __path s))).
  - intros ->. reflexivity.
Qed.

(** X11.  Reading never writes: [__read_group] and [__read_dataset] leave
    every file as it is, whatever they return or raise, so that the files
    after [read_builder] are the files after its [open]; in the modes ["r"]
    and ["r+"], in which [open] changes no file, they are the files before
    the call. *)
Theorem read_path_keeps_files fuel s :
  (forall h5 nm, disk (__read_group fuel h5 nm s).1 = disk s) /\
  (forall h5 nm, disk (__read_dataset fuel h5 nm s).1 = disk s) /\
  disk (read_builder fuel s).1 = disk (open s).1 /\
  (__mode s = "r" \/ __mode s = "r+" -> disk (read_builder fuel s).1 = disk s).
Proof.
  assert (disk (read_builder fuel s).1 = disk (open s).1) as Hrb.
  { unfold read_builder. unfold bind at 1.
    destruct (open s) as [s1 [[]|e]]; [|done]. simpl.
    assert (preserves same_files
              (s0 <- get_state;; f <- the_file;;
               match __read s0 !! f_filename f with
               | Some f_builder => ret f_builder
               | None =>
                   f_builder <- __read_group fuel (file_root f) (Some ROOT_NAME);;
                   modify (fun s => set_read (<[f_filename f := f_builder]>
                                                (__read s)) s);;;
                   ret f_builder
               end)) as Hp by preserve.
    apply Hp. }
  split; [intros h5 nm; apply same_files___read_group|].
  split; [intros h5 nm; apply same_files___read_dataset|].
  split; [exact Hrb|].
  intros Hm. rewrite Hrb. by apply open_disk.
Qed.

Lemma member_names_empty_file s o :
  disk s !! h_file o = Some empty_file -> member_names s o = [].
Proof.
  unfold member_names, empty_file. intros ->.
  by rewrite map_to_list_singleton.
Qed.

(** Reading a group without members. *)
Lemma read_empty_group fuel h5 nm s attrs :
  lookup_node s (h_file h5) (h_name h5) = Some (NGroup attrs) ->
  member_names s h5 = [] ->
  __read_group (S fuel) h5 nm s =
  (set_log (log s ++ [EvNew (h_file h5) (h_name h5) (next_id s)])
     (set_next_id (S (next_id s)) s),
   Ok (GroupBuilder
         (mk_header (next_id s) (default (basename (h_name h5)) nm) []
            (Some (__path s)) attrs) [] [] [])).
Proof.
  intros Hn Hm. cbn [__read_group]. unfold bind at 1. unfold get_state at 1.
  cbv beta iota. rewrite Hn, Hm. reflexivity.
Qed.

(** X12.  [read_builder] opens the file in the mode of the [HDF5IO]
    object.  On an object of mode ["w"] that has not opened its file nor
    read it, the file is replaced by an empty one before anything is read:
    whatever the file held, the builder returned is a root without
    members. *)
Theorem read_builder_in_write_mode_truncates fuel s :
  __mode s = "w" -> __file s = None -> __read s !! __path s = None ->
  let r := read_builder (S fuel) s in
  disk r.1 = <[__path s := empty_file]> (disk s) /\
  exists h, r.2 = Ok (GroupBuilder h [] [] []) /\ b_name h = ROOT_NAME.
Proof.
  intros Hm _ Hread. cbv zeta.
  destruct (open_disk s) as [_ Hopen]. specialize (Hopen Hm).
  destruct (read_builder (S fuel) s) as [s2 r2] eqn:Hr. simpl.
  unfold read_builder in Hr. unfold bind at 1 in Hr. rewrite Hopen in Hr.
  set (s1 := set_file _ _) in Hr.
  unfold bind at 1 in Hr. unfold get_state at 1 in Hr. cbv beta iota in Hr.
  unfold bind at 1 in Hr.
  unfold the_file at 1, bind at 1, get_state at 1, ret at 1 in Hr.
  cbv beta iota in Hr.
  change (__file s1) with (Some (mk_File (next_id s) (__path s) true)) in Hr.
  cbv beta iota in Hr. change (__read s1) with (__read s) in Hr.
  cbn [f_filename] in Hr. rewrite Hread in Hr.
  assert (disk s1 !! __path s = Some empty_file) as Hfile.
  { unfold s1. simpl. apply lookup_insert_eq. }
  assert (lookup_node s1 (__path s) [] = Some (NGroup [])) as Hroot.
  { unfold lookup_node. by rewrite Hfile. }
  unfold bind at 1 in Hr.
  rewrite (read_empty_group fuel
             (file_root (mk_File (next_id s) (__path s) true)) _ s1 []
             Hroot) in Hr
    by (by apply member_names_empty_file).
  unfold bind, modify, ret in Hr. simpl in Hr. injection Hr as <- <-.
  split; [done|]. by eexists.
Qed.

(** Over the file written from [sample_references], which holds three
    datasets. *)
Lemma read_builder_in_write_mode_truncates_witness :
  lookup_node sample_overwrite "f.h5" ["values"] <> None /\
  disk (read_builder 1 sample_overwrite).1
    = <[__path sample_overwrite := empty_file]> (disk sample_overwrite) /\
  exists h, (read_builder 1 sample_overwrite).2 = Ok (GroupBuilder h [] [] [])
            /\ b_name h = ROOT_NAME.
Proof.
  split; [by vm_compute|].
  exact (read_builder_in_write_mode_truncates 0 sample_overwrite eq_refl
           eq_refl eq_refl).
Defined.

(** ** Writing through a handle without write intent *)

#[local] Instance read_only_preorder : PreOrder read_only.
Proof.
  split; [by intros s|]. intros s1 s2 s3 [H1 H2] [G1 G2]. split.
  - congruence.
  - intros H. by apply G2, H2.
Qed.

Section fails_clean_rules.
Context (R : relation state) `{!PreOrder R}.

Lemma fails_clean_preserves {A} (m : M A) : fails_clean m -> preserves R m.
Proof. intros H s. destruct (H s) as [e ->]. reflexivity. Qed.
End fails_clean_rules.

Lemma fails_clean_error {A} c msg : fails_clean (@error A c msg).
Proof. intros s. by eexists. Qed.

Lemma fails_clean_bind {A B} (m : M A) (k : A -> M B) :
  fails_clean m -> fails_clean (bind m k).
Proof. intros H s. destruct (H s) as [e He]. exists e. unfold bind. by rewrite He. Qed.

Lemma fails_clean_lift_bind {A B} (r : res A) (k : A -> M B) :
  (forall a, fails_clean (k a)) -> fails_clean (bind (lift r) k).
Proof.
  intros H s. unfold bind, lift. destruct r as [a|e]; [apply H|by eexists].
Qed.

Lemma fails_clean_ret_bind {A B} (a : A) (k : A -> M B) :
  fails_clean (k a) -> fails_clean (bind (ret a) k).
Proof. intros H s. unfold bind, ret. apply H. Qed.

Lemma fails_clean_try_except {A} (m : M A) (h : exc -> M A) :
  fails_clean m -> (forall e, fails_clean (h e)) -> fails_clean (try_except m h).
Proof.
  intros Hm Hh s. unfold try_except. destruct (Hm s) as [e ->]. apply Hh.
Qed.

Lemma fails_clean_raise_from {A} msg e : fails_clean (@raise_from A msg e).
Proof. intros s. by eexists. Qed.

Lemma ro_add_member what parent name_ n ev :
  h_writable parent = false -> fails_clean (h5_add_member what parent name_ n ev).
Proof.
  intros Hw s. unfold h5_add_member, bind, get_state, error, raise. simpl.
  rewrite Hw. simpl.
  destruct (lookup_node s (h_file parent) (h_name parent)) as [[]|];
    by eexists.
Qed.

Lemma ro_create_dataset parent name_ shape dt value maxshape chunks :
  h_writable parent = false ->
  fails_clean (h5_create_dataset parent name_ shape dt value maxshape chunks).
Proof.
  intros Hw. unfold h5_create_dataset.
  destruct (chunks && _); [apply fails_clean_error|by apply ro_add_member].
Qed.

Lemma ro_set_attr obj key value :
  h_writable obj = false -> fails_clean (h5_set_attr obj key value).
Proof.
  intros Hw s. unfold h5_set_attr, bind, get_state, error, raise. simpl.
  rewrite Hw. by eexists.
Qed.

Lemma ro_set_attributes obj attrs :
  h_writable obj = false -> preserves read_only (set_attributes obj attrs).
Proof.
  intros Hw. unfold set_attributes. apply preserves_for_each; [apply _|].
  intros [key value] _. apply fails_clean_preserves; [apply _|].
  apply fails_clean_lift_bind. intros a. by apply ro_set_attr.
Qed.

Lemma ro_write_group parent b :
  h_writable parent = false -> fails_clean (write_group parent b).
Proof.
  intros Hw. destruct b; simpl; try apply fails_clean_error.
  apply fails_clean_bind. by apply ro_add_member.
Qed.

Lemma ro_scalar_fill parent name_ data_ dt :
  h_writable parent = false ->
  fails_clean (__scalar_fill__ parent name_ data_ dt).
Proof.
  intros Hw. unfold __scalar_fill__.
  assert (forall t, fails_clean
            (try_except
               (h5_create_dataset parent name_ None (Some t) (Some data_) None
                  false)
               (fun exc =>
                  raise_from ("Could not create scalar dataset " +:+ name_
                              +:+ " in " +:+ path_str (h_name parent)) exc)))
    as Hc.
  { intros t. apply fails_clean_try_except; [by apply ro_create_dataset|].
    intros e. apply fails_clean_raise_from. }
  destruct (is_class dt).
  - by apply fails_clean_ret_bind.
  - by apply fails_clean_lift_bind.
Qed.

Lemma ro_chunked_iter_fill parent name_ it :
  h_writable parent = false ->
  fails_clean (__chunked_iter_fill__ parent name_ it).
Proof.
  intros Hw. unfold __chunked_iter_fill__. apply fails_clean_bind.
  apply fails_clean_try_except; [by apply ro_create_dataset|].
  intros e. apply fails_clean_raise_from.
Qed.

Lemma ro_list_fill parent name_ data_ dt :
  h_writable parent = false ->
  fails_clean (__list_fill__ parent name_ data_ dt).
Proof.
  intros Hw. unfold __list_fill__.
  assert (forall t shape, fails_clean
            (dset <- try_except
               (h5_create_dataset parent name_ (Some shape) (Some t) None None
                  false)
               (fun exc =>
                  raise_from ("Could not create dataset " +:+ name_ +:+ " in "
                              +:+ path_str (h_name parent) +:+ " dtype_spec = "
                              +:+ dtype_spec_str dt) exc) ;;
             n <- lift (py_len data_) ;;
             shape <- h5_shape dset ;;
             match shape with
             | [] => error IndexError "tuple index out of range"
             | extent :: rest =>
                 (if extent <? Z.of_nat n
                  then h5_resize dset (Z.of_nat n :: rest)
                  else ret tt) ;;;
                 h5_setitem dset (SSlice None None None) data_ ;;;
                 ret dset
             end)) as Hc.
  { intros t shape. apply fails_clean_bind.
    apply fails_clean_try_except; [by apply ro_create_dataset|].
    intros e. apply fails_clean_raise_from. }
  assert (forall t, fails_clean
            (data_shape <- (if is_np_dtype t
                            then n <- lift (py_len data_) ;; ret [Z.of_nat n]
                            else ret (get_shape data_)) ;;
             dset <- try_except
               (h5_create_dataset parent name_ (Some data_shape) (Some t) None
                  None false)
               (fun exc =>
                  raise_from ("Could not create dataset " +:+ name_ +:+ " in "
                              +:+ path_str (h_name parent) +:+ " dtype_spec = "
                              +:+ dtype_spec_str dt) exc) ;;
             n <- lift (py_len data_) ;;
             shape <- h5_shape dset ;;
             match shape with
             | [] => error IndexError "tuple index out of range"
             | extent :: rest =>
                 (if extent <? Z.of_nat n
                  then h5_resize dset (Z.of_nat n :: rest)
                  else ret tt) ;;;
                 h5_setitem dset (SSlice None None None) data_ ;;;
                 ret dset
             end)) as Hs.
  { intros t s. unfold bind at 1.
    destruct (is_np_dtype t).
    - unfold bind at 1. unfold lift, ret.
      destruct (py_len data_); [apply Hc|by eexists].
    - unfold ret at 1. apply Hc. }
  destruct (is_class dt).
  - by apply fails_clean_ret_bind.
  - by apply fails_clean_lift_bind.
Qed.

Lemma ro_set_link parent name_ link :
  h_writable parent = false -> fails_clean (h5_set_link parent name_ link).
Proof. intros Hw. apply fails_clean_bind. by apply ro_add_member. Qed.

Lemma ro_queue_ref f :
  h_writable (filler_parent f) = false -> preserves read_only (__queue_ref f).
Proof.
  intros Hf s. split; [done|]. simpl. intros H.
  apply Forall_app. split; [done|]. by constructor.
Qed.

Lemma ro_bind_preserves {A B} (m : M A) (k : A -> M B) :
  fails_clean m -> preserves read_only (bind m k).
Proof.
  intros H. apply fails_clean_preserves; [apply _|]. by apply fails_clean_bind.
Qed.

Lemma ro_write_dataset parent b :
  h_writable parent = false -> preserves read_only (write_dataset parent b).
Proof.
  intros Hw. unfold write_dataset.
  assert (forall {B} n d dt (k : h5obj -> M B),
            preserves read_only (bind (__list_fill__ parent n d dt) k))
    as Hlist by (intros; by apply ro_bind_preserves, ro_list_fill).
  assert (forall {B} n d dt (k : h5obj -> M B),
            preserves read_only (bind (__scalar_fill__ parent n d dt) k))
    as Hscalar by (intros; by apply ro_bind_preserves, ro_scalar_fill).
  assert (forall {B} n it (k : h5obj -> M B),
            preserves read_only (bind (__chunked_iter_fill__ parent n it) k))
    as Hchunk by (intros; by apply ro_bind_preserves, ro_chunked_iter_fill).
  destruct (negb (is_dataset_builder b)); [apply preserves_error; apply _|].
  cbv zeta. destruct (is_list (dtype b)) as [fields|].
  - case_bool_decide.
    + apply preserves_bind; [apply _|apply preserves_lift; apply _|].
      intros t. apply preserves_bind; [apply _|by apply ro_queue_ref|].
      intros _. apply preserves_ret; apply _.
    + apply preserves_bind; [apply _|apply preserves_lift; apply _|].
      intros v. apply Hlist.
  - destruct (data b) as [v|it|it|d|target|rows].
    + destruct v; first [apply Hscalar | apply Hlist].
    + apply Hchunk.
    + apply Hchunk.
    + apply fails_clean_preserves; [apply _|].
      apply fails_clean_bind. by apply ro_set_link.
    + apply preserves_bind; [apply _|apply preserves_lift; apply _|].
      intros t. apply preserves_bind; [apply _| |].
      * destruct (is_tag (dtype b) "region"); by apply ro_queue_ref.
      * intros _. apply preserves_ret; apply _.
    + apply preserves_bind; [apply _|apply preserves_lift; apply _|].
      intros v. apply Hlist.
Qed.

Lemma same_files_h5_getitem f p : preserves same_files (h5_getitem f p).
Proof. unfold h5_getitem. preserve. Qed.
#[local] Hint Resolve same_files_h5_getitem : pres.

Lemma same_files___get_ref container region :
  preserves same_files (__get_ref container region).
Proof. unfold __get_ref. preserve. Qed.
#[local] Hint Resolve same_files___get_ref : pres.

Lemma same_files_fill_refs item new_item refs :
  preserves same_files (fill_refs item new_item refs).
Proof.
  revert new_item. induction refs as [|i refs IH]; intros new_item; simpl.
  - preserve.
  - destruct (item !! i); preserve.
Qed.
#[local] Hint Resolve same_files_fill_refs : pres.

(** A deferred action on a group without write intent changes no file. *)
Lemma ro_call f :
  h_writable (filler_parent f) = false -> preserves same_files (call f).
Proof.
  intros Hw. unfold call.
  apply preserves_bind; [apply _|apply same_files_emit|]. intros _.
  destruct f as [parent n d refs t attrs|parent n d b t attrs
                |parent n d t attrs]; simpl in Hw.
  - apply preserves_bind; [apply _|apply preserves_lift; apply _|].
    intros rows. apply preserves_bind; [apply _| |].
    + apply preserves_map_M; [apply _|]. intros item.
      apply same_files_fill_refs.
    + intros filled. apply fails_clean_preserves; [apply _|].
      apply fails_clean_bind. by apply ro_create_dataset.
  - apply preserves_bind; [apply _| |].
    + destruct b; preserve.
    + intros region. apply preserves_bind; [apply _|apply same_files___get_ref|].
      intros ref. apply fails_clean_preserves; [apply _|].
      apply fails_clean_bind. by apply ro_create_dataset.
  - apply preserves_bind; [apply _|apply same_files___get_ref|].
    intros ref. apply fails_clean_preserves; [apply _|].
    apply fails_clean_bind. by apply ro_create_dataset.
Qed.

Lemma ro_add_refs_loop fuel : forall s,
  Forall (fun f => h_writable (filler_parent f) = false) (__ref_queue s) ->
  disk (__add_refs_loop fuel s).1 = disk s.
Proof.
  induction fuel as [|fuel IH]; intros s Hq; rewrite add_refs_loop_unfold.
  - by destruct (last (__ref_queue s)).
  - destruct (last (__ref_queue s)) as [c|] eqn:Hlast; [|done].
    pose proof (last_Some_removelast _ _ Hlast) as Heq.
    rewrite Heq in Hq. apply Forall_app in Hq as [Hrest Hc].
    apply Forall_cons in Hc as [Hc _].
    pose proof (call_spec c (set_ref_queue (removelast (__ref_queue s)) s))
      as (_ & _ & _ & _ & Hcq & _).
    pose proof (ro_call c Hc (set_ref_queue (removelast (__ref_queue s)) s))
      as Hd.
    destruct (call c _) as [s2 [[]|e]]; simpl in *; [|exact Hd].
    rewrite IH; [exact Hd|]. by rewrite Hcq.
Qed.

Lemma ro_write_root f_builder s f :
  __file s = Some f -> f_writable f = false ->
  read_only s (write_root f_builder s).1.
Proof.
  intros Hf Hw. unfold write_root. unfold bind at 1.
  unfold the_file, bind, get_state, ret. simpl. rewrite Hf.
  assert (h_writable (file_root f) = false) as Hw' by done.
  assert (preserves read_only
            (for_each (fun '(name, gbldr) =>
                         write_group (file_root f) gbldr ;;; ret tt)
               (groups f_builder) ;;;
             for_each (fun '(name, dbldr) =>
                         write_dataset (file_root f) dbldr ;;; ret tt)
               (datasets f_builder) ;;;
             set_attributes (file_root f) (attributes f_builder))) as Hp.
  { apply preserves_bind; [apply _| |intros _].
    - apply preserves_for_each; [apply _|]. intros [n g] _.
      apply fails_clean_preserves; [apply _|].
      apply fails_clean_bind. by apply ro_write_group.
    - apply preserves_bind; [apply _| |intros _].
      + apply preserves_for_each; [apply _|]. intros [n d] _.
        apply preserves_bind; [apply _|by apply ro_write_dataset|].
        intros _. apply preserves_ret; apply _.
      + by apply ro_set_attributes. }
  apply Hp.
Qed.

Lemma open_read_only s s1 :
  __mode s = "r" -> open s = (s1, Ok tt) ->
  exists f, __file s1 = Some f /\ f_writable f = false /\
            disk s1 = disk s /\ __ref_queue s1 = __ref_queue s.
Proof.
  unfold open, h5_File, bind, get_state, fresh_id, modify, ret, error, raise.
  simpl. intros ->. simpl.
  destruct (bool_decide (is_Some (disk s !! __path s))); simpl; [|done].
  intros [= <-]. by eexists.
Qed.

(** X13.  An [HDF5IO] object of mode ["r"] cannot change a file through
    [write_builder]: whatever the builder and whatever the outcome, with
    no deferred action left over from before, the files are afterwards
    what they were. *)
Theorem read_only_mode_protects_files b s :
  __mode s = "r" -> __ref_queue s = [] ->
  disk (write_builder b s).1 = disk s.
Proof.
  intros Hm Hq. destruct b as [h gs ds ls| | |]; try done.
  unfold write_builder. unfold bind at 1.
  destruct (open s) as [s1 [[]|e]] eqn:Hopen.
  - destruct (open_read_only s s1 Hm Hopen) as (f & Hf & Hw & Hd & Hq1).
    unfold bind at 1.
    destruct (ro_write_root (GroupBuilder h gs ds ls) s1 f Hf Hw) as [Hd2 Hq2].
    destruct (write_root (GroupBuilder h gs ds ls) s1) as [s2 [[]|e]];
      simpl in *; [|congruence].
    unfold __add_refs, bind, get_state. simpl.
    rewrite ro_add_refs_loop; [congruence|].
    apply Hq2. rewrite Hq1, Hq. constructor.
  - simpl. destruct (open_disk s) as [Hr _].
    rewrite <- Hr by (by left). by rewrite Hopen.
Qed.

(** On the file written from [sample_references], with the builder it
    was written from. *)
Lemma read_only_mode_protects_files_witness :
  disk (write_builder sample_references sample_reader).1 = disk sample_reader.
Proof.
  exact (read_only_mode_protects_files sample_references sample_reader
           eq_refl eq_refl).
Defined.

(** ** Where a write can reach *)

#[local] Instance only_below_preorder file root : PreOrder (only_below file root).
Proof.
  split; [by intros s|]. intros s1 s2 s3 H1 H2 file' q Hq.
  by rewrite H2, H1.
Qed.

Lemma only_below_weaken file root root' s s' :
  root `prefix_of` root' -> only_below file root' s s' -> only_below file root s s'.
Proof.
  intros Hp H file' q Hq. apply H. intros [-> Hq']. apply Hq. split; [done|].
  by etrans.
Qed.

Lemma preserves_only_below_weaken {A} file root root' (m : M A) :
  root `prefix_of` root' ->
  preserves (only_below file root') m -> preserves (only_below file root) m.
Proof. intros Hp H s. eapply only_below_weaken; [exact Hp|apply H]. Qed.

Lemma only_below_store file root p n s :
  root `prefix_of` p -> only_below file root s (store_node file p n s).
Proof.
  intros Hp file' q Hq. apply lookup_store_node_ne. intros [= -> ->].
  by apply Hq.
Qed.

Lemma only_below_set_log file root l s : only_below file root s (set_log l s).
Proof. intros file' q _. apply lookup_node_set_log. Qed.

Lemma only_below_emit file root e : preserves (only_below file root) (emit e).
Proof. intros s. apply only_below_set_log. Qed.

Section returns_rules.
Context (R : relation state) `{!PreOrder R}.

(** The rule of [bind] when the continuation is only known to keep [R] on
    what the first computation can return. *)
Lemma preserves_bind_returns {A B} (P : A -> Prop) (m : M A) (k : A -> M B) :
  preserves R m -> returns m P -> (forall a, P a -> preserves R (k a)) ->
  preserves R (bind m k).
Proof.
  intros Hm Hr Hk s. unfold bind. specialize (Hm s). specialize (Hr s).
  destruct (m s) as [s' [a|e]]; simpl in *; [|done].
  etrans; [exact Hm|]. apply Hk. by eapply Hr.
Qed.
End returns_rules.

Lemma returns_bind {A B} (Q : A -> Prop) (P : B -> Prop) (m : M A) (k : A -> M B) :
  returns m Q -> (forall a, Q a -> returns (k a) P) -> returns (bind m k) P.
Proof.
  intros Hm Hk s s' b. unfold bind. specialize (Hm s).
  destruct (m s) as [s1 [a|e]]; [|done]. intros H.
  eapply Hk; [by eapply Hm|exact H].
Qed.

Lemma returns_any_bind {A B} (P : B -> Prop) (m : M A) (k : A -> M B) :
  (forall a, returns (k a) P) -> returns (bind m k) P.
Proof.
  intros Hk. apply (returns_bind (fun _ => True)); [done|]. intros a _. apply Hk.
Qed.

Lemma returns_ret {A} (P : A -> Prop) a : P a -> returns (ret a) P.
Proof. by intros H s s' ? [= _ <-]. Qed.

Lemma returns_error {A} (P : A -> Prop) c msg : returns (@error A c msg) P.
Proof. by intros s s' a. Qed.

Lemma returns_try_except {A} (P : A -> Prop) (m : M A) (h : exc -> M A) :
  returns m P -> (forall e, returns (h e) P) -> returns (try_except m h) P.
Proof.
  intros Hm Hh s s' a. unfold try_except. specialize (Hm s).
  destruct (m s) as [s1 [a'|e]].
  - intros [= <- <-]. by eapply Hm.
  - apply Hh.
Qed.

Lemma returns_raise_from {A} (P : A -> Prop) msg e :
  returns (@raise_from A msg e) P.
Proof. by intros s s' a. Qed.

Lemma returns_add_member what parent name_ n ev :
  returns (h5_add_member what parent name_ n ev)
    (is_at (h_file parent) (h_name parent ++ [name_])).
Proof.
  intros s s' o H. apply h5_add_member_inv in H as (_ & -> & _). done.
Qed.

Lemma returns_create_dataset parent name_ shape dt value maxshape chunks :
  returns (h5_create_dataset parent name_ shape dt value maxshape chunks)
    (is_at (h_file parent) (h_name parent ++ [name_])).
Proof.
  unfold h5_create_dataset. destruct (chunks && _);
    [apply returns_error|apply returns_add_member].
Qed.

Lemma only_below_add_member what parent name_ n ev root :
  root `prefix_of` h_name parent ++ [name_] ->
  preserves (only_below (h_file parent) root)
    (h5_add_member what parent name_ n ev).
Proof.
  intros Hp s.
  destruct (h5_add_member what parent name_ n ev s) as [s' [o|e]] eqn:H; simpl.
  - apply h5_add_member_inv in H as (-> & _ & _).
    etrans; [by apply only_below_store|apply only_below_set_log].
  - by apply h5_add_member_raise in H as ->.
Qed.

Lemma only_below_create_dataset parent name_ shape dt value maxshape chunks root :
  root `prefix_of` h_name parent ++ [name_] ->
  preserves (only_below (h_file parent) root)
    (h5_create_dataset parent name_ shape dt value maxshape chunks).
Proof.
  intros Hp. unfold h5_create_dataset. destruct (chunks && _).
  - apply preserves_error; apply _.
  - by apply only_below_add_member.
Qed.

#[local] Hint Resolve only_below_store only_below_set_log only_below_emit : pres.

Lemma only_below_set_attr obj key value root :
  root `prefix_of` h_name obj ->
  preserves (only_below (h_file obj) root) (h5_set_attr obj key value).
Proof. intros Hp. unfold h5_set_attr. preserve. Qed.

Lemma only_below_set_attributes obj attrs root :
  root `prefix_of` h_name obj ->
  preserves (only_below (h_file obj) root) (set_attributes obj attrs).
Proof.
  intros Hp. unfold set_attributes. apply preserves_for_each; [apply _|].
  intros [key value] _. apply preserves_bind; [apply _|preserve|].
  intros v. by apply only_below_set_attr.
Qed.

Lemma only_below_get_dataset dset file root :
  preserves (only_below file root) (get_dataset dset).
Proof. unfold get_dataset. preserve. Qed.
#[local] Hint Resolve only_below_get_dataset : pres.

Lemma only_below_resize dset new_shape root :
  root `prefix_of` h_name dset ->
  preserves (only_below (h_file dset) root) (h5_resize dset new_shape).
Proof. intros Hp. unfold h5_resize. preserve. Qed.

Lemma only_below_setitem dset sel value root :
  root `prefix_of` h_name dset ->
  preserves (only_below (h_file dset) root) (h5_setitem dset sel value).
Proof. intros Hp. unfold h5_setitem. preserve. Qed.

Lemma only_below_shape dset file root :
  preserves (only_below file root) (h5_shape dset).
Proof. unfold h5_shape. preserve. Qed.
#[local] Hint Resolve only_below_shape : pres.

Lemma only_below_write_chunk dset chunk_i root :
  root `prefix_of` h_name dset ->
  preserves (only_below (h_file dset) root) (write_chunk dset chunk_i).
Proof.
  intros Hp. unfold write_chunk.
  apply preserves_bind; [apply _|preserve|intros b].
  apply preserves_bind; [apply _|preserve|intros shape].
  apply preserves_bind; [apply _|preserve|intros dims].
  apply preserves_bind; [apply _| |intros _; by apply only_below_setitem].
  case_bool_decide; [|preserve].
  apply preserves_bind; [apply _|preserve|intros sh].
  by apply only_below_resize.
Qed.

Section fills_below.
Context (parent : h5obj) (name_ : string).
Abbreviation file := (h_file parent).
Abbreviation member := (h_name parent ++ [name_]).

Lemma at_member_preserves {A} (k : h5obj -> M A) :
  (forall o, h_file o = file -> h_name o = member ->
             preserves (only_below (h_file o) (h_name o)) (k o)) ->
  forall o, is_at file member o -> preserves (only_below file member) (k o).
Proof. intros H o [Hf Hn]. specialize (H o Hf Hn). by rewrite Hf, Hn in H. Qed.

Lemma only_below_scalar_fill data_ dt :
  preserves (only_below file member) (__scalar_fill__ parent name_ data_ dt).
Proof.
  unfold __scalar_fill__. apply preserves_bind; [apply _|preserve|intros t].
  apply preserves_try_except; [apply _| |preserve].
  by apply only_below_create_dataset.
Qed.

Lemma returns_scalar_fill data_ dt :
  returns (__scalar_fill__ parent name_ data_ dt) (is_at file member).
Proof.
  unfold __scalar_fill__. apply returns_any_bind. intros t.
  apply returns_try_except; [apply returns_create_dataset|].
  intros e. apply returns_raise_from.
Qed.

Lemma only_below_chunked_iter_fill it :
  preserves (only_below file member) (__chunked_iter_fill__ parent name_ it).
Proof.
  unfold __chunked_iter_fill__.
  apply (preserves_bind_returns _ (is_at file member)).
  - apply preserves_try_except; [apply _| |preserve].
    by apply only_below_create_dataset.
  - apply returns_try_except; [apply returns_create_dataset|].
    intros e. apply returns_raise_from.
  - apply at_member_preserves. intros o Hf Hn.
    apply preserves_bind; [apply _| |preserve].
    apply preserves_for_each; [apply _|]. intros c _.
    by apply only_below_write_chunk.
Qed.

Lemma returns_chunked_iter_fill it :
  returns (__chunked_iter_fill__ parent name_ it) (is_at file member).
Proof.
  unfold __chunked_iter_fill__.
  apply (returns_bind (is_at file member)).
  - apply returns_try_except; [apply returns_create_dataset|].
    intros e. apply returns_raise_from.
  - intros o Ho. apply returns_any_bind. intros _. by apply returns_ret.
Qed.

Lemma only_below_list_fill data_ dt :
  preserves (only_below file member) (__list_fill__ parent name_ data_ dt).
Proof.
  unfold __list_fill__. apply preserves_bind; [apply _|preserve|intros t].
  apply preserves_bind; [apply _|preserve|intros shape].
  apply (preserves_bind_returns _ (is_at file member)).
  - apply preserves_try_except; [apply _| |preserve].
    by apply only_below_create_dataset.
  - apply returns_try_except; [apply returns_create_dataset|].
    intros e. apply returns_raise_from.
  - apply at_member_preserves. intros o Hf Hn.
    apply preserves_bind; [apply _|preserve|intros n].
    apply preserves_bind; [apply _|preserve|intros sh].
    destruct sh as [|extent rest]; [preserve|].
    apply preserves_bind; [apply _| |intros _].
    + destruct (extent <? Z.of_nat n); [by apply only_below_resize|preserve].
    + apply preserves_bind; [apply _|by apply only_below_setitem|preserve].
Qed.

Lemma returns_list_fill data_ dt :
  returns (__list_fill__ parent name_ data_ dt) (is_at file member).
Proof.
  unfold __list_fill__. apply returns_any_bind. intros t.
  apply returns_any_bind. intros shape.
  apply (returns_bind (is_at file member)).
  - apply returns_try_except; [apply returns_create_dataset|].
    intros e. apply returns_raise_from.
  - intros o Ho. apply returns_any_bind. intros n.
    apply returns_any_bind. intros sh.
    destruct sh as [|extent rest]; [apply returns_error|].
    apply returns_any_bind. intros _. apply returns_any_bind. intros _.
    by apply returns_ret.
Qed.
End fills_below.

Lemma only_below_set_link parent name_ link :
  preserves (only_below (h_file parent) (h_name parent ++ [name_]))
    (h5_set_link parent name_ link).
Proof.
  unfold h5_set_link. apply preserves_bind; [apply _| |preserve].
  by apply only_below_add_member.
Qed.

Lemma only_below_write_link parent b :
  preserves (only_below (h_file parent) (h_name parent ++ [name b]))
    (write_link parent b).
Proof.
  destruct b as [| | |h target]; simpl; try (apply preserves_error; apply _).
  apply preserves_bind; [apply _| |intros link].
  - case_bool_decide; [preserve|]. destruct (source target); preserve.
  - apply preserves_bind; [apply _|apply only_below_set_link|preserve].
Qed.

Lemma only_below_queue_ref file root f :
  preserves (only_below file root) (__queue_ref f).
Proof. by intros s file' q _. Qed.

Lemma only_below_write_dataset parent b :
  preserves (only_below (h_file parent) (h_name parent ++ [name b]))
    (write_dataset parent b).
Proof.
  unfold write_dataset.
  destruct (negb (is_dataset_builder b)); [apply preserves_error; apply _|].
  cbv zeta.
  assert (forall o,
            is_at (h_file parent) (h_name parent ++ [name b]) o ->
            preserves (only_below (h_file parent) (h_name parent ++ [name b]))
              (set_attributes o (attributes b) ;;; ret (Some o))) as Hfinish.
  { apply at_member_preserves. intros o Hf Hn.
    apply preserves_bind; [apply _| |preserve].
    by apply only_below_set_attributes. }
  assert (forall v dt,
            preserves (only_below (h_file parent) (h_name parent ++ [name b]))
              (dset <- __list_fill__ parent (name b) v dt ;;
               set_attributes dset (attributes b) ;;; ret (Some dset)))
    as Hlist.
  { intros v dt. eapply preserves_bind_returns;
      [apply _|apply only_below_list_fill|apply returns_list_fill
      |exact Hfinish]. }
  assert (forall v dt,
            preserves (only_below (h_file parent) (h_name parent ++ [name b]))
              (dset <- __scalar_fill__ parent (name b) v dt ;;
               set_attributes dset (attributes b) ;;; ret (Some dset)))
    as Hscalar.
  { intros v dt. eapply preserves_bind_returns;
      [apply _|apply only_below_scalar_fill|apply returns_scalar_fill
      |exact Hfinish]. }
  assert (forall it,
            preserves (only_below (h_file parent) (h_name parent ++ [name b]))
              (dset <- __chunked_iter_fill__ parent (name b) it ;;
               set_attributes dset (attributes b) ;;; ret (Some dset)))
    as Hchunk.
  { intros it. eapply preserves_bind_returns;
      [apply _|apply only_below_chunked_iter_fill
      |apply returns_chunked_iter_fill|exact Hfinish]. }
  destruct (is_list (dtype b)) as [fields|].
  - case_bool_decide.
    + apply preserves_bind; [apply _|preserve|intros t].
      apply preserves_bind; [apply _|apply only_below_queue_ref|preserve].
    + apply preserves_bind; [apply _|preserve|intros v]. apply Hlist.
  - destruct (data b) as [v|it|it|d|target|rows].
    + destruct v; first [apply Hscalar | apply Hlist].
    + apply Hchunk.
    + apply Hchunk.
    + apply preserves_bind; [apply _|apply only_below_set_link|preserve].
    + apply preserves_bind; [apply _|preserve|intros t].
      apply preserves_bind; [apply _| |preserve].
      destruct (is_tag (dtype b) "region"); apply only_below_queue_ref.
    + apply preserves_bind; [apply _|preserve|intros v]. apply Hlist.
Qed.

Lemma only_below_write_group b : forall parent,
  preserves (only_below (h_file parent) (h_name parent ++ [name b]))
    (write_group parent b).
Proof.
  induction b as [h gs ds ls IHg _ _| | |] using Builder_members_ind;
    intros parent; simpl; try (apply preserves_error; apply _).
  change (name (GroupBuilder h gs ds ls)) with (b_name h).
  apply (preserves_bind_returns _
           (is_at (h_file parent) (h_name parent ++ [b_name h]))).
  - by apply only_below_add_member.
  - apply returns_add_member.
  - apply at_member_preserves. intros group Hf Hn.
    assert (forall k, h_name group `prefix_of` h_name group ++ [k]) as Hpre
      by (intros k; by apply prefix_app_r).
    apply preserves_bind; [apply _| |intros _].
    { apply preserves_for_each; [apply _|]. intros [n sub] Hin.
      rewrite Forall_forall in IHg. specialize (IHg _ Hin group).
      apply preserves_bind; [apply _| |preserve].
      eapply preserves_only_below_weaken; [apply Hpre|exact IHg]. }
    apply preserves_bind; [apply _| |intros _].
    { apply preserves_for_each; [apply _|]. intros [n sub] Hin.
      apply preserves_bind; [apply _| |preserve].
      eapply preserves_only_below_weaken;
        [apply Hpre|apply only_below_write_dataset]. }
    apply preserves_bind; [apply _| |intros _].
    { apply preserves_for_each; [apply _|]. intros [n sub] Hin.
      apply preserves_bind; [apply _| |preserve].
      eapply preserves_only_below_weaken;
        [apply Hpre|apply only_below_write_link]. }
    apply preserves_bind; [apply _| |preserve].
    by apply only_below_set_attributes.
Qed.

(** X14.  Writing a builder under a parent reaches only the member it
    names, when the names of the builder and of the builders below it are
    each one component of a path ([plain_names]): whatever [write_group],
    [write_dataset] and [write_link] return or raise, every node of every
    file that is not at or below [parent/<name of the builder>] in the
    file of the parent - the parent itself, its other members, every other
    file - is afterwards what it was. *)
Theorem writes_stay_below_the_member parent b s file q :
  plain_names b = true ->
  ~ (file = h_file parent /\ (h_name parent ++ [name b]) `prefix_of` q) ->
  lookup_node (write_group parent b s).1 file q = lookup_node s file q /\
  lookup_node (write_dataset parent b s).1 file q = lookup_node s file q /\
  lookup_node (write_link parent b s).1 file q = lookup_node s file q.
Proof.
  intros _ Hq. split; [|split].
  - by apply only_below_write_group.
  - by apply only_below_write_dataset.
  - by apply only_below_write_link.
Qed.

(** Writing the group [g] of [sample_linked] under the root: the root
    itself is not touched. *)
Lemma writes_stay_below_the_member_witness :
  lookup_node (write_group (mk_h5obj "f.h5" [] true) sample_group
                 (open sample_io).1).1 "f.h5" []
    = lookup_node (open sample_io).1 "f.h5" [] /\
  lookup_node (write_dataset (mk_h5obj "f.h5" [] true) sample_group
                 (open sample_io).1).1 "f.h5" []
    = lookup_node (open sample_io).1 "f.h5" [] /\
  lookup_node (write_link (mk_h5obj "f.h5" [] true) sample_group
                 (open sample_io).1).1 "f.h5" []
    = lookup_node (open sample_io).1 "f.h5" [].
Proof.
  apply (writes_stay_below_the_member (mk_h5obj "f.h5" [] true) sample_group
           (open sample_io).1 "f.h5" []).
  - reflexivity.
  - intros [_ Hp]. by apply prefix_nil_not in Hp.
Defined.

(** ** Object references *)

(** [__get_ref] without a region, on a builder whose path leads to a
    node: the reference to the object the path leads to, links followed. *)
Lemma get_ref_object_eq s f b tobj n :
  __file s = Some f -> is_link_builder b = false ->
  h5_resolve s (f_filename f) (f_writable f) (__get_path b) = Some (tobj, n) ->
  __get_ref (CBuilder b) None s = (s, Ok (VRef (h_name tobj))).
Proof.
  intros Hf Hl Hres.
  assert (forall m : Builder -> M pyval,
            (bind (match b with
                   | LinkBuilder _ target_builder => ret target_builder
                   | _ => ret b
                   end) m) s = m b s) as Hb.
  { intros m. by destruct b. }
  unfold __get_ref. rewrite Hb.
  unfold bind, the_file, bind, get_state. simpl. rewrite Hf. simpl.
  unfold h5_getitem, bind, get_state. simpl. by rewrite Hres.
Qed.

Lemma object_tag_not_region tag :
  dict_get __dtypes tag = Some ref_object -> String.eqb tag "region" = false.
Proof.
  intros H. destruct (String.eqb tag "region") eqn:E; [|done].
  apply String.eqb_eq in E. subst tag. by vm_compute in H.
Qed.

(** X15.  An object reference from writing to reading, for names that
    are each one component of a path (the name of the dataset and the
    names on the path of the referenced builder) and storable attributes.
    A dataset whose data is a builder and whose dtype is a tag of the
    object-reference type is not written by [write_dataset]: one action is
    queued, and no file changes.  When the path of the referenced builder
    leads to a node of the open file - a group as well as a dataset, links
    followed - the queued action returns and stores a scalar that holds
    the reference to that node; [__read_dataset] then gives a
    [DatasetBuilder] whose data is that reference, with the name and the
    converted attributes. *)
Theorem object_reference_round_trip parent h b tag ms pattrs s f tobj n fuel :
  let builder := DatasetBuilder h (BBuilder b) (DtStr tag) ms in
  let action := FillObject parent (b_name h) b ref_object (b_attributes h) in
  dict_get __dtypes tag = Some ref_object ->
  __file s = Some f -> is_link_builder b = false ->
  forallb plain_name (__get_path b) = true ->
  h5_resolve s (f_filename f) (f_writable f) (__get_path b) = Some (tobj, n) ->
  lookup_node s (h_file parent) (h_name parent) = Some (NGroup pattrs) ->
  h_writable parent = true ->
  lookup_node s (h_file parent) (h_name parent ++ [b_name h]) = None ->
  plain_name (b_name h) = true ->
  Forall (fun kv => storable kv = true) (b_attributes h) ->
  NoDup (b_attributes h).*1 ->
  exists s1 s2 s3 h' converted,
    write_dataset parent builder s = (s1, Ok None) /\
    disk s1 = disk s /\ __ref_queue s1 = __ref_queue s ++ [action] /\
    call action s1 = (s2, Ok tt) /\
    __read_dataset (S fuel)
      (mk_h5obj (h_file parent) (h_name parent ++ [b_name h]) true) None s2
      = (s3, Ok (DatasetBuilder h' (BVal (VRef (h_name tobj)))
                   (DtNp (Some ref_object)) (Some []))) /\
    b_name h' = b_name h /\ b_attributes h' = converted /\
    Forall2 (fun kv kv' => kv'.1 = kv.1 /\ attribute_value kv.2 = Ok kv'.2)
      (b_attributes h) converted.
Proof.
  intros builder action Htag Hf Hl _ Hres Hp Hw Hfree _
    Hconv%Forall_storable_ok Hdup.
  set (s1 := set_ref_queue (__ref_queue s ++ [action]) s).
  set (s0 := set_log (log s1 ++ [EvCall (filler_target action)]) s1).
  set (dset := mk_h5obj (h_file parent) (h_name parent ++ [b_name h]) true).
  set (d0 := mk_dataset [] (Some ref_object) [] [] false
               {[ [] := VRef (h_name tobj) ]}).
  set (s0' := set_log (log s0 ++ [EvCreateDataset (h_name parent ++ [b_name h])])
                (store_node (h_file parent) (h_name parent ++ [b_name h])
                   (NDataset d0) s0)).
  assert (lookup_node s0' (h_file dset) (h_name dset) = Some (NDataset d0))
    as Hd0.
  { unfold s0'. rewrite lookup_node_set_log. apply lookup_store_node_eq. }
  destruct (set_attributes_returns dset (b_attributes h) s0' (NDataset d0) Hd0
              eq_refl eq_refl Hconv) as [s2 Hs2].
  destruct (set_attributes_inv dset (b_attributes h) s0' s2 (NDataset d0) Hd0)
    as (n1 & converted & Hn1 & Hcore & Hall & Hattrs); [done|exact Hs2|].
  apply node_core_dataset_inv in Hcore as (d1 & -> & Hdt1 & Hsh1 & Hms1 & Hc1).
  simpl in Hattrs, Hdt1, Hsh1, Hms1, Hc1.
  assert (is_region_scalar d1 = false) as Hplain.
  { unfold is_region_scalar. rewrite Hsh1, Hc1.
    by rewrite lookup_singleton_eq. }
  exists s1, s2. eexists _, _, converted.
  split; [|split; [done|split; [done|split; [|split; [|split;
    [|split; [|exact Hall]]]]]]].
  - unfold write_dataset, builder.
    cbn [is_dataset_builder negb name data attributes dtype hdr is_list].
    cbv beta iota zeta. unfold bind at 1. unfold lift, dtypes_item.
    rewrite Htag. cbv beta iota.
    unfold is_tag. rewrite (object_tag_not_region tag Htag).
    reflexivity.
  - unfold call. unfold bind at 1. unfold emit, modify. cbv beta iota.
    fold s0. unfold action at 1. cbv beta iota.
    assert (h5_resolve s0 (f_filename f) (f_writable f) (__get_path b)
            = Some (tobj, n)) as Hres0
      by (by rewrite (h5_resolve_disk s s0)).
    unfold bind at 1.
    rewrite (get_ref_object_eq s0 f b tobj n Hf Hl Hres0).
    unfold bind at 1. rewrite create_scalar_eq.
    rewrite (h5_add_member_eq _ _ _ _ _ _ pattrs); [|done|done|done].
    fold s0'. fold dset. exact Hs2.
  - rewrite (read_dataset_eq fuel dset None s2 d1 Hn1 Hplain).
    f_equal. f_equal. unfold data_read.
    rewrite Hms1, Hdt1, Hsh1, Hc1. by rewrite lookup_singleton_eq.
  - simpl. apply basename_app.
  - exact Hattrs.
Qed.

(** After the session of [sample_references], a reference to the dataset
    [values] is written under the name ["ref"] and read back. *)
Lemma object_reference_round_trip_witness :
  exists s1 s2 s3 h' converted,
    write_dataset (mk_h5obj "f.h5" [] true) sample_ref
      (write_builder sample_references sample_io).1 = (s1, Ok None) /\
    disk s1 = disk (write_builder sample_references sample_io).1 /\
    __ref_queue s1
      = __ref_queue (write_builder sample_references sample_io).1
        ++ [FillObject (mk_h5obj "f.h5" [] true) "ref" sample_values
              ref_object (attributes sample_ref)] /\
    call (FillObject (mk_h5obj "f.h5" [] true) "ref" sample_values ref_object
            (attributes sample_ref)) s1 = (s2, Ok tt) /\
    __read_dataset 1 (mk_h5obj "f.h5" ["ref"] true) None s2
      = (s3, Ok (DatasetBuilder h' (BVal (VRef ["values"]))
                   (DtNp (Some ref_object)) (Some []))) /\
    b_name h' = "ref" /\ b_attributes h' = converted /\
    Forall2 (fun kv kv' => kv'.1 = kv.1 /\ attribute_value kv.2 = Ok kv'.2)
      (attributes sample_ref) converted.
Proof.
  eapply (object_reference_round_trip (mk_h5obj "f.h5" [] true)
            (hdr sample_ref) sample_values "reference" None []
            (write_builder sample_references sample_io).1
            (mk_File 0 "f.h5" true) (mk_h5obj "f.h5" ["values"] true) _ 0).
  - reflexivity.
  - vm_compute. reflexivity.
  - reflexivity.
  - vm_compute. reflexivity.
  - vm_compute. reflexivity.
  - vm_compute. reflexivity.
  - reflexivity.
  - vm_compute. reflexivity.
  - reflexivity.
  - repeat constructor.
  - apply (bool_decide_unpack _). vm_compute. exact I.
Defined.

(** ** A dataset whose data is a stored dataset *)



(** ** Reading a file once *)

(** [open] in a mode that keeps an existing file, when it returns. *)
Lemma open_keeps_inv s s0 :
  keeps_file (__mode s) -> open s = (s0, Ok tt) ->
  is_Some (disk s0 !! __path s) /\ __path s0 = __path s /\
  __mode s0 = __mode s /\ __read s0 = __read s /\
  exists f, __file s0 = Some f /\ f_filename f = __path s.
Proof.
  unfold open, h5_File, bind, get_state, fresh_id, modify, ret, error, raise.
  simpl. intros [Hm|[Hm|Hm]]; rewrite Hm; simpl;
    destruct (bool_decide (is_Some (disk s !! __path s))) eqn:Hpres; simpl;
    try done; intros [= <-]; simpl;
    (split; [|by eauto 10]);
    first [by apply bool_decide_eq_true_1 in Hpres
          | by rewrite lookup_insert_eq].
Qed.

(** [open] on a file that exists, in a mode that keeps it. *)
Lemma open_keeps_present s :
  keeps_file (__mode s) -> is_Some (disk s !! __path s) ->
  exists s0 f,
    open s = (s0, Ok tt) /\ __file s0 = Some f /\ f_filename f = __path s /\
    disk s0 = disk s /\ log s0 = log s /\ __built s0 = __built s /\
    __read s0 = __read s.
Proof.
  unfold open, h5_File, bind, get_state, fresh_id, modify, ret, error, raise.
  simpl. intros Hm Hpres.
  rewrite (bool_decide_eq_true_2 _ Hpres).
  destruct Hm as [Hm|[Hm|Hm]]; rewrite Hm; simpl; by eexists _, _.
Qed.

(** X18.  [read_builder] reads a file once.  In a mode that keeps the
    file (["r"], ["r+"], ["a"]), when a call has returned a builder, a
    further call on the same object returns that builder: no builder is
    constructed, the cache and the files are not touched, and the depth
    of the file does not matter any more. *)
Theorem read_builder_reads_once fuel fuel' s s1 b :
  keeps_file (__mode s) ->
  read_builder fuel s = (s1, Ok b) ->
  exists s2,
    read_builder fuel' s1 = (s2, Ok b) /\
    log s2 = log s1 /\ __built s2 = __built s1 /\ disk s2 = disk s1.
Proof.
  intros Hm Hread.
  assert (keeps_file (__mode s1) /\ is_Some (disk s1 !! __path s1) /\
          __read s1 !! __path s1 = Some b) as (Hm1 & Hpres1 & Hcached).
  { unfold read_builder in Hread. unfold bind at 1 in Hread.
    destruct (open s) as [s0 [[]|e]] eqn:Hopen; [|done].
    destruct (open_keeps_inv s s0 Hm Hopen)
      as (Hpres & Hpath & Hmode & _ & f & Hf & Hname).
    unfold bind at 1 in Hread. unfold get_state at 1 in Hread.
    cbv beta iota in Hread. unfold bind at 1 in Hread.
    unfold the_file at 1, bind at 1, get_state at 1, ret at 1 in Hread.
    cbv beta iota in Hread. rewrite Hf in Hread. cbv beta iota in Hread.
    rewrite Hname in Hread.
    destruct (__read s0 !! __path s) as [b0|] eqn:Hc.
    - injection Hread as <- <-. rewrite Hmode, Hpath. done.
    - unfold bind at 1 in Hread.
      pose proof (preserves___read_group fuel (file_root f) (Some ROOT_NAME) s0)
        as (_ & _ & Hp' & Hm' & _).
      pose proof (same_files___read_group fuel (file_root f) (Some ROOT_NAME) s0)
        as Hd'.
      destruct (__read_group fuel (file_root f) (Some ROOT_NAME) s0)
        as [s' [b'|e]]; [|done].
      unfold bind, modify, ret in Hread. simpl in *.
      injection Hread as <- <-. simpl.
      rewrite Hm', Hmode, Hp', Hpath, Hd'.
      split; [done|]. split; [done|]. apply lookup_insert_eq. }
  destruct (open_keeps_present s1 Hm1 Hpres1)
    as (s2 & f & Hopen & Hf & Hname & Hd & Hl & Hb & Hr).
  exists s2. split; [|done].
  unfold read_builder. unfold bind at 1. rewrite Hopen.
  unfold bind at 1. unfold get_state at 1. cbv beta iota.
  unfold bind at 1. unfold the_file at 1, bind at 1, get_state at 1, ret at 1.
  cbv beta iota. rewrite Hf. cbv beta iota. rewrite Hname, Hr, Hcached.
  reflexivity.
Qed.

(** Reading the file of [sample_references] twice, the second time with
    no depth at all. *)
Lemma read_builder_reads_once_witness :
  exists s2,
    read_builder 0 (read_builder 8 sample_reader).1
      = (s2, (read_builder 8 sample_reader).2) /\
    log s2 = log (read_builder 8 sample_reader).1 /\
    __built s2 = __built (read_builder 8 sample_reader).1 /\
    disk s2 = disk (read_builder 8 sample_reader).1.
Proof.
  destruct (read_builder 8 sample_reader) as [s1 r] eqn:Hr.
  assert (exists b, r = Ok b) as [b ->].
  { assert (is_ok r = true) as Hok.
    { change r with (s1, r).2. rewrite <- Hr. vm_compute. reflexivity. }
    destruct r; [by eexists|done]. }
  refine (read_builder_reads_once 8 0 sample_reader s1 b _ Hr).
  by left.
Defined.

(** ** The links of a group that is read *)

Lemma fold_M_prefix_inv {A B} (I : list A -> state -> B -> Prop)
    (body : B -> A -> M B) xs : forall pre acc s s' r,
  I pre s acc ->
  (forall pre' x s1 b s2 b',
      I pre' s1 b -> body b x s1 = (s2, Ok b') -> I (pre' ++ [x]) s2 b') ->
  fold_M body acc xs s = (s', Ok r) ->
  I (pre ++ xs) s' r.
Proof.
  induction xs as [|x xs IH]; intros pre acc s s' r HI Hstep Hrun; simpl in Hrun.
  - injection Hrun as <- <-. by rewrite app_nil_r.
  - unfold bind in Hrun.
    destruct (body acc x s) as [s1 [b|e]] eqn:Hb; [|done].
    replace (pre ++ x :: xs) with ((pre ++ [x]) ++ xs)
      by (by rewrite <- app_assoc).
    eapply IH; [|exact Hstep|exact Hrun]. by eapply Hstep.
Qed.

Lemma dict_set_keys {V} (d : list (string * V)) key value :
  (dict_set d key value).*1 = if decide (key ∈ d.*1) then d.*1 else d.*1 ++ [key].
Proof.
  induction d as [|[k v] d IH]; [done|]. cbn [dict_set].
  destruct (String.eqb k key) eqn:E.
  - apply String.eqb_eq in E as ->. rewrite !fmap_cons. cbn [fst].
    rewrite decide_True by (by left). done.
  - apply String.eqb_neq in E. rewrite !fmap_cons. cbn [fst]. rewrite IH.
    destruct (decide (key ∈ d.*1)) as [Hin|Hout].
    + rewrite decide_True by (by right). done.
    + rewrite decide_False; [done|].
      intros [?|?]%elem_of_cons; congruence.
Qed.

Lemma dict_set_NoDup {V} (d : list (string * V)) key value :
  NoDup d.*1 -> NoDup (dict_set d key value).*1.
Proof.
  intros H. rewrite dict_set_keys. destruct (decide (key ∈ d.*1)); [done|].
  apply NoDup_app. split; [done|]. split; [|apply NoDup_singleton].
  by intros x Hx ->%list_elem_of_singleton.
Qed.

Lemma dict_set_elem_of {V} (d : list (string * V)) key value kv :
  kv ∈ dict_set d key value -> kv = (key, value) \/ kv ∈ d.
Proof.
  induction d as [|[k v] d IH]; simpl.
  - intros ->%list_elem_of_singleton. by left.
  - destruct (String.eqb k key) eqn:E.
    + apply String.eqb_eq in E as ->.
      intros [->|?]%elem_of_cons; [by left|right; by right].
    + intros [->|H]%elem_of_cons; [right; by left|].
      destruct (IH H) as [?|?]; [by left|right; by right].
Qed.

Lemma dict_set_key_in {V} (d : list (string * V)) key value k :
  k = key \/ k ∈ d.*1 -> k ∈ (dict_set d key value).*1.
Proof.
  rewrite dict_set_keys. intros [->|Hk].
  - destruct (decide (key ∈ d.*1)); [done|].
    apply elem_of_app. right. by left.
  - destruct (decide (key ∈ d.*1)); [done|]. apply elem_of_app. by left.
Qed.

Lemma h5_getlink_disk s s' o k :
  disk s' = disk s -> h5_getlink s' o k = h5_getlink s o k.
Proof. intros H. unfold h5_getlink, lookup_node. by rewrite H. Qed.

Lemma triple_get_state_bind {A} (P : state -> Prop) (k : state -> M A) Q :
  (forall s0, P s0 -> triple (fun s => s = s0) (k s0) Q) ->
  triple P (bind get_state k) Q.
Proof.
  intros H s s' a HP. unfold bind, get_state. intros Hk.
  by eapply (H s HP s s' a).
Qed.

Lemma triple_pre {A} (P P' : state -> Prop) (m : M A) Q :
  (forall s, P s -> P' s) -> triple P' m Q -> triple P m Q.
Proof. intros HP H s s' a Hs. apply H. by apply HP. Qed.

Lemma triple_error {A} (P : state -> Prop) c msg Q : triple P (@error A c msg) Q.
Proof. by intros s s' a _. Qed.

Lemma triple_ret {A} (P : state -> Prop) (a : A) (Q : A -> state -> Prop) :
  (forall s, P s -> Q a s) -> triple P (ret a) Q.
Proof. intros H s s' a' HP [= <- <-]. by apply H. Qed.

(** Across a computation that changes no file, only the files are
    remembered. *)
Lemma triple_files_bind {A B} d (m : M A) (k : A -> M B) Q :
  preserves same_files m ->
  (forall a, triple (fun s => disk s = d) (k a) Q) ->
  triple (fun s => disk s = d) (bind m k) Q.
Proof.
  intros Hm Hk s s' b Hd. unfold bind. specialize (Hm s).
  destruct (m s) as [s1 [a|e]]; [|done]. simpl in Hm. intros Hrun.
  eapply (Hk a s1 s' b); [|exact Hrun]. unfold same_files in Hm. congruence.
Qed.

(** X19.  What [__read_group] files under [links].  A member that is a
    link is filed under the last component of the path it points to, not
    under its own name: every entry of the links of the builder read has
    as key the last component of the target of some link of the group,
    and holds a [LinkBuilder] named as that link; every link of the group
    has its target's last component among the keys; and the keys are
    distinct - so that of two links whose targets end in the same name
    only one is left. *)
Theorem links_read_by_target_name fuel h5 nm s s' b :
  __read_group fuel h5 nm s = (s', Ok b) ->
  NoDup (links b).*1 /\
  (forall key lb, (key, lb) ∈ links b ->
     exists k tp,
       k ∈ member_names s h5 /\
       h5_getlink s h5 k ≫= link_path = Some tp /\
       key = basename tp /\ name lb = k /\ is_link_builder lb = true) /\
  (forall k tp,
     k ∈ member_names s h5 ->
     h5_getlink s h5 k ≫= link_path = Some tp ->
     basename tp ∈ (links b).*1).
Proof.
  destruct fuel as [|fuel]; [done|]. cbn [__read_group].
  unfold bind at 1. unfold get_state at 1. cbv beta iota.
  unfold bind at 1.
  destruct (lookup_node s (h_file h5) (h_name h5)) as [[attrs| | |]|];
    try done.
  unfold ret at 1. cbv beta iota. unfold bind at 1.
  match goal with
  | |- context [fold_M ?f ?acc ?xs s] =>
      set (body := f); destruct (fold_M body acc xs s) as [s1 [kw|e]] eqn:Hfold
  end; [|done].
  intros H. unfold new_header, bind, get_state, fresh_id, emit, modify, ret in H.
  simpl in H. injection H as <- <-. cbn [links].
  pose (J := fun (pre : list string) (kw : members) =>
    NoDup (m_links kw).*1 /\
    (forall key lb, (key, lb) ∈ m_links kw ->
       exists k tp,
         k ∈ pre /\ h5_getlink s h5 k ≫= link_path = Some tp /\
         key = basename tp /\ name lb = k /\ is_link_builder lb = true) /\
    (forall k tp,
       k ∈ pre -> h5_getlink s h5 k ≫= link_path = Some tp ->
       basename tp ∈ (m_links kw).*1)).
  assert (forall pre kw2 k,
            J pre kw2 ->
            triple (fun s2 => disk s2 = disk s) (body kw2 k)
              (fun kw3 s3 => disk s3 = disk s /\ J (pre ++ [k]) kw3)) as Hstep.
  { intros pre kw2 k (Hnd & Hin & Hcov).
    assert (forall key lb,
              (key, lb) ∈ m_links kw2 ->
              exists k0 tp,
                k0 ∈ pre ++ [k] /\ h5_getlink s h5 k0 ≫= link_path = Some tp /\
                key = basename tp /\ name lb = k0 /\ is_link_builder lb = true)
      as Hin'.
    { intros key lb Hkl. destruct (Hin key lb Hkl) as (k0 & tp & Hk0 & Hrest).
      exists k0, tp. split; [|done]. apply elem_of_app. by left. }
    unfold body. apply triple_get_state_bind. intros s0 Hd0.
    apply (triple_pre _ (fun s2 => disk s2 = disk s)); [by intros ? ->|].
    destruct (h5_get s0 h5 k) as [[sub n]|]; [|apply triple_error].
    rewrite (h5_getlink_disk s s0) by done.
    destruct (h5_getlink s h5 k ≫= link_path) as [tp|] eqn:Hlink.
    - apply triple_files_bind; [preserve|intros cached].
      apply triple_files_bind; [preserve|intros builder].
      apply triple_files_bind; [preserve|intros id].
      apply triple_ret. intros s3 Hd3. split; [done|]. unfold J. cbn [m_links].
      split; [by apply dict_set_NoDup|]. split.
      + intros key lb [[= -> ->]|Hold]%dict_set_elem_of; [|by apply Hin'].
        exists k, tp. split; [apply elem_of_app; right; by left|done].
      + intros k0 tp0 [Hk0| ->%list_elem_of_singleton]%elem_of_app Hl0;
          apply dict_set_key_in.
        * right. by eapply Hcov.
        * left. congruence.
    - apply triple_files_bind; [preserve|intros cached].
      apply triple_files_bind; [preserve|intros builder].
      assert (J (pre ++ [k]) kw2) as HJ.
      { split; [done|]. split; [exact Hin'|].
        intros k0 tp0 [Hk0| ->%list_elem_of_singleton]%elem_of_app Hl0.
        - by eapply Hcov.
        - congruence. }
      destruct (is_dataset_node n); apply triple_ret; intros s3 Hd3;
        (split; [done|exact HJ]). }
  pose (I := fun (pre : list string) (s1 : state) (kw : members) =>
              disk s1 = disk s /\ J pre kw).
  assert (I ([] ++ member_names s h5) s1 kw) as (_ & Hnd & Hin & Hcov);
    [|done].
  eapply (fold_M_prefix_inv I body); [| |exact Hfold].
  - split; [done|]. split; [constructor|].
    split; [by intros ?? ?%elem_of_nil|by intros ?? ?%elem_of_nil].
  - intros pre k s2 kw2 s3 kw3 [Hd HJ] Hrun.
    by eapply (Hstep pre kw2 k HJ s2 s3 kw3).
Qed.

(** The group [z] of the file of [sample_twins] has the links [a] to
    [/x/t] and [b] to [/y/t]; the builder read from it has one link, under
    ["t"]. *)
Lemma links_read_by_target_name_witness :
  let z := mk_h5obj "f.h5" ["z"] false in
  let r := __read_group 2 z None sample_twins_io in
  member_names sample_twins_io z = ["a"; "b"] /\
  h5_getlink sample_twins_io z "a" = Some (NSoftLink ["x"; "t"]) /\
  h5_getlink sample_twins_io z "b" = Some (NSoftLink ["y"; "t"]) /\
  exists b,
    r.2 = Ok b /\ (links b).*1 = ["t"] /\
    NoDup (links b).*1 /\
    (forall key lb, (key, lb) ∈ links b ->
       exists k tp,
         k ∈ member_names sample_twins_io z /\
         h5_getlink sample_twins_io z k ≫= link_path = Some tp /\
         key = basename tp /\ name lb = k /\ is_link_builder lb = true) /\
    (forall k tp,
       k ∈ member_names sample_twins_io z ->
       h5_getlink sample_twins_io z k ≫= link_path = Some tp ->
       basename tp ∈ (links b).*1).
Proof.
  cbv zeta.
  split; [vm_compute; reflexivity|]. split; [vm_compute; reflexivity|].
  split; [vm_compute; reflexivity|].
  destruct (__read_group 2 (mk_h5obj "f.h5" ["z"] false) None sample_twins_io)
    as [s' r] eqn:Hr.
  assert (exists b, r = Ok b /\ (links b).*1 = ["t"]) as (b & -> & Hkeys).
  { assert (match r with Ok b => (links b).*1 | Raise _ => [] end = ["t"])
      as Hok.
    { change r with (s', r).2. rewrite <- Hr. vm_compute. reflexivity. }
    destruct r as [b|]; [exists b; split; [reflexivity|exact Hok]|].
    discriminate Hok. }
  exists b. split; [reflexivity|]. split; [exact Hkeys|].
  exact (links_read_by_target_name 2 (mk_h5obj "f.h5" ["z"] false) None
           sample_twins_io s' b Hr).
Defined.

(** ** A name that is taken *)

Lemma fails_at_error {A} s c msg : fails_at s (@error A c msg).
Proof. by eexists. Qed.

Lemma fails_at_bind {A B} s (m : M A) (k : A -> M B) :
  fails_at s m -> fails_at s (bind m k).
Proof. intros [e He]. exists e. unfold bind. by rewrite He. Qed.

Lemma fails_at_lift_bind {A B} s (r : res A) (k : A -> M B) :
  (forall a, fails_at s (k a)) -> fails_at s (bind (lift r) k).
Proof.
  intros H. unfold bind, lift. destruct r as [a|e]; [apply H|by eexists].
Qed.

Lemma fails_at_ret_bind {A B} s (a : A) (k : A -> M B) :
  fails_at s (k a) -> fails_at s (bind (ret a) k).
Proof. intros H. unfold bind, ret. apply H. Qed.

Lemma fails_at_try_except {A} s (m : M A) (h : exc -> M A) :
  fails_at s m -> (forall e, fails_at s (h e)) -> fails_at s (try_except m h).
Proof.
  intros [e He] Hh. unfold fails_at, try_except. rewrite He. apply Hh.
Qed.

Lemma fails_at_raise_from {A} s msg e : fails_at s (@raise_from A msg e).
Proof. by eexists. Qed.

Lemma taken_add_member what parent name_ n ev s n0 :
  lookup_node s (h_file parent) (h_name parent ++ [name_]) = Some n0 ->
  fails_at s (h5_add_member what parent name_ n ev).
Proof.
  intros Hn. unfold fails_at, h5_add_member, bind, get_state, error, raise.
  simpl. rewrite Hn.
  destruct (lookup_node s (h_file parent) (h_name parent)) as [[]|];
    try (by eexists).
  destruct (h_writable parent); by eexists.
Qed.

Lemma taken_create_dataset parent name_ shape dt value maxshape chunks s n0 :
  lookup_node s (h_file parent) (h_name parent ++ [name_]) = Some n0 ->
  fails_at s (h5_create_dataset parent name_ shape dt value maxshape chunks).
Proof.
  intros Hn. unfold h5_create_dataset.
  destruct (chunks && _); [apply fails_at_error|by eapply taken_add_member].
Qed.

Section taken.
Context (parent : h5obj) (name_ : string) (s : state) (n0 : node).
Hypothesis Htaken :
  lookup_node s (h_file parent) (h_name parent ++ [name_]) = Some n0.

Lemma taken_scalar_fill data_ dt :
  fails_at s (__scalar_fill__ parent name_ data_ dt).
Proof.
  unfold __scalar_fill__.
  assert (forall t, fails_at s
            (try_except
               (h5_create_dataset parent name_ None (Some t) (Some data_) None
                  false)
               (fun exc =>
                  raise_from ("Could not create scalar dataset " +:+ name_
                              +:+ " in " +:+ path_str (h_name parent)) exc)))
    as Hc.
  { intros t. apply fails_at_try_except; [by eapply taken_create_dataset|].
    intros e. apply fails_at_raise_from. }
  destruct (is_class dt).
  - by apply fails_at_ret_bind.
  - by apply fails_at_lift_bind.
Qed.

Lemma taken_chunked_iter_fill it :
  fails_at s (__chunked_iter_fill__ parent name_ it).
Proof.
  unfold __chunked_iter_fill__. apply fails_at_bind.
  apply fails_at_try_except; [by eapply taken_create_dataset|].
  intros e. apply fails_at_raise_from.
Qed.

Lemma taken_list_fill data_ dt :
  fails_at s (__list_fill__ parent name_ data_ dt).
Proof.
  unfold __list_fill__.
  assert (forall (t : ctype) (m : M (list Z)) (k : h5obj -> M h5obj),
            (forall s', m s = (s', Ok [] ) -> s' = s) ->
            (forall s' a, m s = (s', a) -> s' = s) ->
            fails_at s
              (data_shape <- m ;;
               dset <- try_except
                 (h5_create_dataset parent name_ (Some data_shape) (Some t)
                    None None false)
                 (fun exc =>
                    raise_from ("Could not create dataset " +:+ name_ +:+ " in "
                                +:+ path_str (h_name parent)
                                +:+ " dtype_spec = " +:+ dtype_spec_str dt) exc) ;;
               k dset)) as Hs.
  { intros t m k _ Hm. unfold fails_at. unfold bind at 1.
    destruct (m s) as [s' [shape|e]] eqn:Em;
      pose proof (Hm _ _ eq_refl) as ->; [|by eexists].
    apply fails_at_bind.
    apply fails_at_try_except; [by eapply taken_create_dataset|].
    intros e. apply fails_at_raise_from. }
  assert (forall t s' a,
            (if is_np_dtype t
             then n <- lift (py_len data_) ;; ret [Z.of_nat n]
             else ret (get_shape data_)) s = (s', a) -> s' = s) as Hpure.
  { intros t s' a. destruct (is_np_dtype t).
    - unfold bind, lift, ret. destruct (py_len data_); simpl; congruence.
    - unfold ret. congruence. }
  destruct (is_class dt).
  - apply fails_at_ret_bind. apply Hs; [intros s' H|]; by eapply Hpure.
  - apply fails_at_lift_bind. intros t.
    apply Hs; [intros s' H|]; by eapply Hpure.
Qed.
End taken.

(** [write_dataset] on a name that is taken: it fails, or it queues one
    action for that name. *)
Lemma taken_write_dataset parent b s n0 :
  lookup_node s (h_file parent) (h_name parent ++ [name b]) = Some n0 ->
  fails_at s (write_dataset parent b) \/
  exists f, write_dataset parent b s
            = (set_ref_queue (__ref_queue s ++ [f]) s, Ok None).
Proof.
  intros Hn. unfold write_dataset.
  destruct (negb (is_dataset_builder b)); [left; apply fails_at_error|].
  cbv zeta.
  assert (forall {B} v dt (k : h5obj -> M B),
            fails_at s (bind (__list_fill__ parent (name b) v dt) k)) as Hlist
    by (intros; eapply fails_at_bind, taken_list_fill, Hn).
  assert (forall {B} v dt (k : h5obj -> M B),
            fails_at s (bind (__scalar_fill__ parent (name b) v dt) k))
    as Hscalar by (intros; eapply fails_at_bind, taken_scalar_fill, Hn).
  assert (forall {B} it (k : h5obj -> M B),
            fails_at s (bind (__chunked_iter_fill__ parent (name b) it) k))
    as Hchunk by (intros; eapply fails_at_bind, taken_chunked_iter_fill, Hn).
  assert (forall {A} (r : res A) (f : A -> filler),
            fails_at s (a <- lift r ;; __queue_ref (f a) ;;; ret (@None h5obj)) \/
            exists f0, (a <- lift r ;; __queue_ref (f a) ;;; ret (@None h5obj)) s
                       = (set_ref_queue (__ref_queue s ++ [f0]) s, Ok None))
    as Hqueue.
  { intros A r f. destruct r as [a|e]; [right; by exists (f a)|left; by eexists]. }
  destruct (is_list (dtype b)) as [fields|].
  - case_bool_decide.
    + apply (Hqueue _ _ (fun t => FillCompound parent (name b) (data b) _ t
                                    (attributes b))).
    + left. apply fails_at_lift_bind. intros v. apply Hlist.
  - destruct (data b) as [v|it|it|d|target|rows].
    + left. destruct v; first [apply Hscalar | apply Hlist].
    + left. apply Hchunk.
    + left. apply Hchunk.
    + left. apply fails_at_bind, fails_at_bind. by eapply taken_add_member.
    + destruct (is_tag (dtype b) "region").
      * apply (Hqueue _ _ (fun t => FillRegion parent (name b) target b t
                                      (attributes b))).
      * apply (Hqueue _ _ (fun t => FillObject parent (name b) target t
                                      (attributes b))).
    + left. apply fails_at_lift_bind. intros v. apply Hlist.
Qed.

Lemma triple_fail_bind {A B} (P : state -> Prop) (m : M A) (k : A -> M B) Q :
  triple P m (fun _ _ => False) -> triple P (bind m k) Q.
Proof.
  intros Hm s s' b HP. unfold bind. specialize (Hm s).
  destruct (m s) as [s1 [a|e]]; [|done]. intros _.
  destruct (Hm s1 a HP eq_refl).
Qed.

Lemma taken_create_triple parent name_ shape dt value maxshape chunks d :
  is_Some (default ∅ (d !! h_file parent) !! (h_name parent ++ [name_])) ->
  triple (fun s => disk s = d)
    (h5_create_dataset parent name_ shape dt value maxshape chunks)
    (fun _ _ => False).
Proof.
  intros [n0 Hn] s s' a Hd Hrun.
  destruct (taken_create_dataset parent name_ shape dt value maxshape chunks
              s n0) as [e He]; [|congruence].
  unfold lookup_node. rewrite Hd. by destruct (d !! h_file parent).
Qed.

(** A deferred action for a name that is taken does not return. *)
Lemma taken_call f s :
  is_Some (lookup_node s (h_file (filler_parent f)) (filler_target f)) ->
  triple (fun s' => disk s' = disk s) (call f) (fun _ _ => False).
Proof.
  intros [n0 Hn].
  assert (is_Some (default ∅ (disk s !! h_file (filler_parent f))
                   !! filler_target f)) as Hn'.
  { exists n0. unfold lookup_node in Hn.
    by destruct (disk s !! h_file (filler_parent f)). }
  unfold call. apply triple_files_bind; [apply same_files_emit|intros _].
  destruct f as [parent n d refs t attrs|parent n d b t attrs
                |parent n d t attrs]; simpl in Hn'.
  - apply triple_files_bind; [preserve|intros rows].
    apply triple_files_bind; [|intros filled].
    { apply preserves_map_M; [apply _|]. intros item.
      apply same_files_fill_refs. }
    apply triple_fail_bind. by apply taken_create_triple.
  - apply triple_files_bind; [destruct b; preserve|intros region].
    apply triple_files_bind; [apply same_files___get_ref|intros ref].
    apply triple_fail_bind. by apply taken_create_triple.
  - apply triple_files_bind; [apply same_files___get_ref|intros ref].
    apply triple_fail_bind. by apply taken_create_triple.
Qed.

(** X20.  A name that is taken is never written over.  When the parent
    has a member of the name of the builder, [write_group] and
    [write_link] raise and leave the state as it is; [write_dataset]
    changes no file and returns no dataset: it raises or, for a dataset of
    references, queues an action; and an action queued for a name that is
    taken raises when it is called, as long as the files are the same. *)
Theorem taken_name_is_not_overwritten parent b s n0 :
  lookup_node s (h_file parent) (h_name parent ++ [name b]) = Some n0 ->
  (exists e, write_group parent b s = (s, Raise e)) /\
  (exists e, write_link parent b s = (s, Raise e)) /\
  disk (write_dataset parent b s).1 = disk s /\
  (forall dset, (write_dataset parent b s).2 <> Ok (Some dset)) /\
  (forall f s',
      filler_parent f = parent -> filler_target f = h_name parent ++ [name b] ->
      disk s' = disk s -> is_ok (call f s').2 = false).
Proof.
  intros Hn. split; [|split; [|split; [|split]]].
  - destruct b; simpl; try apply fails_at_error.
    apply fails_at_bind. by eapply taken_add_member.
  - destruct b as [| | |h target]; simpl; try apply fails_at_error.
    assert (forall link, fails_at s
              (h5_set_link parent (b_name h) link ;;; ret link)) as Hl.
    { intros link. apply fails_at_bind, fails_at_bind.
      by eapply taken_add_member. }
    unfold bind at 1. case_bool_decide; [apply Hl|].
    destruct (source target); [apply Hl|by eexists].
  - destruct (taken_write_dataset parent b s n0 Hn) as [[e ->]|[f ->]]; done.
  - intros dset.
    destruct (taken_write_dataset parent b s n0 Hn) as [[e ->]|[f ->]]; done.
  - intros f s' Hp Ht Hd.
    assert (is_Some (lookup_node s (h_file (filler_parent f)) (filler_target f)))
      as Hsome by (rewrite Hp, Ht; by eexists).
    pose proof (taken_call f s Hsome s') as Hc.
    destruct (call f s') as [s2 [[]|e]]; [|done].
    destruct (Hc s2 tt Hd eq_refl).
Qed.

(** Writing [sample_values] a second time under the root. *)
Lemma taken_name_is_not_overwritten_witness :
  (exists e, write_group (mk_h5obj "f.h5" [] true) sample_values sample_written
             = (sample_written, Raise e)) /\
  (exists e, write_link (mk_h5obj "f.h5" [] true) sample_values sample_written
             = (sample_written, Raise e)) /\
  disk (write_dataset (mk_h5obj "f.h5" [] true) sample_values sample_written).1
    = disk sample_written /\
  (forall dset,
      (write_dataset (mk_h5obj "f.h5" [] true) sample_values sample_written).2
      <> Ok (Some dset)) /\
  (forall f s',
      filler_parent f = mk_h5obj "f.h5" [] true ->
      filler_target f = h_name (mk_h5obj "f.h5" [] true) ++ [name sample_values] ->
      disk s' = disk sample_written -> is_ok (call f s').2 = false).
Proof.
  eapply (taken_name_is_not_overwritten (mk_h5obj "f.h5" [] true)
            sample_values sample_written _).
  vm_compute. reflexivity.
Defined.

(** ** A session writes one file *)

#[local] Instance queued_in_preorder file : PreOrder (queued_in file).
Proof.
  split; [intros s H; exact H|]. intros s1 s2 s3 H1 H2 H. by apply H2, H1.
Qed.

#[local] Instance other_files_preorder file : PreOrder (other_files file).
Proof.
  split; [by intros s|]. intros s1 s2 s3 H1 H2 file' q Hf.
  by rewrite H2, H1.
Qed.

Lemma quiet_queued_in file s s' : quiet s s' -> queued_in file s s'.
Proof. intros (_ & _ & _ & _ & Hq & _) H. by rewrite Hq. Qed.

Lemma preserves_quiet_queued_in {A} file (m : M A) :
  preserves quiet m -> preserves (queued_in file) m.
Proof. intros H s. apply quiet_queued_in, H. Qed.

Lemma queued_in_queue_ref f :
  preserves (queued_in (h_file (filler_parent f))) (__queue_ref f).
Proof.
  intros s H. simpl. apply Forall_app. split; [done|]. by constructor.
Qed.

Lemma queued_in_write_dataset parent b :
  preserves (queued_in (h_file parent)) (write_dataset parent b).
Proof.
  unfold write_dataset.
  destruct (negb (is_dataset_builder b)); [apply preserves_error; apply _|].
  cbv zeta. destruct (is_list (dtype b)) as [fields|].
  - case_bool_decide.
    + apply preserves_bind; [apply _|preserve|intros t].
      apply preserves_bind; [apply _| |preserve].
      apply (queued_in_queue_ref (FillCompound parent _ _ _ _ _)).
    + apply preserves_quiet_queued_in. preserve.
  - destruct (data b) as [v|it|it|d|target|rows];
      try solve [apply preserves_quiet_queued_in; destruct v; preserve];
      try solve [apply preserves_quiet_queued_in; preserve].
    apply preserves_bind; [apply _|preserve|intros t].
    apply preserves_bind; [apply _| |preserve].
    destruct (is_tag (dtype b) "region").
    + apply (queued_in_queue_ref (FillRegion parent _ _ _ _ _)).
    + apply (queued_in_queue_ref (FillObject parent _ _ _ _)).
Qed.

Lemma queued_in_write_group b : forall parent,
  preserves (queued_in (h_file parent)) (write_group parent b).
Proof.
  induction b as [h gs ds ls IHg _ _| | |] using Builder_members_ind;
    intros parent; simpl; try (apply preserves_error; apply _).
  apply (preserves_bind_returns _
           (is_at (h_file parent) (h_name parent ++ [b_name h]))).
  - apply preserves_quiet_queued_in. preserve.
  - apply returns_add_member.
  - intros group [Hf _].
    apply preserves_bind; [apply _| |intros _].
    { apply preserves_for_each; [apply _|]. intros [n sub] Hin.
      rewrite Forall_forall in IHg. specialize (IHg _ Hin group).
      rewrite Hf in IHg. apply preserves_bind; [apply _|exact IHg|preserve]. }
    apply preserves_bind; [apply _| |intros _].
    { apply preserves_for_each; [apply _|]. intros [n sub] Hin.
      apply preserves_bind; [apply _| |preserve].
      rewrite <- Hf. apply queued_in_write_dataset. }
    apply preserves_quiet_queued_in. preserve.
Qed.

Lemma other_files_only_below file root s s' :
  only_below file root s s' -> other_files file s s'.
Proof. intros H file' q Hf. apply H. by intros [? _]. Qed.

Lemma preserves_other_files {A} file root (m : M A) :
  preserves (only_below file root) m -> preserves (other_files file) m.
Proof. intros H s. eapply other_files_only_below, H. Qed.

Lemma other_files_same s s' file : disk s' = disk s -> other_files file s s'.
Proof. intros H file' q _. unfold lookup_node. by rewrite H. Qed.

Lemma preserves_same_only_below {A} file root (m : M A) :
  preserves same_files m -> preserves (only_below file root) m.
Proof.
  intros H s file' q _. unfold lookup_node. specialize (H s).
  unfold same_files in H. by rewrite H.
Qed.

(** A deferred action writes at its target only. *)
Lemma only_below_call f :
  preserves (only_below (h_file (filler_parent f)) (filler_target f)) (call f).
Proof.
  unfold call. apply preserves_bind; [apply _|apply only_below_emit|intros _].
  destruct f as [parent n d refs t attrs|parent n d b t attrs
                |parent n d t attrs]; cbn [filler_parent filler_target].
  - apply preserves_bind; [apply _|preserve|intros rows].
    apply preserves_bind; [apply _| |intros filled].
    { apply preserves_same_only_below, preserves_map_M; [apply _|].
      intros item. apply same_files_fill_refs. }
    apply (preserves_bind_returns _ (is_at (h_file parent) (h_name parent ++ [n]))).
    + by apply only_below_create_dataset.
    + apply returns_create_dataset.
    + apply at_member_preserves. intros o Hf Hn.
      apply preserves_bind; [apply _|preserve|intros values].
      apply preserves_bind; [apply _|by apply only_below_setitem|intros _].
      by apply only_below_set_attributes.
  - apply preserves_bind; [apply _|destruct b; preserve|intros region].
    apply preserves_bind; [apply _| |intros ref].
    { apply preserves_same_only_below, same_files___get_ref. }
    apply (preserves_bind_returns _ (is_at (h_file parent) (h_name parent ++ [n]))).
    + by apply only_below_create_dataset.
    + apply returns_create_dataset.
    + apply at_member_preserves. intros o Hf Hn.
      by apply only_below_set_attributes.
  - apply preserves_bind; [apply _| |intros ref].
    { apply preserves_same_only_below, same_files___get_ref. }
    apply (preserves_bind_returns _ (is_at (h_file parent) (h_name parent ++ [n]))).
    + by apply only_below_create_dataset.
    + apply returns_create_dataset.
    + apply at_member_preserves. intros o Hf Hn.
      by apply only_below_set_attributes.
Qed.

Lemma other_files_add_refs_loop file fuel : forall s,
  Forall (fun f => h_file (filler_parent f) = file) (__ref_queue s) ->
  other_files file s (__add_refs_loop fuel s).1.
Proof.
  induction fuel as [|fuel IH]; intros s Hq; rewrite add_refs_loop_unfold.
  - by destruct (last (__ref_queue s)).
  - destruct (last (__ref_queue s)) as [c|] eqn:Hlast; [|done].
    pose proof (last_Some_removelast _ _ Hlast) as Heq.
    rewrite Heq in Hq. apply Forall_app in Hq as [Hrest Hc].
    apply Forall_cons in Hc as [Hc _].
    pose proof (call_spec c (set_ref_queue (removelast (__ref_queue s)) s))
      as (_ & _ & _ & _ & Hcq & _).
    pose proof (only_below_call c
                  (set_ref_queue (removelast (__ref_queue s)) s)) as Hd.
    apply other_files_only_below in Hd. rewrite Hc in Hd.
    destruct (call c _) as [s2 [[]|e]]; simpl in *; [|exact Hd].
    etrans; [exact Hd|]. apply IH. by rewrite Hcq.
Qed.

Lemma other_files_open s : other_files (__path s) s (open s).1.
Proof.
  intros file' q Hf.
  unfold open, h5_File, bind, get_state, fresh_id, modify, ret, error, raise.
  simpl.
  repeat match goal with
         | |- context [if ?c then _ else _] => destruct c; simpl
         end; try done;
    unfold lookup_node; simpl; by rewrite lookup_insert_ne.
Qed.

Lemma write_root_one_file f_builder s f :
  __file s = Some f ->
  other_files (f_filename f) s (write_root f_builder s).1 /\
  queued_in (f_filename f) s (write_root f_builder s).1.
Proof.
  intros Hf. unfold write_root. unfold bind at 1. unfold bind at 2.
  unfold the_file, bind, get_state, ret. simpl. rewrite Hf.
  assert (forall R, PreOrder R ->
            (forall b, preserves R (write_group (file_root f) b)) ->
            (forall b, preserves R (write_dataset (file_root f) b)) ->
            (forall a, preserves R (set_attributes (file_root f) a)) ->
            preserves R
              (for_each (fun '(name, gbldr) =>
                           write_group (file_root f) gbldr ;;; ret tt)
                 (groups f_builder) ;;;
               for_each (fun '(name, dbldr) =>
                           write_dataset (file_root f) dbldr ;;; ret tt)
                 (datasets f_builder) ;;;
               set_attributes (file_root f) (attributes f_builder))) as Hp.
  { intros R HR Hg Hd Ha.
    apply preserves_bind; [apply _| |intros _].
    - apply preserves_for_each; [apply _|]. intros [n g] _.
      apply preserves_bind; [apply _|apply Hg|intros _].
      apply preserves_ret; apply _.
    - apply preserves_bind; [apply _| |intros _; apply Ha].
      apply preserves_for_each; [apply _|]. intros [n d] _.
      apply preserves_bind; [apply _|apply Hd|intros _].
      apply preserves_ret; apply _. }
  split.
  - apply (Hp (other_files (f_filename f))); [apply _| | |].
    + intros b. eapply preserves_other_files.
      apply (only_below_write_group b (file_root f)).
    + intros b. eapply preserves_other_files.
      apply (only_below_write_dataset (file_root f) b).
    + intros a. eapply preserves_other_files.
      by apply (only_below_set_attributes (file_root f) a []).
  - apply (Hp (queued_in (f_filename f))); [apply _| | |].
    + intros b. apply (queued_in_write_group b (file_root f)).
    + intros b. apply (queued_in_write_dataset (file_root f) b).
    + intros a. apply preserves_quiet_queued_in, preserves_set_attributes.
Qed.

(** X21.  A session writes one file.  Starting with an empty queue of
    deferred actions, for a builder whose groups and datasets, and the
    builders below them, have names that are each one component of a path
    ([plain_members]), whatever else the builder holds - links to other
    files, datasets of other files, references - and whatever the outcome,
    [write_builder] leaves every file other than the one at the path of
    the [HDF5IO] object as it is. *)
Theorem write_builder_writes_one_file b s file q :
  plain_members b = true ->
  __ref_queue s = [] -> file <> __path s ->
  lookup_node (write_builder b s).1 file q = lookup_node s file q.
Proof.
  intros _ Hq Hfile. revert file q Hfile.
  change (other_files (__path s) s (write_builder b s).1).
  destruct b as [h gs ds ls| | |]; try done.
  unfold write_builder. unfold bind at 1.
  pose proof (other_files_open s) as Ho.
  pose proof (preserves_open s) as (_ & Hq1 & _).
  destruct (open s) as [s1 [[]|e]] eqn:Hopen; simpl in *; [|exact Ho].
  destruct (open_acquires s s1 Hopen) as (f & Hf & _ & Hname).
  rewrite <- Hname in *.
  destruct (write_root_one_file (GroupBuilder h gs ds ls) s1 f Hf)
    as [Hw Hqin].
  unfold bind at 1.
  destruct (write_root (GroupBuilder h gs ds ls) s1) as [s2 [[]|e]];
    simpl in *; [|by etrans].
  etrans; [exact Ho|]. etrans; [exact Hw|].
  unfold __add_refs, bind, get_state. simpl.
  apply other_files_add_refs_loop. apply Hqin. rewrite Hq1, Hq. constructor.
Qed.

(** The session of [sample_abroad] in [a.h5] leaves [/values] of [f.h5]
    as it was. *)
Lemma write_builder_writes_one_file_witness :
  lookup_node (write_builder sample_abroad sample_abroad_io).1
    "f.h5" ["values"]
  = lookup_node sample_abroad_io "f.h5" ["values"].
Proof.
  apply write_builder_writes_one_file; [reflexivity|reflexivity|].
  intros H. vm_compute in H. discriminate H.
Defined.

(** ** The groups of a written tree *)

#[local] Instance only_at_preorder file p : PreOrder (only_at file p).
Proof.
  split; [by intros s|]. intros s1 s2 s3 H1 H2 file' q Hq.
  by rewrite H2, H1.
Qed.

Lemma only_at_set_attributes obj attrs :
  preserves (only_at (h_file obj) (h_name obj)) (set_attributes obj attrs).
Proof.
  assert (forall n s, only_at (h_file obj) (h_name obj) s
                        (store_node (h_file obj) (h_name obj) n s)) as Hs.
  { intros n s file' q Hq. by apply lookup_store_node_ne. }
  assert (forall e, preserves (only_at (h_file obj) (h_name obj)) (emit e))
    as He.
  { intros e s file' q _. apply lookup_node_set_log. }
  unfold set_attributes. apply preserves_for_each; [apply _|].
  intros [key value] _. apply preserves_bind; [apply _|preserve|].
  intros v. unfold h5_set_attr. preserve.
Qed.

#[local] Instance adds_members_preorder file group :
  PreOrder (adds_members file group).
Proof.
  split.
  - intros s. split; [done|]. by intros x r n0 _.
  - intros s1 s2 s3 [H1 H1'] [H2 H2']. split; [by rewrite H2, H1|].
    intros x r n0 Hx.
    pose proof (H1' x [] n0 Hx) as Hx2. rewrite Hx in Hx2.
    rewrite (H2' x r n0 Hx2). by apply (H1' x r n0).
Qed.

(** Writing a member under a name keeps the group and its other members;
    when the name is taken and the write then leaves the files alone, it
    keeps them all. *)
Lemma adds_members_member {A} (m : M A) parent n :
  preserves (only_below (h_file parent) (h_name parent ++ [n])) m ->
  (forall s n0,
      lookup_node s (h_file parent) (h_name parent ++ [n]) = Some n0 ->
      disk (m s).1 = disk s) ->
  preserves (adds_members (h_file parent) (h_name parent)) m.
Proof.
  intros Hb Ht s. split.
  - apply Hb. intros [_ Hp]. apply prefix_length in Hp.
    rewrite length_app in Hp. simpl in Hp. lia.
  - intros x r n0 Hx. destruct (decide (x = n)) as [->|Hne].
    + unfold lookup_node. by rewrite (Ht s n0 Hx).
    + apply Hb. intros [_ Hp]. apply prefix_app_inv in Hp.
      destruct Hp as [k Hk]. simpl in Hk. congruence.
Qed.

Lemma fails_at_disk {A} s (m : M A) : fails_at s m -> disk (m s).1 = disk s.
Proof. by intros [e ->]. Qed.

Lemma adds_members_write_group parent b :
  preserves (adds_members (h_file parent) (h_name parent)) (write_group parent b).
Proof.
  apply (adds_members_member _ parent (name b)).
  - apply only_below_write_group.
  - intros s n0 Hn. apply fails_at_disk.
    destruct b; simpl; try apply fails_at_error.
    apply fails_at_bind. by eapply taken_add_member.
Qed.

Lemma adds_members_write_dataset parent b :
  preserves (adds_members (h_file parent) (h_name parent))
    (write_dataset parent b).
Proof.
  apply (adds_members_member _ parent (name b)).
  - apply only_below_write_dataset.
  - intros s n0 Hn.
    destruct (taken_write_dataset parent b s n0 Hn) as [H|[f ->]]; [|done].
    by apply fails_at_disk.
Qed.

Lemma adds_members_write_link parent b :
  preserves (adds_members (h_file parent) (h_name parent)) (write_link parent b).
Proof.
  apply (adds_members_member _ parent (name b)).
  - apply only_below_write_link.
  - intros s n0 Hn. apply fails_at_disk.
    destruct b as [| | |h target]; simpl; try apply fails_at_error.
    assert (forall link, fails_at s
              (h5_set_link parent (b_name h) link ;;; ret link)) as Hl.
    { intros link. apply fails_at_bind, fails_at_bind.
      by eapply taken_add_member. }
    unfold bind at 1. case_bool_decide; [apply Hl|].
    destruct (source target); [apply Hl|by eexists].
Qed.

Lemma group_paths_head b q g :
  (q, g) ∈ group_paths b ->
  ([name b], b) ∈ group_paths b /\ exists r, q = name b :: r.
Proof.
  destruct b as [h gs ds ls| | |]; simpl; try by intros ?%elem_of_nil.
  intros Hq. split; [by left|].
  apply elem_of_cons in Hq as [[= -> _]|Hq]; [by eexists|].
  apply list_elem_of_In, in_flat_map in Hq as ([k c] & _ & Hq).
  apply in_map_iff in Hq as ([q' g'] & [= <- _] & _). by eexists.
Qed.

Lemma node_of_core_group n :
  node_core n = NGroup [] -> n = NGroup (node_attrs n).
Proof. by destruct n. Qed.

Lemma group_stored_eq s s' file p g :
  lookup_node s' file p = lookup_node s file p ->
  group_stored s file p g -> group_stored s' file p g.
Proof. intros Heq (attrs & Hn & Ha). exists attrs. by rewrite Heq. Qed.

(** The loop of [write_group] over the subgroups. *)
Lemma groups_loop_stores group (gs : list (string * Builder)) :
  Forall (fun x => forall parent s s' o,
              write_group parent x.2 s = (s', Ok o) ->
              forall q g, (q, g) ∈ group_paths x.2 ->
                          group_stored s' (h_file parent) (h_name parent ++ q) g)
    gs ->
  forall s s',
    for_each (fun '(_, sub_builder) => write_group group sub_builder ;;; ret tt)
      gs s = (s', Ok tt) ->
    forall k c q g,
      (k, c) ∈ gs -> (q, g) ∈ group_paths c ->
      group_stored s' (h_file group) (h_name group ++ q) g.
Proof.
  induction gs as [|[k0 c0] gs IH]; intros HF s s' Hrun k c q g Hin Hq.
  - by apply elem_of_nil in Hin.
  - cbn [for_each] in Hrun.
    apply bind_ok_inv in Hrun as (s1 & [] & Hrun & Hrest).
    apply bind_ok_inv in Hrun as (s1' & o1 & Hw & Hr).
    injection Hr as ->.
    apply Forall_cons in HF as [Hc0 HF].
    apply elem_of_cons in Hin as [[= -> ->]|Hin]; [|by eapply IH].
    destruct (group_paths_head _ _ _ Hq) as [Hhead [r ->]].
    destruct (Hc0 group s s1 o1 Hw _ _ Hhead) as (a0 & Hn0 & _).
    eapply group_stored_eq; [|by eapply Hc0].
    assert (adds_members (h_file group) (h_name group) s1 s') as [_ Hkeep].
    { replace s' with
        (for_each (fun '(_, sub_builder) =>
                     write_group group sub_builder ;;; ret tt) gs s1).1
        by (by rewrite Hrest).
      apply preserves_for_each; [apply _|]. intros [k1 c1] _.
      apply preserves_bind; [apply _|apply adds_members_write_group|].
      intros _. apply preserves_ret; apply _. }
    by eapply Hkeep.
Qed.

(** When [write_group] returns, every group of the tree of the builder is
    in the file. *)
Lemma write_group_stores parent b s s' o q g :
  write_group parent b s = (s', Ok o) ->
  (q, g) ∈ group_paths b ->
  group_stored s' (h_file parent) (h_name parent ++ q) g.
Proof.
  intros Hw Hq.
  revert parent s s' o Hw q g Hq.
  induction b as [h gs ds ls IHg _ _| | |] using Builder_members_ind;
    intros parent s s' o Hw q g Hq; try by apply elem_of_nil in Hq.
  cbn [write_group] in Hw.
  apply bind_ok_inv in Hw as (s1 & group & Hc & Hw).
  apply bind_ok_inv in Hw as (s2 & [] & Hgs & Hw).
  apply bind_ok_inv in Hw as (s3 & [] & Hds & Hw).
  apply bind_ok_inv in Hw as (s4 & [] & Hls & Hw).
  apply bind_ok_inv in Hw as (s5 & [] & Hat & Hw).
  injection Hw as -> ->.
  apply h5_add_member_inv in Hc as (-> & -> & Hfresh).
  set (file := h_file parent) in *.
  set (p := h_name parent ++ [b_name h]) in *.
  set (group := mk_h5obj file p (h_writable parent)) in *.
  set (s1 := set_log _ _) in *.
  assert (adds_members file p s2 s4) as [Hnode24 Hkeep24].
  { trans s3.
    - replace s3 with
        (for_each (fun '(_, sub_builder) =>
                     write_dataset group sub_builder ;;; ret tt) ds s2).1
        by (by rewrite Hds).
      apply preserves_for_each; [apply _|]. intros [k1 c1] _.
      apply preserves_bind; [apply _| |intros _; apply preserves_ret; apply _].
      apply (adds_members_write_dataset group).
    - replace s4 with
        (for_each (fun '(_, sub_builder) =>
                     write_link group sub_builder ;;; ret tt) ls s3).1
        by (by rewrite Hls).
      apply preserves_for_each; [apply _|]. intros [k1 c1] _.
      apply preserves_bind; [apply _| |intros _; apply preserves_ret; apply _].
      apply (adds_members_write_link group). }
  assert (only_at file p s4 s') as Hat'.
  { replace s' with (set_attributes group (b_attributes h) s4).1
      by (by rewrite Hat).
    apply (only_at_set_attributes group). }
  cbn [group_paths] in Hq. apply elem_of_cons in Hq as [[= -> ->]|Hq].
  - assert (adds_members file p s1 s2) as [Hnode12 _].
    { replace s2 with
        (for_each (fun '(_, sub_builder) =>
                     write_group group sub_builder ;;; ret tt) gs s1).1
        by (by rewrite Hgs).
      apply preserves_for_each; [apply _|]. intros [k1 c1] _.
      apply preserves_bind; [apply _| |intros _; apply preserves_ret; apply _].
      apply (adds_members_write_group group). }
    assert (lookup_node s4 file p = Some (NGroup [])) as Hn4.
    { rewrite Hnode24, Hnode12. unfold s1.
      rewrite lookup_node_set_log. apply lookup_store_node_eq. }
    pose proof (same_data_set_attributes group (b_attributes h) s4 file p)
      as Hcore.
    rewrite Hat in Hcore. simpl in Hcore. rewrite Hn4 in Hcore.
    destruct (lookup_node s' file p) as [n'|] eqn:Hn'; [|done].
    injection Hcore as Hcore. apply node_of_core_group in Hcore.
    exists (node_attrs n'). split; [by rewrite <- Hcore|].
    intros Hnd.
    destruct (set_attributes_inv group (b_attributes h) s4 s' (NGroup [])
                Hn4 Hnd Hat) as (n2 & converted & Hn2 & _ & Hconv & Hattrs).
    change (lookup_node s' file p = Some n2) in Hn2.
    rewrite Hn' in Hn2. injection Hn2 as ->.
    by rewrite Hattrs.
  - apply list_elem_of_In, in_flat_map in Hq as ([k c] & Hin & Hq).
    apply in_map_iff in Hq as ([q' g'] & [= <- <-] & Hq).
    apply list_elem_of_In in Hin, Hq.
    pose proof (groups_loop_stores group gs IHg s1 s2 Hgs k c) as Hloop.
    destruct (group_paths_head _ _ _ Hq) as [Hhead [r ->]].
    destruct (Hloop _ _ Hin Hhead) as (a0 & Hn0 & _).
    change (h_name parent ++ b_name h :: name c :: r)
      with (h_name parent ++ [b_name h] ++ name c :: r).
    rewrite app_assoc. fold p.
    eapply group_stored_eq; [|exact (Hloop _ _ Hin Hq)].
    rewrite Hat'.
    + by eapply Hkeep24.
    + intros [= Heq]. apply (f_equal length) in Heq.
      rewrite length_app in Heq. simpl in Heq. lia.
Qed.



(** ** What [__read_group] files under [groups] and [datasets] *)

#[local] Instance same_cache_preorder : PreOrder same_cache.
Proof.
  split; [by intros s|]. intros s1 s2 s3 [H1 H1'] [H2 H2'].
  split; congruence.
Qed.

#[local] Hint Extern 1 (same_cache _ _) => (split; reflexivity) : pres.

Lemma same_cache_emit e : preserves same_cache (emit e).
Proof. by intros s. Qed.

Lemma same_cache_fresh_id : preserves same_cache fresh_id.
Proof. by intros s. Qed.
#[local] Hint Resolve same_cache_emit same_cache_fresh_id : pres.

Lemma same_cache_get_dataset dset : preserves same_cache (get_dataset dset).
Proof. unfold get_dataset. preserve. Qed.

Lemma same_cache_new_header h5 name_ attrs :
  preserves same_cache (new_header h5 name_ attrs).
Proof. unfold new_header. preserve. Qed.
#[local] Hint Resolve same_cache_get_dataset same_cache_new_header : pres.

Lemma reading_same_cache d s s' : same_cache s s' -> reading d s -> reading d s'.
Proof.
  intros [Hd Hb] [Hs Hc]. split; [congruence|].
  intros file p b. unfold built_at. rewrite Hb. apply Hc.
Qed.

Lemma triple_bind {A B} (P : state -> Prop) (m : M A) (k : A -> M B) Q R :
  triple P m Q -> (forall a, triple (Q a) (k a) R) -> triple P (bind m k) R.
Proof.
  intros Hm Hk s s' b HP. unfold bind.
  destruct (m s) as [s1 [a|e]] eqn:Hms; [|done]. intros Hrun.
  eapply (Hk a s1 s' b); [|exact Hrun]. by eapply Hm.
Qed.

Lemma triple_pure {A} (P : state -> Prop) (phi : Prop) (m : M A) Q :
  (phi -> triple P m Q) -> triple (fun s => P s /\ phi) m Q.
Proof. intros H s s' a [HP Hphi]. by apply H. Qed.

Lemma triple_reading_bind {A B} d (m : M A) (k : A -> M B) Q :
  preserves same_cache m ->
  (forall a, triple (reading d) (k a) Q) ->
  triple (reading d) (bind m k) Q.
Proof.
  intros Hm Hk s s' b Hd. unfold bind. specialize (Hm s).
  destruct (m s) as [s1 [a|e]]; [|done]. simpl in Hm. intros Hrun.
  eapply (Hk a s1 s' b); [|exact Hrun]. by eapply reading_same_cache.
Qed.

Lemma triple_new_header_bind {B} d h5 name_ attrs (k : header -> M B) Q :
  (forall id src, triple (reading d) (k (mk_header id name_ [] src attrs)) Q) ->
  triple (reading d) (bind (new_header h5 name_ attrs) k) Q.
Proof.
  intros Hk s s' b Hd.
  unfold new_header, bind, get_state, fresh_id, emit, modify, ret.
  intros Hrun. eapply Hk; [|exact Hrun].
  eapply reading_same_cache; [|exact Hd]. by split.
Qed.

Lemma triple_get_built_bind {B} d fpath p (k : option Builder -> M B) Q :
  (forall r, (forall b, r = Some b -> name b = basename p) ->
             triple (reading d) (k r) Q) ->
  triple (reading d) (bind (__get_built fpath p) k) Q.
Proof.
  intros Hk s s' b Hd. unfold __get_built, bind, get_state.
  pose proof (proj2 Hd fpath p) as Hc. unfold built_at in Hc.
  destruct (__built s !! fpath) as [fdict|]; unfold ret; intros Hrun.
  - eapply (Hk (fdict !! p)); [|exact Hd|exact Hrun]. exact Hc.
  - eapply (Hk None); [|exact Hd|exact Hrun]. done.
Qed.

Lemma triple_set_built_bind {B} d fpath p b (k : unit -> M B) Q :
  name b = basename p ->
  triple (reading d) (k tt) Q ->
  triple (reading d) (bind (__set_built fpath p b) k) Q.
Proof.
  intros Hb Hk s s' r [Hd Hc]. unfold __set_built, bind, modify.
  intros Hrun. eapply Hk; [|exact Hrun]. split; [done|].
  intros file q c. unfold built_at. cbn [__built set_built].
  destruct (decide (file = fpath)) as [->|Hne].
  - rewrite lookup_insert_eq.
    pose proof (Hc fpath q c) as Hq. unfold built_at in Hq.
    destruct (__built s !! fpath) as [fdict|] eqn:Hf; cbn [from_option];
      unfold id.
    + destruct (fdict !! p) eqn:Hp; [exact Hq|].
      destruct (decide (q = p)) as [->|Hqp].
      * rewrite lookup_insert_eq. by intros [= <-].
      * by rewrite lookup_insert_ne.
    + rewrite lookup_empty.
      destruct (decide (q = p)) as [->|Hqp].
      * rewrite lookup_insert_eq. by intros [= <-].
      * rewrite lookup_insert_ne by done. by rewrite lookup_empty.
  - rewrite lookup_insert_ne by done. apply Hc.
Qed.

(** The builder of a dataset is named as asked or by the last component
    of the name of the dataset, and the cache stays named. *)
Lemma read_dataset_named fuel : forall h5 nm d,
  triple (reading d) (__read_dataset fuel h5 nm)
    (fun b s' => reading d s' /\ name b = default (basename (h_name h5)) nm).
Proof.
  induction fuel as [|fuel IH]; intros h5 nm d; [apply triple_error|].
  cbn [__read_dataset].
  apply triple_reading_bind; [preserve|intros ds]. cbv zeta.
  assert (forall (mk : header -> Builder),
            (forall h, name (mk h) = b_name h) ->
            triple (reading d)
              (h <- new_header h5 (default (basename (h_name h5)) nm)
                      (ds_attrs ds) ;; ret (mk h))
              (fun b s' =>
                 reading d s' /\ name b = default (basename (h_name h5)) nm))
    as Hplain.
  { intros mk Hmk. apply triple_new_header_bind. intros id src.
    apply triple_ret. intros s Hs. split; [done|]. by rewrite Hmk. }
  case_bool_decide.
  - destruct (default VNone (ds_cells ds !! [])); try by apply Hplain.
    eapply triple_bind; [apply IH|]. intros tb. cbv beta.
    apply triple_pure. intros Htb.
    apply triple_set_built_bind; [exact Htb|].
    by apply Hplain.
  - destruct (_ && _); by apply Hplain.
Qed.

Lemma h5_get_disk s s' o k : disk s' = disk s -> h5_get s' o k = h5_get s o k.
Proof. intros H. unfold h5_get. by apply h5_resolve_disk. Qed.

Lemma filed_from_more s h5 pre k as_dataset key :
  filed_from s h5 pre as_dataset key ->
  filed_from s h5 (pre ++ [k]) as_dataset key.
Proof.
  intros (k0 & sub & n & Hk0 & Hrest). exists k0, sub, n.
  split; [|done]. apply elem_of_app. by left.
Qed.

(** The builder of a member: the one in the cache, or the one read and
    then put into the cache. *)
Lemma member_builder_named d fpath p (cached : option Builder)
    (read : M Builder) :
  (forall b, cached = Some b -> name b = basename p) ->
  triple (reading d) read (fun b s' => reading d s' /\ name b = basename p) ->
  triple (reading d)
    (match cached with
     | Some b => ret b
     | None => b <- read ;; __set_built fpath p b ;;; ret b
     end)
    (fun b s' => reading d s' /\ name b = basename p).
Proof.
  intros Hcached Hread. destruct cached as [b|].
  - apply triple_ret. intros s Hs. split; [done|]. by apply Hcached.
  - eapply triple_bind; [exact Hread|]. intros b. cbv beta.
    apply triple_pure. intros Hb.
    apply triple_set_built_bind; [exact Hb|].
    apply triple_ret. by intros s Hs.
Qed.

(** The builder that [__read_group] returns, under a named cache. *)
Lemma read_group_members fuel h5 nm s s' b :
  cache_named s ->
  __read_group fuel h5 nm s = (s', Ok b) ->
  cache_named s' /\
  name b = default (basename (h_name h5)) nm /\
  lookup_node s (h_file h5) (h_name h5) = Some (NGroup (attributes b)) /\
  (forall k,
     k ∈ member_names s h5 -> h5_getlink s h5 k ≫= link_path = None ->
     exists sub n,
       h5_get s h5 k = Some (sub, n) /\
       basename (h_name sub)
         ∈ (if is_dataset_node n then datasets b else groups b).*1) /\
  (forall key c, (key, c) ∈ groups b ->
     name c = key /\ filed_from s h5 (member_names s h5) false key) /\
  (forall key c, (key, c) ∈ datasets b ->
     name c = key /\ filed_from s h5 (member_names s h5) true key).
Proof.
  revert h5 nm s s' b.
  induction fuel as [|fuel IH]; intros h5 nm s s' b Hc; [done|].
  assert (forall n sub nm' d p,
            default (basename (h_name sub)) nm' = basename p ->
            triple (reading d)
              (if is_dataset_node n then __read_dataset fuel sub nm'
               else __read_group fuel sub nm')
              (fun b s' => reading d s' /\ name b = basename p)) as Hread.
  { intros n sub nm' d p <-. destruct (is_dataset_node n);
      [apply read_dataset_named|].
    intros s1 s2 b1 [Hd1 Hc1] Hrun.
    destruct (IH sub nm' s1 s2 b1 Hc1 Hrun) as (Hc2 & Hn & _).
    split; [|done]. split; [|done].
    pose proof (same_files___read_group fuel sub nm' s1) as Hsf.
    rewrite Hrun in Hsf. unfold same_files in Hsf. simpl in Hsf. congruence. }
  clear IH.
  cbn [__read_group]. unfold bind at 1. unfold get_state at 1. cbv beta iota.
  unfold bind at 1.
  destruct (lookup_node s (h_file h5) (h_name h5)) as [[attrs| | |]|] eqn:Hnode;
    try done.
  unfold ret at 1. cbv beta iota. unfold bind at 1.
  match goal with
  | |- context [fold_M ?f ?acc ?xs s] =>
      set (body := f); destruct (fold_M body acc xs s) as [s1 [kw|e]] eqn:Hfold
  end; [|done].
  intros H. unfold new_header, bind, get_state, fresh_id, emit, modify, ret in H.
  simpl in H. injection H as <- <-. cbn [groups datasets].
  pose (J := fun (pre : list string) (kw : members) =>
    (forall k,
       k ∈ pre -> h5_getlink s h5 k ≫= link_path = None ->
       exists sub n,
         h5_get s h5 k = Some (sub, n) /\
         basename (h_name sub)
           ∈ (if is_dataset_node n then m_datasets kw else m_groups kw).*1) /\
    (forall key c, (key, c) ∈ m_groups kw ->
       name c = key /\ filed_from s h5 pre false key) /\
    (forall key c, (key, c) ∈ m_datasets kw ->
       name c = key /\ filed_from s h5 pre true key)).
  assert (forall pre kw2 k,
            J pre kw2 ->
            triple (reading (disk s)) (body kw2 k)
              (fun kw3 s3 => reading (disk s) s3 /\ J (pre ++ [k]) kw3)) as Hstep.
  { intros pre kw2 k (Hcov & Hg & Hd).
    assert (forall key c, (key, c) ∈ m_groups kw2 ->
              name c = key /\ filed_from s h5 (pre ++ [k]) false key) as Hg'.
    { intros key c Hkc. destruct (Hg key c Hkc) as [Hn Hf].
      split; [done|]. by apply filed_from_more. }
    assert (forall key c, (key, c) ∈ m_datasets kw2 ->
              name c = key /\ filed_from s h5 (pre ++ [k]) true key) as Hd'.
    { intros key c Hkc. destruct (Hd key c Hkc) as [Hn Hf].
      split; [done|]. by apply filed_from_more. }
    unfold body. apply triple_get_state_bind. intros s0 Hs0.
    apply (triple_pre _ (reading (disk s))); [by intros ? ->|].
    rewrite (h5_get_disk s s0) by apply Hs0.
    destruct (h5_get s h5 k) as [[sub n]|] eqn:Hget; [|apply triple_error].
    rewrite (h5_getlink_disk s s0) by apply Hs0.
    destruct (h5_getlink s h5 k ≫= link_path) as [tp|] eqn:Hlink.
    - apply triple_get_built_bind. intros cached Hcached.
      eapply triple_bind.
      { apply (member_builder_named _ _ tp); [exact Hcached|].
        by apply Hread. }
      intros builder. cbv beta. apply triple_pure. intros Hb.
      apply triple_reading_bind; [preserve|intros id].
      apply triple_ret. intros s3 Hs3. split; [done|]. unfold J.
      cbn [m_groups m_datasets]. split; [|by split].
      intros k0 [Hk0| ->%list_elem_of_singleton]%elem_of_app Hl0.
      + by apply Hcov.
      + congruence.
    - apply triple_get_built_bind. intros cached Hcached.
      eapply triple_bind.
      { apply (member_builder_named _ _ (h_name sub)); [exact Hcached|].
        by apply Hread. }
      intros builder. cbv beta. apply triple_pure. intros Hb.
      destruct (is_dataset_node n) eqn:Hn; apply triple_ret; intros s3 Hs3;
        (split; [done|]); unfold J; cbn [m_groups m_datasets].
      + split; [|split; [exact Hg'|]].
        * intros k0 [Hk0| ->%list_elem_of_singleton]%elem_of_app Hl0.
          -- destruct (Hcov k0 Hk0 Hl0) as (sub0 & n0 & Hget0 & Hin0).
             exists sub0, n0. split; [done|].
             destruct (is_dataset_node n0); [|done].
             apply dict_set_key_in. by right.
          -- exists sub, n. split; [done|]. rewrite Hn.
             apply dict_set_key_in. left. by rewrite Hb.
        * intros key c [[= -> ->]|Hold]%dict_set_elem_of; [|by apply Hd'].
          split; [done|]. exists k, sub, n.
          split; [apply elem_of_app; right; by left|done].
      + split; [|split; [|exact Hd']].
        * intros k0 [Hk0| ->%list_elem_of_singleton]%elem_of_app Hl0.
          -- destruct (Hcov k0 Hk0 Hl0) as (sub0 & n0 & Hget0 & Hin0).
             exists sub0, n0. split; [done|].
             destruct (is_dataset_node n0); [done|].
             apply dict_set_key_in. by right.
          -- exists sub, n. split; [done|]. rewrite Hn.
             apply dict_set_key_in. left. by rewrite Hb.
        * intros key c [[= -> ->]|Hold]%dict_set_elem_of; [|by apply Hg'].
          split; [done|]. exists k, sub, n.
          split; [apply elem_of_app; right; by left|done]. }
  pose (I := fun (pre : list string) (s1 : state) (kw : members) =>
              reading (disk s) s1 /\ J pre kw).
  assert (I ([] ++ member_names s h5) s1 kw) as ([Hd1 Hc1] & Hcov & Hg & Hd).
  { eapply (fold_M_prefix_inv I body); [| |exact Hfold].
    - split; [by split|]. split; [by intros ? ?%elem_of_nil|].
      split; by intros ?? ?%elem_of_nil.
    - intros pre k s2 kw2 s3 kw3 [Hd HJ] Hrun.
      by eapply (Hstep pre kw2 k HJ s2 s3 kw3). }
  split; [intros file p b0; apply Hc1|]. split; [done|]. split; [done|].
  split; [exact Hcov|]. split; [exact Hg|exact Hd].
Qed.

(** X23.  What [__read_group] files under [groups] and [datasets].  With
    a cache whose builders are named after the paths they are kept under
    (as the cache of a new [HDF5IO] object is, and stays), the builder
    read from a group has the name asked for or the last component of the
    name of the group, and the attributes of the group; every member that
    is not a link is filed, under the last component of the name of the
    object it denotes, in [datasets] when that is a dataset and in
    [groups] otherwise; every entry of [groups] and of [datasets] comes
    from such a member and holds a builder named as its key. *)
Theorem members_read_by_name fuel h5 nm s s' b :
  cache_named s ->
  __read_group fuel h5 nm s = (s', Ok b) ->
  cache_named s' /\
  name b = default (basename (h_name h5)) nm /\
  lookup_node s (h_file h5) (h_name h5) = Some (NGroup (attributes b)) /\
  (forall k,
     k ∈ member_names s h5 -> h5_getlink s h5 k ≫= link_path = None ->
     exists sub n,
       h5_get s h5 k = Some (sub, n) /\
       basename (h_name sub)
         ∈ (if is_dataset_node n then datasets b else groups b).*1) /\
  (forall key c, (key, c) ∈ groups b ->
     name c = key /\ filed_from s h5 (member_names s h5) false key) /\
  (forall key c, (key, c) ∈ datasets b ->
     name c = key /\ filed_from s h5 (member_names s h5) true key).
Proof.
  intros Hc Hr.
  destruct (read_group_members fuel h5 nm s s' b Hc Hr)
    as (Hc' & Hname & Hattrs & Hcov & Hg & Hd).
  split; [exact Hc'|]. split; [exact Hname|]. split; [exact Hattrs|].
  split; [exact Hcov|]. split; [exact Hg|exact Hd].
Qed.

(** The group [/a/b] of the file of [sample_tree] has the group [c] and
    the dataset [m]. *)
Lemma members_read_by_name_witness :
  cache_named sample_tree_io /\
  exists s' b,
    __read_group 2 (mk_h5obj "f.h5" ["a"; "b"] false) None sample_tree_io
      = (s', Ok b) /\
    (groups b).*1 = ["c"] /\ (datasets b).*1 = ["m"] /\
    cache_named s' /\
    name b = default (basename ["a"; "b"]) None /\
    lookup_node sample_tree_io "f.h5" ["a"; "b"]
      = Some (NGroup (attributes b)) /\
    (forall k,
       k ∈ member_names sample_tree_io (mk_h5obj "f.h5" ["a"; "b"] false) ->
       h5_getlink sample_tree_io (mk_h5obj "f.h5" ["a"; "b"] false) k
         ≫= link_path = None ->
       exists sub n,
         h5_get sample_tree_io (mk_h5obj "f.h5" ["a"; "b"] false) k
           = Some (sub, n) /\
         basename (h_name sub)
           ∈ (if is_dataset_node n then datasets b else groups b).*1) /\
    (forall key c, (key, c) ∈ groups b ->
       name c = key /\
       filed_from sample_tree_io (mk_h5obj "f.h5" ["a"; "b"] false)
         (member_names sample_tree_io (mk_h5obj "f.h5" ["a"; "b"] false))
         false key) /\
    (forall key c, (key, c) ∈ datasets b ->
       name c = key /\
       filed_from sample_tree_io (mk_h5obj "f.h5" ["a"; "b"] false)
         (member_names sample_tree_io (mk_h5obj "f.h5" ["a"; "b"] false))
         true key).
Proof.
  assert (cache_named sample_tree_io) as Hc.
  { intros file p b H. vm_compute in H. discriminate H. }
  split; [exact Hc|].
  destruct (__read_group 2 (mk_h5obj "f.h5" ["a"; "b"] false) None
              sample_tree_io) as [s' r] eqn:Hr.
  assert (exists b, r = Ok b /\ (groups b).*1 = ["c"]
                    /\ (datasets b).*1 = ["m"]) as (b & -> & Hg & Hd).
  { assert (match r with
            | Ok b => ((groups b).*1, (datasets b).*1)
            | Raise _ => ([], [])
            end = (["c"], ["m"])) as Hok.
    { change r with (s', r).2. rewrite <- Hr. vm_compute. reflexivity. }
    destruct r as [b|]; [|discriminate Hok].
    exists b. split; [reflexivity|].
    split; [exact (f_equal fst Hok)|exact (f_equal snd Hok)]. }
  exists s', b. split; [reflexivity|]. split; [exact Hg|]. split; [exact Hd|].
  exact (members_read_by_name 2 (mk_h5obj "f.h5" ["a"; "b"] false) None
           sample_tree_io s' b Hc Hr).
Defined.

(** ** A group written and read back *)

Lemma member_names_elem s o k n :
  lookup_node s (h_file o) (h_name o ++ [k]) = Some n -> k ∈ member_names s o.
Proof.
  unfold lookup_node, member_names.
  destruct (disk s !! h_file o) as [f|]; [|done]. intros Hn.
  rewrite merge_sort_Permutation. apply list_elem_of_omap.
  exists (h_name o ++ [k], n). split; [by apply elem_of_map_to_list|].
  cbn [fst]. rewrite reverse_app, reverse_singleton. cbn [app].
  rewrite reverse_involutive. by rewrite bool_decide_eq_true_2.
Qed.

Lemma for_each_ok_each {A} (body : A -> M unit) xs : forall s s',
  for_each body xs s = (s', Ok tt) ->
  forall x, x ∈ xs -> exists s0 s0', body x s0 = (s0', Ok tt).
Proof.
  induction xs as [|y xs IH]; intros s s' Hrun x Hx.
  - by apply elem_of_nil in Hx.
  - cbn [for_each] in Hrun.
    apply bind_ok_inv in Hrun as (s1 & [] & Hy & Hrest).
    apply elem_of_cons in Hx as [->|Hx]; [by exists s, s1|].
    by eapply IH.
Qed.

Lemma write_group_ok_inv parent b s s' o :
  write_group parent b s = (s', Ok o) ->
  exists h gs ds ls,
    b = GroupBuilder h gs ds ls /\
    o = mk_h5obj (h_file parent) (h_name parent ++ [b_name h])
          (h_writable parent) /\
    forall k c, (k, c) ∈ gs -> exists h' gs' ds' ls', c = GroupBuilder h' gs' ds' ls'.
Proof.
  destruct b as [h gs ds ls| | |]; try done. intros Hw.
  exists h, gs, ds, ls. split; [done|].
  cbn [write_group] in Hw.
  apply bind_ok_inv in Hw as (s1 & group & Hc & Hw).
  apply bind_ok_inv in Hw as (s2 & [] & Hgs & Hw).
  apply bind_ok_inv in Hw as (s3 & [] & Hds & Hw).
  apply bind_ok_inv in Hw as (s4 & [] & Hls & Hw).
  apply bind_ok_inv in Hw as (s5 & [] & Hat & Hw).
  injection Hw as -> ->.
  apply h5_add_member_inv in Hc as (_ & -> & _). split; [done|].
  intros k c Hkc.
  destruct (for_each_ok_each _ _ _ _ Hgs _ Hkc) as (s0 & s0' & Hc).
  apply bind_ok_inv in Hc as (s0'' & o' & Hc & _).
  destruct c as [h' gs' ds' ls'| | |]; try done. by eexists _, _, _, _.
Qed.

Lemma walk_plain fuel s file cur c rest n :
  lookup_node s file (cur ++ [c]) = Some n -> link_path n = None ->
  walk (S fuel) s file cur (c :: rest) = walk fuel s file (cur ++ [c]) rest.
Proof. intros Hn Hl. cbn [walk]. rewrite Hn. by destruct n. Qed.

(** A member of a group under the root, when neither is a link, is what
    its path leads to. *)
Lemma h5_get_below_root s file w a k n0 n :
  lookup_node s file [a] = Some n0 -> link_path n0 = None ->
  lookup_node s file [a; k] = Some n -> link_path n = None ->
  h5_get s (mk_h5obj file [a] w) k = Some (mk_h5obj file [a; k] w, n).
Proof.
  intros Ha Hla Hk Hlk. unfold h5_get, h5_resolve.
  cbn [h_file h_name h_writable app].
  change walk_limit with (S (S (S 253))).
  rewrite (walk_plain _ s file [] a [k] n0 Ha Hla).
  rewrite (walk_plain _ s file [a] k [] n Hk Hlk).
  cbn [walk app]. by rewrite Hk.
Qed.

(** X24.  A group written and read back.  A builder whose name, like
    the names of the builders below it, is one component of a path
    ([plain_names]), written as a group under the root of a file and read
    from the group that [write_group] returned, gives a builder of the
    same name; when the attributes of the builder have distinct names and
    are storable, the builder read has its attributes, each in its stored
    form and in their order; and every subgroup of the builder is found
    among its groups, under its name. *)
Theorem group_round_trip parent b s s1 o fuel s2 b' :
  plain_names b = true ->
  h_name parent = [] ->
  write_group parent b s = (s1, Ok o) ->
  cache_named s1 ->
  __read_group fuel o None s1 = (s2, Ok b') ->
  name b' = name b /\
  (NoDup (attributes b).*1 ->
   Forall (fun kv => storable kv = true) (attributes b) ->
   Forall2 (fun kv kv' => kv'.1 = kv.1 /\ attribute_value kv.2 = Ok kv'.2)
     (attributes b) (attributes b')) /\
  (forall k c, (k, c) ∈ groups b ->
     exists c', (name c, c') ∈ groups b' /\ name c' = name c).
Proof.
  intros _ Hroot Hw Hc Hr.
  destruct (write_group_ok_inv _ _ _ _ _ Hw)
    as (h & gs & ds & ls & -> & -> & Hgs).
  rewrite Hroot in Hr. cbn [app] in Hr.
  set (file := h_file parent) in *. set (w := h_writable parent) in *.
  destruct (read_group_members _ _ _ _ _ _ Hc Hr)
    as (_ & Hname & Hattrs & Hcov & Hg & _).
  cbn [h_file h_name] in Hattrs.
  destruct (write_group_stores parent _ s s1 _ [b_name h]
              (GroupBuilder h gs ds ls) Hw)
    as (attrs & Hn & Ha); [by left|].
  fold file in Hn. rewrite Hroot in Hn. cbn [app] in Hn.
  rewrite Hn in Hattrs. injection Hattrs as Hattrs.
  split; [exact Hname|]. split; [intros Hdup _; rewrite <- Hattrs; auto|].
  cbn [groups]. intros k c Hkc.
  destruct (Hgs k c Hkc) as (h' & gs' & ds' & ls' & ->).
  destruct (write_group_stores parent _ s s1 _ [b_name h; b_name h']
              (GroupBuilder h' gs' ds' ls') Hw) as (attrs' & Hn' & _).
  { cbn [group_paths]. right. apply list_elem_of_In, in_flat_map.
    exists (k, GroupBuilder h' gs' ds' ls').
    split; [by apply list_elem_of_In|].
    apply in_map_iff. eexists ([b_name h'], _). split; [done|].
    cbn [group_paths]. by left. }
  fold file in Hn'. rewrite Hroot in Hn'. cbn [app] in Hn'.
  destruct (Hcov (b_name h')) as (sub & n & Hget & Hin).
  { eapply member_names_elem. cbn [h_file h_name app]. exact Hn'. }
  { unfold h5_getlink. cbn [h_file h_name app]. by rewrite Hn'. }
  rewrite (h5_get_below_root s1 file w (b_name h) (b_name h')
             (NGroup attrs) (NGroup attrs') Hn eq_refl Hn' eq_refl) in Hget.
  injection Hget as <- <-. cbn [is_dataset_node h_name] in Hin.
  change (basename [b_name h; b_name h']) with (b_name h') in Hin.
  apply list_elem_of_fmap in Hin as ([key c'] & Hkey & Hin).
  cbn [fst] in Hkey. subst key. exists c'. split; [exact Hin|].
  by destruct (Hg _ _ Hin) as [-> _].
Qed.

(** [sample_tree], written under the root of a new file and read back
    from the group [/a]. *)
Lemma group_round_trip_witness :
  exists s2 b',
    __read_group 3 (mk_h5obj "f.h5" ["a"] true) None
      (write_group (mk_h5obj "f.h5" [] true) sample_tree (open sample_io).1).1
      = (s2, Ok b') /\
    name b' = name sample_tree /\
    (NoDup (attributes sample_tree).*1 ->
     Forall (fun kv => storable kv = true) (attributes sample_tree) ->
     Forall2 (fun kv kv' => kv'.1 = kv.1 /\ attribute_value kv.2 = Ok kv'.2)
       (attributes sample_tree) (attributes b')) /\
    (forall k c, (k, c) ∈ groups sample_tree ->
       exists c', (name c, c') ∈ groups b' /\ name c' = name c).
Proof.
  destruct (__read_group 3 (mk_h5obj "f.h5" ["a"] true) None
              (write_group (mk_h5obj "f.h5" [] true) sample_tree
                 (open sample_io).1).1) as [s2 r] eqn:Hr.
  assert (exists b', r = Ok b') as (b' & ->).
  { assert (is_ok r = true) as Hok.
    { change r with (s2, r).2. rewrite <- Hr. vm_compute. reflexivity. }
    destruct r as [b'|]; [|discriminate Hok]. exists b'. reflexivity. }
  exists s2, b'. split; [reflexivity|].
  apply (group_round_trip (mk_h5obj "f.h5" [] true) sample_tree
           (open sample_io).1
           (write_group (mk_h5obj "f.h5" [] true) sample_tree
              (open sample_io).1).1
           (mk_h5obj "f.h5" ["a"] true) 3 s2 b').
  - reflexivity.
  - reflexivity.
  - vm_compute. reflexivity.
  - intros file p b H. vm_compute in H. discriminate H.
  - exact Hr.
Defined.

(** ** Writing only adds *)

Lemma same_kind_refl n : same_kind n n.
Proof. by destruct n. Qed.

Lemma same_kind_trans n1 n2 n3 :
  same_kind n1 n2 -> same_kind n2 n3 -> same_kind n1 n3.
Proof.
  destruct n1 as [a1|d1|p1|f1 p1]; simpl.
  - destruct n2; try done; by destruct n3.
  - destruct n2 as [|d2| |]; try done. destruct n3 as [|d3| |]; try done.
    simpl. intros (-> & -> & ->) (-> & -> & ->). done.
  - intros -> H. exact H.
  - intros -> H. exact H.
Qed.

#[local] Instance only_adds_preorder : PreOrder only_adds.
Proof.
  split.
  - intros s file q n Hn. exists n. split; [done|apply same_kind_refl].
  - intros s1 s2 s3 H1 H2 file q n Hn.
    destruct (H1 file q n Hn) as (n2 & Hn2 & Hk2).
    destruct (H2 file q n2 Hn2) as (n3 & Hn3 & Hk3).
    exists n3. split; [done|by eapply same_kind_trans].
Qed.

Lemma only_adds_disk s s' : disk s' = disk s -> only_adds s s'.
Proof.
  intros Hd file q n Hn. exists n. split; [|apply same_kind_refl].
  unfold lookup_node in *. by rewrite Hd.
Qed.

#[local] Hint Extern 1 (only_adds _ _) =>
  (apply only_adds_disk; reflexivity) : pres.

Lemma only_adds_same_data s s' : same_data s s' -> only_adds s s'.
Proof.
  intros H file q n Hn. specialize (H file q). rewrite Hn in H.
  destruct (lookup_node s' file q) as [n'|]; [|done].
  exists n'. split; [done|]. injection H as H.
  destruct n, n'; simpl in *; try done; by simplify_eq.
Qed.

Lemma only_adds_store s file p n :
  (forall n0, lookup_node s file p = Some n0 -> same_kind n0 n) ->
  only_adds s (store_node file p n s).
Proof.
  intros Hk file' q n0 Hn0. destruct (decide ((file', q) = (file, p))) as [[= -> ->]|Hne].
  - exists n. split; [apply lookup_store_node_eq|by apply Hk].
  - exists n0. split; [|apply same_kind_refl].
    by rewrite lookup_store_node_ne.
Qed.

Lemma only_adds_emit e : preserves only_adds (emit e).
Proof. intros s. by apply only_adds_disk. Qed.

Lemma only_adds_fresh_id : preserves only_adds fresh_id.
Proof. intros s. by apply only_adds_disk. Qed.
#[local] Hint Resolve only_adds_emit only_adds_fresh_id : pres.

Lemma only_adds_add_member what parent name_ n ev :
  preserves only_adds (h5_add_member what parent name_ n ev).
Proof.
  intros s.
  destruct (h5_add_member what parent name_ n ev s) as [s' [o|e]] eqn:H; simpl.
  - apply h5_add_member_inv in H as (-> & _ & Hfresh).
    etrans; [|by apply only_adds_disk].
    apply only_adds_store. intros n0 Hn0. congruence.
  - by apply h5_add_member_raise in H as ->.
Qed.
#[local] Hint Resolve only_adds_add_member : pres.

Lemma only_adds_create_dataset parent name_ shape dt value maxshape chunks :
  preserves only_adds
    (h5_create_dataset parent name_ shape dt value maxshape chunks).
Proof. unfold h5_create_dataset. preserve. Qed.

Lemma only_adds_create_group parent name_ :
  preserves only_adds (h5_create_group parent name_).
Proof. unfold h5_create_group. preserve. Qed.

Lemma only_adds_set_link parent name_ link :
  preserves only_adds (h5_set_link parent name_ link).
Proof. unfold h5_set_link. preserve. Qed.

Lemma only_adds_set_attributes obj attrs :
  preserves only_adds (set_attributes obj attrs).
Proof. intros s. apply only_adds_same_data, same_data_set_attributes. Qed.
#[local] Hint Resolve only_adds_create_dataset only_adds_create_group
  only_adds_set_link only_adds_set_attributes : pres.

Lemma only_adds_get_dataset dset : preserves only_adds (get_dataset dset).
Proof. unfold get_dataset. preserve. Qed.

Lemma only_adds_shape dset : preserves only_adds (h5_shape dset).
Proof. unfold h5_shape, get_dataset. preserve. Qed.

Lemma only_adds_resize dset new_shape :
  preserves only_adds (h5_resize dset new_shape).
Proof.
  intros s. unfold h5_resize, get_dataset, bind, get_state. cbv beta iota.
  destruct (lookup_node s (h_file dset) (h_name dset)) as [[|d| |]|] eqn:Hn;
    try reflexivity.
  unfold ret. destruct (negb (h_writable dset)); [reflexivity|].
  destruct (negb (ds_chunked d)); [reflexivity|].
  destruct (negb (fits new_shape (ds_maxshape d))); [reflexivity|].
  unfold modify, emit. cbn [fst]. etrans; [|by apply only_adds_disk].
  apply only_adds_store. intros n0 Hn0. rewrite Hn in Hn0.
  by injection Hn0 as <-.
Qed.

Lemma only_adds_setitem dset sel value :
  preserves only_adds (h5_setitem dset sel value).
Proof.
  intros s. unfold h5_setitem, get_dataset, bind, get_state. cbv beta iota.
  destruct (lookup_node s (h_file dset) (h_name dset)) as [[|d| |]|] eqn:Hn;
    try reflexivity.
  unfold ret. destruct (negb (h_writable dset)); [reflexivity|].
  unfold lift. destruct (all_positions _ _) as [dims|e]; [|done].
  cbv zeta. case_bool_decide; [|done].
  unfold modify, emit. cbn [fst]. etrans; [|by apply only_adds_disk].
  apply only_adds_store. intros n0 Hn0. rewrite Hn in Hn0.
  by injection Hn0 as <-.
Qed.
#[local] Hint Resolve only_adds_get_dataset only_adds_shape only_adds_resize
  only_adds_setitem : pres.

Lemma only_adds_write_link parent b : preserves only_adds (write_link parent b).
Proof. unfold write_link. preserve. Qed.

Lemma only_adds_scalar_fill parent name_ data_ dt :
  preserves only_adds (__scalar_fill__ parent name_ data_ dt).
Proof. unfold __scalar_fill__. preserve. Qed.

Lemma only_adds_write_chunk dset chunk_i :
  preserves only_adds (write_chunk dset chunk_i).
Proof. unfold write_chunk. preserve. Qed.
#[local] Hint Resolve only_adds_write_link only_adds_scalar_fill
  only_adds_write_chunk : pres.

Lemma only_adds_chunked_iter_fill parent name_ data_ :
  preserves only_adds (__chunked_iter_fill__ parent name_ data_).
Proof. unfold __chunked_iter_fill__. preserve. Qed.

Lemma only_adds_list_fill parent name_ data_ dt :
  preserves only_adds (__list_fill__ parent name_ data_ dt).
Proof. unfold __list_fill__. preserve. Qed.

Lemma only_adds_the_file : preserves only_adds the_file.
Proof. unfold the_file. preserve. Qed.

Lemma only_adds_getitem f p : preserves only_adds (h5_getitem f p).
Proof. unfold h5_getitem. preserve. Qed.
#[local] Hint Resolve only_adds_chunked_iter_fill only_adds_list_fill
  only_adds_the_file only_adds_getitem : pres.

Lemma only_adds_get_ref container region :
  preserves only_adds (__get_ref container region).
Proof. unfold __get_ref. preserve. Qed.
#[local] Hint Resolve only_adds_get_ref : pres.

Lemma only_adds_fill_refs item new_item refs :
  preserves only_adds (fill_refs item new_item refs).
Proof.
  revert new_item. induction refs as [|i refs IH]; intros new_item; simpl.
  - preserve.
  - destruct (item !! i); preserve.
Qed.

Lemma only_adds_queue_ref f : preserves only_adds (__queue_ref f).
Proof. intros s. by apply only_adds_disk. Qed.
#[local] Hint Resolve only_adds_fill_refs only_adds_queue_ref : pres.

Lemma only_adds_write_dataset parent b :
  preserves only_adds (write_dataset parent b).
Proof. unfold write_dataset. preserve. Qed.
#[local] Hint Resolve only_adds_write_dataset : pres.

Lemma only_adds_write_group b : forall parent,
  preserves only_adds (write_group parent b).
Proof.
  induction b as [h gs ds ls IHg _ _| | |] using Builder_members_ind;
    intros parent; simpl; [|preserve|preserve|preserve].
  apply preserves_bind; [apply _|preserve|intros group].
  apply preserves_bind; [apply _| |preserve].
  apply preserves_for_each; [apply _|]. intros [n sub] Hin.
  rewrite Forall_forall in IHg. specialize (IHg _ Hin group).
  preserve.
Qed.
#[local] Hint Resolve only_adds_write_group : pres.

Lemma only_adds_write_root b : preserves only_adds (write_root b).
Proof. unfold write_root. preserve. Qed.

Lemma only_adds_call f : preserves only_adds (call f).
Proof. unfold call. preserve. Qed.

Lemma only_adds_add_refs_loop fuel : preserves only_adds (__add_refs_loop fuel).
Proof.
  induction fuel as [|fuel IH]; intros s; rewrite add_refs_loop_unfold.
  - by destruct (last (__ref_queue s)).
  - destruct (last (__ref_queue s)) as [c|] eqn:Hlast; [|done].
    pose proof (only_adds_call c
                  (set_ref_queue (removelast (__ref_queue s)) s)) as Hc.
    destruct (call c _) as [s2 [[]|e]]; simpl in *.
    + etrans; [|apply IH]. etrans; [|exact Hc]. by apply only_adds_disk.
    + etrans; [|exact Hc]. by apply only_adds_disk.
Qed.

(** [open] in a mode other than ["w"] replaces no file. *)
Lemma only_adds_open s : __mode s <> "w" -> only_adds s (open s).1.
Proof.
  intros Hm.
  unfold open, h5_File, bind, get_state, fresh_id, modify, ret, error, raise.
  simpl.
  destruct (String.eqb (__mode s) "w") eqn:Hw;
    [by apply String.eqb_eq in Hw|].
  assert (disk s !! __path s = None ->
          only_adds s (set_disk (<[__path s := empty_file]> (disk s)) s))
    as Hnew.
  { intros Hnone file q n Hn. exists n. split; [|apply same_kind_refl].
    unfold lookup_node in *. simpl.
    destruct (decide (file = __path s)) as [->|Hne].
    - by rewrite Hnone in Hn.
    - by rewrite lookup_insert_ne. }
  destruct (bool_decide (is_Some (disk s !! __path s))) eqn:Hpres.
  - repeat match goal with
           | |- context [if ?c then _ else _] => destruct c; simpl
           end; by apply only_adds_disk.
  - apply bool_decide_eq_false_1 in Hpres.
    assert (disk s !! __path s = None) as Hnone by (by apply eq_None_not_Some).
    repeat match goal with
           | |- context [if ?c then _ else _] => destruct c; simpl
           end;
      first [by apply only_adds_disk
            | etrans; [exact (Hnew Hnone)|by apply only_adds_disk] ].
Qed.

(** X25.  Writing only adds.  In a mode other than ["w"], whatever the
    builder, whatever is left in the queue and whatever the outcome,
    [write_builder] takes nothing away: a group of any file is still a
    group afterwards, a dataset is still a dataset of the same type,
    maximal shape and layout, and a link is the same link. *)
Theorem write_builder_only_adds b s file q n :
  __mode s <> "w" ->
  lookup_node s file q = Some n ->
  exists n',
    lookup_node (write_builder b s).1 file q = Some n' /\ same_kind n n'.
Proof.
  intros Hm. revert file q n. change (only_adds s (write_builder b s).1).
  destruct b as [h gs ds ls| | |]; try done.
  unfold write_builder. unfold bind at 1.
  pose proof (only_adds_open s Hm) as Ho.
  destruct (open s) as [s1 [[]|e]]; simpl in *; [|exact Ho].
  etrans; [exact Ho|]. unfold bind at 1.
  pose proof (only_adds_write_root (GroupBuilder h gs ds ls) s1) as Hw.
  destruct (write_root (GroupBuilder h gs ds ls) s1) as [s2 [[]|e]];
    simpl in *; [|exact Hw].
  etrans; [exact Hw|].
  unfold __add_refs, bind, get_state. simpl. apply only_adds_add_refs_loop.
Qed.

(** Appending [sample_tree] to the file of [sample_written]: the dataset
    [/values] stays a dataset of its type. *)
Lemma write_builder_only_adds_witness :
  exists n n',
    lookup_node sample_append_io "f.h5" ["values"] = Some n /\
    lookup_node (write_builder sample_tree_root sample_append_io).1
      "f.h5" ["values"] = Some n' /\
    same_kind n n'.
Proof.
  destruct (lookup_node sample_append_io "f.h5" ["values"]) as [n|] eqn:Hn.
  - destruct (write_builder_only_adds sample_tree_root sample_append_io
                "f.h5" ["values"] n) as (n' & Hn' & Hk).
    + intros H. vm_compute in H. discriminate H.
    + exact Hn.
    + exists n, n'. split; [reflexivity|]. split; [exact Hn'|exact Hk].
  - vm_compute in Hn. discriminate Hn.
Defined.

(** ** A second [write_builder] *)

Lemma add_refs_loop_path fuel : forall s,
  __path (__add_refs_loop fuel s).1 = __path s /\
  __mode (__add_refs_loop fuel s).1 = __mode s.
Proof.
  induction fuel as [|fuel IH]; intros s; rewrite add_refs_loop_unfold.
  - by destruct (last (__ref_queue s)).
  - destruct (last (__ref_queue s)) as [c|] eqn:Hlast; [|done].
    pose proof (call_spec c (set_ref_queue (removelast (__ref_queue s)) s))
      as (_ & _ & Hp & Hm & _).
    destruct (call c _) as [s2 [[]|e]]; simpl in *; [|done].
    destruct (IH s2) as [Hp2 Hm2]. split; congruence.
Qed.

(** [open] in a mode other than ["w"] leaves a file that exists as it
    is. *)
Lemma open_present_disk s :
  __mode s <> "w" -> is_Some (disk s !! __path s) -> disk (open s).1 = disk s.
Proof.
  intros Hm Hpres.
  unfold open, h5_File, bind, get_state, fresh_id, modify, ret, error, raise.
  simpl.
  destruct (String.eqb (__mode s) "w") eqn:Hw;
    [by apply String.eqb_eq in Hw|].
  rewrite (bool_decide_eq_true_2 _ Hpres).
  repeat match goal with
         | |- context [if ?c then _ else _] => destruct c; simpl
         end; done.
Qed.

Lemma for_each_fails_first {A} (body : A -> M unit) x xs s :
  fails_at s (body x) -> fails_at s (for_each body (x :: xs)).
Proof. intros H. cbn [for_each]. by apply fails_at_bind. Qed.

Lemma fails_at_the_file_bind {B} s f (k : File -> M B) :
  __file s = Some f -> fails_at s (k f) -> fails_at s (bind the_file k).
Proof.
  intros Hf [e He]. exists e. unfold the_file, bind, get_state.
  rewrite Hf. exact He.
Qed.

(** X26.  [write_builder] cannot be repeated.  In a mode other than
    ["w"], when [write_builder] has returned for a builder that has a
    group, a second call for the same builder on the same [HDF5IO] object
    raises and leaves every file as the first call left it. *)
Theorem write_builder_not_repeatable b s s1 k g rest :
  __mode s <> "w" ->
  groups b = (k, g) :: rest ->
  write_builder b s = (s1, Ok tt) ->
  (exists e, (write_builder b s1).2 = Raise e) /\
  disk (write_builder b s1).1 = disk s1.
Proof.
  intros Hm Hgs Hw.
  destruct b as [h gs ds ls| | |]; try done. cbn [groups] in Hgs. subst gs.
  cbn [write_builder] in Hw.
  apply bind_ok_inv in Hw as (s0 & [] & Hopen & Hw).
  apply bind_ok_inv in Hw as (s0' & [] & Hroot & Hrefs).
  destruct (open_acquires s s0 Hopen) as (f & Hf & _ & Hfn).
  pose proof (preserves_open s) as (_ & _ & Hp0 & Hm0).
  rewrite Hopen in Hp0, Hm0. simpl in Hp0, Hm0.
  (* the first call: the group is written and stays *)
  pose proof Hroot as Hroot0.
  unfold write_root in Hroot.
  apply bind_ok_inv in Hroot as (s0a & f0 & Hthe & Hroot).
  unfold the_file, bind, get_state in Hthe. rewrite Hf in Hthe.
  injection Hthe as <- <-. cbn [groups datasets] in Hroot.
  unfold attributes in Hroot. cbn [hdr] in Hroot.
  apply bind_ok_inv in Hroot as (sb & [] & Hgroups & Hroot).
  cbn [for_each] in Hgroups.
  apply bind_ok_inv in Hgroups as (sa & [] & Hfirst & Hrest).
  apply bind_ok_inv in Hfirst as (sa' & o & Hg & Hret).
  injection Hret as ->.
  destruct (write_group_ok_inv _ _ _ _ _ Hg)
    as (h' & gs' & ds' & ls' & -> & _ & _).
  destruct (write_group_stores (file_root f) _ s0 sa o [b_name h']
              (GroupBuilder h' gs' ds' ls') Hg) as (attrs & Hn & _);
    [by left|].
  cbn [file_root h_file h_name app] in Hn. rewrite Hfn in Hn.
  assert (only_adds sa s1) as Hadds.
  { trans sb.
    { replace sb with
        (for_each (fun '(_, gbldr) =>
                     write_group (file_root f) gbldr ;;; ret tt) rest sa).1
        by (by rewrite Hrest).
      apply preserves_for_each; [apply _|]. intros [n1 c1] _. preserve. }
    trans s0'.
    { replace s0' with
        ((for_each (fun '(_, dbldr) =>
                      write_dataset (file_root f) dbldr ;;; ret tt) ds ;;;
          set_attributes (file_root f) (b_attributes h)) sb).1
        by (by rewrite Hroot).
      apply preserves_bind; [apply _| |preserve].
      apply preserves_for_each; [apply _|]. intros [n1 c1] _. preserve. }
    replace s1 with (__add_refs s0').1 by (by rewrite Hrefs).
    unfold __add_refs, bind, get_state. simpl. apply only_adds_add_refs_loop. }
  destruct (Hadds _ _ _ Hn) as (n1 & Hn1 & _).
  assert (__path s1 = __path s /\ __mode s1 = __mode s) as [Hp1 Hm1].
  { pose proof (preserves_write_root (GroupBuilder h
                  ((k, GroupBuilder h' gs' ds' ls') :: rest) ds ls) s0)
      as (_ & _ & Hpr & Hmr & _).
    rewrite Hroot0 in Hpr, Hmr. simpl in Hpr, Hmr.
    unfold __add_refs, bind, get_state in Hrefs. simpl in Hrefs.
    destruct (add_refs_loop_path (length (__ref_queue s0')) s0') as [Hpa Hma].
    rewrite Hrefs in Hpa, Hma. simpl in Hpa, Hma. split; congruence. }
  (* the second call *)
  assert (is_Some (disk s1 !! __path s1)) as Hpres.
  { rewrite Hp1. unfold lookup_node in Hn1.
    destruct (disk s1 !! __path s); [by eexists|done]. }
  assert (__mode s1 <> "w") as Hm1' by (by rewrite Hm1).
  pose proof (open_present_disk s1 Hm1' Hpres) as Hd.
  cbn [write_builder]. unfold bind at 1 3.
  destruct (open s1) as [s2 [[]|e]] eqn:Hopen2; simpl in Hd;
    [|split; [by exists e|exact Hd]].
  destruct (open_acquires s1 s2 Hopen2) as (f2 & Hf2 & _ & Hfn2).
  assert (fails_at s2
            (write_root (GroupBuilder h
               ((k, GroupBuilder h' gs' ds' ls') :: rest) ds ls))) as [e He].
  { unfold write_root. apply (fails_at_the_file_bind _ f2); [exact Hf2|].
    cbn [groups].
    apply fails_at_bind, for_each_fails_first, fails_at_bind.
    cbn [write_group]. apply fails_at_bind.
    eapply taken_add_member. cbn [file_root h_file h_name app].
    rewrite Hfn2, Hp1. unfold lookup_node in *. rewrite Hd. exact Hn1. }
  unfold bind. rewrite He. cbn [fst snd]. split; [by exists e|exact Hd].
Qed.

(** [sample_tree_root] written twice in mode ["a"]. *)
Lemma write_builder_not_repeatable_witness :
  (exists e,
      (write_builder sample_tree_root
         (write_builder sample_tree_root sample_append_io).1).2 = Raise e) /\
  disk (write_builder sample_tree_root
          (write_builder sample_tree_root sample_append_io).1).1
  = disk (write_builder sample_tree_root sample_append_io).1.
Proof.
  apply (write_builder_not_repeatable sample_tree_root sample_append_io
           (write_builder sample_tree_root sample_append_io).1
           "a" sample_tree []).
  - intros H. vm_compute in H. discriminate H.
  - reflexivity.
  - vm_compute. reflexivity.
Defined.

(** ** A stream of chunks *)

Lemma stream_appends dset : forall parts s d n,
  lookup_node s (h_file dset) (h_name dset) = Some (NDataset d) ->
  h_writable dset = true ->
  ds_shape d = [n] -> 0 <= n -> ds_maxshape d = [None] -> ds_chunked d = true ->
  exists s' d',
    for_each (write_chunk dset) (stream_chunks n parts) s = (s', Ok tt) /\
    lookup_node s' (h_file dset) (h_name dset) = Some (NDataset d') /\
    ds_shape d' = [n + Z.of_nat (length (concat parts))] /\
    read_cells d' = read_cells d ++ concat parts.
Proof.
  induction parts as [|items parts IH]; intros s d n Hd Hw Hs Hn Hm Hc.
  - exists s, d. split; [done|]. split; [done|]. cbn [concat length].
    rewrite Z.add_0_r, app_nil_r. done.
  - destruct (append_chunk dset s d n items Hd Hw Hs Hn Hm Hc)
      as (s1 & d1 & Hw1 & Hd1 & Hs1 & Hm1 & Hc1 & Hr1).
    destruct (IH s1 d1 (n + Z.of_nat (length items)) Hd1 Hw Hs1 ltac:(lia)
                Hm1 Hc1) as (s2 & d2 & Hw2 & Hd2 & Hs2 & Hr2).
    exists s2, d2. split.
    { cbn [stream_chunks for_each]. unfold bind. rewrite Hw1. exact Hw2. }
    split; [done|]. cbn [concat]. rewrite length_app, Nat2Z.inj_add.
    split; [by rewrite Hs2, Z.add_assoc|].
    by rewrite Hr2, Hr1, app_assoc.
Qed.



(** ** The groups of a session, read back *)

Section for_each_rel.
Context (R : relation state) `{!PreOrder R}.

(** In a loop that has returned, every body has returned, from a state
    that the rest of the loop has taken to the final one. *)
Lemma for_each_ok_each_rel {A} (body : A -> M unit) xs :
  (forall x, preserves R (body x)) ->
  forall s s',
    for_each body xs s = (s', Ok tt) ->
    forall x, x ∈ xs -> exists sa sb, body x sa = (sb, Ok tt) /\ R sb s'.
Proof.
  intros Hbody. induction xs as [|y xs IH]; intros s s' Hrun x Hx.
  - by apply elem_of_nil in Hx.
  - cbn [for_each] in Hrun.
    apply bind_ok_inv in Hrun as (s1 & [] & Hy & Hrest).
    apply elem_of_cons in Hx as [->|Hx]; [|by eapply IH].
    exists s, s1. split; [done|].
    replace s' with (for_each body xs s1).1 by (by rewrite Hrest).
    by apply preserves_for_each.
Qed.

End for_each_rel.

Lemma h5_get_at_root s file w k n :
  lookup_node s file [k] = Some n -> link_path n = None ->
  h5_get s (mk_h5obj file [] w) k = Some (mk_h5obj file [k] w, n).
Proof.
  intros Hk Hlk. unfold h5_get, h5_resolve.
  cbn [h_file h_name h_writable app].
  change walk_limit with (S (S 254)).
  rewrite (walk_plain _ s file [] k [] n Hk Hlk).
  cbn [walk app]. by rewrite Hk.
Qed.

(** When [write_builder] has returned, every group of the builder is a
    group under the root of the file. *)
Lemma write_builder_groups b s s1 k g :
  write_builder b s = (s1, Ok tt) ->
  (k, g) ∈ groups b ->
  __path s1 = __path s /\
  exists attrs, lookup_node s1 (__path s) [name g] = Some (NGroup attrs).
Proof.
  intros Hw Hkg.
  destruct b as [h gs ds ls| | |]; try done. cbn [groups] in Hkg.
  cbn [write_builder] in Hw.
  apply bind_ok_inv in Hw as (s0 & [] & Hopen & Hw).
  apply bind_ok_inv in Hw as (s0' & [] & Hroot & Hrefs).
  destruct (open_acquires s s0 Hopen) as (f & Hf & _ & Hfn).
  pose proof (preserves_open s) as (_ & _ & Hp0 & _).
  rewrite Hopen in Hp0. simpl in Hp0.
  pose proof (preserves_write_root (GroupBuilder h gs ds ls) s0)
    as (_ & _ & Hpr & _).
  rewrite Hroot in Hpr. simpl in Hpr.
  unfold __add_refs, bind, get_state in Hrefs. simpl in Hrefs.
  destruct (add_refs_loop_path (length (__ref_queue s0')) s0') as [Hpa _].
  rewrite Hrefs in Hpa. simpl in Hpa.
  split; [congruence|].
  unfold write_root in Hroot.
  apply bind_ok_inv in Hroot as (s0a & f0 & Hthe & Hroot).
  unfold the_file, bind, get_state in Hthe. rewrite Hf in Hthe.
  injection Hthe as <- <-. cbn [groups datasets] in Hroot.
  apply bind_ok_inv in Hroot as (sb & [] & Hgroups & Hroot).
  destruct (for_each_ok_each_rel only_adds
              (fun '(_, gbldr) => write_group (file_root f) gbldr ;;; ret tt)
              gs) with (s := s0) (s' := sb) (x := (k, g))
    as (sa & sa' & Hbody & Hadds); [|exact Hgroups|exact Hkg|].
  { intros [k1 g1]. preserve. }
  apply bind_ok_inv in Hbody as (sa'' & o & Hg & Hret).
  injection Hret as ->.
  destruct (write_group_ok_inv _ _ _ _ _ Hg)
    as (h' & gs' & ds' & ls' & -> & _ & _).
  destruct (write_group_stores (file_root f) _ sa sa' o [b_name h']
              (GroupBuilder h' gs' ds' ls') Hg) as (attrs & Hn & _);
    [by left|].
  cbn [file_root h_file h_name app] in Hn. rewrite Hfn in Hn.
  assert (only_adds sa' s1) as Hadds1.
  { trans sb; [exact Hadds|]. trans s0'.
    { replace s0' with
        ((for_each (fun '(_, dbldr) =>
                      write_dataset (file_root f) dbldr ;;; ret tt) ds ;;;
          set_attributes (file_root f)
            (attributes (GroupBuilder h gs ds ls))) sb).1
        by (by rewrite Hroot).
      apply preserves_bind; [apply _| |preserve].
      apply preserves_for_each; [apply _|]. intros [n1 c1] _. preserve. }
    replace s1 with (__add_refs_loop (length (__ref_queue s0')) s0').1
      by (by rewrite Hrefs).
    apply only_adds_add_refs_loop. }
  destruct (Hadds1 _ _ _ Hn) as (n1 & Hn1 & Hk1).
  destruct n1 as [attrs1| | |]; try done. by exists attrs1.
Qed.

(** X28.  The groups of a session, read back, for a builder whose
    groups and datasets, and the builders below them, have names that are
    each one component of a path ([plain_members]).  When [write_builder]
    has returned and a new [HDF5IO] object reads the file, the builder
    that [read_builder] returns is named [ROOT_NAME] and has, for every
    group of the builder written, a group under the name of that group. *)
Theorem session_groups_round_trip b s s1 fuel s2 b' :
  plain_members b = true ->
  write_builder b s = (s1, Ok tt) ->
  read_builder fuel (reopen s1) = (s2, Ok b') ->
  name b' = ROOT_NAME /\
  forall k g, (k, g) ∈ groups b ->
    exists g', (name g, g') ∈ groups b' /\ name g' = name g.
Proof.
  intros _ Hw Hread.
  assert (forall k g, (k, g) ∈ groups b ->
            exists attrs,
              lookup_node (reopen s1) (__path (reopen s1)) [name g]
              = Some (NGroup attrs)) as Hstored.
  { intros k g Hkg.
    destruct (write_builder_groups b s s1 k g Hw Hkg) as (Hp & attrs & Hn).
    exists attrs. cbn [reopen __init__ __path]. rewrite Hp. exact Hn. }
  clear Hw. set (sr := reopen s1) in *.
  unfold read_builder in Hread. unfold bind at 1 in Hread.
  destruct (open sr) as [s0 [[]|e]] eqn:Hopen; [|done].
  destruct (open_read_only sr s0 eq_refl Hopen) as (f & Hf & _ & Hd & _).
  destruct (open_acquires sr s0 Hopen) as (f' & Hf' & _ & Hfn).
  rewrite Hf in Hf'. injection Hf' as <-.
  assert (__built s0 = ∅ /\ __read s0 = ∅) as [Hb0 Hr0].
  { destruct (open_keeps_inv sr s0 (or_introl eq_refl) Hopen)
      as (Hpres & _ & _ & Hr & _).
    rewrite Hd in Hpres.
    destruct (open_keeps_present sr (or_introl eq_refl) Hpres)
      as (s0' & f0 & Hopen' & _ & _ & _ & _ & Hb & _).
    rewrite Hopen in Hopen'. injection Hopen' as <-. by split. }
  unfold bind at 1 in Hread. unfold get_state at 1 in Hread.
  cbv beta iota in Hread. unfold bind at 1 in Hread.
  unfold the_file at 1, bind at 1, get_state at 1, ret at 1 in Hread.
  cbv beta iota in Hread. rewrite Hf in Hread. cbv beta iota in Hread.
  rewrite Hr0, lookup_empty in Hread.
  unfold bind at 1 in Hread.
  destruct (__read_group fuel (file_root f) (Some ROOT_NAME) s0)
    as [s' [b''|e]] eqn:Hgroup; [|done].
  unfold bind, modify, ret in Hread. injection Hread as _ <-.
  assert (cache_named s0) as Hc.
  { intros file p c. unfold built_at. rewrite Hb0, lookup_empty. done. }
  destruct (read_group_members _ _ _ _ _ _ Hc Hgroup)
    as (_ & Hname & _ & Hcov & Hg & _).
  split; [exact Hname|]. intros k g Hkg.
  destruct (Hstored k g Hkg) as (attrs & Hn).
  assert (lookup_node s0 (f_filename f) [name g] = Some (NGroup attrs)) as Hn0.
  { rewrite Hfn. unfold lookup_node in *. by rewrite Hd. }
  destruct (Hcov (name g)) as (sub & n & Hget & Hin).
  { eapply member_names_elem. cbn [file_root h_file h_name app]. exact Hn0. }
  { unfold h5_getlink. cbn [file_root h_file h_name app]. by rewrite Hn0. }
  unfold file_root in Hget.
  rewrite (h5_get_at_root s0 (f_filename f) (f_writable f) (name g)
             (NGroup attrs) Hn0 eq_refl) in Hget.
  injection Hget as <- <-. cbn [is_dataset_node h_name] in Hin.
  change (basename [name g]) with (name g) in Hin.
  apply list_elem_of_fmap in Hin as ([key g'] & Hkey & Hin).
  cbn [fst] in Hkey. subst key. exists g'. split; [exact Hin|].
  by destruct (Hg _ _ Hin) as [-> _].
Qed.

(** The session of [sample_tree_root], read back by a new object. *)
Lemma session_groups_round_trip_witness :
  exists s2 b',
    read_builder 4 (reopen (write_builder sample_tree_root sample_io).1)
      = (s2, Ok b') /\
    name b' = ROOT_NAME /\
    forall k g, (k, g) ∈ groups sample_tree_root ->
      exists g', (name g, g') ∈ groups b' /\ name g' = name g.
Proof.
  destruct (read_builder 4
              (reopen (write_builder sample_tree_root sample_io).1))
    as [s2 r] eqn:Hr.
  assert (exists b', r = Ok b') as (b' & ->).
  { assert (is_ok r = true) as Hok.
    { change r with (s2, r).2. rewrite <- Hr. vm_compute. reflexivity. }
    destruct r as [b'|]; [|discriminate Hok]. exists b'. reflexivity. }
  exists s2, b'. split; [reflexivity|].
  apply (session_groups_round_trip sample_tree_root sample_io
           (write_builder sample_tree_root sample_io).1 4 s2 b').
  - reflexivity.
  - vm_compute. reflexivity.
  - exact Hr.
Defined.
